(** * p-net: Provider Protocol Machine (PPM) and LLDP engine

    A shallow embedding of [src/common/pf_lldp.c] (which holds the LLDP
    engine followed by the cyclic provider protocol machine) and the
    properties of its frame layout, cycle counter, instance counting,
    data-status bits, TLV codec and alarm path.

    Conventions.
    - A C integer of width w is a [Z]; every place where the C code
      truncates or wraps is written out with [uint8], [uint16], [uint32]
      or [int32].
    - A byte buffer or a [char] array is a [list Z] whose length is the
      size of the C object; an access outside of it is undefined behaviour
      in C and makes the model return [None].
    - Calls into the operating system layer and into other modules of the
      stack are recorded in a trace of [os_event]s; what they return is
      read from an [os_env]. *)

From Stdlib Require Import ZArith Lia Bool.
From stdpp Require Import base option list.

Local Open Scope Z_scope.

(** ** Machine integers *)

Definition uint8 (z : Z) : Z := z mod 2 ^ 8.
Definition uint16 (z : Z) : Z := z mod 2 ^ 16.
Definition uint32 (z : Z) : Z := z mod 2 ^ 32.

(** Conversion to [int32_t] (two's complement). *)
Definition int32 (z : Z) : Z :=
  let w := z mod 2 ^ 32 in
  if w <? 2 ^ 31 then w else w - 2 ^ 32.

Definition UINT32_MAX : Z := 2 ^ 32 - 1.

(** [BIT(n)] *)
Definition BIT (n : Z) : Z := Z.shiftl 1 n.

(** The two bytes that [htons (v)] leaves in memory: most significant
    first, whatever the byte order of the host. *)
Definition htons_bytes (v : Z) : list Z := [uint8 (Z.shiftr v 8); uint8 v].

(** The 16-bit value whose network-order bytes are [hi], [lo]. *)
Definition ntohs_bytes (hi lo : Z) : Z := Z.lor (Z.shiftl hi 8) lo.

(** ** Memory blocks *)

(** [memcpy (&dst[off], src, n)] *)
Definition memcpy (dst : list Z) (off : Z) (src : list Z) (n : Z)
  : option (list Z) :=
  if (0 <=? off) && (0 <=? n) && (n <=? Z.of_nat (length src))
     && (off + n <=? Z.of_nat (length dst))
  then Some (take (Z.to_nat off) dst ++ take (Z.to_nat n) src
               ++ drop (Z.to_nat (off + n)) dst)
  else None.

(** [memset (&dst[off], c, n)] *)
Definition memset (dst : list Z) (off : Z) (c : Z) (n : Z) : option (list Z) :=
  if (0 <=? off) && (0 <=? n) && (off + n <=? Z.of_nat (length dst))
  then Some (take (Z.to_nat off) dst ++ replicate (Z.to_nat n) c
               ++ drop (Z.to_nat (off + n)) dst)
  else None.

(** [&src[off]] read for [n] bytes. *)
Definition memread (src : list Z) (off : Z) (n : Z) : option (list Z) :=
  if (0 <=? off) && (0 <=? n) && (off + n <=? Z.of_nat (length src))
  then Some (take (Z.to_nat n) (drop (Z.to_nat off) src))
  else None.

(** [dst[i] = c] *)
Definition store_byte (dst : list Z) (i : Z) (c : Z) : option (list Z) :=
  if (0 <=? i) && (i <? Z.of_nat (length dst))
  then Some (<[Z.to_nat i := c]> dst)
  else None.

(** [src[i]] *)
Definition load_byte (src : list Z) (i : Z) : option Z :=
  if 0 <=? i then src !! Z.to_nat i else None.

(** ** Constants of the headers

    Modelled from the spec: the macros of [pnet_api.h], [pf_types.h] and
    [osal.h] are not part of the sources at hand; the values are the ones
    the specification gives (frame buffer of 1522 bytes, EtherTypes
    0x8100, 0x8892 and 0x88CC, data status bits 0, 1, 2, 4 and 5). *)

Definition PF_FRAME_BUFFER_SIZE : Z := 1522.
Definition OS_ETHTYPE_VLAN : Z := 0x8100.
Definition OS_ETHTYPE_PROFINET : Z := 0x8892.
Definition OS_ETHTYPE_LLDP : Z := 0x88CC.
Definition sizeof_pnet_ethaddr_t : Z := 6.

Definition PNET_DATA_STATUS_BIT_STATE : Z := 0.
Definition PNET_DATA_STATUS_BIT_REDUNDANCY : Z := 1.
Definition PNET_DATA_STATUS_BIT_DATA_VALID : Z := 2.
Definition PNET_DATA_STATUS_BIT_PROVIDER_STATE : Z := 4.
Definition PNET_DATA_STATUS_BIT_STATION_PROBLEM_INDICATOR : Z := 5.

(** Error classes and codes written into the AR.  Only the names are
    known here, so they are kept symbolic; [_OTHER] stands for every
    other value the byte may hold. *)
Inductive pnet_error_code_1 :=
| PNET_ERROR_CODE_1_PPM
| PNET_ERROR_CODE_1_OTHER (v : Z).

Inductive pnet_error_code_2 :=
| PNET_ERROR_CODE_2_PPM_INVALID_STATE
| PNET_ERROR_CODE_2_PPM_INVALID
| PNET_ERROR_CODE_2_OTHER (v : Z).

(** ** Data model of the PPM *)

Inductive pf_ppm_state_values_t :=
| PF_PPM_STATE_W_START
| PF_PPM_STATE_RUN.

Inductive pf_iocr_type_values_t :=
| PF_IOCR_TYPE_INPUT
| PF_IOCR_TYPE_OUTPUT
| PF_IOCR_TYPE_MC_PROVIDER
| PF_IOCR_TYPE_MC_CONSUMER.

Record os_buf_t := mk_os_buf {
  payload : list Z;
  len : Z;
}.

Record os_timer_t := mk_os_timer {
  us : Z;
  exit : bool;
  timerid : Z;
}.

(** [pf_ppm_t], with the timer of [rt_args] inlined. *)
Record pf_ppm_t := mk_ppm {
  state : pf_ppm_state_values_t;
  errline : Z;
  errcnt : Z;
  first_transmit : bool;
  trx_cnt : Z;
  sa : list Z;
  da : list Z;
  p_send_buffer : option os_buf_t;
  new_buf : bool;
  control_interval : Z;
  compensated_control_interval : Z;
  cycle : Z;
  transfer_status : Z;
  data_status : Z;
  buffer_length : Z;
  buffer_pos : Z;
  cycle_counter_offset : Z;
  data_status_offset : Z;
  transfer_status_offset : Z;
  buffer_data : list Z;
  ci_running : bool;
  ci_timer : Z;
  send_clock_factor : Z;
  reduction_ratio : Z;
  rt_timer : option os_timer_t;
}.

Record pf_iocr_tag_header_t := mk_tag_header {
  iocr_user_priority : Z;
  vlan_id : Z;
}.

Record pf_iocr_param_t := mk_iocr_param {
  iocr_type : pf_iocr_type_values_t;
  frame_id : Z;
  c_sdu_length : Z;
  param_send_clock_factor : Z;
  param_reduction_ratio : Z;
  iocr_tag_header : pf_iocr_tag_header_t;
}.

Record pf_iocr_t := mk_iocr {
  param : pf_iocr_param_t;
  in_length : Z;
  ppm : pf_ppm_t;
}.

Record pf_ar_t := mk_ar {
  in_use : bool;
  err_cls : pnet_error_code_1;
  err_code : pnet_error_code_2;
  cm_initiator_mac_add : list Z;
  cm_responder_mac_add : list Z;
  iocrs : list pf_iocr_t;
}.

(** ** Data model of the LLDP engine *)

Record pf_lldp_peer_delay_t := mk_peer_delay {
  PortRXDelayLocal : Z;
  PortRXDelayRemote : Z;
  PortTXDelayLocal : Z;
  PortTXDelayRemote : Z;
  PortCableDelayLocal : Z;
}.

(** Modelled from the spec: the layout of the peer's MAC/PHY record is
    declared in a header that is not at hand; the fields follow the TLV
    (subtype, [cap_aneg] of 8 bits, [cap_phy] and [mau_type] of 16 bits).
    [PMDCapability] is kept as the two bytes of the wire because the code
    does not convert it. *)
Record pf_lldp_peer_macphy_t := mk_peer_macphy {
  MACPhySubtype : Z;
  AutonegSupportStatus : Z;
  PMDCapability : list Z;
  OperationalMAUType : Z;
}.

(** The peer record [net->fspm_cfg.lldp_peer_cfg].  The two identifiers
    are [char] arrays: the list is the whole array, and its length is the
    capacity of the array. *)
Record pf_lldp_peer_cfg_t := mk_peer_cfg {
  PeerChassisID : list Z;
  PeerChassisIDLen : Z;
  PeerPortID : list Z;
  PeerPortIDLen : Z;
  PeerDelay : pf_lldp_peer_delay_t;
  PeerPortStatus : list Z;
  PeerMACAddr : list Z;
  PeerMACPhyConfig : pf_lldp_peer_macphy_t;
  TTL : Z;
  peerTimer : option os_timer_t;
}.

(** ** The stack instance [pnet_t]

    Only the members that the two engines touch.  [ppm_buf_lock] is the
    pointer to the mutex: [None] is [NULL].  The alias names are the
    [char] arrays [cmina_perm_dcp_ase.alias_name] and
    [cmina_temp_dcp_ase.alias_name]. *)
Record pnet_t := mk_pnet {
  ppm_instance_cnt : Z;
  ppm_buf_lock : option Z;
  scheduler_tick_interval : Z;
  ifOutErrors : Z;
  ifOutOctects : Z;
  cmrpc_ar : list pf_ar_t;
  perm_alias_name : list Z;
  temp_alias_name : list Z;
  lldp_peer_cfg : pf_lldp_peer_cfg_t;
  not_send_LLDP_Frames : bool;
}.

(** ** Diagnosis items of the alarm path *)

Inductive pnet_diag_ch_prop_spec_values_t :=
| PNET_DIAG_CH_PROP_SPEC_ALL_DISAPPEARS
| PNET_DIAG_CH_PROP_SPEC_APPEARS
| PNET_DIAG_CH_PROP_SPEC_DISAPPEARS
| PNET_DIAG_CH_PROP_SPEC_DIS_OTHERS_REMAIN.

Inductive pf_usi_values_t :=
| PF_USI_ZERO
| PF_USI_CHANNEL_DIAGNOSIS
| PF_USI_EXTENDED_CHANNEL_DIAGNOSIS.

Inductive pf_ch_error_type_t :=
| PF_WRT_ERROR_ZERO
| PF_WRT_ERROR_REMOTE_MISMATCH.

Inductive pf_ext_ch_error_type_t :=
| PF_WRT_ERROR_EXT_ZERO
| PF_WRT_ERROR_PORTID_MISMATCH
| PF_WRT_ERROR_NO_PEER_DETECTED.

Record pnet_alarm_spec_t := mk_alarm_spec {
  channel_diagnosis : bool;
  manufacturer_diagnosis : bool;
  submodule_diagnosis : bool;
  ar_diagnosis : bool;
}.

(** [pf_diag_item_t]; of [ch_properties] only the specifier field that
    [PNET_DIAG_CH_PROP_SPEC_SET] writes is kept. *)
Record pf_diag_item_t := mk_diag_item {
  alarm_spec : pnet_alarm_spec_t;
  usi : pf_usi_values_t;
  ch_nbr : pf_usi_values_t;
  ch_properties_spec : pnet_diag_ch_prop_spec_values_t;
  ch_error_type : pf_ch_error_type_t;
  ext_ch_error_type : pf_ext_ch_error_type_t;
  ext_ch_add_value : Z;
  qual_ch_qualifier : Z;
  next : Z;
}.

(** ** The world outside of the two engines *)

(** A call that leaves the engine.  The AR of a diagnosis or alarm call is
    named by its index in [net->cmrpc_ar]. *)
Inductive os_event :=
| Ev_os_mutex_create
| Ev_os_mutex_destroy (lock : option Z)
| Ev_os_mutex_lock (lock : option Z)
| Ev_os_mutex_unlock (lock : option Z)
| Ev_os_buf_alloc (size : Z)
| Ev_os_buf_free (buf : option os_buf_t)
| Ev_os_timer_create (period : Z) (oneshot : bool)
| Ev_os_timer_start (t : os_timer_t)
| Ev_os_timer_stop (t : os_timer_t)
| Ev_os_timer_destroy (t : os_timer_t)
| Ev_pf_scheduler_add (delay : Z)
| Ev_pf_scheduler_remove (id : Z)
| Ev_os_eth_send (frame : list Z)
| Ev_pf_cmsu_ppm_error_ind (cls : pnet_error_code_1) (code : pnet_error_code_2)
| Ev_pf_diag_update (ar_ix : nat) (item : pf_diag_item_t)
| Ev_pf_diag_add (ar_ix : nat) (item : pf_diag_item_t)
| Ev_pf_alarm_send_port_change_notification (ar_ix : nat) (item : pf_diag_item_t).

(** What the outside answers.  [PNET_OS_RTOS_SUPPORTED] is the build
    switch between the timer of the RTOS and the cooperative scheduler.
    [os_mutex_create] is taken never to return [NULL]. *)
Record os_env := mk_os_env {
  PNET_OS_RTOS_SUPPORTED : bool;
  os_get_current_time_us : Z;
  os_mutex_create : Z;
  os_buf_alloc : Z -> option os_buf_t;
  os_timer_create : Z -> bool -> option os_timer_t;
  pf_scheduler_add : Z -> Z * Z;
  os_eth_send : os_buf_t -> Z;
  pf_diag_update : nat -> pf_diag_item_t -> Z;
  pf_diag_add : nat -> pf_diag_item_t -> Z;
}.

(** ** Field updates *)

Definition set_state (v : pf_ppm_state_values_t) (p : pf_ppm_t) : pf_ppm_t :=
  mk_ppm v (errline p) (errcnt p) (first_transmit p) (trx_cnt p) (sa p) (da p)
    (p_send_buffer p) (new_buf p) (control_interval p)
    (compensated_control_interval p) (cycle p) (transfer_status p)
    (data_status p) (buffer_length p) (buffer_pos p) (cycle_counter_offset p)
    (data_status_offset p) (transfer_status_offset p) (buffer_data p)
    (ci_running p) (ci_timer p) (send_clock_factor p) (reduction_ratio p)
    (rt_timer p).

Definition set_first_transmit (v : bool) (p : pf_ppm_t) : pf_ppm_t :=
  mk_ppm (state p) (errline p) (errcnt p) v (trx_cnt p) (sa p) (da p)
    (p_send_buffer p) (new_buf p) (control_interval p)
    (compensated_control_interval p) (cycle p) (transfer_status p)
    (data_status p) (buffer_length p) (buffer_pos p) (cycle_counter_offset p)
    (data_status_offset p) (transfer_status_offset p) (buffer_data p)
    (ci_running p) (ci_timer p) (send_clock_factor p) (reduction_ratio p)
    (rt_timer p).

Definition set_trx_cnt (v : Z) (p : pf_ppm_t) : pf_ppm_t :=
  mk_ppm (state p) (errline p) (errcnt p) (first_transmit p) v (sa p) (da p)
    (p_send_buffer p) (new_buf p) (control_interval p)
    (compensated_control_interval p) (cycle p) (transfer_status p)
    (data_status p) (buffer_length p) (buffer_pos p) (cycle_counter_offset p)
    (data_status_offset p) (transfer_status_offset p) (buffer_data p)
    (ci_running p) (ci_timer p) (send_clock_factor p) (reduction_ratio p)
    (rt_timer p).

Definition set_p_send_buffer (v : option os_buf_t) (p : pf_ppm_t) : pf_ppm_t :=
  mk_ppm (state p) (errline p) (errcnt p) (first_transmit p) (trx_cnt p) (sa p)
    (da p) v (new_buf p) (control_interval p)
    (compensated_control_interval p) (cycle p) (transfer_status p)
    (data_status p) (buffer_length p) (buffer_pos p) (cycle_counter_offset p)
    (data_status_offset p) (transfer_status_offset p) (buffer_data p)
    (ci_running p) (ci_timer p) (send_clock_factor p) (reduction_ratio p)
    (rt_timer p).

Definition set_cycle (v : Z) (p : pf_ppm_t) : pf_ppm_t :=
  mk_ppm (state p) (errline p) (errcnt p) (first_transmit p) (trx_cnt p) (sa p)
    (da p) (p_send_buffer p) (new_buf p) (control_interval p)
    (compensated_control_interval p) v (transfer_status p)
    (data_status p) (buffer_length p) (buffer_pos p) (cycle_counter_offset p)
    (data_status_offset p) (transfer_status_offset p) (buffer_data p)
    (ci_running p) (ci_timer p) (send_clock_factor p) (reduction_ratio p)
    (rt_timer p).

Definition set_data_status (v : Z) (p : pf_ppm_t) : pf_ppm_t :=
  mk_ppm (state p) (errline p) (errcnt p) (first_transmit p) (trx_cnt p) (sa p)
    (da p) (p_send_buffer p) (new_buf p) (control_interval p)
    (compensated_control_interval p) (cycle p) (transfer_status p)
    v (buffer_length p) (buffer_pos p) (cycle_counter_offset p)
    (data_status_offset p) (transfer_status_offset p) (buffer_data p)
    (ci_running p) (ci_timer p) (send_clock_factor p) (reduction_ratio p)
    (rt_timer p).

Definition set_ci_running (v : bool) (p : pf_ppm_t) : pf_ppm_t :=
  mk_ppm (state p) (errline p) (errcnt p) (first_transmit p) (trx_cnt p) (sa p)
    (da p) (p_send_buffer p) (new_buf p) (control_interval p)
    (compensated_control_interval p) (cycle p) (transfer_status p)
    (data_status p) (buffer_length p) (buffer_pos p) (cycle_counter_offset p)
    (data_status_offset p) (transfer_status_offset p) (buffer_data p)
    v (ci_timer p) (send_clock_factor p) (reduction_ratio p)
    (rt_timer p).

Definition set_ci_timer (v : Z) (p : pf_ppm_t) : pf_ppm_t :=
  mk_ppm (state p) (errline p) (errcnt p) (first_transmit p) (trx_cnt p) (sa p)
    (da p) (p_send_buffer p) (new_buf p) (control_interval p)
    (compensated_control_interval p) (cycle p) (transfer_status p)
    (data_status p) (buffer_length p) (buffer_pos p) (cycle_counter_offset p)
    (data_status_offset p) (transfer_status_offset p) (buffer_data p)
    (ci_running p) v (send_clock_factor p) (reduction_ratio p)
    (rt_timer p).

Definition set_rt_timer (v : option os_timer_t) (p : pf_ppm_t) : pf_ppm_t :=
  mk_ppm (state p) (errline p) (errcnt p) (first_transmit p) (trx_cnt p) (sa p)
    (da p) (p_send_buffer p) (new_buf p) (control_interval p)
    (compensated_control_interval p) (cycle p) (transfer_status p)
    (data_status p) (buffer_length p) (buffer_pos p) (cycle_counter_offset p)
    (data_status_offset p) (transfer_status_offset p) (buffer_data p)
    (ci_running p) (ci_timer p) (send_clock_factor p) (reduction_ratio p)
    v.

Definition set_ppm (v : pf_ppm_t) (c : pf_iocr_t) : pf_iocr_t :=
  mk_iocr (param c) (in_length c) v.

Definition set_iocrs (v : list pf_iocr_t) (a : pf_ar_t) : pf_ar_t :=
  mk_ar (in_use a) (err_cls a) (err_code a) (cm_initiator_mac_add a)
    (cm_responder_mac_add a) v.

Definition set_error (c1 : pnet_error_code_1) (c2 : pnet_error_code_2)
    (a : pf_ar_t) : pf_ar_t :=
  mk_ar (in_use a) c1 c2 (cm_initiator_mac_add a) (cm_responder_mac_add a)
    (iocrs a).

(** [p_ar->iocrs[crep].ppm = v] *)
Definition set_iocr_ppm (crep : nat) (v : pf_ppm_t) (a : pf_ar_t) : pf_ar_t :=
  set_iocrs (alter (set_ppm v) crep (iocrs a)) a.

Definition set_ppm_instance (cnt : Z) (lock : option Z) (n : pnet_t) : pnet_t :=
  mk_pnet cnt lock (scheduler_tick_interval n) (ifOutErrors n) (ifOutOctects n)
    (cmrpc_ar n) (perm_alias_name n) (temp_alias_name n) (lldp_peer_cfg n)
    (not_send_LLDP_Frames n).

Definition set_interface_statistics (errs octets : Z) (n : pnet_t) : pnet_t :=
  mk_pnet (ppm_instance_cnt n) (ppm_buf_lock n) (scheduler_tick_interval n)
    errs octets (cmrpc_ar n) (perm_alias_name n) (temp_alias_name n)
    (lldp_peer_cfg n) (not_send_LLDP_Frames n).

Definition set_perm_alias_name (v : list Z) (n : pnet_t) : pnet_t :=
  mk_pnet (ppm_instance_cnt n) (ppm_buf_lock n) (scheduler_tick_interval n)
    (ifOutErrors n) (ifOutOctects n) (cmrpc_ar n) v (temp_alias_name n)
    (lldp_peer_cfg n) (not_send_LLDP_Frames n).

Definition set_temp_alias_name (v : list Z) (n : pnet_t) : pnet_t :=
  mk_pnet (ppm_instance_cnt n) (ppm_buf_lock n) (scheduler_tick_interval n)
    (ifOutErrors n) (ifOutOctects n) (cmrpc_ar n) (perm_alias_name n) v
    (lldp_peer_cfg n) (not_send_LLDP_Frames n).

Definition set_lldp_peer_cfg (v : pf_lldp_peer_cfg_t) (n : pnet_t) : pnet_t :=
  mk_pnet (ppm_instance_cnt n) (ppm_buf_lock n) (scheduler_tick_interval n)
    (ifOutErrors n) (ifOutOctects n) (cmrpc_ar n) (perm_alias_name n)
    (temp_alias_name n) v (not_send_LLDP_Frames n).

(** ** The PPM engine *)

(** [pf_ppm_init] *)
Definition pf_ppm_init (net : pnet_t) : pnet_t :=
  set_ppm_instance 0 (ppm_buf_lock net) net.

(** [pf_ppm_state_ind]; the function returns 0 always, which no caller
    reads. *)
Definition pf_ppm_state_ind (p_ar : pf_ar_t) (error : bool)
  : pf_ar_t * list os_event :=
  if error
  then (set_error PNET_ERROR_CODE_1_PPM PNET_ERROR_CODE_2_PPM_INVALID p_ar,
        [Ev_pf_cmsu_ppm_error_ind PNET_ERROR_CODE_1_PPM
           PNET_ERROR_CODE_2_PPM_INVALID])
  else (p_ar, []).

(** [pf_ppm_set_state] *)
Definition pf_ppm_set_state (p_ppm : pf_ppm_t) (st : pf_ppm_state_values_t)
  : pf_ppm_t :=
  set_state st p_ppm.

(** [pf_ppm_init_buf]: the buffer length, a cleared buffer, then the two
    MAC addresses, the VLAN tag, the EtherType and the frame id, each
    16-bit value in network order. *)
Definition pf_ppm_init_buf (p_ppm : pf_ppm_t) (p_buf : os_buf_t)
    (frame_id : Z) (p_header : pf_iocr_tag_header_t) : option os_buf_t :=
  let len := buffer_length p_ppm in
  p0 ← memset (payload p_buf) 0 0 len;
  let pos := 0 in
  p1 ← memcpy p0 pos (da p_ppm) sizeof_pnet_ethaddr_t;
  let pos := uint16 (pos + sizeof_pnet_ethaddr_t) in
  p2 ← memcpy p1 pos (sa p_ppm) sizeof_pnet_ethaddr_t;
  let pos := uint16 (pos + sizeof_pnet_ethaddr_t) in
  let u16 := OS_ETHTYPE_VLAN in
  p3 ← memcpy p2 pos (htons_bytes u16) 2;
  let pos := uint16 (pos + 2) in
  let u16 := uint16 (Z.land (vlan_id p_header) 0x0FFF) in
  let u16 :=
    uint16 (Z.lor u16
              (Z.shiftl (Z.land (iocr_user_priority p_header) 0x0007) 13)) in
  p4 ← memcpy p3 pos (htons_bytes u16) 2;
  let pos := uint16 (pos + 2) in
  let u16 := OS_ETHTYPE_PROFINET in
  p5 ← memcpy p4 pos (htons_bytes u16) 2;
  let pos := uint16 (pos + 2) in
  p6 ← memcpy p5 pos (htons_bytes frame_id) 2;
  Some (mk_os_buf p6 len).

(** The cycle counter of [pf_ppm_finish_buffer] (the statements before the
    buffer is touched).  [now] is what [os_get_current_time_us ()]
    returns; the product with 4 is an unsigned 32-bit product that is
    stored into an [int32_t], the division and the remainder are the
    signed ones of C, [_ratio] and [_remainder] are [uint16_t].  A
    [_ratio] of 0 is a division by zero. *)
Definition pf_ppm_finish_buffer_cycle (now : Z) (p_ppm : pf_ppm_t) : option Z :=
  let cycle_tmp := int32 (uint32 now * 4) in
  let cycle_tmp := Z.quot cycle_tmp 125 in
  let _ratio := uint16 (send_clock_factor p_ppm * reduction_ratio p_ppm) in
  if _ratio =? 0 then None
  else
    let _remainder := uint16 (Z.rem cycle_tmp _ratio) in
    let cycle_tmp :=
      if cycle_tmp <? _ratio then _ratio else cycle_tmp - _remainder in
    Some (uint16 cycle_tmp).

(** [pf_ppm_finish_buffer] *)
Definition pf_ppm_finish_buffer (env : os_env) (net : pnet_t)
    (p_ppm : pf_ppm_t) (data_length : Z) : option (pf_ppm_t * list os_event) :=
  buf ← p_send_buffer p_ppm;
  c ← pf_ppm_finish_buffer_cycle (os_get_current_time_us env) p_ppm;
  let p_ppm := set_cycle c p_ppm in
  let u16 := htons_bytes (cycle p_ppm) in
  p1 ← memcpy (payload buf) (buffer_pos p_ppm) (buffer_data p_ppm) data_length;
  p2 ← memcpy p1 (cycle_counter_offset p_ppm) u16 2;
  p3 ← memcpy p2 (data_status_offset p_ppm) [data_status p_ppm] 1;
  p4 ← memcpy p3 (transfer_status_offset p_ppm) [transfer_status p_ppm] 1;
  Some (set_p_send_buffer (Some (mk_os_buf p4 (len buf))) p_ppm,
        [Ev_os_mutex_lock (ppm_buf_lock net);
         Ev_os_mutex_unlock (ppm_buf_lock net)]).

(** [pf_ppm_calculate_compensated_delay].  All arithmetic is that of
    [uint32_t]; a failing [CC_ASSERT] and a division by zero give
    [None]. *)
Definition pf_ppm_calculate_compensated_delay (rtos : bool)
    (wanted_delay stack_cycle_time : Z) : option Z :=
  tics ←
    (if uint32 (stack_cycle_time + stack_cycle_time / 2) <? wanted_delay
     then
       if stack_cycle_time =? 0 then None
       else Some (uint32 (wanted_delay + stack_cycle_time / 2)
                    / stack_cycle_time)
     else Some 1);
  if (1 <=? tics) && (tics <? 0x80000000)
  then
    if rtos
    then Some (uint32 (tics * stack_cycle_time))
    else Some (uint32 (uint32 (tics * stack_cycle_time)
                       - stack_cycle_time / 2))
  else None.

(** [pf_ppm_send], the callback of the timer, for the IOCR [crep] of
    [p_ar] (the C code gets the IOCR and reaches the AR through its back
    pointer). *)
Definition pf_ppm_send (env : os_env) (net : pnet_t) (p_ar : pf_ar_t)
    (crep : nat) : option (pnet_t * pf_ar_t * list os_event) :=
  p_arg ← iocrs p_ar !! crep;
  let p := set_ci_timer UINT32_MAX (ppm p_arg) in
  if ci_running p
  then
    '(p, ev1) ← pf_ppm_finish_buffer env net p (in_length p_arg);
    buf ← p_send_buffer p;
    let ev2 := [Ev_os_eth_send (take (Z.to_nat (len buf)) (payload buf))] in
    if os_eth_send env buf <=? 0
    then
      Some (set_interface_statistics (uint32 (ifOutErrors net + 1))
              (ifOutOctects net) net,
            set_iocr_ppm crep p p_ar, ev1 ++ ev2)
    else
      let net := set_interface_statistics (ifOutErrors net)
                   (uint32 (ifOutOctects net + 1)) net in
      let '(ret, p, ev3) :=
        if PNET_OS_RTOS_SUPPORTED env
        then
          match rt_timer p with
          | Some t => (0, p, [Ev_os_timer_start t])
          | None => (-1, p, [])
          end
        else
          let '(r, id) :=
            pf_scheduler_add env (compensated_control_interval p) in
          (r, set_ci_timer id p,
           [Ev_pf_scheduler_add (compensated_control_interval p)]) in
      if ret =? 0
      then
        let p := set_trx_cnt (uint32 (trx_cnt p + 1)) p in
        let p := if first_transmit p then p else set_first_transmit true p in
        Some (net, set_iocr_ppm crep p p_ar, ev1 ++ ev2 ++ ev3)
      else
        let p := set_ci_timer UINT32_MAX p in
        let '(ar, ev4) := pf_ppm_state_ind (set_iocr_ppm crep p p_ar) true in
        Some (net, ar, ev1 ++ ev2 ++ ev3 ++ ev4)
  else Some (net, set_iocr_ppm crep p p_ar, []).

(** [pf_ppm_wdtimer_event]: the timer of the RTOS calls the callback that
    [pf_ppm_activate_req] stored in [rt_args], which is [pf_ppm_send]. *)
Definition pf_ppm_wdtimer_event (env : os_env) (net : pnet_t) (p_ar : pf_ar_t)
    (crep : nat) : option (pnet_t * pf_ar_t * list os_event) :=
  pf_ppm_send env net p_ar crep.

(** [pf_ppm_activate_req].  The result is the stack instance, the AR, the
    returned [int] and the calls made. *)
Definition pf_ppm_activate_req (env : os_env) (net : pnet_t) (p_ar : pf_ar_t)
    (crep : nat) : option (pnet_t * pf_ar_t * Z * list os_event) :=
  let ret := -1 in
  let vlan_size := 4 in
  p_iocr ← iocrs p_ar !! crep;
  let cnt := ppm_instance_cnt net in
  let '(lock, ev0) :=
    if cnt =? 0 then (Some (os_mutex_create env), [Ev_os_mutex_create])
    else (ppm_buf_lock net, []) in
  let net := set_ppm_instance (uint32 (cnt + 1)) lock net in
  let p_ppm := ppm p_iocr in
  match state p_ppm with
  | PF_PPM_STATE_RUN =>
      Some (net,
            set_error PNET_ERROR_CODE_1_PPM PNET_ERROR_CODE_2_PPM_INVALID_STATE
              p_ar,
            ret, ev0)
  | PF_PPM_STATE_W_START =>
      sa' ← memread (cm_responder_mac_add p_ar) 0 sizeof_pnet_ethaddr_t;
      da' ← memread (cm_initiator_mac_add p_ar) 0 sizeof_pnet_ethaddr_t;
      let pos := uint16 (2 * sizeof_pnet_ethaddr_t + vlan_size + 2 + 2) in
      let sdu := c_sdu_length (param p_iocr) in
      let cco := uint16 (pos + sdu) in
      let dso := uint16 (pos + sdu + 2) in
      let tso := uint16 (pos + sdu + 2 + 1) in
      let blen := uint16 (pos + sdu + 2 + 1 + 1) in
      let ds :=
        uint8 (BIT PNET_DATA_STATUS_BIT_STATE
               + BIT PNET_DATA_STATUS_BIT_DATA_VALID
               + BIT PNET_DATA_STATUS_BIT_STATION_PROBLEM_INDICATOR) in
      let alloc := os_buf_alloc env PF_FRAME_BUFFER_SIZE in
      let p1 :=
        mk_ppm (state p_ppm) (errline p_ppm) (errcnt p_ppm) false
          (trx_cnt p_ppm) sa' da' alloc (new_buf p_ppm)
          (control_interval p_ppm) (compensated_control_interval p_ppm)
          0 0 ds blen pos cco dso tso (buffer_data p_ppm) (ci_running p_ppm)
          (ci_timer p_ppm) (send_clock_factor p_ppm) (reduction_ratio p_ppm)
          (rt_timer p_ppm) in
      buf ← alloc;
      buf ← pf_ppm_init_buf p1 buf (frame_id (param p_iocr))
              (iocr_tag_header (param p_iocr));
      let scf := param_send_clock_factor (param p_iocr) in
      let rr := param_reduction_ratio (param p_iocr) in
      let ci := uint32 (uint32 (uint32 scf * uint32 rr) * 1000) / 32 in
      cci ← pf_ppm_calculate_compensated_delay (PNET_OS_RTOS_SUPPORTED env)
              ci (scheduler_tick_interval net);
      let p2 :=
        mk_ppm PF_PPM_STATE_RUN (errline p1) (errcnt p1) (first_transmit p1)
          (trx_cnt p1) (sa p1) (da p1) (Some buf) (new_buf p1) ci cci
          (cycle p1) (transfer_status p1) (data_status p1) (buffer_length p1)
          (buffer_pos p1) (cycle_counter_offset p1) (data_status_offset p1)
          (transfer_status_offset p1) (buffer_data p1) true (ci_timer p1)
          scf rr (rt_timer p1) in
      let ev1 := [Ev_os_buf_alloc PF_FRAME_BUFFER_SIZE] in
      let '(ret, p3, ev2) :=
        if PNET_OS_RTOS_SUPPORTED env
        then
          let t := os_timer_create env cci false in
          match t with
          | Some tm =>
              (0, set_rt_timer t p2,
               [Ev_os_timer_create cci false; Ev_os_timer_start tm])
          | None => (-1, set_rt_timer t p2, [Ev_os_timer_create cci false])
          end
        else
          let '(r, id) := pf_scheduler_add env cci in
          (r, set_ci_timer id p2, [Ev_pf_scheduler_add cci]) in
      if ret =? 0
      then Some (net, set_iocr_ppm crep p3 p_ar, ret, ev0 ++ ev1 ++ ev2)
      else
        let p4 := set_ci_timer UINT32_MAX p3 in
        let '(ar, ev3) := pf_ppm_state_ind (set_iocr_ppm crep p4 p_ar) true in
        Some (net, ar, ret, ev0 ++ ev1 ++ ev2 ++ ev3)
  end.

(** [pf_ppm_close_req] *)
Definition pf_ppm_close_req (env : os_env) (net : pnet_t) (p_ar : pf_ar_t)
    (crep : nat) : option (pnet_t * pf_ar_t * Z * list os_event) :=
  p_iocr ← iocrs p_ar !! crep;
  let p := set_ci_running false (ppm p_iocr) in
  let '(p, ev0) :=
    if PNET_OS_RTOS_SUPPORTED env
    then
      match rt_timer p with
      | Some t =>
          let t1 := mk_os_timer (us t) true (timerid t) in
          let t2 := mk_os_timer (us t1) (exit t1) 0 in
          (set_rt_timer (Some t2) (set_ci_timer UINT32_MAX p),
           [Ev_os_timer_destroy t1])
      | None => (p, [])
      end
    else
      if negb (ci_timer p =? UINT32_MAX)
      then (set_ci_timer UINT32_MAX p, [Ev_pf_scheduler_remove (ci_timer p)])
      else (p, []) in
  let ev1 := [Ev_os_buf_free (p_send_buffer p)] in
  let p := pf_ppm_set_state p PF_PPM_STATE_W_START in
  let cnt := ppm_instance_cnt net in
  let net' := set_ppm_instance (uint32 (cnt - 1)) (ppm_buf_lock net) net in
  if cnt =? 1
  then
    Some (set_ppm_instance (uint32 (cnt - 1)) None net,
          set_iocr_ppm crep (set_data_status 0 p) p_ar, 0,
          ev0 ++ ev1 ++ [Ev_os_mutex_destroy (ppm_buf_lock net)])
  else Some (net', set_iocr_ppm crep p p_ar, 0, ev0 ++ ev1).

(** [pf_ppm_set_data_status_state] *)
Definition pf_ppm_set_data_status_state (p_ar : pf_ar_t) (crep : nat)
    (primary : bool) : option (pf_ar_t * Z) :=
  p_iocr ← iocrs p_ar !! crep;
  let p_ppm := ppm p_iocr in
  let ds :=
    if primary
    then uint8 (Z.lor (data_status p_ppm) (BIT PNET_DATA_STATUS_BIT_STATE))
    else uint8 (Z.land (data_status p_ppm)
                  (Z.lnot (BIT PNET_DATA_STATUS_BIT_STATE))) in
  Some (set_iocr_ppm crep (set_data_status ds p_ppm) p_ar, 0).

(** [pf_ppm_set_data_status_redundancy] *)
Definition pf_ppm_set_data_status_redundancy (p_ar : pf_ar_t) (crep : nat)
    (redundant : bool) : option (pf_ar_t * Z) :=
  p_iocr ← iocrs p_ar !! crep;
  let p_ppm := ppm p_iocr in
  let ds :=
    if redundant
    then uint8 (Z.lor (data_status p_ppm) (BIT PNET_DATA_STATUS_BIT_REDUNDANCY))
    else uint8 (Z.land (data_status p_ppm)
                  (Z.lnot (BIT PNET_DATA_STATUS_BIT_REDUNDANCY))) in
  Some (set_iocr_ppm crep (set_data_status ds p_ppm) p_ar, 0).

(** [pf_ppm_set_data_status_provider] *)
Definition pf_ppm_set_data_status_provider (p_ar : pf_ar_t) (crep : nat)
    (run : bool) : option (pf_ar_t * Z) :=
  p_iocr ← iocrs p_ar !! crep;
  let p_ppm := ppm p_iocr in
  let ds :=
    if run
    then uint8 (Z.lor (data_status p_ppm)
                  (BIT PNET_DATA_STATUS_BIT_PROVIDER_STATE))
    else uint8 (Z.land (data_status p_ppm)
                  (Z.lnot (BIT PNET_DATA_STATUS_BIT_PROVIDER_STATE))) in
  Some (set_iocr_ppm crep (set_data_status ds p_ppm) p_ar, 0).

(** [pf_ppm_get_data_status] *)
Definition pf_ppm_get_data_status (p_ppm : pf_ppm_t) : Z * Z :=
  (data_status p_ppm, 0).

(** ** C strings in [char] arrays *)

(** The string held by an array: the bytes before the first NUL. *)
Fixpoint cstr (s : list Z) : list Z :=
  match s with
  | [] => []
  | c :: r => if c =? 0 then [] else c :: cstr r
  end.

(** [strlen (s)]; an array without a NUL is read past its end. *)
Fixpoint strlen (s : list Z) : option Z :=
  match s with
  | [] => None
  | c :: r => if c =? 0 then Some 0 else n ← strlen r; Some (n + 1)
  end.

(** [strchr (s, c) != NULL] *)
Fixpoint strchr (s : list Z) (c : Z) : option bool :=
  match s with
  | [] => None
  | x :: r =>
      if x =? c then Some true
      else if x =? 0 then Some false
      else strchr r c
  end.

(** [strcmp (a, b)] *)
Fixpoint strcmp (a b : list Z) : option Z :=
  match a, b with
  | x :: ra, y :: rb =>
      if x =? y then (if x =? 0 then Some 0 else strcmp ra rb)
      else Some (x - y)
  | _, _ => None
  end.

(** The [n] bytes that [strncpy (dst, src, n)] writes: the string, then
    NULs up to [n]. *)
Fixpoint strncpy_bytes (src : list Z) (n : nat) : option (list Z) :=
  match n with
  | O => Some []
  | S n' =>
      match src with
      | [] => None
      | c :: r =>
          if c =? 0 then Some (replicate n 0)
          else l ← strncpy_bytes r n'; Some (c :: l)
      end
  end.

Definition strncpy (dst src : list Z) (n : Z) : option (list Z) :=
  if n <? 0 then None
  else l ← strncpy_bytes src (Z.to_nat n); memcpy dst 0 l n.

(** The bytes that [strncat (dst, src, n)] appends: at most [n]
    characters of the string, then a NUL. *)
Fixpoint strncat_bytes (src : list Z) (n : nat) : option (list Z) :=
  match n with
  | O => Some [0]
  | S n' =>
      match src with
      | [] => None
      | c :: r =>
          if c =? 0 then Some [0]
          else l ← strncat_bytes r n'; Some (c :: l)
      end
  end.

Definition strncat (dst src : list Z) (n : Z) : option (list Z) :=
  if n <? 0 then None
  else
    k ← strlen dst;
    l ← strncat_bytes src (Z.to_nat n);
    memcpy dst k l (Z.of_nat (length l)).

(** ** The block writer

    Modelled from the spec: [pf_put_byte], [pf_put_uint16] and
    [pf_put_mem] of [pf_block_writer.c] are not at hand.  Writes advance
    the position; a write that would pass the cap [res_len] is not done;
    multi-byte fields are big-endian. *)

Definition pf_put_byte (val : Z) (res_len : Z) (w : list Z * Z)
  : option (list Z * Z) :=
  let '(p_bytes, p_pos) := w in
  if res_len <=? p_pos then Some w
  else b ← store_byte p_bytes p_pos (uint8 val); Some (b, uint16 (p_pos + 1)).

Definition pf_put_uint16 (is_big_endian : bool) (val : Z) (res_len : Z)
    (w : list Z * Z) : option (list Z * Z) :=
  if is_big_endian
  then
    w ← pf_put_byte (Z.land (Z.shiftr val 8) 0xff) res_len w;
    pf_put_byte (Z.land val 0xff) res_len w
  else
    w ← pf_put_byte (Z.land val 0xff) res_len w;
    pf_put_byte (Z.land (Z.shiftr val 8) 0xff) res_len w.

Definition pf_put_mem (p_src : list Z) (src_size : Z) (res_len : Z)
    (w : list Z * Z) : option (list Z * Z) :=
  let '(p_bytes, p_pos) := w in
  if res_len <? p_pos + src_size then Some w
  else b ← memcpy p_bytes p_pos p_src src_size;
       Some (b, uint16 (p_pos + src_size)).

(** ** The LLDP engine: building TLVs *)

(** Modelled from the spec: TLV types, subtypes and the masks of the TLV
    header are macros of a header that is not at hand (type in the high 7
    bits, length in the low 9 bits; Chassis ID 1, Port ID 2, TTL 3,
    organisation specific 127, end 0; one second is 1000000
    microseconds). *)
Definition LLDP_TYPE_END : Z := 0.
Definition LLDP_TYPE_CHASSIS_ID : Z := 1.
Definition LLDP_TYPE_PORT_ID : Z := 2.
Definition LLDP_TYPE_TTL : Z := 3.
Definition LLDP_TYPE_MANAGEMENT : Z := 8.
Definition LLDP_TYPE_ORG_SPEC : Z := 127.
Definition LLDP_SUBTYPE_CHASSIS_ID_MAC : Z := 4.
Definition LLDP_SUBTYPE_CHASSIS_ID_NAME : Z := 7.
Definition LLDP_SUBTYPE_PORT_ID_LOCAL : Z := 7.
Definition LLDP_TYPE_MASK : Z := 0xFE00.
Definition LLDP_TYPE_SHIFT : Z := 9.
Definition LLDP_LENGTH_MASK : Z := 0x01FF.
Definition LLDP_PROFIBUS_CODE : list Z := [0x00; 0x0E; 0xCF].
Definition LLDP_IEEE_8023_CODE : list Z := [0x00; 0x12; 0x0F].
Definition LLDP_PROFIBUS_SUBTYPE_DELAY_VALUES : Z := 1.
Definition LLDP_PROFIBUS_SUBTYPE_PORT_STATUS : Z := 2.
Definition LLDP_PROFIBUS_SUBTYPE_CHASSIS_MAC : Z := 5.
Definition LLDP_IEEE_SUBTYPE_MACPHY_CONFIG : Z := 1.
Definition TICK_INTERVAL_SEC : Z := 1000000.

(** The part of [pnet_cfg_t] that the mandatory TLVs read. *)
Record pnet_cfg_t := mk_pnet_cfg {
  chassis_id : list Z;
  port_id : list Z;
  ttl : Z;
  eth_addr : list Z;
}.

(** [pf_lldp_tlv_header]; [typ] and [len] are [uint8_t] arguments, the
    sum is passed as a [uint16_t]. *)
Definition pf_lldp_tlv_header (w : list Z * Z) (typ len : Z)
  : option (list Z * Z) :=
  let typ := uint8 typ in
  let len := uint8 len in
  pf_put_uint16 true (uint16 (Z.shiftl typ 9 + Z.land len 0x1ff))
    PF_FRAME_BUFFER_SIZE w.

(** [lldp_add_chassis_id_tlv] *)
Definition lldp_add_chassis_id_tlv (p_cfg : pnet_cfg_t) (w : list Z * Z)
  : option (list Z * Z) :=
  n ← strlen (chassis_id p_cfg);
  let len := uint16 n in
  if len =? 0
  then
    w ← pf_lldp_tlv_header w LLDP_TYPE_CHASSIS_ID (1 + sizeof_pnet_ethaddr_t);
    '(b, pos) ← pf_put_byte LLDP_SUBTYPE_CHASSIS_ID_MAC PF_FRAME_BUFFER_SIZE w;
    b ← memcpy b pos (eth_addr p_cfg) sizeof_pnet_ethaddr_t;
    Some (b, uint16 (pos + sizeof_pnet_ethaddr_t))
  else
    w ← pf_lldp_tlv_header w LLDP_TYPE_CHASSIS_ID (1 + len);
    w ← pf_put_byte LLDP_SUBTYPE_CHASSIS_ID_NAME PF_FRAME_BUFFER_SIZE w;
    pf_put_mem (chassis_id p_cfg) len PF_FRAME_BUFFER_SIZE w.

(** [lldp_add_port_id_tlv] *)
Definition lldp_add_port_id_tlv (p_cfg : pnet_cfg_t) (w : list Z * Z)
  : option (list Z * Z) :=
  n ← strlen (port_id p_cfg);
  let len := uint16 n in
  w ← pf_lldp_tlv_header w LLDP_TYPE_PORT_ID (1 + len);
  w ← pf_put_byte LLDP_SUBTYPE_PORT_ID_LOCAL PF_FRAME_BUFFER_SIZE w;
  pf_put_mem (port_id p_cfg) len PF_FRAME_BUFFER_SIZE w.

(** [lldp_add_ttl_tlv] *)
Definition lldp_add_ttl_tlv (p_cfg : pnet_cfg_t) (w : list Z * Z)
  : option (list Z * Z) :=
  w ← pf_lldp_tlv_header w LLDP_TYPE_TTL 2;
  pf_put_uint16 true (ttl p_cfg) PF_FRAME_BUFFER_SIZE w.

(** ** The LLDP engine: alarms *)

(** The diagnosis item that [pf_lldp_send_remote_mismatch_alarm] fills in
    for one AR: cleared by [memset], then the alarm specifier, then the
    diagnosis information.  [differ] is
    [strcmp (perm alias, temp alias) != 0]. *)
Definition remote_mismatch_diag_item (differ : bool) : pf_diag_item_t :=
  let spec :=
    if differ then mk_alarm_spec true false true true
    else mk_alarm_spec false false false false in
  let prop :=
    if differ then PNET_DIAG_CH_PROP_SPEC_APPEARS
    else PNET_DIAG_CH_PROP_SPEC_DISAPPEARS in
  mk_diag_item spec PF_USI_EXTENDED_CHANNEL_DIAGNOSIS PF_USI_CHANNEL_DIAGNOSIS
    prop PF_WRT_ERROR_REMOTE_MISMATCH PF_WRT_ERROR_PORTID_MISMATCH 0 0 0.

(** The calls that the body of the loop of
    [pf_lldp_send_remote_mismatch_alarm] makes for the AR at index [ix],
    which is in use. *)
Definition remote_mismatch_alarm_ar (env : os_env) (differ : bool) (ix : nat)
  : list os_event :=
  let diag_item := remote_mismatch_diag_item differ in
  let ev :=
    if channel_diagnosis (alarm_spec diag_item)
    then
      let ret := pf_diag_update env ix diag_item in
      if negb (ret =? 0)
      then [Ev_pf_diag_update ix diag_item; Ev_pf_diag_add ix diag_item]
      else [Ev_pf_diag_update ix diag_item]
    else [Ev_pf_diag_update ix diag_item] in
  ev ++ [Ev_pf_alarm_send_port_change_notification ix diag_item].

(** The loop over [net->cmrpc_ar], from index [ix] on: the calls made and
    the flag [alarm_sent]. *)
Fixpoint remote_mismatch_alarm_loop (env : os_env) (net : pnet_t) (ix : nat)
    (ars : list pf_ar_t) : option (list os_event * bool) :=
  match ars with
  | [] => Some ([], false)
  | a :: rest =>
      if in_use a
      then
        c ← strcmp (perm_alias_name net) (temp_alias_name net);
        let ev := remote_mismatch_alarm_ar env (negb (c =? 0)) ix in
        '(ev', _) ← remote_mismatch_alarm_loop env net (S ix) rest;
        Some (ev ++ ev', true)
      else remote_mismatch_alarm_loop env net (S ix) rest
  end.

(** [pf_lldp_send_remote_mismatch_alarm] *)
Definition pf_lldp_send_remote_mismatch_alarm (env : os_env) (net : pnet_t)
  : option (pnet_t * list os_event) :=
  '(ev, alarm_sent) ← remote_mismatch_alarm_loop env net 0 (cmrpc_ar net);
  if negb alarm_sent
  then
    n ← strlen (temp_alias_name net);
    perm ← strncpy (perm_alias_name net) (temp_alias_name net) n;
    perm ← store_byte perm n 0;
    Some (set_perm_alias_name perm net, ev)
  else Some (net, ev).

(** [pf_lldp_create_peer_timer], with the timer of the RTOS (the branch
    for the cooperative scheduler assigns to a variable that is not
    declared). *)
Definition pf_lldp_create_peer_timer (env : os_env) (net : pnet_t)
  : pnet_t * list os_event :=
  let c := lldp_peer_cfg net in
  let period := TTL c * TICK_INTERVAL_SEC in
  let t := os_timer_create env period true in
  let c' :=
    mk_peer_cfg (PeerChassisID c) (PeerChassisIDLen c) (PeerPortID c)
      (PeerPortIDLen c) (PeerDelay c) (PeerPortStatus c) (PeerMACAddr c)
      (PeerMACPhyConfig c) (TTL c) t in
  (set_lldp_peer_cfg c' net,
   Ev_os_timer_create period true
     :: match t with Some tm => [Ev_os_timer_start tm] | None => [] end).

(** ** The LLDP engine: receiving *)

(** The locals of [pf_lldp_recv] that live across the iterations of its
    loop, together with the stack instance and the calls made so far.
    [r_pData] is the offset of [pData] in the payload of the frame. *)
Record lldp_recv_state := mk_recv_state {
  r_net : pnet_t;
  r_Alias : list Z;
  r_frame_type : Z;
  r_frame_len : Z;
  r_frame_value : list Z;
  r_pData : Z;
  r_trace : list os_event;
}.

(** The 32-bit value of four bytes in network order ([htonl] after the
    bytes were copied into the field). *)
Definition ntohl_bytes (b : list Z) : Z :=
  match b with
  | [b3; b2; b1; b0] =>
      Z.lor (Z.shiftl b3 24) (Z.lor (Z.shiftl b2 16) (Z.lor (Z.shiftl b1 8) b0))
  | _ => 0
  end.

(** [_tvData = htons (GET_UINT16 (pData))], then the type and the length
    of the TLV. *)
Definition lldp_read_tlv_header (frame : list Z) (pData : Z) : option (Z * Z) :=
  hi ← load_byte frame pData;
  lo ← load_byte frame (pData + 1);
  let _tvData := ntohs_bytes hi lo in
  Some (Z.shiftr (Z.land _tvData LLDP_TYPE_MASK) LLDP_TYPE_SHIFT,
        Z.land _tvData LLDP_LENGTH_MASK).

Definition set_peer_chassis (id : list Z) (n : Z) (c : pf_lldp_peer_cfg_t)
  : pf_lldp_peer_cfg_t :=
  mk_peer_cfg id n (PeerPortID c) (PeerPortIDLen c) (PeerDelay c)
    (PeerPortStatus c) (PeerMACAddr c) (PeerMACPhyConfig c) (TTL c)
    (peerTimer c).

Definition set_peer_port (id : list Z) (n : Z) (c : pf_lldp_peer_cfg_t)
  : pf_lldp_peer_cfg_t :=
  mk_peer_cfg (PeerChassisID c) (PeerChassisIDLen c) id n (PeerDelay c)
    (PeerPortStatus c) (PeerMACAddr c) (PeerMACPhyConfig c) (TTL c)
    (peerTimer c).

Definition set_peer_org (d : pf_lldp_peer_delay_t) (ps mac : list Z)
    (mp : pf_lldp_peer_macphy_t) (c : pf_lldp_peer_cfg_t)
  : pf_lldp_peer_cfg_t :=
  mk_peer_cfg (PeerChassisID c) (PeerChassisIDLen c) (PeerPortID c)
    (PeerPortIDLen c) d ps mac mp (TTL c) (peerTimer c).

Definition set_peer_ttl (v : Z) (t : option os_timer_t)
    (c : pf_lldp_peer_cfg_t) : pf_lldp_peer_cfg_t :=
  mk_peer_cfg (PeerChassisID c) (PeerChassisIDLen c) (PeerPortID c)
    (PeerPortIDLen c) (PeerDelay c) (PeerPortStatus c) (PeerMACAddr c)
    (PeerMACPhyConfig c) v t.

Definition set_recv (net : pnet_t) (alias : list Z) (value : list Z)
    (ev : list os_event) (st : lldp_recv_state) : lldp_recv_state :=
  mk_recv_state net alias (r_frame_type st) (r_frame_len st) value
    (r_pData st) (r_trace st ++ ev).

(** [case LLDP_TYPE_CHASSIS_ID].  The length fields of the peer record
    are taken wide enough for the 9 bits of a TLV length; a length of 0
    makes [_frame.len - 1] a size that no array holds. *)
Definition pf_lldp_recv_chassis_id (frame : list Z) (st : lldp_recv_state)
  : option lldp_recv_state :=
  let net := r_net st in
  let c := lldp_peer_cfg net in
  let n := r_frame_len st - 1 in
  src ← memread frame (r_pData st + 1) n;
  id ← memcpy (PeerChassisID c) 0 src n;
  id ← store_byte id n 0;
  Some (set_recv (set_lldp_peer_cfg (set_peer_chassis id n c) net)
          (r_Alias st) (r_frame_value st) [] st).

(** [case LLDP_TYPE_PORT_ID]: the Port ID is stored, the alias is
    computed in [_Alias], and when it differs from the temporary alias
    name it replaces it and the remote-mismatch alarm is sent. *)
Definition pf_lldp_recv_port_id (env : os_env) (frame : list Z)
    (st : lldp_recv_state) : option lldp_recv_state :=
  let net := r_net st in
  let c := lldp_peer_cfg net in
  let n := r_frame_len st - 1 in
  src ← memread frame (r_pData st + 1) n;
  value ← memcpy (r_frame_value st) 0 src n;
  value ← store_byte value n 0;
  _ ← strchr value 46;
  id ← memcpy (PeerPortID c) 0 src n;
  id ← store_byte id n 0;
  let c := set_peer_port id n c in
  let net := set_lldp_peer_cfg c net in
  dot ← strchr (PeerPortID c) 46;
  alias ←
    (if (dot : bool)
     then
       a ← strncpy (r_Alias st) (PeerPortID c) (PeerPortIDLen c);
       store_byte a (PeerPortIDLen c) 0
     else
       a ← strncat (r_Alias st) (PeerPortID c) (PeerPortIDLen c);
       a ← strncat a [46; 0] 1;
       a ← strncat a (PeerChassisID c) (PeerChassisIDLen c);
       store_byte a (PeerPortIDLen c + PeerChassisIDLen c + 1) 0);
  cmp ← strcmp alias (temp_alias_name net);
  if negb (cmp =? 0)
  then
    temp ← memset (temp_alias_name net) 0 0
             (Z.of_nat (length (temp_alias_name net)));
    k ← strlen alias;
    temp ← strncpy temp alias k;
    temp ← store_byte temp k 0;
    '(net, ev) ← pf_lldp_send_remote_mismatch_alarm env
                   (set_temp_alias_name temp net);
    Some (set_recv net alias value ev st)
  else Some (set_recv net alias value [] st).

(** [case LLDP_TYPE_TTL]: the TTL is read from [pData[1]]. *)
Definition pf_lldp_recv_ttl (env : os_env) (frame : list Z)
    (st : lldp_recv_state) : option lldp_recv_state :=
  let net := r_net st in
  let c := lldp_peer_cfg net in
  b ← load_byte frame (r_pData st + 1);
  let c := set_peer_ttl b (peerTimer c) c in
  let net := set_lldp_peer_cfg c net in
  match peerTimer c with
  | None =>
      let '(net, ev) := pf_lldp_create_peer_timer env net in
      Some (set_recv net (r_Alias st) (r_frame_value st) ev st)
  | Some t =>
      let t' := mk_os_timer (TTL c * TICK_INTERVAL_SEC) (exit t) (timerid t) in
      Some (set_recv (set_lldp_peer_cfg (set_peer_ttl b (Some t') c) net)
              (r_Alias st) (r_frame_value st)
              [Ev_os_timer_stop t; Ev_os_timer_start t'] st)
  end.

(** [case LLDP_TYPE_ORG_SPEC].  The sizes copied are those of the fields:
    five 32-bit delays, and the capacities of the port status and of the
    MAC address of the peer record. *)
Definition pf_lldp_recv_org_spec (frame : list Z) (st : lldp_recv_state)
  : option lldp_recv_state :=
  let net := r_net st in
  let c := lldp_peer_cfg net in
  let pData := r_pData st in
  oui ← memread frame pData 3;
  c' ←
    (if bool_decide (oui = LLDP_PROFIBUS_CODE)
     then
       sub ← load_byte frame (pData + 3);
       if sub =? LLDP_PROFIBUS_SUBTYPE_DELAY_VALUES
       then
         d0 ← memread frame (pData + 4) 4;
         d1 ← memread frame (pData + 8) 4;
         d2 ← memread frame (pData + 12) 4;
         d3 ← memread frame (pData + 16) 4;
         d4 ← memread frame (pData + 20) 4;
         Some (set_peer_org
                 (mk_peer_delay (ntohl_bytes d0) (ntohl_bytes d1)
                    (ntohl_bytes d2) (ntohl_bytes d3) (ntohl_bytes d4))
                 (PeerPortStatus c) (PeerMACAddr c) (PeerMACPhyConfig c) c)
       else if sub =? LLDP_PROFIBUS_SUBTYPE_PORT_STATUS
       then
         b ← memread frame (pData + 4) (Z.of_nat (length (PeerPortStatus c)));
         Some (set_peer_org (PeerDelay c) b (PeerMACAddr c)
                 (PeerMACPhyConfig c) c)
       else if sub =? LLDP_PROFIBUS_SUBTYPE_CHASSIS_MAC
       then
         b ← memread frame (pData + 4) (Z.of_nat (length (PeerMACAddr c)));
         Some (set_peer_org (PeerDelay c) (PeerPortStatus c) b
                 (PeerMACPhyConfig c) c)
       else Some c
     else if bool_decide (oui = LLDP_IEEE_8023_CODE)
     then
       sub ← load_byte frame (pData + 3);
       if sub =? LLDP_IEEE_SUBTYPE_MACPHY_CONFIG
       then
         b ← memread frame (pData + 3) 6;
         match b with
         | [s; a; c1; c0; m1; m0] =>
             Some (set_peer_org (PeerDelay c) (PeerPortStatus c)
                     (PeerMACAddr c)
                     (mk_peer_macphy s a [c1; c0] (ntohs_bytes m1 m0)) c)
         | _ => None
         end
       else Some c
     else Some c);
  Some (set_recv (set_lldp_peer_cfg c' net) (r_Alias st) (r_frame_value st)
          [] st).

(** One iteration of the loop of [pf_lldp_recv]: the [switch] on the type
    of the current TLV, then the step to the header of the next one. *)
Definition pf_lldp_recv_iter (env : os_env) (frame : list Z)
    (st : lldp_recv_state) : option lldp_recv_state :=
  st ←
    (if r_frame_type st =? LLDP_TYPE_CHASSIS_ID
     then pf_lldp_recv_chassis_id frame st
     else if r_frame_type st =? LLDP_TYPE_PORT_ID
     then pf_lldp_recv_port_id env frame st
     else if r_frame_type st =? LLDP_TYPE_TTL
     then pf_lldp_recv_ttl env frame st
     else if r_frame_type st =? LLDP_TYPE_ORG_SPEC
     then pf_lldp_recv_org_spec frame st
     else Some st);
  let pData := r_pData st + r_frame_len st in
  '(typ, len) ← lldp_read_tlv_header frame pData;
  let pData := pData + 2 in
  value ← memset (r_frame_value st) 0 0
            (Z.of_nat (length (r_frame_value st)));
  Some (mk_recv_state (r_net st) (r_Alias st) typ len value pData
          (r_trace st)).

(** The loop [while (_frame.type != LLDP_TYPE_END)]. *)
Fixpoint pf_lldp_recv_loop (env : os_env) (frame : list Z) (fuel : nat)
    (st : lldp_recv_state) : option lldp_recv_state :=
  if r_frame_type st =? LLDP_TYPE_END then Some st
  else
    match fuel with
    | O => None
    | S fuel' =>
        st ← pf_lldp_recv_iter env frame st;
        pf_lldp_recv_loop env frame fuel' st
    end.

(** The state in which the loop of [pf_lldp_recv] is entered.
    [sizeof_value] is the size of the array [_frame.value], which a header
    that is not at hand declares. *)
Definition pf_lldp_recv_enter (sizeof_value : nat) (net : pnet_t)
    (frame : list Z) (frame_pos : Z) : option lldp_recv_state :=
  '(typ, len) ← lldp_read_tlv_header frame frame_pos;
  Some (mk_recv_state net (replicate 250 0) typ len
          (replicate sizeof_value 0) (frame_pos + 2) []).

(** [pf_lldp_recv]: every iteration moves [pData] forward by two bytes at
    least, so the length of the frame bounds the number of iterations. *)
Definition pf_lldp_recv (env : os_env) (sizeof_value : nat) (net : pnet_t)
    (frame : list Z) (frame_pos : Z) : option (pnet_t * list os_event) :=
  st ← pf_lldp_recv_enter sizeof_value net frame frame_pos;
  st ← pf_lldp_recv_loop env frame (S (length frame)) st;
  Some (r_net st, r_trace st).
(** ** The data path of the PPM

    The functions below are the rest of the provider machine: the
    station problem indicator and the access of the application to the
    staging buffer of an IOCR. *)

Definition set_buffer_data (v : list Z) (p : pf_ppm_t) : pf_ppm_t :=
  mk_ppm (state p) (errline p) (errcnt p) (first_transmit p) (trx_cnt p) (sa p)
    (da p) (p_send_buffer p) (new_buf p) (control_interval p)
    (compensated_control_interval p) (cycle p) (transfer_status p)
    (data_status p) (buffer_length p) (buffer_pos p) (cycle_counter_offset p)
    (data_status_offset p) (transfer_status_offset p) v
    (ci_running p) (ci_timer p) (send_clock_factor p) (reduction_ratio p)
    (rt_timer p).

(** The test [iocr_type == INPUT || iocr_type == MC_PROVIDER] that
    selects the IOCRs with a provider. *)
Definition is_provider_iocr (p_iocr : pf_iocr_t) : bool :=
  match iocr_type (param p_iocr) with
  | PF_IOCR_TYPE_INPUT | PF_IOCR_TYPE_MC_PROVIDER => true
  | _ => false
  end.



(** [pf_iodata_object_t]: where the data, the IOPS and the IOCS of one
    sub-slot lie in the staging buffer of the IOCR ([iodata_in_use] is
    the member [in_use]). *)
Record pf_iodata_object_t := mk_iodata {
  iodata_in_use : bool;
  api_id : Z;
  slot_nbr : Z;
  subslot_nbr : Z;
  data_offset : Z;
  data_length : Z;
  iops_offset : Z;
  iops_length : Z;
  iocs_offset : Z;
  iocs_length : Z;
  data_avail : bool;
}.

Definition set_data_avail (v : bool) (d : pf_iodata_object_t)
  : pf_iodata_object_t :=
  mk_iodata (iodata_in_use d) (api_id d) (slot_nbr d) (subslot_nbr d)
    (data_offset d) (data_length d) (iops_offset d) (iops_length d)
    (iocs_offset d) (iocs_length d) v.

(** The members [nbr_data_desc] and [data_desc] of [pf_iocr_t], which
    only the data path reads.  They are kept beside the record
    [pf_iocr_t] above: the descriptors of the IOCR [crep] of an AR are
    the element [crep] of [iocr_desc]. *)
Record pf_iocr_desc_t := mk_iocr_desc {
  nbr_data_desc : Z;
  data_desc : list pf_iodata_object_t;
}.

(** An AR as the data path sees it: the record [pf_ar_t] above, its
    member [nbr_iocrs], and the descriptors of its IOCRs. *)
Record pf_ar_data_t := mk_ar_data {
  ar_rec : pf_ar_t;
  nbr_iocrs : Z;
  iocr_desc : list pf_iocr_desc_t;
}.

Definition set_ar (v : pf_ar_t) (a : pf_ar_data_t) : pf_ar_data_t :=
  mk_ar_data v (nbr_iocrs a) (iocr_desc a).

Definition set_iodata (crep iodata_ix : nat)
    (f : pf_iodata_object_t -> pf_iodata_object_t) (a : pf_ar_data_t)
  : pf_ar_data_t :=
  mk_ar_data (ar_rec a) (nbr_iocrs a)
    (alter (fun d => mk_iocr_desc (nbr_data_desc d)
                       (alter f iodata_ix (data_desc d)))
       crep (iocr_desc a)).

(** The test of the inner loop of [pf_ppm_get_ar_iocr_desc]. *)
Definition iodata_matches (api slot subslot : Z) (d : pf_iodata_object_t)
  : bool :=
  iodata_in_use d && (api_id d =? api) && (slot_nbr d =? slot)
  && (subslot_nbr d =? subslot).

(** The inner loop of [pf_ppm_get_ar_iocr_desc], from [iodata_ix] on with
    [n] descriptors left to look at: the index of the first descriptor
    that matches. *)
Fixpoint pf_ppm_find_iodata (api slot subslot : Z)
    (descs : list pf_iodata_object_t) (iodata_ix n : nat)
  : option (option nat) :=
  match n with
  | O => Some None
  | S n' =>
      d ← descs !! iodata_ix;
      if iodata_matches api slot subslot d
      then Some (Some iodata_ix)
      else pf_ppm_find_iodata api slot subslot descs (S iodata_ix) n'
  end.

(** The outer loop, from [crep] on with [n] IOCRs left. *)
Fixpoint pf_ppm_find_iocr (api slot subslot : Z) (a : pf_ar_data_t)
    (crep n : nat) : option (option (nat * nat)) :=
  match n with
  | O => Some None
  | S n' =>
      p_iocr ← iocrs (ar_rec a) !! crep;
      if is_provider_iocr p_iocr
      then
        d ← iocr_desc a !! crep;
        r ← pf_ppm_find_iodata api slot subslot (data_desc d) 0
              (Z.to_nat (nbr_data_desc d));
        match r with
        | Some iodata_ix => Some (Some (crep, iodata_ix))
        | None => pf_ppm_find_iocr api slot subslot a (S crep) n'
        end
      else pf_ppm_find_iocr api slot subslot a (S crep) n'
  end.

(** [pf_ppm_get_ar_iocr_desc].  [p_ar] is the AR that
    [pf_cmdev_get_subslot_full] reports for the sub-slot, [None] when
    that call fails or the sub-slot has no AR.  The result is the index
    of the IOCR and of the descriptor, [None] for the return value -1. *)
Definition pf_ppm_get_ar_iocr_desc (p_ar : option pf_ar_data_t)
    (api slot subslot : Z) : option (option (nat * nat)) :=
  match p_ar with
  | None => Some None
  | Some a =>
      pf_ppm_find_iocr api slot subslot a 0 (Z.to_nat (nbr_iocrs a))
  end.

(** The AR, the IOCR and the descriptor that [pf_ppm_get_ar_iocr_desc]
    hands out through its three pointers. *)
Definition pf_ppm_lookup (p_ar : option pf_ar_data_t) (api slot subslot : Z)
  : option (option (pf_ar_data_t * nat * nat * pf_iocr_t
                    * pf_iodata_object_t)) :=
  r ← pf_ppm_get_ar_iocr_desc p_ar api slot subslot;
  match p_ar, r with
  | Some a, Some (crep, iodata_ix) =>
      p_iocr ← iocrs (ar_rec a) !! crep;
      d ← iocr_desc a !! crep;
      p_iodata ← data_desc d !! iodata_ix;
      Some (Some (a, crep, iodata_ix, p_iocr, p_iodata))
  | _, _ => Some None
  end.

Definition set_ppm_error (a : pf_ar_data_t) : pf_ar_data_t :=
  set_ar (set_error PNET_ERROR_CODE_1_PPM PNET_ERROR_CODE_2_PPM_INVALID_STATE
            (ar_rec a)) a.

(** [pf_ppm_set_data_and_iops].  The result is the AR of the sub-slot,
    the returned [int] and the calls made. *)
Definition pf_ppm_set_data_and_iops (net : pnet_t)
    (p_ar : option pf_ar_data_t) (api slot subslot : Z)
    (p_data : list Z) (data_len : Z) (p_iops : list Z) (iops_len : Z)
  : option (option pf_ar_data_t * Z * list os_event) :=
  let ret := -1 in
  r ← pf_ppm_lookup p_ar api slot subslot;
  match r with
  | Some (a, crep, iodata_ix, p_iocr, p_iodata) =>
      match state (ppm p_iocr) with
      | PF_PPM_STATE_W_START => Some (Some (set_ppm_error a), ret, [])
      | PF_PPM_STATE_RUN =>
          if (data_len =? data_length p_iodata)
             && (iops_len =? iops_length p_iodata)
          then
            lock ← ppm_buf_lock net;
            b1 ← (if 0 <? data_len
                  then memcpy (buffer_data (ppm p_iocr))
                         (data_offset p_iodata) p_data data_len
                  else Some (buffer_data (ppm p_iocr)));
            b2 ← (if 0 <? iops_len
                  then memcpy b1 (iops_offset p_iodata) p_iops iops_len
                  else Some b1);
            let a :=
              set_ar (set_iocr_ppm crep (set_buffer_data b2 (ppm p_iocr))
                        (ar_rec a)) a in
            let a := set_iodata crep iodata_ix (set_data_avail true) a in
            Some (Some a, 0,
                  [Ev_os_mutex_lock (Some lock);
                   Ev_os_mutex_unlock (Some lock)])
          else Some (Some a, ret, [])
      end
  | None => Some (p_ar, ret, [])
  end.

(** [pf_ppm_set_iocs] *)
Definition pf_ppm_set_iocs (net : pnet_t) (p_ar : option pf_ar_data_t)
    (api slot subslot : Z) (p_iocs : list Z) (iocs_len : Z)
  : option (option pf_ar_data_t * Z * list os_event) :=
  let ret := -1 in
  r ← pf_ppm_lookup p_ar api slot subslot;
  match r with
  | Some (a, crep, iodata_ix, p_iocr, p_iodata) =>
      match state (ppm p_iocr) with
      | PF_PPM_STATE_W_START => Some (Some (set_ppm_error a), ret, [])
      | PF_PPM_STATE_RUN =>
          if iocs_len =? iocs_length p_iodata
          then
            lock ← ppm_buf_lock net;
            b ← memcpy (buffer_data (ppm p_iocr)) (iocs_offset p_iodata)
                  p_iocs iocs_len;
            let a :=
              set_ar (set_iocr_ppm crep (set_buffer_data b (ppm p_iocr))
                        (ar_rec a)) a in
            Some (Some a, 0,
                  [Ev_os_mutex_lock (Some lock);
                   Ev_os_mutex_unlock (Some lock)])
          else if iocs_length p_iodata =? 0
          then Some (Some a, 0, [])
          else Some (Some a, ret, [])
      end
  | None => Some (p_ar, ret, [])
  end.

(** What a getter leaves behind: the AR, the buffers and the lengths of
    the caller, the returned [int] and the calls made. *)
Record pf_ppm_get_result := mk_get_result {
  get_ar : option pf_ar_data_t;
  get_data : list Z;
  get_data_len : Z;
  get_iops : list Z;
  get_iops_len : Z;
  get_ret : Z;
  get_trace : list os_event;
}.

(** [pf_ppm_get_data_and_iops].  [p_data] and [p_iops] are the arrays of
    the caller, [p_data_len] and [p_iops_len] the values behind the two
    length pointers. *)
Definition pf_ppm_get_data_and_iops (net : pnet_t)
    (p_ar : option pf_ar_data_t) (api slot subslot : Z)
    (p_data : list Z) (p_data_len : Z) (p_iops : list Z) (p_iops_len : Z)
  : option pf_ppm_get_result :=
  let ret := -1 in
  r ← pf_ppm_lookup p_ar api slot subslot;
  match r with
  | Some (a, crep, iodata_ix, p_iocr, p_iodata) =>
      match state (ppm p_iocr) with
      | PF_PPM_STATE_W_START =>
          Some (mk_get_result (Some (set_ppm_error a)) p_data p_data_len
                  p_iops p_iops_len ret [])
      | PF_PPM_STATE_RUN =>
          if (data_length p_iodata <=? p_data_len)
             && (iops_length p_iodata <=? p_iops_len)
          then
            lock ← ppm_buf_lock net;
            src ← memread (buffer_data (ppm p_iocr)) (data_offset p_iodata)
                    (data_length p_iodata);
            p_data ← memcpy p_data 0 src (data_length p_iodata);
            src ← memread (buffer_data (ppm p_iocr)) (iops_offset p_iodata)
                    (iops_length p_iodata);
            p_iops ← memcpy p_iops 0 src (iops_length p_iodata);
            Some (mk_get_result (Some a) p_data (data_length p_iodata)
                    p_iops (uint8 (iops_length p_iodata)) 0
                    [Ev_os_mutex_lock (Some lock);
                     Ev_os_mutex_unlock (Some lock)])
          else
            Some (mk_get_result (Some a) p_data p_data_len p_iops p_iops_len
                    ret [])
      end
  | None =>
      Some (mk_get_result p_ar p_data p_data_len p_iops p_iops_len ret [])
  end.

(** [pf_ppm_get_iocs]; the buffer and the length of the caller are
    returned in the fields [get_iops] and [get_iops_len] of the result,
    the fields [get_data] and [get_data_len] stay empty. *)
Definition pf_ppm_get_iocs (net : pnet_t) (p_ar : option pf_ar_data_t)
    (api slot subslot : Z) (p_iocs : list Z) (p_iocs_len : Z)
  : option pf_ppm_get_result :=
  let ret := -1 in
  r ← pf_ppm_lookup p_ar api slot subslot;
  match r with
  | Some (a, crep, iodata_ix, p_iocr, p_iodata) =>
      match state (ppm p_iocr) with
      | PF_PPM_STATE_W_START =>
          Some (mk_get_result (Some (set_ppm_error a)) [] 0 p_iocs p_iocs_len
                  ret [])
      | PF_PPM_STATE_RUN =>
          if iocs_length p_iodata <=? p_iocs_len
          then
            lock ← ppm_buf_lock net;
            src ← memread (buffer_data (ppm p_iocr)) (iocs_offset p_iodata)
                    (iocs_length p_iodata);
            p_iocs ← memcpy p_iocs 0 src (iocs_length p_iodata);
            Some (mk_get_result (Some a) [] 0 p_iocs
                    (uint8 (iocs_length p_iodata)) 0
                    [Ev_os_mutex_lock (Some lock);
                     Ev_os_mutex_unlock (Some lock)])
          else Some (mk_get_result (Some a) [] 0 p_iocs p_iocs_len ret [])
      end
  | None => Some (mk_get_result p_ar [] 0 p_iocs p_iocs_len ret [])
  end.

(** ** The LLDP engine: the optional TLVs and the transmission *)

(** Modelled from the spec: [pf_put_uint32] of [pf_block_writer.c] is
    not at hand; like [pf_put_uint16] it writes its bytes one by one, the
    most significant first when [is_big_endian] holds. *)
Definition pf_put_uint32 (is_big_endian : bool) (val : Z) (res_len : Z)
    (w : list Z * Z) : option (list Z * Z) :=
  if is_big_endian
  then
    w ← pf_put_byte (Z.land (Z.shiftr val 24) 0xff) res_len w;
    w ← pf_put_byte (Z.land (Z.shiftr val 16) 0xff) res_len w;
    w ← pf_put_byte (Z.land (Z.shiftr val 8) 0xff) res_len w;
    pf_put_byte (Z.land val 0xff) res_len w
  else
    w ← pf_put_byte (Z.land val 0xff) res_len w;
    w ← pf_put_byte (Z.land (Z.shiftr val 8) 0xff) res_len w;
    w ← pf_put_byte (Z.land (Z.shiftr val 16) 0xff) res_len w;
    pf_put_byte (Z.land (Z.shiftr val 24) 0xff) res_len w.

(** The subtypes of [lldp_pnio_subtype_values_t] that the transmitter
    uses. *)
Definition LLDP_PNIO_SUBTYPE_PORT_STATUS : Z := 2.
Definition LLDP_PNIO_SUBTYPE_INTERFACE_MAC : Z := 5.

(** The LLDP multicast address. *)
Definition lldp_dst_addr : list Z := [0x01; 0x80; 0xc2; 0x00; 0x00; 0x0e].

(** The members of [p_cfg->lldp_cfg] that the optional TLVs read (the
    record [pnet_cfg_t] above holds what the mandatory TLVs read). *)
Record pnet_lldp_cfg_t := mk_lldp_cfg {
  rtclass_2_status : Z;
  rtclass_3_status : Z;
  cap_aneg : Z;
  cap_phy : Z;
  mau_type : Z;
}.

(** [pf_lldp_pnio_header]; [len] is a [uint8_t] argument. *)
Definition pf_lldp_pnio_header (w : list Z * Z) (len : Z)
  : option (list Z * Z) :=
  let len := uint8 len in
  w ← pf_lldp_tlv_header w LLDP_TYPE_ORG_SPEC (len + 3);
  w ← pf_put_byte 0x00 PF_FRAME_BUFFER_SIZE w;
  w ← pf_put_byte 0x0e PF_FRAME_BUFFER_SIZE w;
  pf_put_byte 0xcf PF_FRAME_BUFFER_SIZE w.

(** [pf_lldp_ieee_header] *)
Definition pf_lldp_ieee_header (w : list Z * Z) (len : Z)
  : option (list Z * Z) :=
  let len := uint8 len in
  w ← pf_lldp_tlv_header w LLDP_TYPE_ORG_SPEC (len + 3);
  w ← pf_put_byte 0x00 PF_FRAME_BUFFER_SIZE w;
  w ← pf_put_byte 0x12 PF_FRAME_BUFFER_SIZE w;
  pf_put_byte 0x0f PF_FRAME_BUFFER_SIZE w.

(** [lldp_add_port_status] *)
Definition lldp_add_port_status (lldp_cfg : pnet_lldp_cfg_t) (w : list Z * Z)
  : option (list Z * Z) :=
  w ← pf_lldp_pnio_header w 5;
  w ← pf_put_byte LLDP_PNIO_SUBTYPE_PORT_STATUS PF_FRAME_BUFFER_SIZE w;
  w ← pf_put_uint16 true (rtclass_2_status lldp_cfg) PF_FRAME_BUFFER_SIZE w;
  pf_put_uint16 true (rtclass_3_status lldp_cfg) PF_FRAME_BUFFER_SIZE w.

(** [lldp_add_chassis_mac] *)
Definition lldp_add_chassis_mac (p_cfg : pnet_cfg_t) (w : list Z * Z)
  : option (list Z * Z) :=
  w ← pf_lldp_pnio_header w (1 + sizeof_pnet_ethaddr_t);
  '(b, pos) ← pf_put_byte LLDP_PNIO_SUBTYPE_INTERFACE_MAC
                PF_FRAME_BUFFER_SIZE w;
  b ← memcpy b pos (eth_addr p_cfg) sizeof_pnet_ethaddr_t;
  Some (b, uint16 (pos + sizeof_pnet_ethaddr_t)).

(** [lldp_add_ieee_mac_phy] *)
Definition lldp_add_ieee_mac_phy (lldp_cfg : pnet_lldp_cfg_t) (w : list Z * Z)
  : option (list Z * Z) :=
  w ← pf_lldp_ieee_header w 6;
  w ← pf_put_byte LLDP_IEEE_SUBTYPE_MACPHY_CONFIG PF_FRAME_BUFFER_SIZE w;
  w ← pf_put_byte (cap_aneg lldp_cfg) PF_FRAME_BUFFER_SIZE w;
  w ← pf_put_uint16 true (cap_phy lldp_cfg) PF_FRAME_BUFFER_SIZE w;
  pf_put_uint16 true (mau_type lldp_cfg) PF_FRAME_BUFFER_SIZE w.

(** [lldp_add_management]; [ipaddr] is the address that
    [pf_cmina_get_ipaddr] stores. *)
Definition lldp_add_management (ipaddr : Z) (w : list Z * Z)
  : option (list Z * Z) :=
  w ← pf_lldp_tlv_header w LLDP_TYPE_MANAGEMENT 12;
  w ← pf_put_byte (1 + 4) PF_FRAME_BUFFER_SIZE w;
  w ← pf_put_byte 1 PF_FRAME_BUFFER_SIZE w;
  w ← pf_put_uint32 true ipaddr PF_FRAME_BUFFER_SIZE w;
  w ← pf_put_byte 1 PF_FRAME_BUFFER_SIZE w;
  w ← pf_put_uint32 true 0 PF_FRAME_BUFFER_SIZE w;
  pf_put_byte 0 PF_FRAME_BUFFER_SIZE w.

(** What the transmitter of the LLDP engine calls besides the functions
    of [os_env]: the address that [pf_cmina_get_ipaddr] stores and the
    value that [os_eth_lldp_send] returns for a buffer. *)
Record lldp_env := mk_lldp_env {
  pf_cmina_get_ipaddr : Z;
  os_eth_lldp_send : os_buf_t -> Z;
}.

(** The calls of the transmitter: those of [os_event], and
    [os_eth_lldp_send] with the bytes of the frame. *)
Inductive lldp_event :=
| Ev_os (e : os_event)
| Ev_os_eth_lldp_send (frame : list Z).

(** The body of [pf_lldp_send] that fills the payload [p_buf] of the
    buffer: Ethernet header, the TLVs and the end marker.  The result is
    the payload and [pos]. *)
Definition pf_lldp_send_fill (p_cfg : pnet_cfg_t) (lldp_cfg : pnet_lldp_cfg_t)
    (ipaddr : Z) (p_buf : list Z) : option (list Z * Z) :=
  let pos := 0 in
  '(b, pos) ← pf_put_mem lldp_dst_addr (Z.of_nat (length lldp_dst_addr))
                PF_FRAME_BUFFER_SIZE (p_buf, pos);
  b ← memcpy b pos (eth_addr p_cfg) sizeof_pnet_ethaddr_t;
  let pos := uint16 (pos + sizeof_pnet_ethaddr_t) in
  w ← pf_put_uint16 true OS_ETHTYPE_LLDP PF_FRAME_BUFFER_SIZE (b, pos);
  w ← lldp_add_chassis_id_tlv p_cfg w;
  w ← lldp_add_port_id_tlv p_cfg w;
  w ← lldp_add_ttl_tlv p_cfg w;
  w ← lldp_add_port_status lldp_cfg w;
  w ← lldp_add_chassis_mac p_cfg w;
  w ← lldp_add_ieee_mac_phy lldp_cfg w;
  w ← lldp_add_management ipaddr w;
  pf_lldp_tlv_header w LLDP_TYPE_END 0.

(** [pf_lldp_send].  [p_cfg] and [lldp_cfg] are the configuration that
    [pf_fspm_get_cfg] hands out.  The payload of a buffer of the model
    is never a null pointer. *)
Definition pf_lldp_send (env : os_env) (lenv : lldp_env) (net : pnet_t)
    (p_cfg : pnet_cfg_t) (lldp_cfg : pnet_lldp_cfg_t)
  : option (pnet_t * list lldp_event) :=
  if not_send_LLDP_Frames net then Some (net, [])
  else
    let ev0 := [Ev_os (Ev_os_buf_alloc PF_FRAME_BUFFER_SIZE)] in
    match os_buf_alloc env PF_FRAME_BUFFER_SIZE with
    | None => Some (net, ev0)
    | Some p_lldp_buffer =>
        '(b, pos) ← pf_lldp_send_fill p_cfg lldp_cfg
                      (pf_cmina_get_ipaddr lenv) (payload p_lldp_buffer);
        let p_lldp_buffer := mk_os_buf b pos in
        let ev1 := [Ev_os_eth_lldp_send (take (Z.to_nat pos) b)] in
        let net :=
          if os_eth_lldp_send lenv p_lldp_buffer <=? 0
          then set_interface_statistics (uint32 (ifOutErrors net + 1))
                 (ifOutOctects net) net
          else set_interface_statistics (ifOutErrors net)
                 (uint32 (ifOutOctects net + 1)) net in
        Some (net, ev0 ++ ev1 ++ [Ev_os (Ev_os_buf_free (Some p_lldp_buffer))])
    end.

(** [pf_lldp_timer_cb], the callback of the broadcast timer
    [net->eth_handle->lldpBroadcastTimer], which is the timer that runs
    it. *)
Definition pf_lldp_timer_cb (env : os_env) (lenv : lldp_env) (net : pnet_t)
    (p_cfg : pnet_cfg_t) (lldp_cfg : pnet_lldp_cfg_t)
    (lldpBroadcastTimer : os_timer_t)
  : option (pnet_t * os_timer_t * list lldp_event) :=
  if negb (not_send_LLDP_Frames net)
  then
    '(net, ev) ← pf_lldp_send env lenv net p_cfg lldp_cfg;
    Some (net, lldpBroadcastTimer,
          ev ++ [Ev_os (Ev_os_timer_start lldpBroadcastTimer)])
  else
    Some (net,
          mk_os_timer (us lldpBroadcastTimer) true
            (timerid lldpBroadcastTimer),
          []).


(** * Specification-side definitions *)

(** [new] is [old] with at most bit [n] changed. *)
Definition differs_at_most_in_bit (n old new : Z) : Prop :=
  forall i, i <> n -> Z.testbit new i = Z.testbit old i.

(** [ar'] is [ar] with nothing changed but the data status of the PPM of
    the IOCR [crep], which is [ds]. *)
Definition only_data_status_changed (crep : nat) (ds : Z) (ar ar' : pf_ar_t)
  : Prop :=
  in_use ar' = in_use ar /\ err_cls ar' = err_cls ar
  /\ err_code ar' = err_code ar
  /\ cm_initiator_mac_add ar' = cm_initiator_mac_add ar
  /\ cm_responder_mac_add ar' = cm_responder_mac_add ar
  /\ length (iocrs ar') = length (iocrs ar)
  /\ (forall j, j <> crep -> iocrs ar' !! j = iocrs ar !! j)
  /\ (exists c, iocrs ar !! crep = Some c
        /\ iocrs ar' !! crep
           = Some (mk_iocr (param c) (in_length c)
                     (set_data_status ds (ppm c)))).

(** The cycle counter as the specification words it: with the time [t] in
    microseconds, [raw = t*4/125] and [ratio = scf*rr], it is [ratio]
    when [raw < ratio] and [raw - raw mod ratio] otherwise. *)
Definition spec_cycle_counter (t scf rr : Z) : Z :=
  let raw := t * 4 / 125 in
  let ratio := scf * rr in
  if raw <? ratio then ratio else raw - raw mod ratio.

(** The number of stack ticks as the specification words it. *)
Definition spec_stack_ticks (wanted_delay stack_cycle_time : Z) : Z :=
  if 2 * wanted_delay <=? 3 * stack_cycle_time then 1
  else (wanted_delay + stack_cycle_time / 2) / stack_cycle_time.

(** The delay as the specification words it, for the two schedulers. *)
Definition spec_compensated_delay (rtos : bool)
    (wanted_delay stack_cycle_time : Z) : Z :=
  let ticks := spec_stack_ticks wanted_delay stack_cycle_time in
  if rtos then ticks * stack_cycle_time
  else ticks * stack_cycle_time - stack_cycle_time / 2.

(** The frames handed to [os_eth_send] in a trace. *)
Definition sent_frames (ev : list os_event) : list (list Z) :=
  omap (fun e => match e with Ev_os_eth_send f => Some f | _ => None end) ev.

(** ** The end-to-end scenario of the specification

    An IOCR with a send clock factor of 32, a reduction ratio of 1, 40
    bytes of data, VLAN 0 with priority 6 and frame id 0x8001, in an AR
    between the initiator AA:BB:CC:DD:EE:01 and the responder
    11:22:33:44:55:66. *)

Definition scenario_param : pf_iocr_param_t :=
  mk_iocr_param PF_IOCR_TYPE_INPUT 0x8001 40 32 1 (mk_tag_header 6 0).

Definition scenario_ppm : pf_ppm_t :=
  mk_ppm PF_PPM_STATE_W_START 0 0 false 0 (replicate 6 0) (replicate 6 0)
    None false 0 0 0 0 0 0 0 0 0 0 (replicate 1522 0) false 0 0 0 None.

Definition scenario_iocr : pf_iocr_t := mk_iocr scenario_param 40 scenario_ppm.

Definition scenario_ar : pf_ar_t :=
  mk_ar true (PNET_ERROR_CODE_1_OTHER 0) (PNET_ERROR_CODE_2_OTHER 0)
    [0xAA; 0xBB; 0xCC; 0xDD; 0xEE; 0x01] [0x11; 0x22; 0x33; 0x44; 0x55; 0x66]
    [scenario_iocr].

Definition scenario_peer : pf_lldp_peer_cfg_t :=
  mk_peer_cfg (replicate 256 0) 0 (replicate 256 0) 0
    (mk_peer_delay 0 0 0 0 0) (replicate 4 0) (replicate 6 0)
    (mk_peer_macphy 0 0 [0; 0] 0) 0 None.

(** A stack instance before [pf_ppm_init]: no mutex, a stack tick of one
    millisecond. *)
Definition scenario_net : pnet_t :=
  mk_pnet 0 None 1000 0 0 [scenario_ar] (replicate 256 0) (replicate 256 0)
    scenario_peer false.

(** An outside where every call succeeds, at the time [now]; a fresh
    buffer is filled with 0xEE. *)
Definition scenario_env (rtos : bool) (now : Z) : os_env :=
  mk_os_env rtos now 1
    (fun n => Some (mk_os_buf (replicate (Z.to_nat n) 0xEE) n))
    (fun period _ => Some (mk_os_timer period false 7))
    (fun _ => (0, 3))
    (fun b => len b)
    (fun _ _ => 0)
    (fun _ _ => 0).

(** The frames of the first timer tick at the time [now], after an
    activation at the time 0. *)
Definition scenario_first_tick (rtos : bool) (now : Z)
  : option (list (list Z)) :=
  '(net, ar, _, _) ← pf_ppm_activate_req (scenario_env rtos 0) scenario_net
                       scenario_ar 0;
  '(_, _, ev) ← pf_ppm_wdtimer_event (scenario_env rtos now) net ar 0;
  Some (sent_frames ev).

(** ** Sequences of calls of the PPM interface *)

Inductive ppm_call :=
| Call_pf_ppm_init
| Call_pf_ppm_activate_req (crep : nat)
| Call_pf_ppm_close_req (crep : nat).

Definition ppm_call_step (env : os_env) (s : pnet_t * pf_ar_t) (c : ppm_call)
  : option (pnet_t * pf_ar_t) :=
  let '(net, ar) := s in
  match c with
  | Call_pf_ppm_init => Some (pf_ppm_init net, ar)
  | Call_pf_ppm_activate_req crep =>
      '(net, ar, _, _) ← pf_ppm_activate_req env net ar crep; Some (net, ar)
  | Call_pf_ppm_close_req crep =>
      '(net, ar, _, _) ← pf_ppm_close_req env net ar crep; Some (net, ar)
  end.

Fixpoint ppm_calls (env : os_env) (s : pnet_t * pf_ar_t) (cs : list ppm_call)
  : option (pnet_t * pf_ar_t) :=
  match cs with
  | [] => Some s
  | c :: cs => s ← ppm_call_step env s c; ppm_calls env s cs
  end.

(** Some PPM instance of the AR is active. *)
Definition some_ppm_active (ar : pf_ar_t) : bool :=
  existsb (fun c => match state (ppm c) with
                    | PF_PPM_STATE_RUN => true
                    | PF_PPM_STATE_W_START => false
                    end) (iocrs ar).

(** The AR of the scenario with its PPM instance in the state RUN. *)
Definition scenario_running_ar : pf_ar_t :=
  set_iocr_ppm 0 (set_state PF_PPM_STATE_RUN scenario_ppm) scenario_ar.

(** The mutex exists exactly when the instance counter is positive. *)
Definition ppm_buf_lock_invariant (net : pnet_t) : Prop :=
  ppm_buf_lock net <> None <-> 0 < ppm_instance_cnt net.

(** The 20 bytes that [pf_ppm_init_buf] lays down: destination and source
    MAC address, the VLAN tag, the EtherType of PROFINET and the frame
    id. *)
Definition ppm_frame_header (p_ppm : pf_ppm_t) (frame_id : Z)
    (p_header : pf_iocr_tag_header_t) : list Z :=
  da p_ppm ++ sa p_ppm ++ htons_bytes OS_ETHTYPE_VLAN
  ++ htons_bytes
       (uint16 (Z.lor (uint16 (Z.land (vlan_id p_header) 0x0FFF))
                  (Z.shiftl (Z.land (iocr_user_priority p_header) 0x0007) 13)))
  ++ htons_bytes OS_ETHTYPE_PROFINET ++ htons_bytes frame_id.


(** The timer that [pf_ppm_activate_req] asks for is granted. *)
Definition activation_timer_ok (env : os_env) (delay : Z) : Prop :=
  if PNET_OS_RTOS_SUPPORTED env
  then is_Some (os_timer_create env delay false)
  else (pf_scheduler_add env delay).1 = 0.

(** The control interval in microseconds of a send clock factor and a
    reduction ratio. *)
Definition spec_control_interval (scf rr : Z) : Z := scf * rr * 1000 / 32.

(** What [pf_ppm_activate_req] leaves in the PPM record [p'] of an IOCR
    with the parameters [prm], a fresh buffer [buf0] and the staging
    buffer and counters of the record [p] before the call. *)
Definition activated_ppm (rtos : bool) (tick : Z) (prm : pf_iocr_param_t)
    (sa' da' : list Z) (buf0 : os_buf_t) (p p' : pf_ppm_t) : Prop :=
  state p' = PF_PPM_STATE_RUN
  /\ ci_running p' = true
  /\ first_transmit p' = false
  /\ sa p' = sa' /\ da p' = da'
  /\ buffer_pos p' = 20
  /\ cycle_counter_offset p' = 20 + c_sdu_length prm
  /\ data_status_offset p' = 22 + c_sdu_length prm
  /\ transfer_status_offset p' = 23 + c_sdu_length prm
  /\ buffer_length p' = 24 + c_sdu_length prm
  /\ data_status p' = 0x25
  /\ transfer_status p' = 0
  /\ send_clock_factor p' = param_send_clock_factor prm
  /\ reduction_ratio p' = param_reduction_ratio prm
  /\ control_interval p'
     = spec_control_interval (param_send_clock_factor prm)
         (param_reduction_ratio prm)
  /\ compensated_control_interval p'
     = spec_compensated_delay rtos (control_interval p') tick
  /\ buffer_data p' = buffer_data p
  /\ trx_cnt p' = trx_cnt p
  /\ (rtos = true -> is_Some (rt_timer p'))
  /\ p_send_buffer p'
     = Some (mk_os_buf
               (ppm_frame_header p' (frame_id prm) (iocr_tag_header prm)
                ++ replicate (Z.to_nat (4 + c_sdu_length prm)) 0
                ++ drop (Z.to_nat (24 + c_sdu_length prm)) (payload buf0))
               (24 + c_sdu_length prm)).

(** ** C strings and the alias of the peer *)

(** The array [arr] holds the string [s]: the bytes of [s], none of which
    is NUL, then a NUL. *)
Definition is_cstring_of (arr s : list Z) : Prop :=
  Forall (fun c => c <> 0) s /\ exists junk, arr = s ++ 0 :: junk.

(** The character [c] occurs in the string [s]. *)
Definition has_char (c : Z) (s : list Z) : bool := existsb (Z.eqb c) s.

(** The alias as the specification words it: the Port ID when it
    contains a '.', and otherwise the Port ID, a '.' and the Chassis ID. *)
Definition spec_alias (port_id chassis_id : list Z) : list Z :=
  if has_char 46 port_id then port_id else port_id ++ [46] ++ chassis_id.

(** The bytes of a TLV with the type [typ] and the value [v]. *)
Definition tlv_bytes (typ : Z) (v : list Z) : list Z :=
  htons_bytes (Z.shiftl typ 9 + Z.of_nat (length v)) ++ v.

(** ** The remote-mismatch alarm *)

(** The diagnosis item of the specification: APPEARS with the channel,
    submodule and AR diagnosis bits set when the alias names differ,
    DISAPPEARS with the bits cleared otherwise. *)
Definition spec_remote_mismatch_item (differ : bool) : pf_diag_item_t :=
  mk_diag_item (mk_alarm_spec differ false differ differ)
    PF_USI_EXTENDED_CHANNEL_DIAGNOSIS PF_USI_CHANNEL_DIAGNOSIS
    (if differ then PNET_DIAG_CH_PROP_SPEC_APPEARS
     else PNET_DIAG_CH_PROP_SPEC_DISAPPEARS)
    PF_WRT_ERROR_REMOTE_MISMATCH PF_WRT_ERROR_PORTID_MISMATCH 0 0 0.

(** The calls for one AR as the specification has them: the update first, the add
    whenever the update fails, then the notification. *)
Definition spec_remote_mismatch_calls_stated (env : os_env) (differ : bool)
    (ix : nat) : list os_event :=
  let item := spec_remote_mismatch_item differ in
  [Ev_pf_diag_update ix item]
  ++ (if negb (pf_diag_update env ix item =? 0)
      then [Ev_pf_diag_add ix item] else [])
  ++ [Ev_pf_alarm_send_port_change_notification ix item].

(** The calls for one AR as the code makes them: the add only follows a
    failed update of an appearing diagnosis. *)
Definition spec_remote_mismatch_calls (env : os_env) (differ : bool)
    (ix : nat) : list os_event :=
  let item := spec_remote_mismatch_item differ in
  [Ev_pf_diag_update ix item]
  ++ (if differ && negb (pf_diag_update env ix item =? 0)
      then [Ev_pf_diag_add ix item] else [])
  ++ [Ev_pf_alarm_send_port_change_notification ix item].

(** An outside in which [pf_diag_update] fails. *)
Definition failing_update_env : os_env :=
  mk_os_env true 0 1
    (fun n => Some (mk_os_buf (replicate (Z.to_nat n) 0xEE) n))
    (fun period _ => Some (mk_os_timer period false 7))
    (fun _ => (0, 3))
    (fun b => len b)
    (fun _ _ => -1)
    (fun _ _ => 0).

(** ** The TTL through the codec *)

(** The frame that the frame builder makes of a TTL TLV and the end
    marker, in a fresh buffer. *)
Definition lldp_ttl_frame (t : Z) : option (list Z) :=
  w ← lldp_add_ttl_tlv (mk_pnet_cfg [0] [0] t (replicate 6 0))
        (replicate (Z.to_nat PF_FRAME_BUFFER_SIZE) 0, 0);
  '(b, pos) ← pf_lldp_tlv_header w LLDP_TYPE_END 0;
  Some (take (Z.to_nat pos) b).

(** The TTL of the peer record after [pf_lldp_recv] has read that
    frame. *)
Definition lldp_ttl_roundtrip (t : Z) : option Z :=
  f ← lldp_ttl_frame t;
  '(net, _) ← pf_lldp_recv (scenario_env true 0) 256 scenario_net f 0;
  Some (TTL (lldp_peer_cfg net)).

(** The identifiers of the LLDP scenarios, in ASCII. *)
Definition ascii_port_003 : list Z := [112; 111; 114; 116; 45; 48; 48; 51].
Definition ascii_dut : list Z := [100; 117; 116].
Definition ascii_peer : list Z := [112; 101; 101; 114].
Definition ascii_port_003_dut : list Z :=
  [112; 111; 114; 116; 45; 48; 48; 51; 46; 100; 117; 116].

(** The temporary alias name after [pf_lldp_recv] has read a frame made
    of a Chassis ID TLV, a Port ID TLV (both of subtype 7) and the end
    marker. *)
Definition scenario_alias (chassis port : list Z) : option (list Z) :=
  '(net, _) ← pf_lldp_recv (scenario_env true 0) 256 scenario_net
                (tlv_bytes LLDP_TYPE_CHASSIS_ID (7 :: chassis)
                 ++ tlv_bytes LLDP_TYPE_PORT_ID (7 :: port) ++ [0; 0]) 0;
  Some (cstr (temp_alias_name net)).
(** ** Preconditions of the further properties *)

(** The PPM of the IOCR [c] is running and its send buffer [buf] has
    room for what [pf_ppm_finish_buffer] writes: [in_length c] bytes of
    data at [buffer_pos], then the cycle counter, the data status and
    the transfer status, in this order; the cycle is not 0. *)
Definition ppm_ready_to_send (c : pf_iocr_t) (buf : os_buf_t) : Prop :=
  let p := ppm c in
  ci_running p = true
  /\ p_send_buffer p = Some buf
  /\ uint16 (send_clock_factor p * reduction_ratio p) <> 0
  /\ 0 <= in_length c <= Z.of_nat (length (buffer_data p))
  /\ 0 <= buffer_pos p <= cycle_counter_offset p
  /\ buffer_pos p + in_length c <= Z.of_nat (length (payload buf))
  /\ cycle_counter_offset p + 2 <= data_status_offset p
  /\ data_status_offset p + 1 <= transfer_status_offset p
  /\ transfer_status_offset p + 1 <= Z.of_nat (length (payload buf)).

(** The re-arming of the timer in [pf_ppm_send] succeeds with the call
    [e]: the timer of the RTOS exists and is started, or the scheduler
    accepts the compensated control interval. *)
Definition ppm_rearm_ok (env : os_env) (p : pf_ppm_t) (e : os_event) : Prop :=
  if PNET_OS_RTOS_SUPPORTED env
  then exists tm, rt_timer p = Some tm /\ e = Ev_os_timer_start tm
  else (pf_scheduler_add env (compensated_control_interval p)).1 = 0
       /\ e = Ev_pf_scheduler_add (compensated_control_interval p).

(** The re-arming fails: there is no timer, or the scheduler refuses;
    [ev] are the calls made for it. *)
Definition ppm_rearm_refused (env : os_env) (p : pf_ppm_t)
    (ev : list os_event) : Prop :=
  if PNET_OS_RTOS_SUPPORTED env
  then rt_timer p = None /\ ev = []
  else (pf_scheduler_add env (compensated_control_interval p)).1 <> 0
       /\ ev = [Ev_pf_scheduler_add (compensated_control_interval p)].

(** The instance counter after a sequence of calls of the PPM
    interface, [None] when a call would take the counter below 0 or up
    to 2^32, or when [pf_ppm_init] comes while instances are active. *)
Fixpoint ppm_counter_after (cnt : Z) (cs : list ppm_call) : option Z :=
  match cs with
  | [] => Some cnt
  | Call_pf_ppm_init :: cs =>
      if cnt =? 0 then ppm_counter_after 0 cs else None
  | Call_pf_ppm_activate_req _ :: cs =>
      if cnt <? 2 ^ 32 - 1 then ppm_counter_after (cnt + 1) cs else None
  | Call_pf_ppm_close_req _ :: cs =>
      if 0 <? cnt then ppm_counter_after (cnt - 1) cs else None
  end.

(** ** The scenario after the activation

    The stack instance, the AR, the IOCR and the send buffer that the
    activation of the scenario leaves behind, with the cooperative
    scheduler, at the time 0. *)

Definition scenario_active : pnet_t * pf_ar_t :=
  match pf_ppm_activate_req (scenario_env false 0) scenario_net scenario_ar 0
  with
  | Some (net, ar, _, _) => (net, ar)
  | None => (scenario_net, scenario_ar)
  end.

Definition scenario_active_iocr : pf_iocr_t :=
  default scenario_iocr (iocrs scenario_active.2 !! 0%nat).

Definition scenario_active_buf : os_buf_t :=
  default (mk_os_buf [] 0) (p_send_buffer (ppm scenario_active_iocr)).

(** An outside like [scenario_env], where the driver sends nothing. *)
Definition failing_send_env (rtos : bool) : os_env :=
  mk_os_env rtos 0 1
    (fun n => Some (mk_os_buf (replicate (Z.to_nat n) 0xEE) n))
    (fun period _ => Some (mk_os_timer period false 7))
    (fun _ => (0, 3))
    (fun _ => 0)
    (fun _ _ => 0)
    (fun _ _ => 0).

(** The timer that [pf_ppm_activate_req] asks for is refused. *)
Definition activation_timer_refused (env : os_env) (delay : Z) : Prop :=
  if PNET_OS_RTOS_SUPPORTED env
  then os_timer_create env delay false = None
  else (pf_scheduler_add env delay).1 <> 0.

(** An outside like [scenario_env], where no timer is to be had. *)
Definition failing_timer_env (rtos : bool) : os_env :=
  mk_os_env rtos 0 1
    (fun n => Some (mk_os_buf (replicate (Z.to_nat n) 0xEE) n))
    (fun _ _ => None)
    (fun _ => (-1, 0))
    (fun b => len b)
    (fun _ _ => 0)
    (fun _ _ => 0).

(** No call of [ev] frees a buffer. *)
Definition frees_no_buffer (ev : list os_event) : Prop :=
  Forall (fun e => match e with Ev_os_buf_free _ => False | _ => True end) ev.

(** ** The data path: preconditions and a scenario *)

(** The regions of the descriptor [d] lie inside a staging buffer of
    [n] bytes, and the lengths fit the types of the arguments of the
    setters ([uint16_t] for the data, [uint8_t] for IOPS and IOCS). *)
Definition iodata_in_buffer (d : pf_iodata_object_t) (n : nat) : Prop :=
  0 <= data_offset d /\ 0 <= data_length d < 2 ^ 16
  /\ data_offset d + data_length d <= Z.of_nat n
  /\ 0 <= iops_offset d /\ 0 <= iops_length d < 2 ^ 8
  /\ iops_offset d + iops_length d <= Z.of_nat n
  /\ 0 <= iocs_offset d /\ 0 <= iocs_length d < 2 ^ 8
  /\ iocs_offset d + iocs_length d <= Z.of_nat n.

(** The regions [off, off + n) and [off', off' + n') do not overlap. *)
Definition regions_apart (off n off' n' : Z) : Prop :=
  off + n <= off' \/ off' + n' <= off.

(** The byte [i] of a buffer lies outside of [off, off + n). *)
Definition outside_region (i : nat) (off n : Z) : Prop :=
  Z.of_nat i < off \/ off + n <= Z.of_nat i.

(** The running AR of the scenario with one sub-slot (API 0, slot 1,
    sub-slot 1): 8 bytes of data at the offset 0 of the staging buffer,
    its IOPS at the offset 8, the IOCS at the offset 9. *)
Definition scenario_iodata : pf_iodata_object_t :=
  mk_iodata true 0 1 1 0 8 8 1 9 1 false.

Definition scenario_ar_data : pf_ar_data_t :=
  mk_ar_data scenario_active.2 1 [mk_iocr_desc 1 [scenario_iodata]].

(** No descriptor of the IOCR [crep] that the search looks at (the IOCR
    has a provider, the index lies below [nbr_data_desc]) is in use with
    the address looked for. *)
Definition no_match_in_iocr (api slot subslot : Z) (a : pf_ar_data_t)
    (crep : nat) : Prop :=
  forall c dd ix d,
    iocrs (ar_rec a) !! crep = Some c -> is_provider_iocr c = true ->
    iocr_desc a !! crep = Some dd ->
    (ix < Z.to_nat (nbr_data_desc dd))%nat ->
    data_desc dd !! ix = Some d ->
    iodata_matches api slot subslot d = false.

(** ** The LLDP frame *)

(** The block writer behind the bytes [A] of a buffer whose rest is
    [R]. *)
Definition writer_at (A R : list Z) : list Z * Z :=
  (A ++ R, Z.of_nat (length A)).

(** The four bytes of a 32-bit value, most significant first. *)
Definition htonl_bytes (v : Z) : list Z :=
  [uint8 (Z.shiftr v 24); uint8 (Z.shiftr v 16); uint8 (Z.shiftr v 8);
   uint8 v].

(** The TLVs of an LLDP frame of the device: Chassis ID (the station
    name [ch], or the MAC address when there is no name), Port ID [pt],
    TTL, the PROFINET port status and chassis MAC, the IEEE 802.3
    MAC/PHY configuration, the management address and the end marker. *)
Definition spec_lldp_tlvs (mac ch pt : list Z) (ttl_s : Z)
    (o : pnet_lldp_cfg_t) (ipaddr : Z) : list Z :=
  (match ch with
   | [] => tlv_bytes LLDP_TYPE_CHASSIS_ID (LLDP_SUBTYPE_CHASSIS_ID_MAC :: mac)
   | _ => tlv_bytes LLDP_TYPE_CHASSIS_ID (LLDP_SUBTYPE_CHASSIS_ID_NAME :: ch)
   end)
  ++ tlv_bytes LLDP_TYPE_PORT_ID (LLDP_SUBTYPE_PORT_ID_LOCAL :: pt)
  ++ tlv_bytes LLDP_TYPE_TTL (htons_bytes ttl_s)
  ++ tlv_bytes LLDP_TYPE_ORG_SPEC
       ([0x00; 0x0e; 0xcf; 2] ++ htons_bytes (rtclass_2_status o)
        ++ htons_bytes (rtclass_3_status o))
  ++ tlv_bytes LLDP_TYPE_ORG_SPEC ([0x00; 0x0e; 0xcf; 5] ++ mac)
  ++ tlv_bytes LLDP_TYPE_ORG_SPEC
       ([0x00; 0x12; 0x0f; 1; uint8 (cap_aneg o)]
        ++ htons_bytes (cap_phy o) ++ htons_bytes (mau_type o))
  ++ tlv_bytes LLDP_TYPE_MANAGEMENT
       ([5; 1] ++ htonl_bytes ipaddr ++ [1; 0; 0; 0; 0; 0])
  ++ tlv_bytes LLDP_TYPE_END [].

(** The whole frame: the LLDP multicast address, the MAC address of the
    device, the EtherType 0x88CC and the TLVs. *)
Definition spec_lldp_frame (mac ch pt : list Z) (ttl_s : Z)
    (o : pnet_lldp_cfg_t) (ipaddr : Z) : list Z :=
  lldp_dst_addr ++ mac ++ htons_bytes OS_ETHTYPE_LLDP
  ++ spec_lldp_tlvs mac ch pt ttl_s o ipaddr.

(** The configuration of the LLDP scenario: the station "dut", the port
    "port-003", a TTL of 20 seconds, the MAC address
    11:22:33:44:55:66. *)
Definition scenario_cfg : pnet_cfg_t :=
  mk_pnet_cfg (ascii_dut ++ replicate 237 0) (ascii_port_003 ++ replicate 232 0)
    20 [0x11; 0x22; 0x33; 0x44; 0x55; 0x66].

Definition scenario_lldp_cfg : pnet_lldp_cfg_t := mk_lldp_cfg 0 0 3 0x6c00 0x10.

(** The address 192.168.1.50; the driver sends every frame. *)
Definition scenario_lldp_env : lldp_env :=
  mk_lldp_env 0xC0A80132 (fun b => len b).


(** ** Walking the TLVs of a frame *)

(** [k] iterations of the loop of [pf_lldp_recv], none of them on the
    end marker or on a TLV of a type in [excl]. *)
Fixpoint lldp_recv_steps (env : os_env) (frame : list Z) (excl : list Z)
    (k : nat) (st : lldp_recv_state) : option lldp_recv_state :=
  match k with
  | O => Some st
  | S k' =>
      if existsb (Z.eqb (r_frame_type st)) (LLDP_TYPE_END :: excl) then None
      else
        st' ← pf_lldp_recv_iter env frame st;
        lldp_recv_steps env frame excl k' st'
  end.

(** The value of the TLV at which the loop stands. *)
Definition lldp_tlv_value (frame : list Z) (st : lldp_recv_state)
  : option (list Z) :=
  memread frame (r_pData st) (r_frame_len st).

(** The state of the loop of [pf_lldp_recv] after [k] iterations, for a
    frame that has that many TLVs before its end marker (and a state at
    the end marker otherwise). *)
Definition lldp_state_after (env : os_env) (sizeof_value : nat)
    (net : pnet_t) (frame : list Z) (frame_pos : Z) (k : nat)
  : lldp_recv_state :=
  default (mk_recv_state net [] LLDP_TYPE_END 0 [] 0 [])
    (st ← pf_lldp_recv_enter sizeof_value net frame frame_pos;
     lldp_recv_steps env frame [] k st).

(** The calls of the remote-mismatch alarm: the diagnosis calls and the
    port change notification. *)
Definition is_alarm_call (e : os_event) : bool :=
  match e with
  | Ev_pf_diag_update _ _ | Ev_pf_diag_add _ _
  | Ev_pf_alarm_send_port_change_notification _ _ => true
  | _ => false
  end.

(** What an iteration on a TLV that is no Port ID TLV keeps: [_Alias],
    the two alias names, the Port ID of the peer and the size of
    [_frame.value]; it makes no alarm call.  With [chassis] the Chassis
    ID of the peer is kept too. *)
Definition lldp_kept (chassis : bool) (st st' : lldp_recv_state) : Prop :=
  r_Alias st' = r_Alias st
  /\ temp_alias_name (r_net st') = temp_alias_name (r_net st)
  /\ perm_alias_name (r_net st') = perm_alias_name (r_net st)
  /\ PeerPortID (lldp_peer_cfg (r_net st'))
     = PeerPortID (lldp_peer_cfg (r_net st))
  /\ length (r_frame_value st') = length (r_frame_value st)
  /\ (exists ev, r_trace st' = r_trace st ++ ev
                 /\ existsb is_alarm_call ev = false)
  /\ (chassis = true ->
      PeerChassisID (lldp_peer_cfg (r_net st'))
      = PeerChassisID (lldp_peer_cfg (r_net st))
      /\ PeerChassisIDLen (lldp_peer_cfg (r_net st'))
         = PeerChassisIDLen (lldp_peer_cfg (r_net st))).


(** A frame with a system name TLV (type 5, no case of the [switch]),
    the Chassis ID "dut", a system description TLV (type 6), the Port ID
    "port-003", the TTL 20 and the end marker. *)
Definition walk_frame : list Z :=
  tlv_bytes 5 [120]
  ++ tlv_bytes LLDP_TYPE_CHASSIS_ID (7 :: ascii_dut)
  ++ tlv_bytes 6 [121; 122]
  ++ tlv_bytes LLDP_TYPE_PORT_ID (7 :: ascii_port_003)
  ++ tlv_bytes LLDP_TYPE_TTL [0; 20]
  ++ tlv_bytes LLDP_TYPE_END [].

(** A stack instance whose temporary alias name holds "port-003.dut". *)
Definition aliased_net : pnet_t :=
  set_temp_alias_name (ascii_port_003_dut ++ replicate 244 0) scenario_net.

(** The AR of the scenario with a descriptor that has no IOCS: 8 bytes
    of data at offset 0, one byte of IOPS at offset 8, [iocs_length] 0. *)
Definition no_iocs_iodata : pf_iodata_object_t :=
  mk_iodata true 0 1 1 0 8 8 1 9 0 false.
Definition no_iocs_ar_data : pf_ar_data_t :=
  mk_ar_data scenario_active.2 1 [mk_iocr_desc 1 [no_iocs_iodata]].

(** * Properties *)

(** ** Bits of a byte *)

Lemma BIT_spec (n i : Z) : 0 <= n -> Z.testbit (BIT n) i = (i =? n).
Proof.
  intros Hn. unfold BIT.
  destruct (Z.ltb_spec i 0) as [Hi | Hi].
  - rewrite Z.testbit_neg_r by lia. symmetry. apply Z.eqb_neq. lia.
  - rewrite Z.shiftl_spec by lia.
    destruct (Z.eqb_spec i n) as [-> | Hne].
    + now rewrite Z.sub_diag.
    + destruct (Z.ltb_spec i n).
      * apply Z.testbit_neg_r. lia.
      * replace (i - n) with (Z.succ (i - n - 1)) by lia.
        rewrite <- (Z.bits_0 (i - n - 1)).
        replace 1 with (2 * 0 + 1) at 1 by reflexivity.
        rewrite Z.testbit_odd_succ by lia. reflexivity.
Qed.

Lemma uint8_testbit (x i : Z) :
  Z.testbit (uint8 x) i = (i <? 8) && Z.testbit x i.
Proof.
  unfold uint8.
  destruct (Z.ltb_spec i 0).
  - rewrite !Z.testbit_neg_r by lia. now rewrite andb_false_r.
  - destruct (Z.ltb_spec i 8).
    + now rewrite Z.mod_pow2_bits_low by lia.
    + now rewrite Z.mod_pow2_bits_high by lia.
Qed.

Lemma uint8_range_testbit (x i : Z) :
  0 <= x < 256 -> Z.testbit x i = (i <? 8) && Z.testbit x i.
Proof.
  intros Hx. rewrite <- uint8_testbit. unfold uint8.
  now rewrite Z.mod_small by (change (2 ^ 8) with 256; lia).
Qed.

(** [ds |= BIT (n)] and [ds &= ~BIT (n)] on a byte: bit [n] takes the
    value of the flag and no other bit moves. *)
Lemma data_status_set_bit (ds n i : Z) :
  0 <= ds < 256 -> 0 <= n < 8 ->
  Z.testbit (uint8 (Z.lor ds (BIT n))) i
  = if i =? n then true else Z.testbit ds i.
Proof.
  intros Hds Hn. rewrite uint8_testbit, Z.lor_spec, BIT_spec by lia.
  rewrite (uint8_range_testbit ds i Hds).
  destruct (Z.eqb_spec i n) as [-> | ?].
  - destruct (Z.ltb_spec n 8); [|lia]. now rewrite orb_true_r.
  - rewrite orb_false_r. now destruct (i <? 8).
Qed.

Lemma data_status_clear_bit (ds n i : Z) :
  0 <= ds < 256 -> 0 <= n < 8 ->
  Z.testbit (uint8 (Z.land ds (Z.lnot (BIT n)))) i
  = if i =? n then false else Z.testbit ds i.
Proof.
  intros Hds Hn. rewrite uint8_testbit. rewrite (uint8_range_testbit ds i Hds).
  destruct (Z.ltb_spec i 0).
  - rewrite !Z.testbit_neg_r by lia. rewrite !andb_false_r.
    now destruct (i =? n).
  - rewrite Z.land_spec, Z.lnot_spec, BIT_spec by lia.
    rewrite <- (uint8_range_testbit ds i Hds).
    destruct (Z.eqb_spec i n) as [-> | ?]; simpl.
    + now rewrite andb_false_r, andb_false_r.
    + rewrite andb_true_r. rewrite (uint8_range_testbit ds i Hds) at 2.
      now destruct (i <? 8).
Qed.

Lemma data_status_flag_bit (ds n : Z) (flag : bool) :
  0 <= ds < 256 -> 0 <= n < 8 ->
  let ds' :=
    if flag then uint8 (Z.lor ds (BIT n))
    else uint8 (Z.land ds (Z.lnot (BIT n))) in
  differs_at_most_in_bit n ds ds' /\ Z.testbit ds' n = flag.
Proof.
  intros Hds Hn. destruct flag; cbv zeta; split.
  - intros i Hi. rewrite data_status_set_bit by lia.
    destruct (Z.eqb_spec i n); [lia|reflexivity].
  - rewrite data_status_set_bit by lia. now rewrite Z.eqb_refl.
  - intros i Hi. rewrite data_status_clear_bit by lia.
    destruct (Z.eqb_spec i n); [lia|reflexivity].
  - rewrite data_status_clear_bit by lia. now rewrite Z.eqb_refl.
Qed.

Lemma set_iocr_ppm_only_data_status (crep : nat) (ds : Z) (ar : pf_ar_t)
    (c : pf_iocr_t) :
  iocrs ar !! crep = Some c ->
  only_data_status_changed crep ds ar
    (set_iocr_ppm crep (set_data_status ds (ppm c)) ar).
Proof.
  intros Hc. unfold only_data_status_changed, set_iocr_ppm, set_iocrs; simpl.
  repeat split; try reflexivity.
  - apply length_alter.
  - intros j Hj. now apply list_lookup_alter_ne.
  - exists c. split; [assumption|].
    rewrite list_lookup_alter_eq, Hc. reflexivity.
Qed.

(** C10: each of [pf_ppm_set_data_status_state],
    [pf_ppm_set_data_status_redundancy] and
    [pf_ppm_set_data_status_provider] returns 0 and changes at most bit 0,
    bit 1, respectively bit 4 of the data status of the addressed IOCR
    (an existing IOCR, whose data status is a byte); the bit takes the
    value of the flag, every other bit of the data status, every other
    field of the PPM record and everything else in the AR stay as they
    were. *)
Theorem set_data_status_changes_one_bit
    (p_ar : pf_ar_t) (crep : nat) (c : pf_iocr_t) (flag : bool) :
  iocrs p_ar !! crep = Some c ->
  0 <= data_status (ppm c) < 256 ->
  (exists ds ar',
      pf_ppm_set_data_status_state p_ar crep flag = Some (ar', 0)
      /\ only_data_status_changed crep ds p_ar ar'
      /\ differs_at_most_in_bit 0 (data_status (ppm c)) ds
      /\ Z.testbit ds 0 = flag)
  /\ (exists ds ar',
      pf_ppm_set_data_status_redundancy p_ar crep flag = Some (ar', 0)
      /\ only_data_status_changed crep ds p_ar ar'
      /\ differs_at_most_in_bit 1 (data_status (ppm c)) ds
      /\ Z.testbit ds 1 = flag)
  /\ (exists ds ar',
      pf_ppm_set_data_status_provider p_ar crep flag = Some (ar', 0)
      /\ only_data_status_changed crep ds p_ar ar'
      /\ differs_at_most_in_bit 4 (data_status (ppm c)) ds
      /\ Z.testbit ds 4 = flag).
Proof.
  intros Hc Hds.
  unfold pf_ppm_set_data_status_state, pf_ppm_set_data_status_redundancy,
    pf_ppm_set_data_status_provider.
  rewrite Hc. cbn [mbind option_bind].
  repeat split.
  all: eexists; eexists.
  all: split; [reflexivity|].
  all: split; [now apply set_iocr_ppm_only_data_status|].
  all: now apply data_status_flag_bit.
Qed.

(** [lia] after the divisions and remainders were turned into their
    equations. *)
Ltac zlia := Z.div_mod_to_equations; lia.

(** ** The compensated delay *)

Lemma uint32_small (z : Z) : 0 <= z < 2 ^ 32 -> uint32 z = z.
Proof. intros H. unfold uint32. now apply Z.mod_small. Qed.

Lemma uint16_small (z : Z) : 0 <= z < 2 ^ 16 -> uint16 z = z.
Proof. intros H. unfold uint16. now apply Z.mod_small. Qed.

Lemma uint8_small (z : Z) : 0 <= z < 2 ^ 8 -> uint8 z = z.
Proof. intros H. unfold uint8. now apply Z.mod_small. Qed.

Lemma spec_stack_ticks_bounds (w s : Z) :
  0 <= w -> 0 < s ->
  1 <= spec_stack_ticks w s
  /\ spec_stack_ticks w s * s <= Z.max s (w + s / 2).
Proof.
  intros Hw Hs. unfold spec_stack_ticks.
  destruct (Z.leb_spec (2 * w) (3 * s)) as [Hle | Hgt].
  - lia.
  - assert (Hge : s <= w + s / 2) by (Z.div_mod_to_equations; lia).
    split.
    + apply Z.div_le_lower_bound; lia.
    + pose proof (Z.mul_div_le (w + s / 2) s Hs). lia.
Qed.

(** In the range where no 32-bit operation wraps and no assertion fails,
    the function returns the delay of the specification. *)
Lemma compensated_delay_value (rtos : bool) (w s : Z) :
  0 <= w < 2 ^ 32 -> 0 < s ->
  s + s / 2 < 2 ^ 32 -> w + s / 2 < 2 ^ 32 ->
  spec_stack_ticks w s < 2 ^ 31 ->
  pf_ppm_calculate_compensated_delay rtos w s
  = Some (spec_compensated_delay rtos w s).
Proof.
  intros Hw Hs Hs32 Hw32 Ht.
  destruct (spec_stack_ticks_bounds w s) as [Hlo Hhi]; [lia|lia|].
  assert (Hh : 0 <= s / 2 <= s) by zlia.
  unfold pf_ppm_calculate_compensated_delay, spec_compensated_delay.
  rewrite (uint32_small (s + s / 2)) by lia.
  assert (Htics :
    (if s + s / 2 <? w
     then if s =? 0 then None else Some (uint32 (w + s / 2) / s)
     else Some 1) = Some (spec_stack_ticks w s)).
  { unfold spec_stack_ticks.
    destruct (Z.ltb_spec (s + s / 2) w); destruct (Z.leb_spec (2 * w) (3 * s));
      try zlia.
    - destruct (Z.eqb_spec s 0); [lia|].
      now rewrite uint32_small by lia.
    - reflexivity. }
  rewrite Htics. cbn [mbind option_bind].
  change 0x80000000 with (2 ^ 31).
  destruct (Z.leb_spec 1 (spec_stack_ticks w s)); [|lia].
  destruct (Z.ltb_spec (spec_stack_ticks w s) (2 ^ 31)); [|lia].
  cbn [andb].
  set (T := spec_stack_ticks w s) in *.
  assert (HT : 0 <= T * s < 2 ^ 32) by nia.
  destruct rtos.
  - now rewrite uint32_small.
  - rewrite (uint32_small (_ * _)) by assumption.
    rewrite uint32_small; [reflexivity|].
    assert (s <= T * s) by nia. lia.
Qed.

(** C3 fails as stated: with the cooperative scheduler a wanted delay of
    0 and a stack cycle of 1000 microseconds give 500 microseconds, which
    is less than one stack cycle. *)
Lemma compensated_delay_below_one_cycle :
  ~ (forall (rtos : bool) (wanted_delay stack_cycle_time : Z),
        0 <= wanted_delay < 2 ^ 32 -> 0 < stack_cycle_time < 2 ^ 32 ->
        exists d,
          pf_ppm_calculate_compensated_delay rtos wanted_delay
            stack_cycle_time = Some d
          /\ stack_cycle_time <= d).
Proof.
  intros H. destruct (H false 0 1000) as (d & Hd & Hle); [lia|lia|].
  vm_compute in Hd. injection Hd as <-. lia.
Qed.

(** C3, amended: as long as no 32-bit operation wraps and the number of
    ticks stays below 2^31, the function returns the delay of the
    specification; the delay is at least one stack cycle with the timer
    of the RTOS and at least one stack cycle less half a cycle with the
    cooperative scheduler; and a wanted delay of at most 1.5 stack cycles
    gives exactly one tick. *)
Theorem compensated_delay_amended (rtos : bool)
    (wanted_delay stack_cycle_time : Z) :
  0 <= wanted_delay < 2 ^ 32 -> 0 < stack_cycle_time ->
  stack_cycle_time + stack_cycle_time / 2 < 2 ^ 32 ->
  wanted_delay + stack_cycle_time / 2 < 2 ^ 32 ->
  spec_stack_ticks wanted_delay stack_cycle_time < 2 ^ 31 ->
  exists d,
    pf_ppm_calculate_compensated_delay rtos wanted_delay stack_cycle_time
    = Some d
    /\ d = spec_compensated_delay rtos wanted_delay stack_cycle_time
    /\ (if rtos then stack_cycle_time <= d
        else stack_cycle_time - stack_cycle_time / 2 <= d)
    /\ (2 * wanted_delay <= 3 * stack_cycle_time ->
        spec_stack_ticks wanted_delay stack_cycle_time = 1
        /\ d = if rtos then stack_cycle_time
               else stack_cycle_time - stack_cycle_time / 2).
Proof.
  intros Hw Hs Hs32 Hw32 Ht.
  exists (spec_compensated_delay rtos wanted_delay stack_cycle_time).
  split; [now apply compensated_delay_value|].
  split; [reflexivity|].
  destruct (spec_stack_ticks_bounds wanted_delay stack_cycle_time)
    as [Hlo Hhi]; [lia|lia|].
  unfold spec_compensated_delay.
  split.
  - set (T := spec_stack_ticks wanted_delay stack_cycle_time) in *.
    destruct rtos; nia.
  - intros Hle. unfold spec_stack_ticks.
    destruct (Z.leb_spec (2 * wanted_delay) (3 * stack_cycle_time)); [|lia].
    split; [reflexivity|]. destruct rtos; lia.
Qed.

Lemma compensated_delay_amended_witness :
  (0 <= 1000 < 2 ^ 32 /\ 0 < 1000
   /\ 1000 + 1000 / 2 < 2 ^ 32
   /\ spec_stack_ticks 1000 1000 < 2 ^ 31)
  /\ exists d,
      pf_ppm_calculate_compensated_delay false 1000 1000 = Some d
      /\ d = spec_compensated_delay false 1000 1000
      /\ 1000 - 1000 / 2 <= d
      /\ (2 * 1000 <= 3 * 1000 ->
          spec_stack_ticks 1000 1000 = 1 /\ d = 1000 - 1000 / 2).
Proof.
  split.
  - repeat split; first [discriminate | reflexivity].
  - apply (compensated_delay_amended false 1000 1000);
      [lia | lia | reflexivity | reflexivity | reflexivity].
Defined.

(** ** The cycle counter *)

Lemma int32_small (z : Z) : 0 <= z < 2 ^ 31 -> int32 z = z.
Proof.
  intros H. unfold int32. rewrite Z.mod_small by lia.
  destruct (Z.ltb_spec z (2 ^ 31)); [reflexivity|lia].
Qed.

(** As long as four times the time fits into an [int32_t] (about 537
    seconds) and the ratio is a positive 16-bit value, the counter is the
    one of the specification, cut to 16 bits. *)
Lemma cycle_counter_in_range (now : Z) (p_ppm : pf_ppm_t) :
  0 <= now -> now * 4 < 2 ^ 31 ->
  0 < send_clock_factor p_ppm * reduction_ratio p_ppm < 2 ^ 16 ->
  pf_ppm_finish_buffer_cycle now p_ppm
  = Some (uint16 (spec_cycle_counter now (send_clock_factor p_ppm)
                    (reduction_ratio p_ppm))).
Proof.
  intros Hnow Hnow4 Hr.
  unfold pf_ppm_finish_buffer_cycle, spec_cycle_counter.
  set (ratio := send_clock_factor p_ppm * reduction_ratio p_ppm) in *.
  rewrite (uint32_small now) by lia.
  rewrite int32_small by lia.
  rewrite (uint16_small ratio) by lia.
  destruct (Z.eqb_spec ratio 0); [lia|].
  rewrite Z.quot_div_nonneg by lia.
  set (raw := now * 4 / 125).
  assert (Hraw : 0 <= raw) by (subst raw; apply Z.div_pos; lia).
  rewrite Z.rem_mod_nonneg by lia.
  pose proof (Z.mod_pos_bound raw ratio ltac:(lia)).
  rewrite (uint16_small (raw mod ratio)) by lia.
  reflexivity.
Qed.

(** C1 at the failing input: 536870912 microseconds after the start of
    the clock the product with 4 no longer fits into the [int32_t], the
    counter of the frame is the ratio 32 (bytes 00 20), and the counter of
    the specification is 17179840, which is 9408 in 16 bits (bytes 24
    C0). *)
Theorem cycle_counter_wraps_at_537_seconds :
  pf_ppm_finish_buffer_cycle 536870912
    (mk_ppm PF_PPM_STATE_RUN 0 0 false 0 [] [] None false 0 0 0 0 0 0 0 0 0 0
       [] true 0 32 1 None) = Some 32
  /\ spec_cycle_counter 536870912 32 1 = 17179840
  /\ uint16 (spec_cycle_counter 536870912 32 1) = 9408
  /\ (exists frame,
        scenario_first_tick true 536870912 = Some [frame]
        /\ drop 60 frame = [0x00; 0x20; 0x25; 0x00]
        /\ htons_bytes (spec_cycle_counter 536870912 32 1) = [0x24; 0xC0]).
Proof.
  split; [reflexivity|]. split; [reflexivity|]. split; [reflexivity|].
  eexists. split; [vm_compute; reflexivity|]. split; reflexivity.
Qed.

(** ** Activation of a running instance *)

(** C5: [pf_ppm_activate_req] on an instance in the state RUN returns -1,
    writes the error class PPM and the error code INVALID_STATE into the
    AR and leaves every IOCR of the AR, hence the send buffer, the staging
    buffer, the offsets and the state of the instance, as it was. *)
Theorem activate_in_run_is_rejected (env : os_env) (net : pnet_t)
    (p_ar : pf_ar_t) (crep : nat) (c : pf_iocr_t) :
  iocrs p_ar !! crep = Some c ->
  state (ppm c) = PF_PPM_STATE_RUN ->
  exists net' ar' ev,
    pf_ppm_activate_req env net p_ar crep = Some (net', ar', -1, ev)
    /\ err_cls ar' = PNET_ERROR_CODE_1_PPM
    /\ err_code ar' = PNET_ERROR_CODE_2_PPM_INVALID_STATE
    /\ iocrs ar' = iocrs p_ar
    /\ Forall (fun e => e = Ev_os_mutex_create) ev.
Proof.
  intros Hc Hst. unfold pf_ppm_activate_req.
  rewrite Hc. cbn [mbind option_bind].
  destruct (ppm_instance_cnt net =? 0); rewrite Hst.
  - do 3 eexists. split; [reflexivity|]. repeat split.
    now repeat constructor.
  - do 3 eexists. split; [reflexivity|]. repeat split. constructor.
Qed.

(** ** Closing *)

(** C9: [pf_ppm_close_req] returns 0 for every instance, whatever its
    state: [ci_running] is false and the state is W_START afterwards, the
    send buffer pointer is passed to [os_buf_free], and the instance
    counter is one less (as a 32-bit value).  The same holds for an
    instance that is in W_START because it was never activated. *)
Theorem close_is_unconditional (env : os_env) (net : pnet_t) (p_ar : pf_ar_t)
    (crep : nat) (c : pf_iocr_t) :
  iocrs p_ar !! crep = Some c ->
  exists net' ar' ev c',
    pf_ppm_close_req env net p_ar crep = Some (net', ar', 0, ev)
    /\ iocrs ar' !! crep = Some c'
    /\ ci_running (ppm c') = false
    /\ state (ppm c') = PF_PPM_STATE_W_START
    /\ In (Ev_os_buf_free (p_send_buffer (ppm c))) ev
    /\ ppm_instance_cnt net' = uint32 (ppm_instance_cnt net - 1).
Proof.
  intros Hc. unfold pf_ppm_close_req.
  rewrite Hc. cbn [mbind option_bind].
  destruct (PNET_OS_RTOS_SUPPORTED env);
    [destruct (rt_timer (set_ci_running false (ppm c)))
    |destruct (negb (ci_timer (set_ci_running false (ppm c)) =? UINT32_MAX))];
    destruct (ppm_instance_cnt net =? 1).
  all: do 4 eexists.
  all: split; [reflexivity|].
  all: split; [unfold set_iocr_ppm, set_iocrs; cbn [iocrs];
               rewrite list_lookup_alter_eq, Hc; reflexivity|].
  all: cbn.
  all: repeat split; auto.
Qed.

Lemma set_data_status_changes_one_bit_witness :
  (iocrs scenario_ar !! 0%nat = Some scenario_iocr
   /\ 0 <= data_status (ppm scenario_iocr) < 256)
  /\ exists ds ar',
      pf_ppm_set_data_status_provider scenario_ar 0 true = Some (ar', 0)
      /\ only_data_status_changed 0 ds scenario_ar ar'
      /\ differs_at_most_in_bit 4 (data_status (ppm scenario_iocr)) ds
      /\ Z.testbit ds 4 = true.
Proof.
  assert (H1 : iocrs scenario_ar !! 0%nat = Some scenario_iocr)
    by reflexivity.
  assert (H2 : 0 <= data_status (ppm scenario_iocr) < 256)
    by (split; [discriminate|reflexivity]).
  split; [split; assumption|].
  exact (proj2 (proj2
    (set_data_status_changes_one_bit scenario_ar 0 scenario_iocr true H1 H2))).
Defined.

Lemma activate_in_run_is_rejected_witness :
  (iocrs scenario_running_ar !! 0%nat
   = Some (set_ppm (set_state PF_PPM_STATE_RUN scenario_ppm) scenario_iocr)
   /\ state (set_state PF_PPM_STATE_RUN scenario_ppm) = PF_PPM_STATE_RUN)
  /\ exists net' ar' ev,
      pf_ppm_activate_req (scenario_env true 0) scenario_net
        scenario_running_ar 0 = Some (net', ar', -1, ev)
      /\ err_cls ar' = PNET_ERROR_CODE_1_PPM
      /\ err_code ar' = PNET_ERROR_CODE_2_PPM_INVALID_STATE
      /\ iocrs ar' = iocrs scenario_running_ar
      /\ Forall (fun e => e = Ev_os_mutex_create) ev.
Proof.
  split; [split; reflexivity|].
  apply (activate_in_run_is_rejected (scenario_env true 0) scenario_net
           scenario_running_ar 0
           (set_ppm (set_state PF_PPM_STATE_RUN scenario_ppm) scenario_iocr));
    reflexivity.
Defined.

Lemma close_is_unconditional_witness :
  iocrs scenario_ar !! 0%nat = Some scenario_iocr
  /\ state (ppm scenario_iocr) = PF_PPM_STATE_W_START
  /\ exists net' ar' ev c',
      pf_ppm_close_req (scenario_env false 0) scenario_net scenario_ar 0
      = Some (net', ar', 0, ev)
      /\ iocrs ar' !! 0%nat = Some c'
      /\ ci_running (ppm c') = false
      /\ state (ppm c') = PF_PPM_STATE_W_START
      /\ In (Ev_os_buf_free (p_send_buffer (ppm scenario_iocr))) ev
      /\ ppm_instance_cnt net' = uint32 (ppm_instance_cnt scenario_net - 1).
Proof.
  split; [reflexivity|]. split; [reflexivity|].
  apply (close_is_unconditional (scenario_env false 0) scenario_net
           scenario_ar 0 scenario_iocr).
  reflexivity.
Defined.

(** ** The instance counter and the mutex *)

(** An activation keeps the mutex in step with the counter, as long as
    the counter does not wrap. *)
Lemma activate_keeps_lock_invariant (env : os_env) (net net' : pnet_t)
    (ar ar' : pf_ar_t) (crep : nat) (ret : Z) (ev : list os_event) :
  0 <= ppm_instance_cnt net < 2 ^ 32 - 1 ->
  ppm_buf_lock_invariant net ->
  pf_ppm_activate_req env net ar crep = Some (net', ar', ret, ev) ->
  ppm_buf_lock_invariant net'
  /\ ppm_instance_cnt net' = ppm_instance_cnt net + 1.
Proof.
  intros Hcnt Hinv H.
  assert (Hnet : ppm_buf_lock_invariant
                   (set_ppm_instance (uint32 (ppm_instance_cnt net + 1))
                      (if ppm_instance_cnt net =? 0
                       then Some (os_mutex_create env)
                       else ppm_buf_lock net) net)
                 /\ uint32 (ppm_instance_cnt net + 1)
                    = ppm_instance_cnt net + 1).
  { rewrite uint32_small by lia. split; [|reflexivity].
    unfold ppm_buf_lock_invariant in *; cbn.
    destruct (Z.eqb_spec (ppm_instance_cnt net) 0) as [E | E].
    - split; [lia|discriminate].
    - rewrite Hinv. lia. }
  revert H. unfold pf_ppm_activate_req, pf_ppm_state_ind.
  destruct (iocrs ar !! crep) as [c|]; [|discriminate].
  cbn [mbind option_bind].
  destruct (ppm_instance_cnt net =? 0).
  all: destruct (state (ppm c)).
  all: repeat first
         [ progress cbn [mbind option_bind]
         | progress cbv beta iota zeta
         | match goal with
           | |- context [mbind _ ?x] => destruct x
           | |- context [match ?x with _ => _ end] => destruct x
           end ].
  all: intros H; try discriminate.
  all: injection H as <- _ _ _; exact Hnet.
Qed.

(** A close keeps the mutex in step with the counter, as long as the
    counter is positive. *)
Lemma close_keeps_lock_invariant (env : os_env) (net net' : pnet_t)
    (ar ar' : pf_ar_t) (crep : nat) (ret : Z) (ev : list os_event) :
  0 < ppm_instance_cnt net < 2 ^ 32 ->
  ppm_buf_lock_invariant net ->
  pf_ppm_close_req env net ar crep = Some (net', ar', ret, ev) ->
  ppm_buf_lock_invariant net'
  /\ ppm_instance_cnt net' = ppm_instance_cnt net - 1.
Proof.
  intros Hcnt Hinv. unfold pf_ppm_close_req.
  destruct (iocrs ar !! crep) as [c|]; [|discriminate].
  cbn [mbind option_bind].
  assert (Hu : uint32 (ppm_instance_cnt net - 1) = ppm_instance_cnt net - 1)
    by (apply uint32_small; lia).
  destruct (PNET_OS_RTOS_SUPPORTED env);
    [destruct (rt_timer (set_ci_running false (ppm c)))
    |destruct (negb (ci_timer (set_ci_running false (ppm c)) =? UINT32_MAX))].
  all: destruct (Z.eqb_spec (ppm_instance_cnt net) 1) as [E | E].
  all: intros H; injection H as <- _ _ _.
  all: unfold ppm_buf_lock_invariant in *; cbn; rewrite Hu.
  all: split; [|reflexivity].
  all: try (split; [congruence|lia]).
  all: rewrite Hinv; lia.
Qed.

(** C4 at the failing input: after [pf_ppm_init], an activation, a second
    activation of the same instance (which is rejected, the instance being
    in RUN) and a close, no PPM instance is active, yet the counter is 1
    and the mutex still exists. *)
Theorem rejected_activate_leaks_the_mutex :
  exists net ar,
    ppm_calls (scenario_env true 0) (scenario_net, scenario_ar)
      [Call_pf_ppm_init; Call_pf_ppm_activate_req 0;
       Call_pf_ppm_activate_req 0; Call_pf_ppm_close_req 0]
    = Some (net, ar)
    /\ some_ppm_active ar = false
    /\ ppm_instance_cnt net = 1
    /\ ppm_buf_lock net = Some 1.
Proof.
  do 2 eexists. split; [vm_compute; reflexivity|].
  repeat split.
Qed.

(** ** Memory blocks *)

Lemma memcpy_Some (dst : list Z) (off : Z) (src : list Z) (n : Z) :
  0 <= off -> 0 <= n -> n <= Z.of_nat (length src) ->
  off + n <= Z.of_nat (length dst) ->
  memcpy dst off src n
  = Some (take (Z.to_nat off) dst ++ take (Z.to_nat n) src
            ++ drop (Z.to_nat (off + n)) dst).
Proof.
  intros H1 H2 H3 H4. unfold memcpy.
  destruct (Z.leb_spec 0 off); [|lia].
  destruct (Z.leb_spec 0 n); [|lia].
  destruct (Z.leb_spec n (Z.of_nat (length src))); [|lia].
  destruct (Z.leb_spec (off + n) (Z.of_nat (length dst))); [|lia].
  reflexivity.
Qed.

Lemma memcpy_inv (dst : list Z) (off : Z) (src : list Z) (n : Z) (r : list Z) :
  memcpy dst off src n = Some r ->
  (0 <= off /\ 0 <= n /\ n <= Z.of_nat (length src)
   /\ off + n <= Z.of_nat (length dst))
  /\ r = take (Z.to_nat off) dst ++ take (Z.to_nat n) src
           ++ drop (Z.to_nat (off + n)) dst.
Proof.
  unfold memcpy.
  destruct (Z.leb_spec 0 off); [|discriminate].
  destruct (Z.leb_spec 0 n); [|discriminate].
  destruct (Z.leb_spec n (Z.of_nat (length src))); [|discriminate].
  destruct (Z.leb_spec (off + n) (Z.of_nat (length dst))); [|discriminate].
  cbn. intros [= <-]. auto.
Qed.

Lemma memcpy_length (dst : list Z) (off : Z) (src : list Z) (n : Z)
    (r : list Z) :
  memcpy dst off src n = Some r -> length r = length dst.
Proof.
  intros H. apply memcpy_inv in H as [(H1 & H2 & H3 & H4) ->].
  rewrite !length_app, !length_take, length_drop. lia.
Qed.

(** What a byte of the destination holds after [memcpy]. *)
Lemma memcpy_lookup (dst : list Z) (off : Z) (src : list Z) (n : Z)
    (r : list Z) (i : nat) :
  memcpy dst off src n = Some r ->
  r !! i = if (off <=? Z.of_nat i) && (Z.of_nat i <? off + n)
           then src !! (i - Z.to_nat off)%nat
           else dst !! i.
Proof.
  intros H. apply memcpy_inv in H as [(H1 & H2 & H3 & H4) ->].
  destruct (Z.leb_spec off (Z.of_nat i)) as [Hlo | Hlo];
    [destruct (Z.ltb_spec (Z.of_nat i) (off + n)) as [Hhi | Hhi]|]; cbn.
  - rewrite lookup_app_r by (rewrite length_take; lia).
    rewrite length_take.
    replace (i - Z.to_nat off `min` length dst)%nat
      with (i - Z.to_nat off)%nat by lia.
    rewrite lookup_app_l by (rewrite length_take; lia).
    apply lookup_take_lt. lia.
  - rewrite lookup_app_r by (rewrite length_take; lia).
    rewrite lookup_app_r by (rewrite !length_take; lia).
    rewrite lookup_drop, !length_take. f_equal. lia.
  - rewrite lookup_app_l by (rewrite length_take; lia).
    apply lookup_take_lt. lia.
Qed.

(** [memcpy] over the middle one of three adjacent blocks. *)
Lemma memcpy_block (A B C src : list Z) (off n : Z) :
  off = Z.of_nat (length A) -> n = Z.of_nat (length B) ->
  length src = length B ->
  memcpy (A ++ B ++ C) off src n = Some (A ++ src ++ C).
Proof.
  intros -> -> Hsrc.
  rewrite memcpy_Some by (rewrite ?length_app; lia).
  rewrite !Nat2Z.id.
  rewrite take_app_length.
  rewrite <- Hsrc, firstn_all, Hsrc.
  replace (Z.to_nat (Z.of_nat (length A) + Z.of_nat (length B)))
    with (length A + length B)%nat by lia.
  rewrite drop_app_add', drop_app_length by reflexivity.
  reflexivity.
Qed.

Lemma memcpy_block_front (B C src : list Z) (n : Z) :
  n = Z.of_nat (length B) -> length src = length B ->
  memcpy (B ++ C) 0 src n = Some (src ++ C).
Proof. intros Hn Hsrc. now apply (memcpy_block [] B C src). Qed.

Lemma memset_Some (dst : list Z) (off c n : Z) :
  0 <= off -> 0 <= n -> off + n <= Z.of_nat (length dst) ->
  memset dst off c n
  = Some (take (Z.to_nat off) dst ++ replicate (Z.to_nat n) c
            ++ drop (Z.to_nat (off + n)) dst).
Proof.
  intros H1 H2 H3. unfold memset.
  destruct (Z.leb_spec 0 off); [|lia].
  destruct (Z.leb_spec 0 n); [|lia].
  destruct (Z.leb_spec (off + n) (Z.of_nat (length dst))); [|lia].
  reflexivity.
Qed.

Lemma store_byte_Some (dst : list Z) (i c : Z) :
  0 <= i < Z.of_nat (length dst) ->
  store_byte dst i c = Some (<[Z.to_nat i := c]> dst).
Proof.
  intros H. unfold store_byte.
  destruct (Z.leb_spec 0 i); [|lia].
  destruct (Z.ltb_spec i (Z.of_nat (length dst))); [|lia].
  reflexivity.
Qed.

Lemma memread_Some (src : list Z) (off n : Z) :
  0 <= off -> 0 <= n -> off + n <= Z.of_nat (length src) ->
  memread src off n = Some (take (Z.to_nat n) (drop (Z.to_nat off) src)).
Proof.
  intros H1 H2 H3. unfold memread.
  destruct (Z.leb_spec 0 off); [|lia].
  destruct (Z.leb_spec 0 n); [|lia].
  destruct (Z.leb_spec (off + n) (Z.of_nat (length src))); [|lia].
  reflexivity.
Qed.

Lemma memread_all (src : list Z) (n : Z) :
  n = Z.of_nat (length src) -> memread src 0 n = Some src.
Proof.
  intros ->. rewrite memread_Some by lia.
  rewrite Nat2Z.id. change (Z.to_nat 0) with 0%nat.
  now rewrite drop_0, firstn_all.
Qed.

(** Two lists with the same first [k] entries have the same prefix. *)
Lemma take_ext (k : nat) (l l' : list Z) :
  (forall i, (i < k)%nat -> l !! i = l' !! i) -> take k l = take k l'.
Proof.
  intros H. apply list_eq. intros i.
  destruct (Nat.lt_ge_cases i k).
  - rewrite !lookup_take_lt by assumption. now apply H.
  - now rewrite !lookup_take_ge by assumption.
Qed.

(** ** The send buffer *)

(** [pf_ppm_init_buf] sets the length of the buffer, writes the header
    and clears the rest of the frame; what lies behind the frame in the
    buffer stays. *)
Lemma pf_ppm_init_buf_layout (p_ppm : pf_ppm_t) (p_buf : os_buf_t)
    (frame_id : Z) (p_header : pf_iocr_tag_header_t) :
  length (da p_ppm) = 6%nat -> length (sa p_ppm) = 6%nat ->
  20 <= buffer_length p_ppm <= Z.of_nat (length (payload p_buf)) ->
  pf_ppm_init_buf p_ppm p_buf frame_id p_header
  = Some (mk_os_buf
            (ppm_frame_header p_ppm frame_id p_header
             ++ replicate (Z.to_nat (buffer_length p_ppm - 20)) 0
             ++ drop (Z.to_nat (buffer_length p_ppm)) (payload p_buf))
            (buffer_length p_ppm)).
Proof.
  intros Hda Hsa Hlen. unfold pf_ppm_init_buf, ppm_frame_header.
  rewrite memset_Some by lia. cbn [mbind option_bind].
  change (Z.to_nat 0) with 0%nat. rewrite take_0, app_nil_l, Z.add_0_l.
  set (R := drop (Z.to_nat (buffer_length p_ppm)) (payload p_buf)).
  set (k := Z.to_nat (buffer_length p_ppm - 20)).
  replace (Z.to_nat (buffer_length p_ppm)) with (6 + (6 + (2 + (2 + (2 + (2 + k))))))%nat
    by lia.
  rewrite !replicate_add, <- !app_assoc.
  change (uint16 (0 + sizeof_pnet_ethaddr_t)) with 6.
  change (uint16 (6 + sizeof_pnet_ethaddr_t)) with 12.
  change (uint16 (12 + 2)) with 14.
  change (uint16 (14 + 2)) with 16.
  change (uint16 (16 + 2)) with 18.
  change sizeof_pnet_ethaddr_t with 6.
  rewrite (memcpy_block_front (replicate 6 0) _ (da p_ppm))
    by (rewrite ?length_replicate; first [reflexivity|assumption]).
  cbn [mbind option_bind].
  rewrite (memcpy_block (da p_ppm) (replicate 6 0) _ (sa p_ppm))
    by (rewrite ?length_replicate, ?Hda; first [reflexivity|assumption]).
  cbn [mbind option_bind].
  set (v := htons_bytes OS_ETHTYPE_VLAN).
  rewrite (app_assoc (da p_ppm) (sa p_ppm)).
  rewrite (memcpy_block (da p_ppm ++ sa p_ppm) (replicate 2 0) _ v)
    by (rewrite ?length_app, ?length_replicate, ?Hda, ?Hsa; reflexivity).
  cbn [mbind option_bind].
  set (t := htons_bytes
              (uint16 (Z.lor (uint16 (Z.land (vlan_id p_header) 0x0FFF))
                         (Z.shiftl
                            (Z.land (iocr_user_priority p_header) 0x0007)
                            13)))).
  rewrite (app_assoc (da p_ppm ++ sa p_ppm) v).
  rewrite (memcpy_block ((da p_ppm ++ sa p_ppm) ++ v) (replicate 2 0) _ t)
    by (rewrite ?length_app, ?length_replicate, ?Hda, ?Hsa; reflexivity).
  cbn [mbind option_bind].
  set (e := htons_bytes OS_ETHTYPE_PROFINET).
  rewrite (app_assoc ((da p_ppm ++ sa p_ppm) ++ v) t).
  rewrite (memcpy_block (((da p_ppm ++ sa p_ppm) ++ v) ++ t) (replicate 2 0)
             _ e)
    by (rewrite ?length_app, ?length_replicate, ?Hda, ?Hsa; reflexivity).
  cbn [mbind option_bind].
  rewrite (app_assoc (((da p_ppm ++ sa p_ppm) ++ v) ++ t) e).
  rewrite (memcpy_block ((((da p_ppm ++ sa p_ppm) ++ v) ++ t) ++ e)
             (replicate 2 0) _ (htons_bytes frame_id))
    by (rewrite ?length_app, ?length_replicate, ?Hda, ?Hsa; reflexivity).
  cbn [mbind option_bind].
  rewrite <- !app_assoc. reflexivity.
Qed.

Lemma memcpy_ex (dst : list Z) (off : Z) (src : list Z) (n : Z) :
  0 <= off -> 0 <= n -> n <= Z.of_nat (length src) ->
  off + n <= Z.of_nat (length dst) ->
  exists r, memcpy dst off src n = Some r.
Proof. intros. eexists. now apply memcpy_Some. Qed.

(** [pf_ppm_finish_buffer] on a buffer laid out as by
    [pf_ppm_activate_req]: the cycle counter is stored in network order
    at its offset, followed by the data status and the transfer status;
    the bytes before the data are not touched. *)
Lemma pf_ppm_finish_buffer_fields (env : os_env) (net : pnet_t)
    (p : pf_ppm_t) (buf : os_buf_t) (n c : Z) :
  p_send_buffer p = Some buf ->
  pf_ppm_finish_buffer_cycle (os_get_current_time_us env) p = Some c ->
  0 <= n <= Z.of_nat (length (buffer_data p)) ->
  0 <= buffer_pos p <= cycle_counter_offset p ->
  buffer_pos p + n <= Z.of_nat (length (payload buf)) ->
  cycle_counter_offset p + 2 <= data_status_offset p ->
  data_status_offset p + 1 <= transfer_status_offset p ->
  transfer_status_offset p + 1 <= Z.of_nat (length (payload buf)) ->
  exists pl,
    pf_ppm_finish_buffer env net p n
    = Some (set_p_send_buffer (Some (mk_os_buf pl (len buf))) (set_cycle c p),
            [Ev_os_mutex_lock (ppm_buf_lock net);
             Ev_os_mutex_unlock (ppm_buf_lock net)])
    /\ length pl = length (payload buf)
    /\ pl !! Z.to_nat (cycle_counter_offset p) = Some (uint8 (Z.shiftr c 8))
    /\ pl !! Z.to_nat (cycle_counter_offset p + 1) = Some (uint8 c)
    /\ pl !! Z.to_nat (data_status_offset p) = Some (data_status p)
    /\ pl !! Z.to_nat (transfer_status_offset p) = Some (transfer_status p)
    /\ (forall i, (i < Z.to_nat (buffer_pos p))%nat ->
                  pl !! i = payload buf !! i).
Proof.
  intros Hbuf Hc Hn Hpos Hdata Hcco Hdso Htso.
  unfold pf_ppm_finish_buffer. rewrite Hbuf, Hc. cbn [mbind option_bind].
  change (cycle (set_cycle c p)) with c.
  change (buffer_pos (set_cycle c p)) with (buffer_pos p).
  change (buffer_data (set_cycle c p)) with (buffer_data p).
  change (cycle_counter_offset (set_cycle c p)) with (cycle_counter_offset p).
  change (data_status_offset (set_cycle c p)) with (data_status_offset p).
  change (transfer_status_offset (set_cycle c p))
    with (transfer_status_offset p).
  change (data_status (set_cycle c p)) with (data_status p).
  change (transfer_status (set_cycle c p)) with (transfer_status p).
  destruct (memcpy_ex (payload buf) (buffer_pos p) (buffer_data p) n)
    as [q1 H1]; [lia..|].
  pose proof (memcpy_length _ _ _ _ _ H1) as L1.
  destruct (memcpy_ex q1 (cycle_counter_offset p) (htons_bytes c) 2)
    as [q2 H2]; [cbn; lia..|].
  pose proof (memcpy_length _ _ _ _ _ H2) as L2.
  destruct (memcpy_ex q2 (data_status_offset p) [data_status p] 1)
    as [q3 H3]; [cbn; lia..|].
  pose proof (memcpy_length _ _ _ _ _ H3) as L3.
  destruct (memcpy_ex q3 (transfer_status_offset p) [transfer_status p] 1)
    as [q4 H4]; [cbn; lia..|].
  pose proof (memcpy_length _ _ _ _ _ H4) as L4.
  rewrite H1; cbn [mbind option_bind].
  rewrite H2; cbn [mbind option_bind].
  rewrite H3; cbn [mbind option_bind].
  rewrite H4; cbn [mbind option_bind].
  exists q4. split; [reflexivity|]. split; [congruence|].
  pose proof (fun i => memcpy_lookup _ _ _ _ _ i H1) as K1.
  pose proof (fun i => memcpy_lookup _ _ _ _ _ i H2) as K2.
  pose proof (fun i => memcpy_lookup _ _ _ _ _ i H3) as K3.
  pose proof (fun i => memcpy_lookup _ _ _ _ _ i H4) as K4.
  assert (Hif : forall (a b x : Z) (u v : option Z),
             ~ (a <= x < b) ->
             (if (a <=? x) && (x <? b) then u else v) = v).
  { intros a b x u v Hx.
    destruct (Z.leb_spec a x); destruct (Z.ltb_spec x b); cbn; auto; lia. }
  assert (Hin : forall (a b x : Z) (u v : option Z),
             a <= x < b ->
             (if (a <=? x) && (x <? b) then u else v) = u).
  { intros a b x u v Hx.
    destruct (Z.leb_spec a x); destruct (Z.ltb_spec x b); cbn; auto; lia. }
  repeat split.
  - rewrite K4, Hif by lia. rewrite K3, Hif by lia. rewrite K2, Hin by lia.
    now rewrite Nat.sub_diag.
  - rewrite K4, Hif by lia. rewrite K3, Hif by lia. rewrite K2, Hin by lia.
    replace (Z.to_nat (cycle_counter_offset p + 1)
             - Z.to_nat (cycle_counter_offset p))%nat with 1%nat by lia.
    reflexivity.
  - rewrite K4, Hif by lia. rewrite K3, Hin by lia.
    now rewrite Nat.sub_diag.
  - rewrite K4, Hin by lia. now rewrite Nat.sub_diag.
  - intros i Hi.
    rewrite K4, Hif by lia. rewrite K3, Hif by lia. rewrite K2, Hif by lia.
    rewrite K1, Hif by lia. reflexivity.
Qed.

(** ** Activation *)

(** A successful activation: the instance was in W_START, the parameters
    of the IOCR are in the ranges of the specification, the frame fits
    into the buffer that [os_buf_alloc] returns, nothing wraps in the
    computation of the delay, and the timer is granted.  The call returns
    0 and the PPM record is laid out as [activated_ppm] says. *)
Lemma pf_ppm_activate_req_layout (env : os_env) (net : pnet_t)
    (p_ar : pf_ar_t) (crep : nat) (c : pf_iocr_t) (buf0 : os_buf_t) :
  let prm := param c in
  let tick := scheduler_tick_interval net in
  let rtos := PNET_OS_RTOS_SUPPORTED env in
  let ci := spec_control_interval (param_send_clock_factor prm)
              (param_reduction_ratio prm) in
  iocrs p_ar !! crep = Some c ->
  state (ppm c) = PF_PPM_STATE_W_START ->
  length (cm_responder_mac_add p_ar) = 6%nat ->
  length (cm_initiator_mac_add p_ar) = 6%nat ->
  0 <= c_sdu_length prm ->
  24 + c_sdu_length prm <= Z.of_nat (length (payload buf0)) ->
  24 + c_sdu_length prm < 2 ^ 16 ->
  0 <= param_send_clock_factor prm < 2 ^ 16 ->
  0 <= param_reduction_ratio prm < 2 ^ 16 ->
  param_send_clock_factor prm * param_reduction_ratio prm * 1000 < 2 ^ 32 ->
  0 < tick -> tick + tick / 2 < 2 ^ 32 -> ci + tick / 2 < 2 ^ 32 ->
  spec_stack_ticks ci tick < 2 ^ 31 ->
  os_buf_alloc env PF_FRAME_BUFFER_SIZE = Some buf0 ->
  activation_timer_ok env (spec_compensated_delay rtos ci tick) ->
  exists net' p' ev,
    pf_ppm_activate_req env net p_ar crep
    = Some (net', set_iocr_ppm crep p' p_ar, 0, ev)
    /\ activated_ppm rtos tick prm (cm_responder_mac_add p_ar)
         (cm_initiator_mac_add p_ar) buf0 (ppm c) p'.
Proof.
  intros prm tick rtos ci Hc Hst Hsa Hda Hsdu Hfit H16 Hscf Hrr Hci Htick
    Htick32 Hci32 Hticks Halloc Htimer.
  unfold pf_ppm_activate_req. rewrite Hc. cbn [mbind option_bind].
  set (lk := if ppm_instance_cnt net =? 0
             then (Some (os_mutex_create env), [Ev_os_mutex_create])
             else (ppm_buf_lock net, [])).
  destruct lk as [lock ev0]. rewrite Hst.
  change sizeof_pnet_ethaddr_t with 6.
  rewrite !memread_all by lia.
  cbn [mbind option_bind].
  change (uint16 (2 * 6 + 4 + 2 + 2)) with 20.
  fold prm.
  rewrite (uint16_small (20 + c_sdu_length prm)) by lia.
  rewrite (uint16_small (20 + c_sdu_length prm + 2)) by lia.
  rewrite (uint16_small (20 + c_sdu_length prm + 2 + 1)) by lia.
  rewrite (uint16_small (20 + c_sdu_length prm + 2 + 1 + 1)) by lia.
  change (uint8 (BIT PNET_DATA_STATUS_BIT_STATE
                 + BIT PNET_DATA_STATUS_BIT_DATA_VALID
                 + BIT PNET_DATA_STATUS_BIT_STATION_PROBLEM_INDICATOR))
    with 0x25.
  rewrite Halloc. cbn [mbind option_bind].
  rewrite pf_ppm_init_buf_layout by (cbn; lia).
  cbn [mbind option_bind].
  change (scheduler_tick_interval (set_ppm_instance _ _ net)) with tick.
  fold rtos.
  assert (Hcieq :
    uint32 (uint32 (uint32 (param_send_clock_factor prm)
                    * uint32 (param_reduction_ratio prm)) * 1000) / 32 = ci).
  { unfold ci, spec_control_interval.
    rewrite (uint32_small (param_send_clock_factor prm)) by lia.
    rewrite (uint32_small (param_reduction_ratio prm)) by lia.
    rewrite (uint32_small (param_send_clock_factor prm
                           * param_reduction_ratio prm)) by nia.
    rewrite uint32_small by nia. reflexivity. }
  rewrite Hcieq.
  assert (Hci0 : 0 <= ci < 2 ^ 32).
  { unfold ci, spec_control_interval. split.
    - apply Z.div_pos; nia.
    - apply Z.div_lt_upper_bound; nia. }
  rewrite compensated_delay_value by (try assumption; lia).
  cbn [mbind option_bind].
  set (cci := spec_compensated_delay rtos ci tick) in *.
  unfold activation_timer_ok in Htimer. fold rtos in Htimer.
  destruct rtos eqn:Hrtos.
  - destruct Htimer as [tm Htm]. rewrite Htm.
    cbv beta iota zeta. change (0 =? 0) with true. cbv iota.
    do 3 eexists. split; [reflexivity|].
    unfold activated_ppm. cbn.
    repeat split; try reflexivity; try lia;
      try (intros _; now eexists); try (intros [=]).
    replace (20 + c_sdu_length prm + 2 + 1 + 1 - 20)
      with (4 + c_sdu_length prm) by lia.
    replace (20 + c_sdu_length prm + 2 + 1 + 1)
      with (24 + c_sdu_length prm) by lia.
    reflexivity.
  - destruct (pf_scheduler_add env cci) as [r id]. cbn in Htimer. subst r.
    cbv beta iota zeta. change (0 =? 0) with true. cbv iota.
    do 3 eexists. split; [reflexivity|].
    unfold activated_ppm. cbn.
    repeat split; try reflexivity; try lia;
      try (intros _; now eexists); try (intros [=]).
    replace (20 + c_sdu_length prm + 2 + 1 + 1 - 20)
      with (4 + c_sdu_length prm) by lia.
    replace (20 + c_sdu_length prm + 2 + 1 + 1)
      with (24 + c_sdu_length prm) by lia.
    reflexivity.
Qed.

(** ** The cyclic send *)

Lemma ppm_frame_header_length (p : pf_ppm_t) (fid : Z)
    (hdr : pf_iocr_tag_header_t) :
  length (da p) = 6%nat -> length (sa p) = 6%nat ->
  length (ppm_frame_header p fid hdr) = 20%nat.
Proof.
  intros Hda Hsa. unfold ppm_frame_header.
  rewrite !length_app, Hda, Hsa. reflexivity.
Qed.

(** A timer tick for an instance that [pf_ppm_activate_req] has laid out:
    one frame is handed to [os_eth_send]; it has the length of the buffer,
    starts with the header written at the activation and ends with the
    cycle counter in network order, the data status and the transfer
    status. *)
Lemma pf_ppm_send_frame (env : os_env) (net : pnet_t) (p_ar : pf_ar_t)
    (crep : nat) (c : pf_iocr_t) (rtos : bool) (tick : Z)
    (prm : pf_iocr_param_t) (sa' da' : list Z) (buf0 : os_buf_t)
    (p0 : pf_ppm_t) (cyc : Z) :
  iocrs p_ar !! crep = Some c ->
  activated_ppm rtos tick prm sa' da' buf0 p0 (ppm c) ->
  length sa' = 6%nat -> length da' = 6%nat ->
  0 <= c_sdu_length prm ->
  24 + c_sdu_length prm <= Z.of_nat (length (payload buf0)) ->
  0 <= in_length c <= Z.of_nat (length (buffer_data (ppm c))) ->
  20 + in_length c <= Z.of_nat (length (payload buf0)) ->
  pf_ppm_finish_buffer_cycle (os_get_current_time_us env) (ppm c) = Some cyc ->
  exists net' ar' ev frame,
    pf_ppm_send env net p_ar crep = Some (net', ar', ev)
    /\ sent_frames ev = [frame]
    /\ Z.of_nat (length frame) = 24 + c_sdu_length prm
    /\ take 20 frame
       = ppm_frame_header (ppm c) (frame_id prm) (iocr_tag_header prm)
    /\ drop (Z.to_nat (20 + c_sdu_length prm)) frame
       = htons_bytes cyc ++ [data_status (ppm c); transfer_status (ppm c)]
    /\ data_status (ppm c) = 0x25 /\ transfer_status (ppm c) = 0
    /\ (exists c', iocrs ar' !! crep = Some c' /\ cycle (ppm c') = cyc).
Proof.
  intros Hc Hact Hsa Hda Hsdu Hfit Hin Hin' Hcyc.
  destruct Hact as (Hst & Hrun & Hft & Esa & Eda & Epos & Ecco & Edso & Etso
                    & Elen & Eds & Ets & Escf & Err & Eci & Ecci & Ebd & Etrx
                    & Htm & Ebuf).
  set (p := ppm c) in *.
  set (hdr := ppm_frame_header p (frame_id prm) (iocr_tag_header prm)) in *.
  assert (Lhdr : length hdr = 20%nat)
    by (apply ppm_frame_header_length; congruence).
  set (pl0 := hdr ++ replicate (Z.to_nat (4 + c_sdu_length prm)) 0
                  ++ drop (Z.to_nat (24 + c_sdu_length prm)) (payload buf0))
    in *.
  assert (Lpl0 : length pl0 = length (payload buf0)).
  { unfold pl0. rewrite !length_app, length_replicate, length_drop. lia. }
  set (b := mk_os_buf pl0 (24 + c_sdu_length prm)) in *.
  set (q := set_ci_timer UINT32_MAX p).
  destruct (pf_ppm_finish_buffer_fields env net q b (in_length c) cyc)
    as (pl & Hfin & Lpl & Kc0 & Kc1 & Kds & Kts & Khd);
    try (cbn; first [assumption | lia]).
  unfold b in Lpl. cbn [payload] in Lpl. rewrite Lpl0 in Lpl.
  unfold pf_ppm_send. rewrite Hc. cbn [mbind option_bind]. fold p q.
  change (ci_running q) with (ci_running p). rewrite Hrun.
  rewrite Hfin. cbn [mbind option_bind].
  change (p_send_buffer (set_p_send_buffer ?x _)) with x.
  cbn [mbind option_bind payload len b].
  set (frame := take (Z.to_nat (24 + c_sdu_length prm)) pl).
  assert (Lframe : Z.of_nat (length frame) = 24 + c_sdu_length prm).
  { unfold frame. rewrite length_take. lia. }
  assert (Hhead : take 20 frame = hdr).
  { unfold frame. rewrite take_take.
    replace (20 `min` Z.to_nat (24 + c_sdu_length prm))%nat with 20%nat
      by lia.
    rewrite (take_ext 20 pl pl0).
    - unfold pl0. rewrite <- Lhdr. apply take_app_length.
    - intros i Hi. apply Khd. cbn. lia. }
  assert (Htail : drop (Z.to_nat (20 + c_sdu_length prm)) frame
                  = htons_bytes cyc ++ [data_status p; transfer_status p]).
  { apply list_eq. intros i. rewrite lookup_drop. unfold frame.
    cbn in Kc0, Kc1, Kds, Kts.
    destruct i as [|[|[|[|i]]]].
    - rewrite lookup_take_lt by lia. rewrite Nat.add_0_r, <- Ecco. exact Kc0.
    - rewrite lookup_take_lt by lia.
      replace (Z.to_nat (20 + c_sdu_length prm) + 1)%nat
        with (Z.to_nat (cycle_counter_offset p + 1)) by lia.
      exact Kc1.
    - rewrite lookup_take_lt by lia.
      replace (Z.to_nat (20 + c_sdu_length prm) + 2)%nat
        with (Z.to_nat (data_status_offset p)) by lia.
      exact Kds.
    - rewrite lookup_take_lt by lia.
      replace (Z.to_nat (20 + c_sdu_length prm) + 3)%nat
        with (Z.to_nat (transfer_status_offset p)) by lia.
      exact Kts.
    - rewrite lookup_take_ge by lia. reflexivity. }
  assert (Hcyc' : forall q' ar',
             iocrs ar' = alter (set_ppm q') crep (iocrs p_ar) ->
             cycle q' = cyc ->
             exists c', iocrs ar' !! crep = Some c' /\ cycle (ppm c') = cyc).
  { intros q' ar' Hi Hq'. exists (set_ppm q' c). split; [|exact Hq'].
    now rewrite Hi, list_lookup_alter_eq, Hc. }
  assert (Hframes : forall ev,
             sent_frames ev = [] ->
             sent_frames
               ([Ev_os_mutex_lock (ppm_buf_lock net);
                 Ev_os_mutex_unlock (ppm_buf_lock net)]
                ++ [Ev_os_eth_send frame] ++ ev) = [frame]).
  { intros ev Hev. cbn. unfold sent_frames in Hev. now rewrite Hev. }
  destruct (os_eth_send env _ <=? 0).
  { do 4 eexists. split; [reflexivity|].
    split; [apply (Hframes []); reflexivity|].
    repeat (split; [assumption|]). eapply Hcyc';
      [reflexivity | try destruct (first_transmit _); reflexivity]. }
  destruct (PNET_OS_RTOS_SUPPORTED env).
  - change (rt_timer (set_p_send_buffer _ (set_cycle cyc q)))
      with (rt_timer p).
    destruct (rt_timer p) as [tm|].
    + cbv beta iota zeta. change (0 =? 0) with true. cbv iota.
      do 4 eexists. split; [reflexivity|].
      split; [apply Hframes; reflexivity|].
      repeat (split; [assumption|]). eapply Hcyc';
      [reflexivity | try destruct (first_transmit _); reflexivity].
    + cbv beta iota zeta. change (-1 =? 0) with false. cbv iota.
      unfold pf_ppm_state_ind.
      do 4 eexists. split; [reflexivity|].
      split; [rewrite !app_assoc, <- app_assoc, <- app_assoc;
              apply Hframes; reflexivity|].
      repeat (split; [assumption|]). eapply Hcyc';
      [reflexivity | try destruct (first_transmit _); reflexivity].
  - destruct (pf_scheduler_add env _) as [r id].
    cbv beta iota zeta.
    destruct (r =? 0).
    + do 4 eexists. split; [reflexivity|].
      split; [apply Hframes; reflexivity|].
      repeat (split; [assumption|]). eapply Hcyc';
      [reflexivity | try destruct (first_transmit _); reflexivity].
    + unfold pf_ppm_state_ind.
      do 4 eexists. split; [reflexivity|].
      split; [rewrite !app_assoc, <- !app_assoc;
              apply Hframes; reflexivity|].
      repeat (split; [assumption|]). eapply Hcyc';
      [reflexivity | try destruct (first_transmit _); reflexivity].
Qed.

(** The cycle counter of a frame, in the range where the product with 4
    fits into the [int32_t]: for an instance that
    [pf_ppm_activate_req] has laid out, a timer tick at the time [now]
    stores the counter of the specification, cut to 16 bits, in the PPM
    record and, in network order, at the cycle counter offset of the
    frame. *)
Lemma pf_ppm_send_cycle_counter (env : os_env) (net : pnet_t) (p_ar : pf_ar_t)
    (crep : nat) (c : pf_iocr_t) (rtos : bool) (tick : Z)
    (prm : pf_iocr_param_t) (sa' da' : list Z) (buf0 : os_buf_t)
    (p0 : pf_ppm_t) :
  let now := os_get_current_time_us env in
  let cyc := uint16 (spec_cycle_counter now (param_send_clock_factor prm)
                       (param_reduction_ratio prm)) in
  iocrs p_ar !! crep = Some c ->
  activated_ppm rtos tick prm sa' da' buf0 p0 (ppm c) ->
  length sa' = 6%nat -> length da' = 6%nat ->
  0 <= c_sdu_length prm ->
  24 + c_sdu_length prm <= Z.of_nat (length (payload buf0)) ->
  0 <= in_length c <= Z.of_nat (length (buffer_data (ppm c))) ->
  20 + in_length c <= Z.of_nat (length (payload buf0)) ->
  0 <= now -> now * 4 < 2 ^ 31 ->
  0 < param_send_clock_factor prm * param_reduction_ratio prm < 2 ^ 16 ->
  exists net' ar' ev frame c',
    pf_ppm_send env net p_ar crep = Some (net', ar', ev)
    /\ sent_frames ev = [frame]
    /\ take 2 (drop (Z.to_nat (20 + c_sdu_length prm)) frame)
       = htons_bytes cyc
    /\ iocrs ar' !! crep = Some c'
    /\ cycle (ppm c') = cyc.
Proof.
  intros now cyc Hc Hact Hsa Hda Hsdu Hfit Hin Hin' Hnow Hnow4 Hratio.
  assert (Hcyc : pf_ppm_finish_buffer_cycle now (ppm c) = Some cyc).
  { destruct Hact as (_ & _ & _ & _ & _ & _ & _ & _ & _ & _ & _ & _ & Escf
                        & Err & _).
    unfold cyc. rewrite <- Escf, <- Err.
    apply cycle_counter_in_range; [assumption | assumption |].
    now rewrite Escf, Err. }
  destruct (pf_ppm_send_frame env net p_ar crep c rtos tick prm sa' da' buf0
              p0 cyc Hc Hact Hsa Hda Hsdu Hfit Hin Hin' Hcyc)
    as (net' & ar' & ev & frame & Hsend & Hfr & _ & _ & Htail & _ & _
          & c' & Hc' & Hcy).
  exists net', ar', ev, frame, c'.
  split; [exact Hsend|]. split; [exact Hfr|].
  split; [|split; assumption].
  rewrite Htail. reflexivity.
Qed.

(** ** The end-to-end scenario *)

(** C2 fails as stated: in the scenario the data status byte of the
    first frame is not 0x35. *)
Lemma scenario_data_status_is_not_0x35 :
  ~ (exists frame,
        scenario_first_tick true 0 = Some [frame]
        /\ length frame = 64%nat
        /\ take 20 frame
           = [0xAA; 0xBB; 0xCC; 0xDD; 0xEE; 0x01;
              0x11; 0x22; 0x33; 0x44; 0x55; 0x66;
              0x81; 0x00; 0xC0; 0x00; 0x88; 0x92; 0x80; 0x01]
        /\ drop 60 frame = [0x00; 0x20; 0x35; 0x00]).
Proof.
  intros (frame & H & _ & _ & Htail).
  vm_compute in H. injection H as <-. vm_compute in Htail. discriminate.
Qed.

(** C2, amended: for the activation of the scenario at the time 0, with a
    fresh buffer of 1522 bytes, a stack tick below 2^31 microseconds and a
    timer that is granted, the frame of the first timer tick has 64
    bytes; bytes 0 to 5 are the MAC address of the initiator, bytes 6 to
    11 the one of the responder, then 0x8100, 0xC000, 0x8892 and 0x8001;
    the cycle counter 32 is at offset 60 in network order, the data status
    at offset 62 is 0x25 (bits 0, 2 and 5: the provider state bit 4 is not
    set by the activation), and the transfer status at offset 63 is 0. *)
Theorem scenario_first_frame (env : os_env) (net : pnet_t) (p_ar : pf_ar_t)
    (crep : nat) (c : pf_iocr_t) (buf0 : os_buf_t) :
  iocrs p_ar !! crep = Some c ->
  state (ppm c) = PF_PPM_STATE_W_START ->
  param c = scenario_param ->
  cm_initiator_mac_add p_ar = [0xAA; 0xBB; 0xCC; 0xDD; 0xEE; 0x01] ->
  cm_responder_mac_add p_ar = [0x11; 0x22; 0x33; 0x44; 0x55; 0x66] ->
  0 <= in_length c <= Z.of_nat (length (buffer_data (ppm c))) ->
  in_length c <= 1502 ->
  0 < scheduler_tick_interval net < 2 ^ 31 ->
  os_get_current_time_us env = 0 ->
  os_buf_alloc env PF_FRAME_BUFFER_SIZE = Some buf0 ->
  length (payload buf0) = 1522%nat ->
  activation_timer_ok env
    (spec_compensated_delay (PNET_OS_RTOS_SUPPORTED env) 1000
       (scheduler_tick_interval net)) ->
  exists net1 ar1 ev1 net2 ar2 ev2 frame,
    pf_ppm_activate_req env net p_ar crep = Some (net1, ar1, 0, ev1)
    /\ pf_ppm_wdtimer_event env net1 ar1 crep = Some (net2, ar2, ev2)
    /\ sent_frames ev2 = [frame]
    /\ length frame = 64%nat
    /\ take 20 frame
       = [0xAA; 0xBB; 0xCC; 0xDD; 0xEE; 0x01;
          0x11; 0x22; 0x33; 0x44; 0x55; 0x66;
          0x81; 0x00; 0xC0; 0x00; 0x88; 0x92; 0x80; 0x01]
    /\ drop 60 frame = [0x00; 0x20; 0x25; 0x00].
Proof.
  intros Hc Hst Hprm Hda Hsa Hin Hin' Htick Hnow Halloc Hlen Htimer.
  set (tick := scheduler_tick_interval net) in *.
  assert (Hh : 0 <= tick / 2 <= tick) by zlia.
  destruct (spec_stack_ticks_bounds 1000 tick) as [Tlo Thi]; [lia..|].
  assert (Hlayout : exists net1 p' ev1,
             pf_ppm_activate_req env net p_ar crep
             = Some (net1, set_iocr_ppm crep p' p_ar, 0, ev1)
             /\ activated_ppm (PNET_OS_RTOS_SUPPORTED env) tick
                  scenario_param (cm_responder_mac_add p_ar)
                  (cm_initiator_mac_add p_ar) buf0 (ppm c) p').
  { rewrite <- Hprm.
    apply pf_ppm_activate_req_layout;
      try assumption; rewrite ?Hprm, ?Hsa, ?Hda, ?Hlen; cbn;
      try reflexivity; try lia; fold tick;
      change (spec_control_interval 32 1) with 1000; try lia;
      try exact Htimer.
    set (T := spec_stack_ticks 1000 tick) in *. nia. }
  destruct Hlayout as (net1 & p' & ev1 & Hact & Hlay).
  destruct (pf_ppm_send_frame env net1 (set_iocr_ppm crep p' p_ar) crep
              (set_ppm p' c) (PNET_OS_RTOS_SUPPORTED env)
              (scheduler_tick_interval net) scenario_param
              (cm_responder_mac_add p_ar) (cm_initiator_mac_add p_ar)
              buf0 (ppm c) 32)
    as (net2 & ar2 & ev2 & frame & Hsend & Hfr & Lfr & Hhead & Htail
          & Hds & Hts & _).
  - unfold set_iocr_ppm, set_iocrs; cbn [iocrs].
    now rewrite list_lookup_alter_eq, Hc.
  - exact Hlay.
  - now rewrite Hsa.
  - now rewrite Hda.
  - cbn. lia.
  - rewrite Hlen. cbn. lia.
  - destruct Hlay as (_ & _ & _ & _ & _ & _ & _ & _ & _ & _ & _ & _ & _ & _
                        & _ & _ & Ebd & _).
    cbn. rewrite Ebd. exact Hin.
  - rewrite Hlen. cbn. lia.
  - destruct Hlay as (_ & _ & _ & _ & _ & _ & _ & _ & _ & _ & _ & _ & Escf
                        & Err & _).
    unfold pf_ppm_finish_buffer_cycle. cbn [ppm set_ppm].
    rewrite Escf, Err, Hnow. reflexivity.
  - exists net1, (set_iocr_ppm crep p' p_ar), ev1, net2, ar2, ev2, frame.
    split; [exact Hact|]. split; [exact Hsend|]. split; [exact Hfr|].
    destruct Hlay as (_ & _ & _ & Esa & Eda & _).
    change (24 + c_sdu_length scenario_param) with 64 in Lfr.
    change (Z.to_nat (20 + c_sdu_length scenario_param)) with 60%nat in Htail.
    cbn [ppm set_ppm] in Htail, Hhead, Hds, Hts.
    split; [lia|]. split.
    + rewrite Hhead. unfold ppm_frame_header.
      rewrite Esa, Eda, Hsa, Hda. reflexivity.
    + rewrite Htail, Hds, Hts. reflexivity.
Qed.

Lemma scenario_first_frame_witness :
  (iocrs scenario_ar !! 0%nat = Some scenario_iocr
   /\ state (ppm scenario_iocr) = PF_PPM_STATE_W_START
   /\ param scenario_iocr = scenario_param
   /\ 0 <= in_length scenario_iocr
        <= Z.of_nat (length (buffer_data (ppm scenario_iocr)))
   /\ 0 < scheduler_tick_interval scenario_net < 2 ^ 31
   /\ os_get_current_time_us (scenario_env false 0) = 0
   /\ activation_timer_ok (scenario_env false 0)
        (spec_compensated_delay false 1000 1000))
  /\ exists net1 ar1 ev1 net2 ar2 ev2 frame,
      pf_ppm_activate_req (scenario_env false 0) scenario_net scenario_ar 0
      = Some (net1, ar1, 0, ev1)
      /\ pf_ppm_wdtimer_event (scenario_env false 0) net1 ar1 0
         = Some (net2, ar2, ev2)
      /\ sent_frames ev2 = [frame]
      /\ length frame = 64%nat
      /\ take 20 frame
         = [0xAA; 0xBB; 0xCC; 0xDD; 0xEE; 0x01;
            0x11; 0x22; 0x33; 0x44; 0x55; 0x66;
            0x81; 0x00; 0xC0; 0x00; 0x88; 0x92; 0x80; 0x01]
      /\ drop 60 frame = [0x00; 0x20; 0x25; 0x00].
Proof.
  split.
  - repeat split; try reflexivity; vm_compute; discriminate.
  - apply (scenario_first_frame (scenario_env false 0) scenario_net
             scenario_ar 0 scenario_iocr
             (mk_os_buf (replicate 1522 0xEE) 1522));
      try reflexivity.
    + split; [discriminate|]. vm_compute. discriminate.
    + vm_compute. discriminate.
    + split; reflexivity.
Defined.

(** ** C strings *)

Lemma cstring_cstr (arr s : list Z) : is_cstring_of arr s -> cstr arr = s.
Proof.
  intros [Hs [junk ->]]. induction Hs as [|c s Hc Hs IH]; cbn.
  - reflexivity.
  - destruct (Z.eqb_spec c 0); [contradiction|]. now rewrite IH.
Qed.

Lemma cstring_strlen (arr s : list Z) :
  is_cstring_of arr s -> strlen arr = Some (Z.of_nat (length s)).
Proof.
  intros [Hs [junk ->]]. induction Hs as [|c s Hc Hs IH].
  - reflexivity.
  - cbn [app strlen]. destruct (Z.eqb_spec c 0); [contradiction|].
    rewrite IH. cbn [mbind option_bind length]. f_equal. lia.
Qed.

Lemma cstring_strchr (arr s : list Z) (c : Z) :
  c <> 0 -> is_cstring_of arr s -> strchr arr c = Some (has_char c s).
Proof.
  intros Hc0 [Hs [junk ->]]. induction Hs as [|x s Hx Hs IH].
  - cbn [app strchr has_char existsb].
    destruct (Z.eqb_spec 0 c); [congruence|reflexivity].
  - cbn [app strchr has_char existsb].
    rewrite (Z.eqb_sym c x).
    destruct (Z.eqb_spec x c); [reflexivity|].
    destruct (Z.eqb_spec x 0); [contradiction|]. exact IH.
Qed.

Lemma cstring_strcmp (a b s t : list Z) :
  is_cstring_of a s -> is_cstring_of b t ->
  exists r, strcmp a b = Some r /\ (r = 0 <-> s = t).
Proof.
  intros [Hs [ja ->]] [Ht [jb ->]]. revert t Ht.
  induction Hs as [|x s Hx Hs IH]; intros t Ht.
  - destruct Ht as [|y t Hy Ht]; cbn [app strcmp].
    + exists 0. now split.
    + destruct (Z.eqb_spec 0 y); [congruence|].
      exists (0 - y). split; [reflexivity|]. split; [lia|discriminate].
  - destruct Ht as [|y t Hy Ht]; cbn [app strcmp].
    + destruct (Z.eqb_spec x 0); [contradiction|].
      exists (x - 0). split; [reflexivity|]. split; [lia|discriminate].
    + destruct (Z.eqb_spec x y) as [-> | Hne].
      * destruct (Z.eqb_spec y 0); [contradiction|].
        destruct (IH t Ht) as (r & Hr & Hiff). exists r.
        split; [exact Hr|]. rewrite Hiff. split; congruence.
      * exists (x - y). split; [reflexivity|]. split; [lia|congruence].
Qed.

Lemma cstring_strncpy_bytes (src s : list Z) :
  is_cstring_of src s -> strncpy_bytes src (length s) = Some s.
Proof.
  intros [Hs [junk ->]]. induction Hs as [|c s Hc Hs IH].
  - reflexivity.
  - cbn [app length strncpy_bytes].
    destruct (Z.eqb_spec c 0); [contradiction|]. now rewrite IH.
Qed.

Lemma cstring_strncat_bytes (src s : list Z) (n : nat) :
  is_cstring_of src s -> (length s <= n)%nat ->
  strncat_bytes src n = Some (s ++ [0]).
Proof.
  intros [Hs [junk ->]]. revert n. induction Hs as [|c s Hc Hs IH]; intros n Hn.
  - destruct n; reflexivity.
  - destruct n as [|n]; [cbn in Hn; lia|].
    cbn [app strncat_bytes].
    destruct (Z.eqb_spec c 0); [contradiction|].
    rewrite IH by (cbn in Hn; lia). reflexivity.
Qed.

Lemma cstring_zeros (k : nat) : is_cstring_of (replicate (S k) 0) [].
Proof. split; [constructor|]. now exists (replicate k 0). Qed.

Lemma cstring_of_NUL (arr : list Z) :
  In 0 arr -> is_cstring_of arr (cstr arr).
Proof.
  induction arr as [|c arr IH]; intros Hin; [destruct Hin|].
  cbn [cstr]. destruct (Z.eqb_spec c 0) as [-> | Hc].
  - split; [constructor|]. now exists arr.
  - destruct Hin as [-> | Hin]; [contradiction|].
    destruct (IH Hin) as [Hs [junk Hj]].
    split; [now constructor|]. exists junk. cbn. now rewrite <- Hj.
Qed.

Lemma cstring_length (arr s : list Z) :
  is_cstring_of arr s -> (length s < length arr)%nat.
Proof. intros [_ [junk ->]]. rewrite length_app. cbn. lia. Qed.

(** [memcpy (arr, src, n); arr[n] = 0] with the [n] bytes of [src]. *)
Lemma cstring_memcpy_store (arr src : list Z) :
  Forall (fun c => c <> 0) src -> (length src < length arr)%nat ->
  exists r,
    (a ← memcpy arr 0 src (Z.of_nat (length src));
     store_byte a (Z.of_nat (length src)) 0) = Some r
    /\ is_cstring_of r src /\ length r = length arr.
Proof.
  intros Hsrc Hlen.
  rewrite memcpy_Some by lia. cbn [mbind option_bind].
  change (Z.to_nat 0) with 0%nat. rewrite take_0, app_nil_l, Z.add_0_l.
  rewrite Nat2Z.id, firstn_all.
  rewrite store_byte_Some
    by (rewrite length_app, length_drop; lia).
  rewrite Nat2Z.id.
  destruct (drop (length src) arr) as [|x junk] eqn:Hd.
  { apply (f_equal length) in Hd. rewrite length_drop in Hd. cbn in Hd. lia. }
  exists (src ++ 0 :: junk). split; [|split].
  - f_equal. rewrite insert_app_r_alt by lia.
    now rewrite Nat.sub_diag.
  - split; [assumption|]. now exists junk.
  - apply (f_equal length) in Hd. rewrite length_drop in Hd. cbn in Hd.
    rewrite length_app. cbn. lia.
Qed.

(** [strncpy (dst, src, n); dst[n] = 0] with [n] the length of the
    string in [src]. *)
Lemma cstring_strncpy_store (dst src s : list Z) :
  is_cstring_of src s -> (length s < length dst)%nat ->
  exists r,
    (a ← strncpy dst src (Z.of_nat (length s));
     store_byte a (Z.of_nat (length s)) 0) = Some r
    /\ is_cstring_of r s /\ length r = length dst.
Proof.
  intros Hsrc Hlen. unfold strncpy.
  destruct (Z.ltb_spec (Z.of_nat (length s)) 0); [lia|].
  rewrite Nat2Z.id, (cstring_strncpy_bytes src s Hsrc).
  cbn [mbind option_bind].
  apply cstring_memcpy_store; [apply Hsrc|assumption].
Qed.

(** [strncat (dst, src, n)] when the whole string of [src] is taken and
    the result fits. *)
Lemma cstring_strncat (dst src d s : list Z) (n : Z) :
  is_cstring_of dst d -> is_cstring_of src s ->
  Z.of_nat (length s) <= n ->
  (length d + length s < length dst)%nat ->
  exists r,
    strncat dst src n = Some r
    /\ is_cstring_of r (d ++ s) /\ length r = length dst.
Proof.
  intros Hd Hs Hn Hfit. unfold strncat.
  destruct (Z.ltb_spec n 0); [lia|].
  rewrite (cstring_strlen dst d Hd). cbn [mbind option_bind].
  rewrite (cstring_strncat_bytes src s (Z.to_nat n) Hs) by lia.
  cbn [mbind option_bind].
  rewrite memcpy_Some by (rewrite ?length_app; cbn; lia).
  destruct Hd as [Hd [junk ->]]. destruct Hs as [Hs _].
  rewrite Nat2Z.id, take_app_length.
  rewrite Nat2Z.id, firstn_all.
  replace (Z.to_nat (Z.of_nat (length d) + Z.of_nat (length (s ++ [0]))))
    with (length d + length (s ++ [0%Z]))%nat by lia.
  rewrite drop_app_add', <- app_assoc by reflexivity.
  rewrite length_app in Hfit; cbn [length] in Hfit.
  eexists. split; [reflexivity|]. split.
  - split; [now apply Forall_app|].
    eexists. rewrite <- !app_assoc. reflexivity.
  - rewrite !length_app, length_drop. cbn [length].
    rewrite ?length_app. cbn [length]. lia.
Qed.

(** Writing the NUL again at the end of the string changes nothing. *)
Lemma cstring_store_NUL (arr s : list Z) :
  is_cstring_of arr s ->
  store_byte arr (Z.of_nat (length s)) 0 = Some arr.
Proof.
  intros Hs. pose proof (cstring_length arr s Hs) as Hlen.
  rewrite store_byte_Some by lia.
  destruct Hs as [_ [junk ->]]. rewrite Nat2Z.id.
  rewrite insert_app_r_alt by lia. now rewrite Nat.sub_diag.
Qed.

(** ** The remote-mismatch alarm *)

Lemma remote_mismatch_alarm_ar_spec (env : os_env) (differ : bool) (ix : nat) :
  remote_mismatch_alarm_ar env differ ix
  = spec_remote_mismatch_calls env differ ix.
Proof.
  unfold remote_mismatch_alarm_ar, spec_remote_mismatch_calls.
  destruct differ; cbn [remote_mismatch_diag_item spec_remote_mismatch_item
                          channel_diagnosis alarm_spec andb].
  - destruct (negb _); reflexivity.
  - reflexivity.
Qed.

(** The loop visits the ARs in order and makes the calls of every AR that
    is in use. *)
Lemma remote_mismatch_alarm_loop_run (env : os_env) (net : pnet_t) (r : Z)
    (ars : list pf_ar_t) (ix : nat) :
  strcmp (perm_alias_name net) (temp_alias_name net) = Some r ->
  remote_mismatch_alarm_loop env net ix ars
  = Some (concat (imap (fun i a =>
                          if in_use a
                          then spec_remote_mismatch_calls env
                                 (negb (r =? 0)) (ix + i)
                          else []) ars),
          existsb in_use ars).
Proof.
  intros Hr. revert ix. induction ars as [|a ars IH]; intros ix.
  - reflexivity.
  - cbn [remote_mismatch_alarm_loop imap concat existsb].
    rewrite IH. rewrite Nat.add_0_r.
    assert (Himap :
      imap ((fun i a0 => if in_use a0
                         then spec_remote_mismatch_calls env (negb (r =? 0))
                                (ix + i)
                         else []) ∘ S) ars
      = imap (fun i a0 => if in_use a0
                          then spec_remote_mismatch_calls env
                                 (negb (r =? 0)) (S ix + i)
                          else []) ars).
    { apply imap_ext. intros i x _. cbn. now rewrite Nat.add_succ_r. }
    rewrite Himap.
    destruct (in_use a).
    + rewrite Hr. cbn [mbind option_bind orb].
      now rewrite remote_mismatch_alarm_ar_spec.
    + reflexivity.
Qed.

(** [pf_lldp_send_remote_mismatch_alarm] with two alias names that are
    strings: the calls are those of the ARs in use; the stack instance
    changes only when no AR is in use, and then only in the permanent
    alias name, which takes the temporary one. *)
Lemma pf_lldp_send_remote_mismatch_alarm_run (env : os_env) (net : pnet_t)
    (sp st : list Z) :
  is_cstring_of (perm_alias_name net) sp ->
  is_cstring_of (temp_alias_name net) st ->
  (existsb in_use (cmrpc_ar net) = false ->
   (length st < length (perm_alias_name net))%nat) ->
  exists perm',
    pf_lldp_send_remote_mismatch_alarm env net
    = Some (set_perm_alias_name perm' net,
            concat (imap (fun i a =>
                            if in_use a
                            then spec_remote_mismatch_calls env
                                   (negb (bool_decide (sp = st))) i
                            else []) (cmrpc_ar net)))
    /\ (if existsb in_use (cmrpc_ar net)
        then perm' = perm_alias_name net
        else is_cstring_of perm' st
             /\ length perm' = length (perm_alias_name net)).
Proof.
  intros Hp Ht Hfit.
  destruct (cstring_strcmp _ _ _ _ Hp Ht) as (r & Hr & Hiff).
  unfold pf_lldp_send_remote_mismatch_alarm.
  rewrite (remote_mismatch_alarm_loop_run env net r _ 0 Hr).
  cbn [mbind option_bind].
  assert (Hd : negb (r =? 0) = negb (bool_decide (sp = st))).
  { f_equal. destruct (Z.eqb_spec r 0) as [E | E].
    - symmetry. apply bool_decide_eq_true. now apply Hiff.
    - symmetry. apply bool_decide_eq_false. intros E'. now apply E, Hiff. }
  rewrite Hd.
  destruct (existsb in_use (cmrpc_ar net)) eqn:Huse; cbn [negb].
  - exists (perm_alias_name net). split; [|reflexivity].
    now destruct net.
  - rewrite (cstring_strlen _ _ Ht). cbn [mbind option_bind].
    destruct (cstring_strncpy_store (perm_alias_name net)
                (temp_alias_name net) st Ht (Hfit eq_refl))
      as (perm' & Hperm & Hcs & Hlen).
    destruct (strncpy _ _ _) as [a|]; [|discriminate].
    cbn [mbind option_bind] in Hperm |- *. rewrite Hperm.
    cbn [mbind option_bind].
    exists perm'. split; [reflexivity|]. now split.
Qed.

(** C8 fails as stated: with one AR in use, equal alias names and a
    [pf_diag_update] that fails, the diagnosis item is a DISAPPEARS item
    and [pf_diag_add] is not called; the specification has it called. *)
Lemma disappearing_mismatch_is_not_added :
  exists net' item,
    pf_lldp_send_remote_mismatch_alarm failing_update_env scenario_net
    = Some (net', [Ev_pf_diag_update 0 item;
                   Ev_pf_alarm_send_port_change_notification 0 item])
    /\ in_use scenario_ar = true
    /\ ch_properties_spec item = PNET_DIAG_CH_PROP_SPEC_DISAPPEARS
    /\ pf_diag_update failing_update_env 0 item <> 0
    /\ spec_remote_mismatch_calls_stated failing_update_env false 0
       = [Ev_pf_diag_update 0 item; Ev_pf_diag_add 0 item;
          Ev_pf_alarm_send_port_change_notification 0 item].
Proof.
  do 2 eexists. split; [vm_compute; reflexivity|].
  repeat split. discriminate.
Qed.

(** C8, amended: for every AR in use, in the order of the table, a
    diagnosis item is built with APPEARS and the channel, submodule and AR
    diagnosis bits set when the temporary alias differs from the permanent
    one, and with DISAPPEARS and the bits cleared otherwise;
    [pf_diag_update] is called first; [pf_diag_add] is called after it
    only when the update failed and the item is an APPEARS item; the port
    change notification for that AR comes last.  No other call is
    made. *)
Theorem remote_mismatch_alarm_calls (env : os_env) (net : pnet_t) :
  In 0 (perm_alias_name net) ->
  In 0 (temp_alias_name net) ->
  (existsb in_use (cmrpc_ar net) = false ->
   (length (cstr (temp_alias_name net)) < length (perm_alias_name net))%nat) ->
  let differ :=
    negb (bool_decide (cstr (perm_alias_name net)
                       = cstr (temp_alias_name net))) in
  exists net',
    pf_lldp_send_remote_mismatch_alarm env net
    = Some (net',
            concat (imap (fun ix a =>
                            if in_use a
                            then spec_remote_mismatch_calls env differ ix
                            else []) (cmrpc_ar net))).
Proof.
  intros Hp Ht Hfit differ.
  destruct (pf_lldp_send_remote_mismatch_alarm_run env net
              (cstr (perm_alias_name net)) (cstr (temp_alias_name net)))
    as (perm' & Hrun & _).
  - now apply cstring_of_NUL.
  - now apply cstring_of_NUL.
  - exact Hfit.
  - eexists. exact Hrun.
Qed.

Lemma remote_mismatch_alarm_calls_witness :
  (In 0 (perm_alias_name scenario_net)
   /\ In 0 (temp_alias_name scenario_net))
  /\ exists net',
      pf_lldp_send_remote_mismatch_alarm failing_update_env scenario_net
      = Some (net',
              concat (imap (fun ix a =>
                              if in_use a
                              then spec_remote_mismatch_calls
                                     failing_update_env
                                     (negb (bool_decide
                                              (cstr (perm_alias_name
                                                       scenario_net)
                                               = cstr (temp_alias_name
                                                         scenario_net))))
                                     ix
                              else []) (cmrpc_ar scenario_net))).
Proof.
  assert (H0 : In 0 (replicate 256 0)) by (left; reflexivity).
  split; [split; exact H0|].
  apply (remote_mismatch_alarm_calls failing_update_env scenario_net);
    [exact H0 | exact H0 | discriminate].
Defined.

(** ** The TTL through the codec *)

(** The frame builder writes the TTL as two bytes, most significant
    first, after the TLV header 06 02. *)
Lemma lldp_ttl_frame_bytes (t : Z) :
  lldp_ttl_frame t
  = Some [0x06; 0x02; uint8 (Z.land (Z.shiftr t 8) 0xff);
          uint8 (Z.land t 0xff); 0x00; 0x00].
Proof.
  unfold lldp_ttl_frame, lldp_add_ttl_tlv, pf_put_uint16.
  cbn [ttl].
  generalize (Z.land (Z.shiftr t 8) 0xff) as hi.
  generalize (Z.land t 0xff) as lo.
  intros lo hi. unfold pf_put_byte.
  generalize (uint8 hi) as a. generalize (uint8 lo) as b. intros b a.
  vm_compute. reflexivity.
Qed.

(** [pf_lldp_recv] takes the second byte of the value of a TTL TLV for
    the TTL. *)
Lemma pf_lldp_recv_ttl_low_byte (a b : Z) :
  ('(net, _) ← pf_lldp_recv (scenario_env true 0) 256 scenario_net
                 [0x06; 0x02; a; b; 0x00; 0x00] 0;
   Some (TTL (lldp_peer_cfg net))) = Some b.
Proof. vm_compute. reflexivity. Qed.

(** Whatever the TTL, the peer record ends up with its low byte. *)
Lemma lldp_ttl_roundtrip_low_byte (t : Z) :
  lldp_ttl_roundtrip t = Some (t mod 256).
Proof.
  unfold lldp_ttl_roundtrip. rewrite lldp_ttl_frame_bytes.
  cbn [mbind option_bind].
  rewrite (pf_lldp_recv_ttl_low_byte
             (uint8 (Z.land (Z.shiftr t 8) 0xff)) (uint8 (Z.land t 0xff))).
  f_equal. change 0xff with (Z.ones 8). rewrite Z.land_ones by lia.
  unfold uint8. change (2 ^ 8) with 256. apply Z.mod_mod. lia.
Qed.

(** C6 at the failing input: the TTL 300 is encoded as 01 2C, and
    [pf_lldp_recv] stores 44 (0x2C) in the peer record, not 300. *)
Theorem ttl_300_comes_back_as_44 :
  lldp_ttl_frame 300 = Some [0x06; 0x02; 0x01; 0x2C; 0x00; 0x00]
  /\ lldp_ttl_roundtrip 300 = Some 44.
Proof. split; vm_compute; reflexivity. Qed.

(** ** TLV headers *)

Lemma ntohs_htons (x : Z) :
  0 <= x < 2 ^ 16 ->
  ntohs_bytes (uint8 (Z.shiftr x 8)) (uint8 x) = x.
Proof.
  intros Hx. unfold ntohs_bytes, uint8.
  apply Z.bits_inj'. intros k Hk.
  rewrite Z.lor_spec.
  destruct (Z.ltb_spec k 8) as [H8 | H8].
  - rewrite Z.shiftl_spec_low by lia.
    now rewrite Z.mod_pow2_bits_low by lia.
  - rewrite Z.shiftl_spec_high by lia.
    rewrite (Z.mod_pow2_bits_high x 8 k) by lia. rewrite orb_false_r.
    destruct (Z.ltb_spec k 16) as [H16 | H16].
    + rewrite Z.mod_pow2_bits_low by lia.
      rewrite Z.shiftr_spec by lia. f_equal. lia.
    + rewrite Z.mod_pow2_bits_high by lia.
      rewrite <- (Z.mod_small x (2 ^ 16)) by lia.
      now rewrite Z.mod_pow2_bits_high by lia.
Qed.

(** The header of a TLV is read back as its type and its length. *)
Lemma tlv_header_decode (typ n : Z) :
  0 <= typ < 128 -> 0 <= n < 512 ->
  let x := Z.shiftl typ 9 + n in
  let tv := ntohs_bytes (uint8 (Z.shiftr x 8)) (uint8 x) in
  Z.shiftr (Z.land tv LLDP_TYPE_MASK) LLDP_TYPE_SHIFT = typ
  /\ Z.land tv LLDP_LENGTH_MASK = n.
Proof.
  intros Ht Hn x tv.
  assert (Hx : x = typ * 512 + n)
    by (unfold x; rewrite Z.shiftl_mul_pow2 by lia; reflexivity).
  assert (Htv : tv = x) by (apply ntohs_htons; lia).
  rewrite Htv. unfold LLDP_TYPE_MASK, LLDP_TYPE_SHIFT, LLDP_LENGTH_MASK.
  split.
  - rewrite Z.shiftr_land.
    change (Z.shiftr 0xFE00 9) with (Z.ones 7).
    rewrite Z.land_ones, Z.shiftr_div_pow2 by lia.
    change (2 ^ 9) with 512. change (2 ^ 7) with 128.
    rewrite Hx. zlia.
  - change 0x01FF with (Z.ones 9). rewrite Z.land_ones by lia.
    change (2 ^ 9) with 512. rewrite Hx. zlia.
Qed.

(** ** Reading the frame *)

Lemma load_byte_mid (frame A C : list Z) (x off : Z) :
  frame = A ++ x :: C -> off = Z.of_nat (length A) ->
  load_byte frame off = Some x.
Proof.
  intros -> ->. unfold load_byte.
  destruct (Z.leb_spec 0 (Z.of_nat (length A))); [|lia].
  rewrite Nat2Z.id. apply list_lookup_middle. reflexivity.
Qed.

Lemma memread_mid (frame A B C : list Z) (off n : Z) :
  frame = A ++ B ++ C -> off = Z.of_nat (length A) ->
  n = Z.of_nat (length B) ->
  memread frame off n = Some B.
Proof.
  intros -> -> ->.
  rewrite memread_Some by (rewrite ?length_app; lia).
  rewrite !Nat2Z.id, drop_app_length, take_app_length. reflexivity.
Qed.

Lemma lldp_read_tlv_header_mid (frame A C : list Z) (h0 h1 off : Z) :
  frame = A ++ h0 :: h1 :: C -> off = Z.of_nat (length A) ->
  lldp_read_tlv_header frame off
  = Some (Z.shiftr (Z.land (ntohs_bytes h0 h1) LLDP_TYPE_MASK) LLDP_TYPE_SHIFT,
          Z.land (ntohs_bytes h0 h1) LLDP_LENGTH_MASK).
Proof.
  intros Hf Hoff. unfold lldp_read_tlv_header.
  rewrite (load_byte_mid frame A (h1 :: C) h0 off Hf Hoff).
  cbn [mbind option_bind].
  rewrite (load_byte_mid frame (A ++ [h0]) C h1 (off + 1)).
  - reflexivity.
  - rewrite Hf, <- app_assoc. reflexivity.
  - rewrite length_app. cbn [length]. lia.
Qed.

Lemma lldp_read_tlv_header_tlv (frame A C v : list Z) (typ off : Z) :
  frame = A ++ tlv_bytes typ v ++ C -> off = Z.of_nat (length A) ->
  0 <= typ < 128 -> (length v < 512)%nat ->
  lldp_read_tlv_header frame off = Some (typ, Z.of_nat (length v)).
Proof.
  intros Hf Hoff Ht Hv.
  unfold tlv_bytes, htons_bytes in Hf. cbn [app] in Hf.
  rewrite (lldp_read_tlv_header_mid frame A (v ++ C) _ _ off Hf Hoff).
  destruct (tlv_header_decode typ (Z.of_nat (length v))) as [H1 H2];
    [lia | lia |].
  cbv zeta in H1, H2. now rewrite H1, H2.
Qed.

Lemma memset_all (arr : list Z) :
  memset arr 0 0 (Z.of_nat (length arr)) = Some (replicate (length arr) 0).
Proof.
  rewrite memset_Some by lia.
  change (Z.to_nat 0) with 0%nat. rewrite take_0, Z.add_0_l, Nat2Z.id.
  now rewrite drop_all, app_nil_r.
Qed.

(** ** The alias *)

Lemma spec_alias_length (pt ch : list Z) :
  length (spec_alias pt ch)
  = if has_char 46 pt then length pt
    else (length pt + 1 + length ch)%nat.
Proof.
  unfold spec_alias. destruct (has_char 46 pt); [reflexivity|].
  rewrite !length_app. cbn [length]. lia.
Qed.

(** The two ways of [pf_lldp_recv] to fill [_Alias], from an [_Alias]
    that holds the empty string. *)
Lemma alias_computation (Alias id chassis pt ch : list Z) :
  is_cstring_of Alias [] -> is_cstring_of id pt ->
  is_cstring_of chassis ch ->
  (length (spec_alias pt ch) < length Alias)%nat ->
  exists alias,
    (if has_char 46 pt
     then
       a ← strncpy Alias id (Z.of_nat (length pt));
       store_byte a (Z.of_nat (length pt)) 0
     else
       a ← strncat Alias id (Z.of_nat (length pt));
       a ← strncat a [46; 0] 1;
       a ← strncat a chassis (Z.of_nat (length ch));
       store_byte a (Z.of_nat (length pt) + Z.of_nat (length ch) + 1) 0)
    = Some alias
    /\ is_cstring_of alias (spec_alias pt ch)
    /\ length alias = length Alias.
Proof.
  intros HA Hid Hch Hfit. rewrite spec_alias_length in Hfit.
  unfold spec_alias. destruct (has_char 46 pt).
  - now apply cstring_strncpy_store.
  - destruct (cstring_strncat Alias id [] pt (Z.of_nat (length pt)) HA Hid)
      as (a1 & H1 & C1 & L1); [lia | cbn [length]; lia |].
    assert (Hdot : is_cstring_of [46; 0] [46]).
    { split; [repeat constructor; discriminate|]. now exists []. }
    destruct (cstring_strncat a1 [46; 0] ([] ++ pt) [46] 1 C1 Hdot)
      as (a2 & H2 & C2 & L2);
      [cbn [length]; lia | rewrite length_app; cbn [length]; lia |].
    destruct (cstring_strncat a2 chassis (([] ++ pt) ++ [46]) ch
                (Z.of_nat (length ch)) C2 Hch)
      as (a3 & H3 & C3 & L3);
      [lia | rewrite !length_app; cbn [length]; lia |].
    rewrite H1; cbn [mbind option_bind].
    rewrite H2; cbn [mbind option_bind].
    rewrite H3; cbn [mbind option_bind].
    cbn [app] in C3. rewrite <- app_assoc in C3.
    exists a3. split; [|split; [exact C3 | congruence]].
    replace (Z.of_nat (length pt) + Z.of_nat (length ch) + 1)
      with (Z.of_nat (length (pt ++ [46] ++ ch)))
      by (rewrite !length_app; cbn [length]; lia).
    now apply cstring_store_NUL.
Qed.

(** ** Receiving the Chassis ID and the Port ID *)

(** Destructs the first action of a sequence that is known to succeed as
    a whole, and rewrites with it. *)
Ltac bind_step H :=
  match type of H with
  | mbind _ ?m = Some _ =>
      let E := fresh "E" in
      destruct m eqn:E; [|discriminate H];
      cbn [mbind option_bind] in H |- *;
      rewrite H; cbn [mbind option_bind]
  end.

(** [case LLDP_TYPE_CHASSIS_ID] for a TLV whose value is a subtype byte
    and the NUL-free bytes [ch], which fit into the array of the peer
    record. *)
Lemma pf_lldp_recv_chassis_id_run (frame A C ch : list Z) (sub : Z)
    (st : lldp_recv_state) :
  let net := r_net st in
  let c := lldp_peer_cfg net in
  frame = A ++ sub :: ch ++ C ->
  r_pData st = Z.of_nat (length A) ->
  r_frame_len st = 1 + Z.of_nat (length ch) ->
  Forall (fun x => x <> 0) ch ->
  (length ch < length (PeerChassisID c))%nat ->
  exists id,
    pf_lldp_recv_chassis_id frame st
    = Some (set_recv
              (set_lldp_peer_cfg
                 (set_peer_chassis id (Z.of_nat (length ch)) c) net)
              (r_Alias st) (r_frame_value st) [] st)
    /\ is_cstring_of id ch
    /\ length id = length (PeerChassisID c).
Proof.
  intros net c Hf HpD Hlen Hch Hfit.
  unfold pf_lldp_recv_chassis_id. fold net c.
  replace (r_frame_len st - 1) with (Z.of_nat (length ch)) by lia.
  rewrite (memread_mid frame (A ++ [sub]) ch C);
    [| rewrite Hf, <- app_assoc; reflexivity
     | rewrite length_app; cbn [length]; lia
     | reflexivity].
  cbn [mbind option_bind].
  destruct (cstring_memcpy_store (PeerChassisID c) ch Hch Hfit)
    as (id & Hid & Cid & Lid).
  bind_step Hid.
  exists id. auto.
Qed.

(** [case LLDP_TYPE_PORT_ID] for the first Port ID TLV of a frame
    ([_Alias] still holds the empty string), whose value is a subtype
    byte and the NUL-free bytes [pt]; the peer record holds the Chassis ID
    [ch]; the arrays are large enough for the identifiers and for the
    alias.  The alias of the specification is left in [_Alias] and in the
    temporary alias name. *)
Lemma pf_lldp_recv_port_id_run (env : os_env) (frame A C pt ch : list Z)
    (sub : Z) (st : lldp_recv_state) :
  let net := r_net st in
  let c := lldp_peer_cfg net in
  let alias := spec_alias pt ch in
  frame = A ++ sub :: pt ++ C ->
  r_pData st = Z.of_nat (length A) ->
  r_frame_len st = 1 + Z.of_nat (length pt) ->
  Forall (fun x => x <> 0) pt ->
  (length pt < length (r_frame_value st))%nat ->
  (length pt < length (PeerPortID c))%nat ->
  is_cstring_of (PeerChassisID c) ch ->
  PeerChassisIDLen c = Z.of_nat (length ch) ->
  is_cstring_of (r_Alias st) [] ->
  (length alias < length (r_Alias st))%nat ->
  In 0 (temp_alias_name net) ->
  In 0 (perm_alias_name net) ->
  (length alias < length (temp_alias_name net))%nat ->
  (length alias < length (perm_alias_name net))%nat ->
  exists st',
    pf_lldp_recv_port_id env frame st = Some st'
    /\ is_cstring_of (r_Alias st') alias
    /\ is_cstring_of (temp_alias_name (r_net st')) alias
    /\ is_cstring_of (PeerPortID (lldp_peer_cfg (r_net st'))) pt
    /\ PeerChassisID (lldp_peer_cfg (r_net st')) = PeerChassisID c
    /\ r_pData st' = r_pData st
    /\ r_frame_len st' = r_frame_len st
    /\ r_frame_type st' = r_frame_type st
    /\ length (r_frame_value st') = length (r_frame_value st).
Proof.
  intros net c alias Hf HpD Hlen Hpt Hval Hport Hch HchL HA HAfit Htemp
    Hperm Htfit Hpfit.
  unfold pf_lldp_recv_port_id. fold net c.
  replace (r_frame_len st - 1) with (Z.of_nat (length pt)) by lia.
  rewrite (memread_mid frame (A ++ [sub]) pt C);
    [| rewrite Hf, <- app_assoc; reflexivity
     | rewrite length_app; cbn [length]; lia
     | reflexivity].
  cbn [mbind option_bind].
  destruct (cstring_memcpy_store (r_frame_value st) pt Hpt Hval)
    as (value & Hv & Cv & Lv).
  bind_step Hv.
  rewrite (cstring_strchr value pt 46 ltac:(discriminate) Cv).
  cbn [mbind option_bind].
  destruct (cstring_memcpy_store (PeerPortID c) pt Hpt Hport)
    as (id & Hid & Cid & Lid).
  bind_step Hid.
  cbn [PeerPortID PeerPortIDLen PeerChassisID PeerChassisIDLen set_peer_port].
  rewrite (cstring_strchr id pt 46 ltac:(discriminate) Cid).
  cbn [mbind option_bind].
  rewrite HchL.
  destruct (alias_computation (r_Alias st) id (PeerChassisID c) pt ch
              HA Cid Hch HAfit) as (al & Hal & Cal & Lal).
  rewrite Hal. cbn [mbind option_bind].
  set (net1 := set_lldp_peer_cfg
                 (set_peer_port id (Z.of_nat (length pt)) c) net).
  change (temp_alias_name net1) with (temp_alias_name net).
  pose proof (cstring_of_NUL _ Htemp) as Ctemp.
  pose proof (cstring_of_NUL _ Hperm) as Cperm.
  destruct (cstring_strcmp al (temp_alias_name net) alias
              (cstr (temp_alias_name net)) Cal Ctemp) as (r & Hr & Hiff).
  rewrite Hr. cbn [mbind option_bind].
  destruct (Z.eqb_spec r 0) as [Er | Er]; cbn [negb].
  - apply Hiff in Er. eexists. split; [reflexivity|]. cbn.
    split; [exact Cal|]. split; [fold alias; rewrite Er; exact Ctemp|].
    split; [exact Cid|]. repeat split; auto.
  - rewrite memset_all. cbn [mbind option_bind].
    rewrite (cstring_strlen al alias Cal). cbn [mbind option_bind].
    destruct (cstring_strncpy_store
                (replicate (length (temp_alias_name net)) 0) al alias Cal)
      as (temp' & Ht' & Ct' & Lt'); [now rewrite length_replicate|].
    bind_step Ht'.
    destruct (pf_lldp_send_remote_mismatch_alarm_run env
                (set_temp_alias_name temp' net1)
                (cstr (perm_alias_name net)) alias)
      as (perm' & Hrun & _); [exact Cperm | exact Ct' | intros _; exact Hpfit |].
    rewrite Hrun. cbn [mbind option_bind].
    eexists. split; [reflexivity|]. cbn.
    split; [exact Cal|]. split; [exact Ct'|].
    split; [exact Cid|]. repeat split; auto.
Qed.

(** The two alias scenarios of the specification: the Port ID
    "port-003.dut" with the Chassis ID "peer", and the Port ID "port-003"
    with the Chassis ID "dut", both give the alias "port-003.dut". *)
Lemma scenario_alias_values :
  scenario_alias ascii_peer ascii_port_003_dut = Some ascii_port_003_dut
  /\ scenario_alias ascii_dut ascii_port_003 = Some ascii_port_003_dut.
Proof. split; vm_compute; reflexivity. Qed.

(** [_Alias] is cleared once per call and not per TLV: a second Port ID
    TLV without a '.' in the same frame is appended to the alias of the
    first one.  With the Chassis ID "dut" and the Port IDs "a.bcdef" and
    then "x", the alias ends as "a.bcd" and not as "x.dut". *)
Lemma alias_of_second_port_id :
  ('(net, _) ← pf_lldp_recv (scenario_env true 0) 256 scenario_net
                 (tlv_bytes LLDP_TYPE_CHASSIS_ID (7 :: ascii_dut)
                  ++ tlv_bytes LLDP_TYPE_PORT_ID
                       (7 :: [97; 46; 98; 99; 100; 101; 102])
                  ++ tlv_bytes LLDP_TYPE_PORT_ID (7 :: [120])
                  ++ [0; 0]) 0;
   Some (cstr (temp_alias_name net)))
  = Some [97; 46; 98; 99; 100]
  /\ spec_alias [120] ascii_dut = [120; 46; 100; 117; 116].
Proof. split; vm_compute; reflexivity. Qed.

(** ** The loop of [pf_lldp_recv] ends *)

(** Splits a successful sequence of actions into its steps. *)
Ltac split_binds :=
  repeat first
    [ progress cbn [mbind option_bind]
    | progress cbv beta iota zeta
    | match goal with
      | |- context [mbind _ ?x] => destruct x
      | |- context [match ?x with _ => _ end] => destruct x
      end ].

(** The cases of the [switch] leave [pData] and the header of the current
    TLV alone. *)
Lemma pf_lldp_recv_case_keeps_position (env : os_env) (frame : list Z)
    (st st' : lldp_recv_state) :
  (if r_frame_type st =? LLDP_TYPE_CHASSIS_ID
   then pf_lldp_recv_chassis_id frame st
   else if r_frame_type st =? LLDP_TYPE_PORT_ID
   then pf_lldp_recv_port_id env frame st
   else if r_frame_type st =? LLDP_TYPE_TTL
   then pf_lldp_recv_ttl env frame st
   else if r_frame_type st =? LLDP_TYPE_ORG_SPEC
   then pf_lldp_recv_org_spec frame st
   else Some st) = Some st' ->
  r_pData st' = r_pData st /\ r_frame_len st' = r_frame_len st.
Proof.
  unfold pf_lldp_recv_chassis_id, pf_lldp_recv_port_id, pf_lldp_recv_ttl,
    pf_lldp_recv_org_spec, pf_lldp_create_peer_timer.
  split_binds.
  all: intros H; try discriminate H.
  all: injection H as <-; split; reflexivity.
Qed.

(** An iteration moves [pData] forward by two bytes at least and keeps it
    within the frame. *)
Lemma pf_lldp_recv_iter_advances (env : os_env) (frame : list Z)
    (st st' : lldp_recv_state) :
  0 <= r_frame_len st ->
  pf_lldp_recv_iter env frame st = Some st' ->
  r_pData st + 2 <= r_pData st' <= Z.of_nat (length frame)
  /\ 0 <= r_frame_len st'.
Proof.
  intros Hlen. unfold pf_lldp_recv_iter.
  destruct (if r_frame_type st =? LLDP_TYPE_CHASSIS_ID then _ else _)
    as [st1|] eqn:Hcase; [|discriminate].
  apply pf_lldp_recv_case_keeps_position in Hcase as [EpD Elen].
  cbn [mbind option_bind]. rewrite EpD, Elen.
  unfold lldp_read_tlv_header.
  destruct (load_byte frame (r_pData st + r_frame_len st)) as [hi|];
    [|discriminate].
  cbn [mbind option_bind].
  destruct (load_byte frame (r_pData st + r_frame_len st + 1)) as [lo|] eqn:Hlo;
    [|discriminate].
  cbn [mbind option_bind].
  destruct (memset _ _ _ _); [|discriminate].
  cbn [mbind option_bind]. intros [= <-]. cbn.
  unfold load_byte in Hlo.
  destruct (Z.leb_spec 0 (r_pData st + r_frame_len st + 1)); [|discriminate].
  apply lookup_lt_Some in Hlo.
  split; [lia|].
  unfold LLDP_LENGTH_MASK. apply Z.land_nonneg. right. lia.
Qed.

(** A result of the loop does not depend on the fuel, once there is one
    unit of fuel for every two bytes between [pData] and the end of the
    frame. *)
Lemma pf_lldp_recv_loop_fuel (env : os_env) (frame : list Z) (k : nat) :
  forall (st r : lldp_recv_state) (n : nat),
    0 <= r_frame_len st ->
    pf_lldp_recv_loop env frame k st = Some r ->
    Z.of_nat (length frame) - r_pData st < 2 * Z.of_nat n ->
    pf_lldp_recv_loop env frame n st = Some r.
Proof.
  induction k as [|k IH]; intros st r n Hlen Hk Hn.
  - cbn [pf_lldp_recv_loop] in Hk.
    destruct (r_frame_type st =? LLDP_TYPE_END) eqn:E; [|discriminate].
    destruct n; cbn [pf_lldp_recv_loop]; now rewrite E.
  - cbn [pf_lldp_recv_loop] in Hk.
    destruct (r_frame_type st =? LLDP_TYPE_END) eqn:E.
    + destruct n; cbn [pf_lldp_recv_loop]; now rewrite E.
    + destruct (pf_lldp_recv_iter env frame st) as [st1|] eqn:Hiter;
        [|discriminate].
      cbn [mbind option_bind] in Hk.
      destruct (pf_lldp_recv_iter_advances env frame st st1 Hlen Hiter)
        as [HpD Hlen1].
      destruct n as [|n]; [lia|].
      cbn [pf_lldp_recv_loop]. rewrite E, Hiter. cbn [mbind option_bind].
      apply IH; [assumption | assumption | lia].
Qed.

(** The fuel that [pf_lldp_recv] gives to its loop is enough: whenever
    some number of iterations ends the loop, [pf_lldp_recv] returns the
    state in which it ended. *)
Lemma pf_lldp_recv_fuel_is_enough (env : os_env) (sizeof_value : nat)
    (net : pnet_t) (frame : list Z) (frame_pos : Z) (k : nat)
    (st0 r : lldp_recv_state) :
  pf_lldp_recv_enter sizeof_value net frame frame_pos = Some st0 ->
  pf_lldp_recv_loop env frame k st0 = Some r ->
  pf_lldp_recv env sizeof_value net frame frame_pos
  = Some (r_net r, r_trace r).
Proof.
  intros Henter Hloop. unfold pf_lldp_recv. rewrite Henter.
  cbn [mbind option_bind].
  revert Henter. unfold pf_lldp_recv_enter, lldp_read_tlv_header.
  destruct (load_byte frame frame_pos) as [hi|] eqn:Hhi; [|discriminate].
  cbn [mbind option_bind].
  destruct (load_byte frame (frame_pos + 1)) as [lo|]; [|discriminate].
  cbn [mbind option_bind]. intros [= <-].
  unfold load_byte in Hhi.
  destruct (Z.leb_spec 0 frame_pos); [|discriminate].
  rewrite (pf_lldp_recv_loop_fuel env frame k _ r (S (length frame)));
    [reflexivity | | exact Hloop | cbn; lia].
  cbn. unfold LLDP_LENGTH_MASK. apply Z.land_nonneg. right. lia.
Qed.

(** ** Frames with further TLVs *)

Lemma existsb_eqb_false (t : Z) (l : list Z) (x : Z) :
  existsb (Z.eqb t) l = false -> In x l -> t <> x.
Proof.
  intros H Hin ->.
  assert (Ht : existsb (Z.eqb x) l = true).
  { apply existsb_exists. exists x. split; [assumption|apply Z.eqb_refl]. }
  congruence.
Qed.

Lemma lldp_kept_refl (b : bool) (st : lldp_recv_state) : lldp_kept b st st.
Proof.
  repeat split; try reflexivity.
  exists []. now rewrite app_nil_r.
Qed.

Lemma lldp_kept_trans (b : bool) (s1 s2 s3 : lldp_recv_state) :
  lldp_kept b s1 s2 -> lldp_kept b s2 s3 -> lldp_kept b s1 s3.
Proof.
  intros (A1 & T1 & P1 & I1 & V1 & (e1 & E1 & N1) & C1)
         (A2 & T2 & P2 & I2 & V2 & (e2 & E2 & N2) & C2).
  repeat split; try congruence.
  - exists (e1 ++ e2). split.
    + rewrite E2, E1. now rewrite app_assoc.
    + rewrite existsb_app, N1, N2. reflexivity.
  - destruct (C1 H), (C2 H). congruence.
  - destruct (C1 H), (C2 H). congruence.
Qed.

Lemma lldp_kept_weaken (b : bool) (s1 s2 : lldp_recv_state) :
  lldp_kept true s1 s2 -> lldp_kept b s1 s2.
Proof.
  intros (A1 & T1 & P1 & I1 & V1 & E1 & C1).
  repeat split; try assumption; now destruct C1.
Qed.

(** [case LLDP_TYPE_ORG_SPEC] leaves the identifiers of the peer alone. *)
Lemma pf_lldp_recv_org_spec_kept (frame : list Z)
    (st st' : lldp_recv_state) :
  pf_lldp_recv_org_spec frame st = Some st' ->
  r_frame_value st' = r_frame_value st /\ lldp_kept true st st'.
Proof.
  unfold pf_lldp_recv_org_spec.
  destruct (memread frame (r_pData st) 3) as [oui|]; [|discriminate].
  cbn [mbind option_bind].
  match goal with
  | |- mbind _ ?o = _ -> _ => set (opt := o)
  end.
  assert (Hc : forall c', opt = Some c' ->
            PeerPortID c' = PeerPortID (lldp_peer_cfg (r_net st))
            /\ PeerChassisID c' = PeerChassisID (lldp_peer_cfg (r_net st))
            /\ PeerChassisIDLen c'
               = PeerChassisIDLen (lldp_peer_cfg (r_net st))).
  { intros c'. subst opt. split_binds.
    all: intros H; try discriminate H.
    all: injection H as <-; cbn; auto. }
  destruct opt as [c'|]; [|discriminate].
  destruct (Hc c' eq_refl) as (H1 & H2 & H3).
  cbn [mbind option_bind]. intros [= <-]. cbn.
  repeat split; try assumption.
  exists []. split; reflexivity.
Qed.

(** The cases of the [switch] other than the one of the Port ID. *)
Lemma pf_lldp_recv_case_other (env : os_env) (frame : list Z)
    (st st' : lldp_recv_state) :
  (if r_frame_type st =? LLDP_TYPE_CHASSIS_ID
   then pf_lldp_recv_chassis_id frame st
   else if r_frame_type st =? LLDP_TYPE_PORT_ID
   then pf_lldp_recv_port_id env frame st
   else if r_frame_type st =? LLDP_TYPE_TTL
   then pf_lldp_recv_ttl env frame st
   else if r_frame_type st =? LLDP_TYPE_ORG_SPEC
   then pf_lldp_recv_org_spec frame st
   else Some st) = Some st' ->
  r_frame_type st <> LLDP_TYPE_PORT_ID ->
  r_frame_value st' = r_frame_value st
  /\ lldp_kept (negb (r_frame_type st =? LLDP_TYPE_CHASSIS_ID)) st st'.
Proof.
  intros H Hport.
  destruct (Z.eqb_spec (r_frame_type st) LLDP_TYPE_CHASSIS_ID) as [Ec|Ec].
  { revert H. unfold pf_lldp_recv_chassis_id.
    split_binds.
    all: intros H; try discriminate H.
    all: injection H as <-; cbn.
    all: repeat split; try reflexivity; try congruence.
    all: exists []; split; reflexivity. }
  destruct (Z.eqb_spec (r_frame_type st) LLDP_TYPE_PORT_ID) as [Ep|Ep];
    [contradiction|].
  change (negb false) with true.
  destruct (r_frame_type st =? LLDP_TYPE_TTL).
  { revert H. unfold pf_lldp_recv_ttl, pf_lldp_create_peer_timer.
    split_binds.
    all: intros H; try discriminate H.
    all: injection H as <-; cbn.
    all: repeat split; try reflexivity.
    all: eexists; split; reflexivity. }
  destruct (r_frame_type st =? LLDP_TYPE_ORG_SPEC).
  { exact (pf_lldp_recv_org_spec_kept frame st st' H). }
  injection H as <-. split; [reflexivity|apply lldp_kept_refl].
Qed.

(** An iteration on a TLV that is no Port ID TLV. *)
Lemma pf_lldp_recv_iter_other (env : os_env) (frame : list Z)
    (st st' : lldp_recv_state) :
  pf_lldp_recv_iter env frame st = Some st' ->
  r_frame_type st <> LLDP_TYPE_PORT_ID ->
  lldp_kept (negb (r_frame_type st =? LLDP_TYPE_CHASSIS_ID)) st st'.
Proof.
  unfold pf_lldp_recv_iter. intros H Hport.
  destruct (if r_frame_type st =? LLDP_TYPE_CHASSIS_ID then _ else _)
    as [st1|] eqn:Hcase; [|discriminate].
  destruct (pf_lldp_recv_case_other env frame st st1 Hcase Hport)
    as (Ev & A1 & T1 & P1 & I1 & V1 & E1 & C1).
  cbn [mbind option_bind] in H.
  destruct (lldp_read_tlv_header _ _) as [[typ len]|]; [|discriminate].
  cbn [mbind option_bind] in H.
  rewrite memset_all in H. cbn [mbind option_bind] in H.
  injection H as <-. cbn.
  repeat split; try assumption.
  all: try (now destruct (C1 H)).
  cbn [r_frame_value]. rewrite length_replicate. congruence.
Qed.

(** Iterations on TLVs none of which is a Port ID TLV. *)
Lemma lldp_recv_steps_other (env : os_env) (frame : list Z) (excl : list Z)
    (k : nat) :
  In LLDP_TYPE_PORT_ID excl ->
  forall st st',
    lldp_recv_steps env frame excl k st = Some st' ->
    lldp_kept (existsb (Z.eqb LLDP_TYPE_CHASSIS_ID) excl) st st'.
Proof.
  intros Hin. induction k as [|k IH]; intros st st' H.
  - cbn [lldp_recv_steps] in H. injection H as <-. apply lldp_kept_refl.
  - cbn [lldp_recv_steps] in H.
    destruct (existsb (Z.eqb (r_frame_type st)) _) eqn:Hx; [discriminate|].
    destruct (pf_lldp_recv_iter env frame st) as [st1|] eqn:Hiter;
      [|discriminate].
    cbn [mbind option_bind] in H.
    apply (lldp_kept_trans _ st st1 st'); [|now apply IH].
    pose proof (pf_lldp_recv_iter_other env frame st st1 Hiter) as Hk.
    assert (Hp : r_frame_type st <> LLDP_TYPE_PORT_ID)
      by (apply (existsb_eqb_false _ _ _ Hx); now right).
    specialize (Hk Hp).
    destruct (existsb (Z.eqb LLDP_TYPE_CHASSIS_ID) excl) eqn:Hb.
    + apply existsb_exists in Hb as (x & Hb & Ex).
      apply Z.eqb_eq in Ex. subst x.
      assert (Hc : r_frame_type st <> LLDP_TYPE_CHASSIS_ID)
        by (apply (existsb_eqb_false _ _ _ Hx); now right).
      apply Z.eqb_neq in Hc. now rewrite Hc in Hk.
    + destruct (r_frame_type st =? LLDP_TYPE_CHASSIS_ID);
        [exact Hk | now apply lldp_kept_weaken].
Qed.

(** Iterations that do not stand on the end marker are iterations of
    the loop. *)
Lemma lldp_recv_steps_loop (env : os_env) (frame : list Z) (excl : list Z)
    (k : nat) :
  forall (st st' r : lldp_recv_state) (m : nat),
    lldp_recv_steps env frame excl k st = Some st' ->
    pf_lldp_recv_loop env frame m st' = Some r ->
    pf_lldp_recv_loop env frame (k + m) st = Some r.
Proof.
  induction k as [|k IH]; intros st st' r m H Hl.
  - cbn [lldp_recv_steps] in H. injection H as <-. exact Hl.
  - cbn [lldp_recv_steps] in H.
    destruct (existsb (Z.eqb (r_frame_type st)) _) eqn:Hx; [discriminate|].
    destruct (pf_lldp_recv_iter env frame st) as [st1|] eqn:Hiter;
      [|discriminate].
    cbn [mbind option_bind] in H.
    assert (He : r_frame_type st <> LLDP_TYPE_END)
      by (apply (existsb_eqb_false _ _ _ Hx); now left).
    apply Z.eqb_neq in He.
    cbn [Nat.add pf_lldp_recv_loop]. rewrite He, Hiter.
    cbn [mbind option_bind]. now apply (IH st1 st').
Qed.

Lemma pf_lldp_recv_loop_iter (env : os_env) (frame : list Z)
    (st st' r : lldp_recv_state) (m : nat) :
  r_frame_type st <> LLDP_TYPE_END ->
  pf_lldp_recv_iter env frame st = Some st' ->
  pf_lldp_recv_loop env frame m st' = Some r ->
  pf_lldp_recv_loop env frame (S m) st = Some r.
Proof.
  intros He Hiter Hl. apply Z.eqb_neq in He.
  cbn [pf_lldp_recv_loop]. rewrite He, Hiter. exact Hl.
Qed.

(** The bytes around a value that was read from a frame. *)
Lemma memread_split (frame : list Z) (off n : Z) (x : Z) (l : list Z) :
  memread frame off n = Some (x :: l) ->
  exists A C,
    frame = A ++ x :: l ++ C
    /\ off = Z.of_nat (length A)
    /\ n = 1 + Z.of_nat (length l).
Proof.
  unfold memread.
  destruct (Z.leb_spec 0 off); [|discriminate].
  destruct (Z.leb_spec 0 n); [|discriminate].
  destruct (Z.leb_spec (off + n) (Z.of_nat (length frame))); [|discriminate].
  cbn. intros [= Hr].
  exists (take (Z.to_nat off) frame),
         (drop (Z.to_nat n) (drop (Z.to_nat off) frame)).
  assert (Hl : length (x :: l) = Z.to_nat n).
  { rewrite <- Hr, length_take, length_drop. lia. }
  split; [|split].
  - change (x :: l ++ ?c) with ((x :: l) ++ c).
    rewrite <- Hr, take_drop, take_drop. reflexivity.
  - rewrite length_take. lia.
  - cbn [length] in Hl. lia.
Qed.

(** The iteration on a Chassis ID TLV with the NUL-free bytes [ch]:
    the peer record holds [ch] as a string. *)
Lemma pf_lldp_recv_iter_chassis (env : os_env) (frame : list Z)
    (sa sb : lldp_recv_state) (sub : Z) (ch : list Z) :
  r_frame_type sa = LLDP_TYPE_CHASSIS_ID ->
  lldp_tlv_value frame sa = Some (sub :: ch) ->
  Forall (fun x => x <> 0) ch ->
  pf_lldp_recv_iter env frame sa = Some sb ->
  is_cstring_of (PeerChassisID (lldp_peer_cfg (r_net sb))) ch
  /\ PeerChassisIDLen (lldp_peer_cfg (r_net sb)) = Z.of_nat (length ch)
  /\ lldp_kept false sa sb.
Proof.
  intros Ht Hv Hch Hi.
  assert (Hp : r_frame_type sa <> LLDP_TYPE_PORT_ID)
    by (rewrite Ht; discriminate).
  pose proof (pf_lldp_recv_iter_other env frame sa sb Hi Hp) as Hk.
  rewrite Ht in Hk. change (negb _) with false in Hk.
  split; [|split; [|exact Hk]].
  all: destruct (memread_split _ _ _ _ _ Hv) as (A & C & Hf & HpD & Hlen).
  all: unfold pf_lldp_recv_iter in Hi; rewrite Ht in Hi.
  all: change (LLDP_TYPE_CHASSIS_ID =? LLDP_TYPE_CHASSIS_ID) with true in Hi.
  all: cbv iota in Hi.
  all: destruct (pf_lldp_recv_chassis_id frame sa) as [s1|] eqn:Hcase;
    [|discriminate].
  all: assert (Hfit : (length ch
                       < length (PeerChassisID (lldp_peer_cfg (r_net sa))))%nat).
  1,3: (pose proof Hcase as Hc; unfold pf_lldp_recv_chassis_id in Hc;
        rewrite (memread_mid frame (A ++ [sub]) ch C (r_pData sa + 1)
                   (r_frame_len sa - 1)) in Hc;
        [| rewrite Hf, <- app_assoc; reflexivity
         | rewrite length_app; cbn [length]; lia
         | lia];
        cbn [mbind option_bind] in Hc;
        destruct (memcpy _ _ _ _) as [id|] eqn:Hm; [|discriminate];
        cbn [mbind option_bind] in Hc;
        destruct (store_byte id _ _) as [id'|] eqn:Hs; [|discriminate];
        apply memcpy_length in Hm;
        unfold store_byte in Hs;
        destruct (Z.ltb_spec (r_frame_len sa - 1) (Z.of_nat (length id)));
          [lia | rewrite andb_false_r in Hs; discriminate]).
  all: destruct (pf_lldp_recv_chassis_id_run frame A C ch sub sa Hf HpD Hlen
                   Hch Hfit) as (cid & Hrun & Ccid & Lcid).
  all: rewrite Hrun in Hcase; injection Hcase as <-.
  all: cbn [mbind option_bind] in Hi.
  all: destruct (lldp_read_tlv_header _ _) as [[typ len]|]; [|discriminate].
  all: cbn [mbind option_bind] in Hi.
  all: destruct (memset _ _ _ _); [|discriminate].
  all: cbn [mbind option_bind] in Hi; injection Hi as <-.
  - exact Ccid.
  - reflexivity.
Qed.

(** The state in which the loop is entered. *)
Lemma pf_lldp_recv_enter_state (sizeof_value : nat) (net : pnet_t)
    (frame : list Z) (frame_pos : Z) (s0 : lldp_recv_state) :
  pf_lldp_recv_enter sizeof_value net frame frame_pos = Some s0 ->
  r_net s0 = net /\ r_Alias s0 = replicate 250 0
  /\ r_frame_value s0 = replicate sizeof_value 0 /\ r_trace s0 = [].
Proof.
  unfold pf_lldp_recv_enter.
  destruct (lldp_read_tlv_header frame frame_pos) as [[typ len]|];
    [|discriminate].
  cbn [mbind option_bind]. intros [= <-]. auto.
Qed.

(** What the iteration on a Port ID TLV leaves for the next one. *)
Lemma pf_lldp_recv_iter_port_id (env : os_env) (frame : list Z)
    (sc sc' sd : lldp_recv_state) :
  r_frame_type sc = LLDP_TYPE_PORT_ID ->
  pf_lldp_recv_port_id env frame sc = Some sc' ->
  pf_lldp_recv_iter env frame sc = Some sd ->
  r_net sd = r_net sc' /\ r_Alias sd = r_Alias sc'
  /\ r_trace sd = r_trace sc'.
Proof.
  intros Ht Hcase Hi. unfold pf_lldp_recv_iter in Hi. rewrite Ht in Hi.
  change (LLDP_TYPE_PORT_ID =? LLDP_TYPE_CHASSIS_ID) with false in Hi.
  change (LLDP_TYPE_PORT_ID =? LLDP_TYPE_PORT_ID) with true in Hi.
  cbv iota in Hi. rewrite Hcase in Hi. cbn [mbind option_bind] in Hi.
  destruct (lldp_read_tlv_header _ _) as [[typ len]|]; [|discriminate].
  cbn [mbind option_bind] in Hi.
  destruct (memset _ _ _ _); [|discriminate].
  cbn [mbind option_bind] in Hi. injection Hi as <-. auto.
Qed.

(** The walk of [pf_lldp_recv] over a frame, from the entry of the loop
    to the end marker, is its run. *)
Lemma pf_lldp_recv_walk (env : os_env) (sizeof_value : nat) (net : pnet_t)
    (frame : list Z) (frame_pos : Z) (k1 k2 k3 : nat)
    (e1 e2 e3 : list Z) (s0 sa sb sc sd se : lldp_recv_state) :
  pf_lldp_recv_enter sizeof_value net frame frame_pos = Some s0 ->
  lldp_recv_steps env frame e1 k1 s0 = Some sa ->
  r_frame_type sa = LLDP_TYPE_CHASSIS_ID ->
  pf_lldp_recv_iter env frame sa = Some sb ->
  lldp_recv_steps env frame e2 k2 sb = Some sc ->
  r_frame_type sc = LLDP_TYPE_PORT_ID ->
  pf_lldp_recv_iter env frame sc = Some sd ->
  lldp_recv_steps env frame e3 k3 sd = Some se ->
  r_frame_type se = LLDP_TYPE_END ->
  pf_lldp_recv env sizeof_value net frame frame_pos
  = Some (r_net se, r_trace se).
Proof.
  intros H0 H1 Ta Ha H2 Tc Hc H3 Te.
  assert (L0 : pf_lldp_recv_loop env frame 0 se = Some se)
    by (cbn [pf_lldp_recv_loop]; now rewrite Te).
  pose proof (lldp_recv_steps_loop env frame e3 k3 sd se se 0%nat H3 L0) as L3.
  assert (Lc : pf_lldp_recv_loop env frame (S (k3 + 0)) sc = Some se).
  { apply (pf_lldp_recv_loop_iter env frame sc sd); try assumption.
    rewrite Tc. discriminate. }
  pose proof (lldp_recv_steps_loop env frame e2 k2 sb sc se _ H2 Lc) as L2.
  assert (La : pf_lldp_recv_loop env frame (S (k2 + S (k3 + 0))) sa = Some se).
  { apply (pf_lldp_recv_loop_iter env frame sa sb); try assumption.
    rewrite Ta. discriminate. }
  pose proof (lldp_recv_steps_loop env frame e1 k1 s0 sa se _ H1 La) as L1.
  exact (pf_lldp_recv_fuel_is_enough env sizeof_value net frame frame_pos _
           s0 se H0 L1).
Qed.



(** The frame of the walk is received to its end: [pf_lldp_recv]
    returns with the alias "port-003.dut" in the temporary alias name. *)
Lemma walk_frame_is_received :
  ('(net, _) ← pf_lldp_recv (scenario_env true 0) 256 scenario_net
                 walk_frame 0;
   Some (cstr (temp_alias_name net))) = Some ascii_port_003_dut.
Proof. vm_compute. reflexivity. Qed.


(** Identifiers whose alias does not fit [_Alias]: with a Chassis ID of
    200 and a Port ID of 100 characters the [strncat] of the Chassis ID
    writes past the 250 bytes of the array, and the model has no
    result. *)
Lemma alias_longer_than_its_array :
  pf_lldp_recv (scenario_env true 0) 256 scenario_net
    (tlv_bytes LLDP_TYPE_CHASSIS_ID (7 :: replicate 200 97)
     ++ tlv_bytes LLDP_TYPE_PORT_ID (7 :: replicate 100 98)
     ++ tlv_bytes LLDP_TYPE_END []) 0 = None.
Proof. vm_compute. reflexivity. Qed.

(** * Further properties of the provider machine *)

(** ** The frame of the first timer tick *)

(** [memcpy] of the first [n] bytes of a source over a block in the
    middle of the destination. *)
Lemma memcpy_block_take (A B C src : list Z) (off n : Z) :
  off = Z.of_nat (length A) -> n = Z.of_nat (length B) ->
  (length B <= length src)%nat ->
  memcpy (A ++ B ++ C) off src n = Some (A ++ take (length B) src ++ C).
Proof.
  intros -> -> Hs.
  rewrite memcpy_Some; rewrite ?length_app; try lia.
  rewrite !Nat2Z.id.
  replace (Z.to_nat (Z.of_nat (length A) + Z.of_nat (length B)))
    with (length A + length B)%nat by lia.
  rewrite take_app_length.
  rewrite drop_app_add', drop_app_length by reflexivity.
  reflexivity.
Qed.

(** [pf_ppm_finish_buffer] on the buffer that the activation has laid
    out: a header of 20 bytes, then [sdu + 4] zero bytes.  The first [n]
    staged bytes go behind the header, the rest of the data area stays
    zero, and the cycle counter, the data status and the transfer status
    follow it. *)
Lemma pf_ppm_finish_buffer_first (env : os_env) (net : pnet_t) (p : pf_ppm_t)
    (hdr R : list Z) (blen sdu n cyc : Z) :
  p_send_buffer p
  = Some (mk_os_buf (hdr ++ replicate (Z.to_nat (4 + sdu)) 0 ++ R) blen) ->
  length hdr = 20%nat ->
  buffer_pos p = 20 ->
  cycle_counter_offset p = 20 + sdu ->
  data_status_offset p = 22 + sdu ->
  transfer_status_offset p = 23 + sdu ->
  0 <= n <= sdu -> n <= Z.of_nat (length (buffer_data p)) ->
  pf_ppm_finish_buffer_cycle (os_get_current_time_us env) p = Some cyc ->
  pf_ppm_finish_buffer env net p n
  = Some (set_p_send_buffer
            (Some (mk_os_buf
                     (hdr ++ take (Z.to_nat n) (buffer_data p)
                      ++ replicate (Z.to_nat (sdu - n)) 0
                      ++ htons_bytes cyc
                      ++ [data_status p; transfer_status p] ++ R) blen))
            (set_cycle cyc p),
          [Ev_os_mutex_lock (ppm_buf_lock net);
           Ev_os_mutex_unlock (ppm_buf_lock net)]).
Proof.
  intros Hbuf Lh Hpos Hcco Hdso Htso Hn Hd Hcyc.
  unfold pf_ppm_finish_buffer. rewrite Hbuf, Hcyc.
  cbn [mbind option_bind payload len].
  change (cycle (set_cycle cyc p)) with cyc.
  change (buffer_pos (set_cycle cyc p)) with (buffer_pos p).
  change (buffer_data (set_cycle cyc p)) with (buffer_data p).
  change (cycle_counter_offset (set_cycle cyc p))
    with (cycle_counter_offset p).
  change (data_status_offset (set_cycle cyc p)) with (data_status_offset p).
  change (transfer_status_offset (set_cycle cyc p))
    with (transfer_status_offset p).
  change (data_status (set_cycle cyc p)) with (data_status p).
  change (transfer_status (set_cycle cyc p)) with (transfer_status p).
  rewrite Hpos, Hcco, Hdso, Htso.
  set (D := take (Z.to_nat n) (buffer_data p)).
  assert (LD : length D = Z.to_nat n) by (unfold D; rewrite length_take; lia).
  set (Zs := replicate (Z.to_nat (sdu - n)) 0).
  assert (LZ : length Zs = Z.to_nat (sdu - n))
    by (unfold Zs; apply length_replicate).
  replace (Z.to_nat (4 + sdu))
    with (Z.to_nat n + (Z.to_nat (sdu - n) + (2 + (1 + 1))))%nat by lia.
  rewrite !replicate_add, <- !app_assoc. fold Zs.
  rewrite (memcpy_block_take hdr (replicate (Z.to_nat n) 0) _ (buffer_data p))
    by (rewrite ?length_replicate; lia).
  rewrite length_replicate. fold D.
  cbn [mbind option_bind].
  rewrite (app_assoc hdr D), (app_assoc (hdr ++ D) Zs).
  rewrite (memcpy_block ((hdr ++ D) ++ Zs) (replicate 2 0) _ (htons_bytes cyc))
    by (rewrite ?length_app, ?length_replicate; cbn [length htons_bytes]; lia).
  cbn [mbind option_bind].
  rewrite (app_assoc ((hdr ++ D) ++ Zs) (htons_bytes cyc)).
  rewrite (memcpy_block (((hdr ++ D) ++ Zs) ++ htons_bytes cyc)
             (replicate 1 0) _ [data_status p])
    by (rewrite ?length_app, ?length_replicate; cbn [length htons_bytes]; lia).
  cbn [mbind option_bind].
  rewrite (app_assoc (((hdr ++ D) ++ Zs) ++ htons_bytes cyc) [data_status p]).
  rewrite (memcpy_block
             ((((hdr ++ D) ++ Zs) ++ htons_bytes cyc) ++ [data_status p])
             (replicate 1 0) R [transfer_status p])
    by (rewrite ?length_app, ?length_replicate; cbn [length htons_bytes]; lia).
  cbn [mbind option_bind].
  rewrite <- !app_assoc. reflexivity.
Qed.

(** A timer tick on a running instance whose buffer has been staged:
    whatever the driver and the timer answer, the frame handed to
    [os_eth_send] is the staged buffer, and no second frame follows. *)
Lemma pf_ppm_send_after_finish (env : os_env) (net : pnet_t) (p_ar : pf_ar_t)
    (crep : nat) (c : pf_iocr_t) (q : pf_ppm_t) (ev1 : list os_event)
    (buf : os_buf_t) :
  iocrs p_ar !! crep = Some c ->
  ci_running (ppm c) = true ->
  pf_ppm_finish_buffer env net (set_ci_timer UINT32_MAX (ppm c)) (in_length c)
  = Some (q, ev1) ->
  p_send_buffer q = Some buf ->
  exists net' ar' ev3,
    pf_ppm_send env net p_ar crep
    = Some (net', ar',
            ev1 ++ [Ev_os_eth_send (take (Z.to_nat (len buf)) (payload buf))]
            ++ ev3)
    /\ sent_frames ev3 = [].
Proof.
  intros Hc Hrun Hfin Hbuf.
  unfold pf_ppm_send. rewrite Hc. cbn [mbind option_bind].
  change (ci_running (set_ci_timer UINT32_MAX (ppm c)))
    with (ci_running (ppm c)).
  rewrite Hrun, Hfin. cbn [mbind option_bind]. rewrite Hbuf.
  cbn [mbind option_bind].
  destruct (os_eth_send env buf <=? 0).
  { exists (set_interface_statistics (uint32 (ifOutErrors net + 1))
              (ifOutOctects net) net), (set_iocr_ppm crep q p_ar), [].
    split; [reflexivity|reflexivity]. }
  destruct (PNET_OS_RTOS_SUPPORTED env).
  - destruct (rt_timer q) as [tm|].
    + cbv beta iota zeta. change (0 =? 0) with true. cbv iota.
      do 3 eexists. split; [reflexivity|reflexivity].
    + cbv beta iota zeta. change (-1 =? 0) with false. cbv iota.
      unfold pf_ppm_state_ind.
      do 3 eexists. split; [reflexivity|reflexivity].
  - destruct (pf_scheduler_add env _) as [r id].
    cbv beta iota zeta.
    destruct (r =? 0).
    + do 3 eexists. split; [reflexivity|reflexivity].
    + unfold pf_ppm_state_ind.
      do 3 eexists. split; [reflexivity|reflexivity].
Qed.

(** The frame of the timer tick after an activation: header, staged
    data, zeros up to the end of the data area, cycle counter, data
    status and transfer status. *)
Lemma pf_ppm_send_first_frame (env : os_env) (net : pnet_t)
    (p_ar : pf_ar_t) (crep : nat) (c : pf_iocr_t) (rtos : bool) (tick : Z)
    (prm : pf_iocr_param_t) (sa' da' : list Z) (buf0 : os_buf_t)
    (p0 : pf_ppm_t) :
  iocrs p_ar !! crep = Some c ->
  activated_ppm rtos tick prm sa' da' buf0 p0 (ppm c) ->
  length sa' = 6%nat -> length da' = 6%nat ->
  0 <= in_length c <= c_sdu_length prm ->
  in_length c <= Z.of_nat (length (buffer_data (ppm c))) ->
  uint16 (param_send_clock_factor prm * param_reduction_ratio prm) <> 0 ->
  exists net' ar' ev cyc,
    pf_ppm_send env net p_ar crep = Some (net', ar', ev)
    /\ pf_ppm_finish_buffer_cycle (os_get_current_time_us env) (ppm c)
       = Some cyc
    /\ sent_frames ev
       = [ppm_frame_header (ppm c) (frame_id prm) (iocr_tag_header prm)
          ++ take (Z.to_nat (in_length c)) (buffer_data (ppm c))
          ++ replicate (Z.to_nat (c_sdu_length prm - in_length c)) 0
          ++ htons_bytes cyc ++ [0x25; 0]].
Proof.
  intros Hc Hact Hsa Hda Hin Hin' Hratio.
  destruct Hact as (Hst & Hrun & Hft & Esa & Eda & Epos & Ecco & Edso & Etso
                    & Elen & Eds & Ets & Escf & Err & Eci & Ecci & Ebd & Etrx
                    & Htm & Ebuf).
  set (p := ppm c) in *.
  set (hdr := ppm_frame_header p (frame_id prm) (iocr_tag_header prm)) in *.
  assert (Lhdr : length hdr = 20%nat)
    by (apply ppm_frame_header_length; congruence).
  set (R := drop (Z.to_nat (24 + c_sdu_length prm)) (payload buf0)) in *.
  assert (Hcyc : exists cyc,
             pf_ppm_finish_buffer_cycle (os_get_current_time_us env) p
             = Some cyc).
  { unfold pf_ppm_finish_buffer_cycle. rewrite Escf, Err.
    destruct (Z.eqb_spec
                (uint16 (param_send_clock_factor prm
                         * param_reduction_ratio prm)) 0) as [E|E];
      [contradiction|]. eexists. reflexivity. }
  destruct Hcyc as [cyc Hcyc].
  set (q := set_ci_timer UINT32_MAX p).
  pose proof (pf_ppm_finish_buffer_first env net q hdr R
                (24 + c_sdu_length prm) (c_sdu_length prm) (in_length c) cyc
                Ebuf Lhdr Epos Ecco Edso Etso Hin Hin' Hcyc) as Hfin.
  edestruct (pf_ppm_send_after_finish env net p_ar crep c) as
    (net' & ar' & ev3 & Hsend & Hev3);
    [exact Hc | exact Hrun | exact Hfin | reflexivity |].
  exists net', ar'. eexists. exists cyc.
  split; [exact Hsend|]. split; [exact Hcyc|].
  cbn [payload len]. unfold sent_frames in *.
  cbn [app omap list_omap]. rewrite Hev3.
  change (data_status q) with (data_status p).
  change (transfer_status q) with (transfer_status p).
  change (buffer_data q) with (buffer_data p).
  rewrite Eds, Ets. f_equal.
  set (D := take (Z.to_nat (in_length c)) (buffer_data p)).
  assert (LD : length D = Z.to_nat (in_length c))
    by (unfold D; rewrite length_take; lia).
  set (Zs := replicate (Z.to_nat (c_sdu_length prm - in_length c)) 0).
  assert (LZ : length Zs = Z.to_nat (c_sdu_length prm - in_length c))
    by apply length_replicate.
  replace (hdr ++ D ++ Zs ++ htons_bytes cyc ++ 37 :: 0 :: R)
    with ((hdr ++ D ++ Zs ++ htons_bytes cyc ++ [37; 0]) ++ R)
    by (rewrite <- !app_assoc; reflexivity).
  rewrite take_app_length'; [reflexivity|].
  rewrite !length_app, Lhdr, LD, LZ.
  cbn [length htons_bytes]. lia.
Qed.


(** The first frame of an instance, in full: for an IOCR that
    [pf_ppm_activate_req] has laid out and whose [in_length] bytes of
    input fit into the data area of [c_sdu_length] bytes, the one frame
    of a timer tick is the header of the activation, the first
    [in_length] bytes of the staging buffer, zeros up to the end of the
    data area, the cycle counter in network order, the data status 0x25
    and the transfer status 0. *)
Theorem first_frame_is_header_data_trailer (env : os_env) (net : pnet_t)
    (p_ar : pf_ar_t) (crep : nat) (c : pf_iocr_t) (rtos : bool) (tick : Z)
    (prm : pf_iocr_param_t) (sa' da' : list Z) (buf0 : os_buf_t)
    (p0 : pf_ppm_t) :
  iocrs p_ar !! crep = Some c ->
  activated_ppm rtos tick prm sa' da' buf0 p0 (ppm c) ->
  length sa' = 6%nat -> length da' = 6%nat ->
  0 <= in_length c <= c_sdu_length prm ->
  in_length c <= Z.of_nat (length (buffer_data (ppm c))) ->
  uint16 (param_send_clock_factor prm * param_reduction_ratio prm) <> 0 ->
  exists net' ar' ev cyc,
    pf_ppm_send env net p_ar crep = Some (net', ar', ev)
    /\ pf_ppm_finish_buffer_cycle (os_get_current_time_us env) (ppm c)
       = Some cyc
    /\ sent_frames ev
       = [ppm_frame_header (ppm c) (frame_id prm) (iocr_tag_header prm)
          ++ take (Z.to_nat (in_length c)) (buffer_data (ppm c))
          ++ replicate (Z.to_nat (c_sdu_length prm - in_length c)) 0
          ++ htons_bytes cyc ++ [0x25; 0]].
Proof.
  intros Hc Hact Hsa Hda Hin Hin' Hratio.
  exact (pf_ppm_send_first_frame env net p_ar crep c rtos tick prm sa' da'
           buf0 p0 Hc Hact Hsa Hda Hin Hin' Hratio).
Qed.

Lemma first_frame_is_header_data_trailer_witness :
  (iocrs scenario_active.2 !! 0%nat = Some scenario_active_iocr
   /\ activated_ppm false 1000 scenario_param
        [0x11; 0x22; 0x33; 0x44; 0x55; 0x66]
        [0xAA; 0xBB; 0xCC; 0xDD; 0xEE; 0x01]
        (mk_os_buf (replicate 1522 0xEE) 1522) scenario_ppm
        (ppm scenario_active_iocr)
   /\ 0 <= in_length scenario_active_iocr <= c_sdu_length scenario_param
   /\ in_length scenario_active_iocr
      <= Z.of_nat (length (buffer_data (ppm scenario_active_iocr)))
   /\ uint16 (param_send_clock_factor scenario_param
              * param_reduction_ratio scenario_param) <> 0)
  /\ exists net' ar' ev cyc,
      pf_ppm_send (scenario_env false 1000) scenario_active.1
        scenario_active.2 0 = Some (net', ar', ev)
      /\ pf_ppm_finish_buffer_cycle
           (os_get_current_time_us (scenario_env false 1000))
           (ppm scenario_active_iocr) = Some cyc
      /\ sent_frames ev
         = [ppm_frame_header (ppm scenario_active_iocr)
              (frame_id scenario_param) (iocr_tag_header scenario_param)
            ++ take (Z.to_nat (in_length scenario_active_iocr))
                 (buffer_data (ppm scenario_active_iocr))
            ++ replicate
                 (Z.to_nat (c_sdu_length scenario_param
                            - in_length scenario_active_iocr)) 0
            ++ htons_bytes cyc ++ [0x25; 0]].
Proof.
  assert (H1 : iocrs scenario_active.2 !! 0%nat = Some scenario_active_iocr)
    by reflexivity.
  assert (H2 : activated_ppm false 1000 scenario_param
                 [0x11; 0x22; 0x33; 0x44; 0x55; 0x66]
                 [0xAA; 0xBB; 0xCC; 0xDD; 0xEE; 0x01]
                 (mk_os_buf (replicate 1522 0xEE) 1522) scenario_ppm
                 (ppm scenario_active_iocr)).
  { repeat split; try reflexivity; intros [=]. }
  assert (H3 : 0 <= in_length scenario_active_iocr
               <= c_sdu_length scenario_param)
    by (split; vm_compute; discriminate).
  assert (H4 : in_length scenario_active_iocr
               <= Z.of_nat (length (buffer_data (ppm scenario_active_iocr))))
    by (vm_compute; discriminate).
  assert (H5 : uint16 (param_send_clock_factor scenario_param
                       * param_reduction_ratio scenario_param) <> 0)
    by (vm_compute; discriminate).
  split; [exact (conj H1 (conj H2 (conj H3 (conj H4 H5))))|].
  apply (first_frame_is_header_data_trailer (scenario_env false 1000)
           scenario_active.1 scenario_active.2 0 scenario_active_iocr
           false 1000 scenario_param
           [0x11; 0x22; 0x33; 0x44; 0x55; 0x66]
           [0xAA; 0xBB; 0xCC; 0xDD; 0xEE; 0x01]
           (mk_os_buf (replicate 1522 0xEE) 1522) scenario_ppm
           H1 H2 eq_refl eq_refl H3 H4 H5).
Defined.

(** ** The outcomes of a timer tick *)

(** Staging succeeds for an instance that is ready to send. *)
Lemma pf_ppm_send_staged (env : os_env) (net : pnet_t) (c : pf_iocr_t)
    (buf : os_buf_t) :
  ppm_ready_to_send c buf ->
  exists pl cyc,
    pf_ppm_finish_buffer env net (set_ci_timer UINT32_MAX (ppm c))
      (in_length c)
    = Some (set_p_send_buffer (Some (mk_os_buf pl (len buf)))
              (set_cycle cyc (set_ci_timer UINT32_MAX (ppm c))),
            [Ev_os_mutex_lock (ppm_buf_lock net);
             Ev_os_mutex_unlock (ppm_buf_lock net)])
    /\ length pl = length (payload buf).
Proof.
  intros (Hrun & Hbuf & Hratio & Hin & Hpos & Hfit & Hcco & Hdso & Htso).
  set (q := set_ci_timer UINT32_MAX (ppm c)).
  assert (Hcyc : exists cyc,
             pf_ppm_finish_buffer_cycle (os_get_current_time_us env) q
             = Some cyc).
  { unfold pf_ppm_finish_buffer_cycle.
    change (send_clock_factor q) with (send_clock_factor (ppm c)).
    change (reduction_ratio q) with (reduction_ratio (ppm c)).
    destruct (Z.eqb_spec
                (uint16 (send_clock_factor (ppm c) * reduction_ratio (ppm c)))
                0) as [E|E]; [contradiction|]. eexists. reflexivity. }
  destruct Hcyc as [cyc Hcyc].
  destruct (pf_ppm_finish_buffer_fields env net q buf (in_length c) cyc)
    as (pl & Hfin & Lpl & _); try assumption.
  exists pl, cyc. split; assumption.
Qed.

(** A timer tick whose frame the driver does not take: the error counter
    of the interface goes up by one and that is all.  The timer is not
    started again, the transmit counter and [first_transmit] stay, and
    nothing is reported: neither an error in the AR nor a call of
    [pf_cmsu_ppm_error_ind]. *)
Theorem send_failure_is_counted_only (env : os_env) (net : pnet_t)
    (p_ar : pf_ar_t) (crep : nat) (c : pf_iocr_t) (buf : os_buf_t) :
  iocrs p_ar !! crep = Some c ->
  ppm_ready_to_send c buf ->
  (forall b, os_eth_send env b <= 0) ->
  exists q frame,
    pf_ppm_send env net p_ar crep
    = Some (set_interface_statistics (uint32 (ifOutErrors net + 1))
              (ifOutOctects net) net,
            set_iocr_ppm crep q p_ar,
            [Ev_os_mutex_lock (ppm_buf_lock net);
             Ev_os_mutex_unlock (ppm_buf_lock net);
             Ev_os_eth_send frame])
    /\ Z.of_nat (length frame) = Z.min (Z.max 0 (len buf))
                                   (Z.of_nat (length (payload buf)))
    /\ trx_cnt q = trx_cnt (ppm c)
    /\ first_transmit q = first_transmit (ppm c)
    /\ ci_timer q = UINT32_MAX
    /\ ci_running q = true
    /\ state q = state (ppm c).
Proof.
  intros Hc Hready Hdrv.
  destruct (pf_ppm_send_staged env net c buf Hready)
    as (pl & cyc & Hfin & Lpl).
  destruct Hready as (Hrun & _).
  unfold pf_ppm_send. rewrite Hc. cbn [mbind option_bind].
  change (ci_running (set_ci_timer UINT32_MAX (ppm c)))
    with (ci_running (ppm c)).
  rewrite Hrun, Hfin. cbn [mbind option_bind].
  change (p_send_buffer (set_p_send_buffer ?x _)) with x.
  cbn [mbind option_bind payload len].
  destruct (Z.leb_spec (os_eth_send env (mk_os_buf pl (len buf))) 0) as [_|H];
    [|specialize (Hdrv (mk_os_buf pl (len buf))); lia].
  do 2 eexists. split; [reflexivity|].
  split; [rewrite length_take; lia|].
  repeat split; assumption.
Qed.

Lemma send_failure_is_counted_only_witness :
  (iocrs scenario_active.2 !! 0%nat = Some scenario_active_iocr
   /\ ppm_ready_to_send scenario_active_iocr scenario_active_buf
   /\ (forall b, os_eth_send (failing_send_env true) b <= 0))
  /\ exists q frame,
      pf_ppm_send (failing_send_env true) scenario_active.1
        scenario_active.2 0
      = Some (set_interface_statistics
                (uint32 (ifOutErrors scenario_active.1 + 1))
                (ifOutOctects scenario_active.1) scenario_active.1,
              set_iocr_ppm 0 q scenario_active.2,
              [Ev_os_mutex_lock (ppm_buf_lock scenario_active.1);
               Ev_os_mutex_unlock (ppm_buf_lock scenario_active.1);
               Ev_os_eth_send frame])
      /\ Z.of_nat (length frame)
         = Z.min (Z.max 0 (len scenario_active_buf))
             (Z.of_nat (length (payload scenario_active_buf)))
      /\ trx_cnt q = trx_cnt (ppm scenario_active_iocr)
      /\ first_transmit q = first_transmit (ppm scenario_active_iocr)
      /\ ci_timer q = UINT32_MAX
      /\ ci_running q = true
      /\ state q = state (ppm scenario_active_iocr).
Proof.
  assert (H1 : iocrs scenario_active.2 !! 0%nat = Some scenario_active_iocr)
    by reflexivity.
  assert (H2 : ppm_ready_to_send scenario_active_iocr scenario_active_buf).
  { repeat split; try reflexivity; vm_compute; discriminate. }
  assert (H3 : forall b, os_eth_send (failing_send_env true) b <= 0)
    by (intros b; cbn; lia).
  split; [exact (conj H1 (conj H2 H3))|].
  apply (send_failure_is_counted_only (failing_send_env true)
           scenario_active.1 scenario_active.2 0 scenario_active_iocr
           scenario_active_buf H1 H2 H3).
Defined.

(** A timer tick whose frame the driver takes and whose timer can be
    started again (the call [e]): the octet counter of the interface and
    the transmit counter of the instance go up by one, [first_transmit]
    holds afterwards, and the AR is not marked with an error. *)
Theorem send_success_counts_and_rearms (env : os_env) (net : pnet_t)
    (p_ar : pf_ar_t) (crep : nat) (c : pf_iocr_t) (buf : os_buf_t)
    (e : os_event) :
  iocrs p_ar !! crep = Some c ->
  ppm_ready_to_send c buf ->
  (forall b, 0 < os_eth_send env b) ->
  ppm_rearm_ok env (ppm c) e ->
  exists q frame,
    pf_ppm_send env net p_ar crep
    = Some (set_interface_statistics (ifOutErrors net)
              (uint32 (ifOutOctects net + 1)) net,
            set_iocr_ppm crep q p_ar,
            [Ev_os_mutex_lock (ppm_buf_lock net);
             Ev_os_mutex_unlock (ppm_buf_lock net);
             Ev_os_eth_send frame; e])
    /\ trx_cnt q = uint32 (trx_cnt (ppm c) + 1)
    /\ first_transmit q = true
    /\ ci_running q = true
    /\ state q = state (ppm c).
Proof.
  intros Hc Hready Hdrv Hre.
  destruct (pf_ppm_send_staged env net c buf Hready)
    as (pl & cyc & Hfin & Lpl).
  destruct Hready as (Hrun & _).
  unfold pf_ppm_send. rewrite Hc. cbn [mbind option_bind].
  change (ci_running (set_ci_timer UINT32_MAX (ppm c)))
    with (ci_running (ppm c)).
  rewrite Hrun, Hfin. cbn [mbind option_bind].
  change (p_send_buffer (set_p_send_buffer ?x _)) with x.
  cbn [mbind option_bind payload len].
  destruct (Z.leb_spec (os_eth_send env (mk_os_buf pl (len buf))) 0) as [H|_];
    [specialize (Hdrv (mk_os_buf pl (len buf))); lia|].
  unfold ppm_rearm_ok in Hre.
  destruct (PNET_OS_RTOS_SUPPORTED env).
  - destruct Hre as (tm & Htm & ->).
    change (rt_timer (set_p_send_buffer _ _)) with (rt_timer (ppm c)).
    rewrite Htm. cbv beta iota zeta. change (0 =? 0) with true. cbv iota.
    destruct (first_transmit (ppm c)) eqn:Hft.
    + change (first_transmit (set_trx_cnt _ _)) with (first_transmit (ppm c)).
      rewrite Hft. do 2 eexists. split; [reflexivity|].
      repeat split; assumption.
    + change (first_transmit (set_trx_cnt _ _)) with (first_transmit (ppm c)).
      rewrite Hft. do 2 eexists. split; [reflexivity|].
      repeat split; assumption.
  - destruct Hre as (Hr & ->).
    change (compensated_control_interval (set_p_send_buffer _ _))
      with (compensated_control_interval (ppm c)).
    destruct (pf_scheduler_add env (compensated_control_interval (ppm c)))
      as [r id]. cbn in Hr. subst r.
    cbv beta iota zeta. change (0 =? 0) with true. cbv iota.
    destruct (first_transmit (ppm c)) eqn:Hft.
    + change (first_transmit (set_trx_cnt _ _)) with (first_transmit (ppm c)).
      rewrite Hft. do 2 eexists. split; [reflexivity|].
      repeat split; assumption.
    + change (first_transmit (set_trx_cnt _ _)) with (first_transmit (ppm c)).
      rewrite Hft. do 2 eexists. split; [reflexivity|].
      repeat split; assumption.
Qed.

Lemma send_success_counts_and_rearms_witness :
  (iocrs scenario_active.2 !! 0%nat = Some scenario_active_iocr
   /\ ppm_ready_to_send scenario_active_iocr scenario_active_buf
   /\ (forall b, 0 < os_eth_send (mk_os_env false 0 1 (fun _ => None)
                                    (fun _ _ => None) (fun _ => (0, 3))
                                    (fun _ => 1) (fun _ _ => 0)
                                    (fun _ _ => 0)) b)
   /\ ppm_rearm_ok (mk_os_env false 0 1 (fun _ => None) (fun _ _ => None)
                      (fun _ => (0, 3)) (fun _ => 1) (fun _ _ => 0)
                      (fun _ _ => 0))
        (ppm scenario_active_iocr) (Ev_pf_scheduler_add 500))
  /\ exists q frame,
      pf_ppm_send (mk_os_env false 0 1 (fun _ => None) (fun _ _ => None)
                     (fun _ => (0, 3)) (fun _ => 1) (fun _ _ => 0)
                     (fun _ _ => 0))
        scenario_active.1 scenario_active.2 0
      = Some (set_interface_statistics (ifOutErrors scenario_active.1)
                (uint32 (ifOutOctects scenario_active.1 + 1))
                scenario_active.1,
              set_iocr_ppm 0 q scenario_active.2,
              [Ev_os_mutex_lock (ppm_buf_lock scenario_active.1);
               Ev_os_mutex_unlock (ppm_buf_lock scenario_active.1);
               Ev_os_eth_send frame; Ev_pf_scheduler_add 500])
      /\ trx_cnt q = uint32 (trx_cnt (ppm scenario_active_iocr) + 1)
      /\ first_transmit q = true
      /\ ci_running q = true
      /\ state q = state (ppm scenario_active_iocr).
Proof.
  set (env := mk_os_env false 0 1 (fun _ => None) (fun _ _ => None)
                (fun _ => (0, 3)) (fun _ => 1) (fun _ _ => 0)
                (fun _ _ => 0)).
  assert (H1 : iocrs scenario_active.2 !! 0%nat = Some scenario_active_iocr)
    by reflexivity.
  assert (H2 : ppm_ready_to_send scenario_active_iocr scenario_active_buf).
  { repeat split; try reflexivity; vm_compute; discriminate. }
  assert (H3 : forall b, 0 < os_eth_send env b) by (intros b; cbn; lia).
  assert (H4 : ppm_rearm_ok env (ppm scenario_active_iocr)
                 (Ev_pf_scheduler_add 500))
    by (split; reflexivity).
  split; [exact (conj H1 (conj H2 (conj H3 H4)))|].
  apply (send_success_counts_and_rearms env scenario_active.1
           scenario_active.2 0 scenario_active_iocr scenario_active_buf
           (Ev_pf_scheduler_add 500) H1 H2 H3 H4).
Defined.

(** A timer tick whose frame the driver takes, but whose timer cannot be
    started again: the frame is counted as sent, the transmit counter
    and [first_transmit] stay, [ci_timer] is UINT32_MAX, and the error
    PPM / INVALID is written into the AR and reported with
    [pf_cmsu_ppm_error_ind]. *)
Theorem send_without_rearm_reports_error (env : os_env) (net : pnet_t)
    (p_ar : pf_ar_t) (crep : nat) (c : pf_iocr_t) (buf : os_buf_t)
    (ev : list os_event) :
  iocrs p_ar !! crep = Some c ->
  ppm_ready_to_send c buf ->
  (forall b, 0 < os_eth_send env b) ->
  ppm_rearm_refused env (ppm c) ev ->
  exists q frame,
    pf_ppm_send env net p_ar crep
    = Some (set_interface_statistics (ifOutErrors net)
              (uint32 (ifOutOctects net + 1)) net,
            set_error PNET_ERROR_CODE_1_PPM PNET_ERROR_CODE_2_PPM_INVALID
              (set_iocr_ppm crep q p_ar),
            [Ev_os_mutex_lock (ppm_buf_lock net);
             Ev_os_mutex_unlock (ppm_buf_lock net);
             Ev_os_eth_send frame] ++ ev
            ++ [Ev_pf_cmsu_ppm_error_ind PNET_ERROR_CODE_1_PPM
                  PNET_ERROR_CODE_2_PPM_INVALID])
    /\ trx_cnt q = trx_cnt (ppm c)
    /\ first_transmit q = first_transmit (ppm c)
    /\ ci_timer q = UINT32_MAX
    /\ ci_running q = true
    /\ state q = state (ppm c).
Proof.
  intros Hc Hready Hdrv Hre.
  destruct (pf_ppm_send_staged env net c buf Hready)
    as (pl & cyc & Hfin & Lpl).
  destruct Hready as (Hrun & _).
  unfold pf_ppm_send. rewrite Hc. cbn [mbind option_bind].
  change (ci_running (set_ci_timer UINT32_MAX (ppm c)))
    with (ci_running (ppm c)).
  rewrite Hrun, Hfin. cbn [mbind option_bind].
  change (p_send_buffer (set_p_send_buffer ?x _)) with x.
  cbn [mbind option_bind payload len].
  destruct (Z.leb_spec (os_eth_send env (mk_os_buf pl (len buf))) 0) as [H|_];
    [specialize (Hdrv (mk_os_buf pl (len buf))); lia|].
  unfold ppm_rearm_refused in Hre.
  destruct (PNET_OS_RTOS_SUPPORTED env).
  - destruct Hre as (Htm & ->).
    change (rt_timer (set_p_send_buffer _ _)) with (rt_timer (ppm c)).
    rewrite Htm. cbv beta iota zeta. change (-1 =? 0) with false. cbv iota.
    unfold pf_ppm_state_ind.
    do 2 eexists. split; [reflexivity|].
    repeat split; assumption.
  - destruct Hre as (Hr & ->).
    change (compensated_control_interval (set_p_send_buffer _ _))
      with (compensated_control_interval (ppm c)).
    destruct (pf_scheduler_add env (compensated_control_interval (ppm c)))
      as [r id]. cbn in Hr.
    cbv beta iota zeta.
    destruct (Z.eqb_spec r 0) as [E|_]; [contradiction|].
    unfold pf_ppm_state_ind.
    do 2 eexists. split; [reflexivity|].
    repeat split; assumption.
Qed.

Lemma send_without_rearm_reports_error_witness :
  (iocrs scenario_active.2 !! 0%nat = Some scenario_active_iocr
   /\ ppm_ready_to_send scenario_active_iocr scenario_active_buf
   /\ (forall b, 0 < os_eth_send (mk_os_env false 0 1 (fun _ => None)
                                    (fun _ _ => None) (fun _ => (-1, 0))
                                    (fun _ => 1) (fun _ _ => 0)
                                    (fun _ _ => 0)) b)
   /\ ppm_rearm_refused (mk_os_env false 0 1 (fun _ => None)
                           (fun _ _ => None) (fun _ => (-1, 0))
                           (fun _ => 1) (fun _ _ => 0) (fun _ _ => 0))
        (ppm scenario_active_iocr) [Ev_pf_scheduler_add 500])
  /\ exists q frame,
      pf_ppm_send (mk_os_env false 0 1 (fun _ => None) (fun _ _ => None)
                     (fun _ => (-1, 0)) (fun _ => 1) (fun _ _ => 0)
                     (fun _ _ => 0))
        scenario_active.1 scenario_active.2 0
      = Some (set_interface_statistics (ifOutErrors scenario_active.1)
                (uint32 (ifOutOctects scenario_active.1 + 1))
                scenario_active.1,
              set_error PNET_ERROR_CODE_1_PPM PNET_ERROR_CODE_2_PPM_INVALID
                (set_iocr_ppm 0 q scenario_active.2),
              [Ev_os_mutex_lock (ppm_buf_lock scenario_active.1);
               Ev_os_mutex_unlock (ppm_buf_lock scenario_active.1);
               Ev_os_eth_send frame] ++ [Ev_pf_scheduler_add 500]
              ++ [Ev_pf_cmsu_ppm_error_ind PNET_ERROR_CODE_1_PPM
                    PNET_ERROR_CODE_2_PPM_INVALID])
      /\ trx_cnt q = trx_cnt (ppm scenario_active_iocr)
      /\ first_transmit q = first_transmit (ppm scenario_active_iocr)
      /\ ci_timer q = UINT32_MAX
      /\ ci_running q = true
      /\ state q = state (ppm scenario_active_iocr).
Proof.
  set (env := mk_os_env false 0 1 (fun _ => None) (fun _ _ => None)
                (fun _ => (-1, 0)) (fun _ => 1) (fun _ _ => 0)
                (fun _ _ => 0)).
  assert (H1 : iocrs scenario_active.2 !! 0%nat = Some scenario_active_iocr)
    by reflexivity.
  assert (H2 : ppm_ready_to_send scenario_active_iocr scenario_active_buf).
  { repeat split; try reflexivity; vm_compute; discriminate. }
  assert (H3 : forall b, 0 < os_eth_send env b) by (intros b; cbn; lia).
  assert (H4 : ppm_rearm_refused env (ppm scenario_active_iocr)
                 [Ev_pf_scheduler_add 500])
    by (split; [vm_compute; discriminate | reflexivity]).
  split; [exact (conj H1 (conj H2 (conj H3 H4)))|].
  apply (send_without_rearm_reports_error env scenario_active.1
           scenario_active.2 0 scenario_active_iocr scenario_active_buf
           [Ev_pf_scheduler_add 500] H1 H2 H3 H4).
Defined.

(** ** Closing *)

(** After [pf_ppm_close_req] a timer tick that is still pending sends
    nothing: [pf_ppm_send] makes no call at all, leaves the stack
    instance as it is and only sets [ci_timer] to UINT32_MAX.  This holds
    for every instance, whatever its state before the close. *)
Theorem send_after_close_is_silent (env env' : os_env) (net : pnet_t)
    (p_ar : pf_ar_t) (crep : nat) (c : pf_iocr_t) :
  iocrs p_ar !! crep = Some c ->
  exists net1 ar1 ev1 c1,
    pf_ppm_close_req env net p_ar crep = Some (net1, ar1, 0, ev1)
    /\ iocrs ar1 !! crep = Some c1
    /\ ci_running (ppm c1) = false
    /\ pf_ppm_send env' net1 ar1 crep
       = Some (net1, set_iocr_ppm crep (set_ci_timer UINT32_MAX (ppm c1)) ar1,
               []).
Proof.
  intros Hc.
  assert (Hlook : forall q,
    iocrs (set_iocr_ppm crep q p_ar) !! crep = Some (set_ppm q c)).
  { intros q. unfold set_iocr_ppm. cbn [iocrs set_iocrs].
    now rewrite list_lookup_alter_eq, Hc. }
  assert (Hsend : forall net1 q,
    ci_running q = false ->
    pf_ppm_send env' net1 (set_iocr_ppm crep q p_ar) crep
    = Some (net1,
            set_iocr_ppm crep (set_ci_timer UINT32_MAX q)
              (set_iocr_ppm crep q p_ar), [])).
  { intros net1 q Hq. unfold pf_ppm_send. rewrite Hlook.
    cbn [mbind option_bind set_ppm ppm].
    change (ci_running (set_ci_timer UINT32_MAX q)) with (ci_running q).
    rewrite Hq. reflexivity. }
  unfold pf_ppm_close_req. rewrite Hc. cbn [mbind option_bind].
  set (q0 := set_ci_running false (ppm c)).
  set (r := if PNET_OS_RTOS_SUPPORTED env then _ else _).
  assert (Hr : ci_running r.1 = false).
  { unfold r. destruct (PNET_OS_RTOS_SUPPORTED env).
    - change (rt_timer q0) with (rt_timer (ppm c)).
      destruct (rt_timer (ppm c)); reflexivity.
    - destruct (negb _); reflexivity. }
  destruct r as [q ev0]. cbn [fst] in Hr.
  cbv beta iota zeta.
  destruct (ppm_instance_cnt net =? 1).
  - do 3 eexists. exists (set_ppm (set_data_status 0
                                     (pf_ppm_set_state q PF_PPM_STATE_W_START))
                            c).
    split; [reflexivity|]. split; [apply Hlook|].
    split; [exact Hr|]. now apply Hsend.
  - do 3 eexists. exists (set_ppm (pf_ppm_set_state q PF_PPM_STATE_W_START) c).
    split; [reflexivity|]. split; [apply Hlook|].
    split; [exact Hr|]. now apply Hsend.
Qed.

Lemma send_after_close_is_silent_witness :
  iocrs scenario_active.2 !! 0%nat = Some scenario_active_iocr
  /\ exists net1 ar1 ev1 c1,
      pf_ppm_close_req (scenario_env false 0) scenario_active.1
        scenario_active.2 0 = Some (net1, ar1, 0, ev1)
      /\ iocrs ar1 !! 0%nat = Some c1
      /\ ci_running (ppm c1) = false
      /\ pf_ppm_send (scenario_env false 1000) net1 ar1 0
         = Some (net1, set_iocr_ppm 0 (set_ci_timer UINT32_MAX (ppm c1)) ar1,
                 []).
Proof.
  split; [reflexivity|].
  apply (send_after_close_is_silent (scenario_env false 0)
           (scenario_env false 1000) scenario_active.1 scenario_active.2 0
           scenario_active_iocr).
  reflexivity.
Defined.

(** ** An activation without a timer *)

(** When the timer of the activation is refused, [pf_ppm_activate_req]
    returns a value other than 0 and reports PPM / INVALID, but it does
    not undo what it did: the instance stays in the state RUN with
    [ci_running] set, the buffer it allocated is kept and not freed, and
    the instance counter has been counted up. *)
Theorem activation_without_timer_stays_up (env : os_env) (net : pnet_t)
    (p_ar : pf_ar_t) (crep : nat) (c : pf_iocr_t) (buf0 : os_buf_t) :
  let prm := param c in
  let tick := scheduler_tick_interval net in
  let rtos := PNET_OS_RTOS_SUPPORTED env in
  let ci := spec_control_interval (param_send_clock_factor prm)
              (param_reduction_ratio prm) in
  iocrs p_ar !! crep = Some c ->
  state (ppm c) = PF_PPM_STATE_W_START ->
  length (cm_responder_mac_add p_ar) = 6%nat ->
  length (cm_initiator_mac_add p_ar) = 6%nat ->
  0 <= c_sdu_length prm ->
  24 + c_sdu_length prm <= Z.of_nat (length (payload buf0)) ->
  24 + c_sdu_length prm < 2 ^ 16 ->
  0 <= param_send_clock_factor prm < 2 ^ 16 ->
  0 <= param_reduction_ratio prm < 2 ^ 16 ->
  param_send_clock_factor prm * param_reduction_ratio prm * 1000 < 2 ^ 32 ->
  0 < tick -> tick + tick / 2 < 2 ^ 32 -> ci + tick / 2 < 2 ^ 32 ->
  spec_stack_ticks ci tick < 2 ^ 31 ->
  os_buf_alloc env PF_FRAME_BUFFER_SIZE = Some buf0 ->
  activation_timer_refused env (spec_compensated_delay rtos ci tick) ->
  exists net' ar' ret ev c',
    pf_ppm_activate_req env net p_ar crep = Some (net', ar', ret, ev)
    /\ ret <> 0
    /\ err_cls ar' = PNET_ERROR_CODE_1_PPM
    /\ err_code ar' = PNET_ERROR_CODE_2_PPM_INVALID
    /\ last ev = Some (Ev_pf_cmsu_ppm_error_ind PNET_ERROR_CODE_1_PPM
                         PNET_ERROR_CODE_2_PPM_INVALID)
    /\ frees_no_buffer ev
    /\ iocrs ar' !! crep = Some c'
    /\ state (ppm c') = PF_PPM_STATE_RUN
    /\ ci_running (ppm c') = true
    /\ ci_timer (ppm c') = UINT32_MAX
    /\ is_Some (p_send_buffer (ppm c'))
    /\ ppm_instance_cnt net' = uint32 (ppm_instance_cnt net + 1).
Proof.
  intros prm tick rtos ci Hc Hst Hsa Hda Hsdu Hfit H16 Hscf Hrr Hci Htick
    Htick32 Hci32 Hticks Halloc Htimer.
  assert (Hlook : forall q a,
    iocrs a = iocrs p_ar ->
    iocrs (set_iocr_ppm crep q a) !! crep = Some (set_ppm q c)).
  { intros q a Ha. unfold set_iocr_ppm. cbn [iocrs set_iocrs].
    now rewrite Ha, list_lookup_alter_eq, Hc. }
  unfold pf_ppm_activate_req. rewrite Hc. cbn [mbind option_bind].
  set (lk := if ppm_instance_cnt net =? 0
             then (Some (os_mutex_create env), [Ev_os_mutex_create])
             else (ppm_buf_lock net, [])).
  assert (Hlk : frees_no_buffer lk.2).
  { unfold lk. destruct (ppm_instance_cnt net =? 0); cbn [snd].
    - repeat constructor.
    - constructor. }
  destruct lk as [lock ev0]. cbn [snd] in Hlk. rewrite Hst.
  change sizeof_pnet_ethaddr_t with 6.
  rewrite !memread_all by lia.
  cbn [mbind option_bind].
  change (uint16 (2 * 6 + 4 + 2 + 2)) with 20.
  fold prm.
  rewrite (uint16_small (20 + c_sdu_length prm)) by lia.
  rewrite (uint16_small (20 + c_sdu_length prm + 2)) by lia.
  rewrite (uint16_small (20 + c_sdu_length prm + 2 + 1)) by lia.
  rewrite (uint16_small (20 + c_sdu_length prm + 2 + 1 + 1)) by lia.
  rewrite Halloc. cbn [mbind option_bind].
  rewrite pf_ppm_init_buf_layout by (cbn; lia).
  cbn [mbind option_bind].
  change (scheduler_tick_interval (set_ppm_instance _ _ net)) with tick.
  fold rtos.
  assert (Hcieq :
    uint32 (uint32 (uint32 (param_send_clock_factor prm)
                    * uint32 (param_reduction_ratio prm)) * 1000) / 32 = ci).
  { unfold ci, spec_control_interval.
    rewrite (uint32_small (param_send_clock_factor prm)) by lia.
    rewrite (uint32_small (param_reduction_ratio prm)) by lia.
    rewrite (uint32_small (param_send_clock_factor prm
                           * param_reduction_ratio prm)) by nia.
    rewrite uint32_small by nia. reflexivity. }
  rewrite Hcieq.
  assert (Hci0 : 0 <= ci < 2 ^ 32).
  { unfold ci, spec_control_interval. split.
    - apply Z.div_pos; nia.
    - apply Z.div_lt_upper_bound; nia. }
  rewrite compensated_delay_value by (try assumption; lia).
  cbn [mbind option_bind].
  set (cci := spec_compensated_delay rtos ci tick) in *.
  unfold activation_timer_refused in Htimer. fold rtos in Htimer.
  destruct rtos eqn:Hrtos.
  - rewrite Htimer.
    cbv beta iota zeta. change (-1 =? 0) with false. cbv iota.
    unfold pf_ppm_state_ind.
    do 4 eexists. eexists (set_ppm _ c).
    split; [reflexivity|].
    split; [discriminate|].
    split; [reflexivity|]. split; [reflexivity|].
    split; [rewrite !app_assoc; apply last_snoc|].
    split.
    { unfold frees_no_buffer. rewrite !Forall_app.
      repeat split; try exact Hlk; repeat constructor. }
    split; [apply Hlook; reflexivity|].
    cbn. repeat split; try reflexivity. now eexists.
  - destruct (pf_scheduler_add env cci) as [r id]. cbn in Htimer.
    cbv beta iota zeta.
    destruct (Z.eqb_spec r 0) as [E|E]; [contradiction|].
    unfold pf_ppm_state_ind.
    do 4 eexists. eexists (set_ppm _ c).
    split; [reflexivity|].
    split; [exact E|].
    split; [reflexivity|]. split; [reflexivity|].
    split; [rewrite !app_assoc; apply last_snoc|].
    split.
    { unfold frees_no_buffer. rewrite !Forall_app.
      repeat split; try exact Hlk; repeat constructor. }
    split; [apply Hlook; reflexivity|].
    cbn. repeat split; try reflexivity. now eexists.
Qed.

Lemma activation_without_timer_stays_up_witness :
  (iocrs scenario_ar !! 0%nat = Some scenario_iocr
   /\ state (ppm scenario_iocr) = PF_PPM_STATE_W_START
   /\ os_buf_alloc (failing_timer_env true) PF_FRAME_BUFFER_SIZE
      = Some (mk_os_buf (replicate 1522 0xEE) 1522)
   /\ activation_timer_refused (failing_timer_env true)
        (spec_compensated_delay true
           (spec_control_interval 32 1) 1000))
  /\ exists net' ar' ret ev c',
      pf_ppm_activate_req (failing_timer_env true) scenario_net scenario_ar 0
      = Some (net', ar', ret, ev)
      /\ ret <> 0
      /\ err_cls ar' = PNET_ERROR_CODE_1_PPM
      /\ err_code ar' = PNET_ERROR_CODE_2_PPM_INVALID
      /\ last ev = Some (Ev_pf_cmsu_ppm_error_ind PNET_ERROR_CODE_1_PPM
                           PNET_ERROR_CODE_2_PPM_INVALID)
      /\ frees_no_buffer ev
      /\ iocrs ar' !! 0%nat = Some c'
      /\ state (ppm c') = PF_PPM_STATE_RUN
      /\ ci_running (ppm c') = true
      /\ ci_timer (ppm c') = UINT32_MAX
      /\ is_Some (p_send_buffer (ppm c'))
      /\ ppm_instance_cnt net' = uint32 (ppm_instance_cnt scenario_net + 1).
Proof.
  split; [repeat split; reflexivity|].
  apply (activation_without_timer_stays_up (failing_timer_env true)
           scenario_net scenario_ar 0 scenario_iocr
           (mk_os_buf (replicate 1522 0xEE) 1522));
    try reflexivity; try (vm_compute; discriminate);
    try (split; [vm_compute; discriminate | reflexivity]).
Defined.

(** ** Activation and close together *)




(** [pf_ppm_close_req] leaves the pointer to the send buffer in the
    instance: a second close of the same instance hands the same buffer
    to [os_buf_free] once more and counts the instance counter down a
    second time. *)
Theorem second_close_frees_the_same_buffer (env : os_env) (net : pnet_t)
    (p_ar : pf_ar_t) (crep : nat) (c : pf_iocr_t) :
  iocrs p_ar !! crep = Some c ->
  exists net1 ar1 ev1 net2 ar2 ev2,
    pf_ppm_close_req env net p_ar crep = Some (net1, ar1, 0, ev1)
    /\ pf_ppm_close_req env net1 ar1 crep = Some (net2, ar2, 0, ev2)
    /\ In (Ev_os_buf_free (p_send_buffer (ppm c))) ev1
    /\ In (Ev_os_buf_free (p_send_buffer (ppm c))) ev2
    /\ ppm_instance_cnt net2
       = uint32 (uint32 (ppm_instance_cnt net - 1) - 1).
Proof.
  intros Hc.
  assert (Hclose : forall net0 ar0 c0,
    iocrs ar0 !! crep = Some c0 ->
    exists q ev,
      pf_ppm_close_req env net0 ar0 crep
      = Some (set_ppm_instance (uint32 (ppm_instance_cnt net0 - 1))
                (if ppm_instance_cnt net0 =? 1 then None
                 else ppm_buf_lock net0) net0,
              set_iocr_ppm crep q ar0, 0, ev)
      /\ p_send_buffer q = p_send_buffer (ppm c0)
      /\ In (Ev_os_buf_free (p_send_buffer (ppm c0))) ev).
  { intros net0 ar0 c0 H0. unfold pf_ppm_close_req. rewrite H0.
    cbn [mbind option_bind].
    set (r := if PNET_OS_RTOS_SUPPORTED env then _ else _).
    assert (Hr : p_send_buffer r.1 = p_send_buffer (ppm c0)).
    { unfold r. destruct (PNET_OS_RTOS_SUPPORTED env).
      - change (rt_timer (set_ci_running false (ppm c0)))
          with (rt_timer (ppm c0)).
        destruct (rt_timer (ppm c0)); reflexivity.
      - destruct (negb _); reflexivity. }
    destruct r as [q ev0]. cbn [fst] in Hr. cbv beta iota zeta.
    destruct (ppm_instance_cnt net0 =? 1).
    - do 2 eexists. split; [reflexivity|]. split; [exact Hr|].
      rewrite <- Hr. apply in_or_app. right. now left.
    - do 2 eexists. split; [reflexivity|]. split; [exact Hr|].
      rewrite <- Hr. apply in_or_app. right. now left. }
  destruct (Hclose net p_ar c Hc) as (q1 & ev1 & H1 & B1 & I1).
  assert (Hc1 : iocrs (set_iocr_ppm crep q1 p_ar) !! crep
                = Some (set_ppm q1 c)).
  { unfold set_iocr_ppm. cbn [iocrs set_iocrs].
    now rewrite list_lookup_alter_eq, Hc. }
  destruct (Hclose
              (set_ppm_instance (uint32 (ppm_instance_cnt net - 1))
                 (if ppm_instance_cnt net =? 1 then None
                  else ppm_buf_lock net) net) _ _ Hc1)
    as (q2 & ev2 & H2 & B2 & I2).
  do 6 eexists. split; [exact H1|]. split; [exact H2|].
  split; [exact I1|]. split; [|reflexivity].
  cbn [ppm set_ppm] in I2. now rewrite B1 in I2.
Qed.

Lemma second_close_frees_the_same_buffer_witness :
  iocrs scenario_active.2 !! 0%nat = Some scenario_active_iocr
  /\ exists net1 ar1 ev1 net2 ar2 ev2,
      pf_ppm_close_req (scenario_env false 0) scenario_active.1
        scenario_active.2 0 = Some (net1, ar1, 0, ev1)
      /\ pf_ppm_close_req (scenario_env false 0) net1 ar1 0
         = Some (net2, ar2, 0, ev2)
      /\ In (Ev_os_buf_free (p_send_buffer (ppm scenario_active_iocr))) ev1
      /\ In (Ev_os_buf_free (p_send_buffer (ppm scenario_active_iocr))) ev2
      /\ ppm_instance_cnt net2
         = uint32 (uint32 (ppm_instance_cnt scenario_active.1 - 1) - 1).
Proof.
  split; [reflexivity|].
  apply (second_close_frees_the_same_buffer (scenario_env false 0)
           scenario_active.1 scenario_active.2 0 scenario_active_iocr).
  reflexivity.
Defined.

(** ** The mutex through a sequence of calls *)

(** Through every sequence of [pf_ppm_init], activations and closes that
    runs without a fault, in which no close comes at a counter of 0, the
    counter does not reach 2^32 and [pf_ppm_init] only comes at a
    counter of 0, the mutex of the staging buffers exists exactly while
    the instance counter is positive, and the counter is the number of
    activations (rejected ones included) less the number of closes. *)
Theorem lock_follows_counter_through_calls (env : os_env)
    (cs : list ppm_call) (net : pnet_t) (ar : pf_ar_t) (net' : pnet_t)
    (ar' : pf_ar_t) (n : Z) :
  ppm_buf_lock_invariant net ->
  0 <= ppm_instance_cnt net < 2 ^ 32 ->
  ppm_counter_after (ppm_instance_cnt net) cs = Some n ->
  ppm_calls env (net, ar) cs = Some (net', ar') ->
  ppm_buf_lock_invariant net' /\ ppm_instance_cnt net' = n.
Proof.
  revert net ar. induction cs as [|call cs IH]; intros net ar Hinv H0 Hn Hrun.
  - cbn in Hn, Hrun. injection Hn as <-. injection Hrun as <- <-. auto.
  - cbn [ppm_calls] in Hrun.
    destruct (ppm_call_step env (net, ar) call) as [[net1 ar1]|] eqn:Hstep;
      [|discriminate].
    cbn [mbind option_bind] in Hrun.
    destruct call as [|crep|crep]; cbn [ppm_counter_after] in Hn.
    + destruct (Z.eqb_spec (ppm_instance_cnt net) 0) as [E|E]; [|discriminate].
      cbn in Hstep. injection Hstep as <- <-.
      apply (IH (pf_ppm_init net) ar); try assumption.
      * unfold ppm_buf_lock_invariant in *. cbn. now rewrite E in Hinv.
      * cbn. lia.
    + destruct (Z.ltb_spec (ppm_instance_cnt net) (2 ^ 32 - 1)) as [E|E];
        [|discriminate].
      cbn [ppm_call_step] in Hstep.
      destruct (pf_ppm_activate_req env net ar crep)
        as [[[[net2 ar2] ret] ev]|] eqn:Hact; [|discriminate].
      cbn in Hstep. injection Hstep as <- <-.
      destruct (activate_keeps_lock_invariant env net net2 ar ar2 crep ret ev)
        as [Hinv2 Hcnt2]; [lia|assumption|assumption|].
      apply (IH net2 ar2); try assumption; [lia|]. now rewrite Hcnt2.
    + destruct (Z.ltb_spec 0 (ppm_instance_cnt net)) as [E|E]; [|discriminate].
      cbn [ppm_call_step] in Hstep.
      destruct (pf_ppm_close_req env net ar crep)
        as [[[[net2 ar2] ret] ev]|] eqn:Hcl; [|discriminate].
      cbn in Hstep. injection Hstep as <- <-.
      destruct (close_keeps_lock_invariant env net net2 ar ar2 crep ret ev)
        as [Hinv2 Hcnt2]; [lia|assumption|assumption|].
      apply (IH net2 ar2); try assumption; [lia|]. now rewrite Hcnt2.
Qed.

Lemma lock_follows_counter_through_calls_witness :
  (ppm_buf_lock_invariant scenario_net
   /\ 0 <= ppm_instance_cnt scenario_net < 2 ^ 32
   /\ ppm_counter_after (ppm_instance_cnt scenario_net)
        [Call_pf_ppm_init; Call_pf_ppm_activate_req 0] = Some 1
   /\ ppm_calls (scenario_env false 0) (scenario_net, scenario_ar)
        [Call_pf_ppm_init; Call_pf_ppm_activate_req 0]
      = Some (scenario_active.1, scenario_active.2))
  /\ ppm_buf_lock_invariant scenario_active.1
  /\ ppm_instance_cnt scenario_active.1 = 1.
Proof.
  assert (H1 : ppm_buf_lock_invariant scenario_net).
  { split; [intros H; now contradiction H | intros [=]]. }
  assert (H2 : 0 <= ppm_instance_cnt scenario_net < 2 ^ 32)
    by (split; [vm_compute; discriminate | reflexivity]).
  assert (H3 : ppm_counter_after (ppm_instance_cnt scenario_net)
                 [Call_pf_ppm_init; Call_pf_ppm_activate_req 0] = Some 1)
    by reflexivity.
  assert (H4 : ppm_calls (scenario_env false 0) (scenario_net, scenario_ar)
                 [Call_pf_ppm_init; Call_pf_ppm_activate_req 0]
               = Some (scenario_active.1, scenario_active.2))
    by (vm_compute; reflexivity).
  split; [exact (conj H1 (conj H2 (conj H3 H4)))|].
  exact (lock_follows_counter_through_calls (scenario_env false 0)
           [Call_pf_ppm_init; Call_pf_ppm_activate_req 0]
           scenario_net scenario_ar scenario_active.1 scenario_active.2 1
           H1 H2 H3 H4).
Defined.

(** ** The rounding of the compensated delay *)

(** In the range where nothing wraps and for a wanted delay of half a
    stack cycle at least, the delay for the timer of an RTOS is the
    multiple of the stack cycle time nearest to the wanted delay (at
    most half a cycle away); the delay for the cooperative scheduler
    lies half a cycle before such a multiple, never after the wanted
    delay and at most one cycle before it. *)
Theorem compensated_delay_is_nearest_tick (rtos : bool) (w s : Z) :
  0 < s -> s + s / 2 < 2 ^ 32 ->
  s - s / 2 <= w -> w + s / 2 < 2 ^ 32 ->
  w + s / 2 < 2 ^ 31 * s ->
  exists d,
    pf_ppm_calculate_compensated_delay rtos w s = Some d
    /\ if rtos
       then d mod s = 0 /\ Z.abs (d - w) <= s / 2
       else (d + s / 2) mod s = 0 /\ w - s <= d <= w.
Proof.
  intros Hs Hss Hw Hw32 Hw31.
  assert (Hh : 0 <= s / 2 <= s) by zlia.
  destruct (spec_stack_ticks_bounds w s) as [Hlo Hhi]; [lia|lia|].
  assert (Ht31 : spec_stack_ticks w s < 2 ^ 31).
  { unfold spec_stack_ticks.
    destruct (Z.leb_spec (2 * w) (3 * s)); [reflexivity|].
    apply Z.div_lt_upper_bound; [lia|].
    revert Hw31. generalize (s / 2). intros; lia. }
  rewrite compensated_delay_value by lia.
  eexists. split; [reflexivity|].
  unfold spec_compensated_delay.
  set (T := spec_stack_ticks w s) in *.
  assert (Hnear : T * s <= w + s / 2 /\ w <= T * s + s / 2).
  { unfold T, spec_stack_ticks.
    destruct (Z.leb_spec (2 * w) (3 * s)) as [H|H].
    - zlia.
    - set (q := (w + s / 2) / s).
      pose proof (Z.div_mod (w + s / 2) s ltac:(lia)) as Hdm.
      pose proof (Z.mod_pos_bound (w + s / 2) s Hs) as Hb.
      fold q in Hdm. split; [nia|]. zlia. }
  destruct rtos.
  - split; [apply Z.mod_mul; lia|]. zlia.
  - split.
    + replace (T * s - s / 2 + s / 2) with (T * s) by lia.
      apply Z.mod_mul; lia.
    + zlia.
Qed.

Lemma compensated_delay_is_nearest_tick_witness :
  (0 < 1000 /\ 1000 + 1000 / 2 < 2 ^ 32
   /\ 1000 - 1000 / 2 <= 2400 /\ 2400 + 1000 / 2 < 2 ^ 32
   /\ 2400 + 1000 / 2 < 2 ^ 31 * 1000)
  /\ exists d,
      pf_ppm_calculate_compensated_delay true 2400 1000 = Some d
      /\ d mod 1000 = 0 /\ Z.abs (d - 2400) <= 1000 / 2.
Proof.
  split; [repeat split; vm_compute; (reflexivity || discriminate)|].
  apply (compensated_delay_is_nearest_tick true 2400 1000);
    vm_compute; (reflexivity || discriminate).
Defined.

(** * The data path of the provider machine *)

(** ** The station problem indicator *)



(** ** Finding the descriptor of a sub-slot *)

(** The inner loop returns the first descriptor, from [i] on, that is in
    use and carries the address looked for. *)
Lemma pf_ppm_find_iodata_Some (api slot subslot : Z)
    (descs : list pf_iodata_object_t) (n i ix : nat) :
  pf_ppm_find_iodata api slot subslot descs i n = Some (Some ix) ->
  (i <= ix < i + n)%nat
  /\ (exists d, descs !! ix = Some d
                /\ iodata_matches api slot subslot d = true)
  /\ (forall j d, (i <= j < ix)%nat -> descs !! j = Some d ->
                  iodata_matches api slot subslot d = false).
Proof.
  revert i. induction n as [|n IH]; intros i H; [discriminate|].
  cbn [pf_ppm_find_iodata] in H.
  destruct (descs !! i) as [d|] eqn:Hd; [|discriminate].
  cbn [mbind option_bind] in H.
  destruct (iodata_matches api slot subslot d) eqn:Hm.
  - injection H as <-. split; [lia|]. split; [eauto|].
    intros j d' Hj. lia.
  - destruct (IH _ H) as (Hr & Hex & Hfirst).
    split; [lia|]. split; [exact Hex|].
    intros j d' Hj Hd'.
    destruct (decide (j = i)) as [->|Hne].
    + congruence.
    + apply (Hfirst j d'); [lia|assumption].
Qed.

(** The search of [pf_ppm_get_ar_iocr_desc] returns a descriptor of an
    IOCR with a provider, below the counts [nbr_iocrs] and
    [nbr_data_desc], that is in use and carries the address. *)
Lemma pf_ppm_find_iocr_Some (api slot subslot : Z) (a : pf_ar_data_t)
    (n i crep ix : nat) :
  pf_ppm_find_iocr api slot subslot a i n = Some (Some (crep, ix)) ->
  (i <= crep < i + n)%nat
  /\ exists c dd d,
      iocrs (ar_rec a) !! crep = Some c
      /\ is_provider_iocr c = true
      /\ iocr_desc a !! crep = Some dd
      /\ (ix < Z.to_nat (nbr_data_desc dd))%nat
      /\ data_desc dd !! ix = Some d
      /\ iodata_matches api slot subslot d = true.
Proof.
  revert i. induction n as [|n IH]; intros i H; [discriminate|].
  cbn [pf_ppm_find_iocr] in H.
  destruct (iocrs (ar_rec a) !! i) as [c|] eqn:Hc; [|discriminate].
  cbn [mbind option_bind] in H.
  destruct (is_provider_iocr c) eqn:Hp.
  - destruct (iocr_desc a !! i) as [dd|] eqn:Hdd; [|discriminate].
    cbn [mbind option_bind] in H.
    destruct (pf_ppm_find_iodata api slot subslot (data_desc dd) 0
                (Z.to_nat (nbr_data_desc dd))) as [[k|]|] eqn:Hf;
      cbn [mbind option_bind] in H; [| |discriminate].
    + injection H as <- <-.
      destruct (pf_ppm_find_iodata_Some _ _ _ _ _ _ _ Hf)
        as (Hr & (d & Hd & Hm) & _).
      split; [lia|]. exists c, dd, d. repeat split; try assumption; lia.
    + destruct (IH _ H) as (Hr & Hex). split; [lia|exact Hex].
  - destruct (IH _ H) as (Hr & Hex). split; [lia|exact Hex].
Qed.

(** The descriptor that the lookup hands out. *)
Lemma pf_ppm_lookup_Some (p_ar : option pf_ar_data_t) (api slot subslot : Z)
    (a : pf_ar_data_t) (crep ix : nat) (c : pf_iocr_t)
    (d : pf_iodata_object_t) :
  pf_ppm_lookup p_ar api slot subslot = Some (Some (a, crep, ix, c, d)) ->
  p_ar = Some a
  /\ pf_ppm_get_ar_iocr_desc p_ar api slot subslot = Some (Some (crep, ix))
  /\ iocrs (ar_rec a) !! crep = Some c
  /\ is_provider_iocr c = true
  /\ (exists dd, iocr_desc a !! crep = Some dd
                 /\ data_desc dd !! ix = Some d)
  /\ iodata_matches api slot subslot d = true.
Proof.
  unfold pf_ppm_lookup. intros H.
  destruct (pf_ppm_get_ar_iocr_desc p_ar api slot subslot)
    as [[[crep' ix']|]|] eqn:Hg; cbn [mbind option_bind] in H;
    [| destruct p_ar; discriminate | discriminate].
  destruct p_ar as [a'|]; [|discriminate].
  cbn [pf_ppm_get_ar_iocr_desc] in Hg.
  destruct (pf_ppm_find_iocr_Some _ _ _ _ _ _ _ _ Hg)
    as (_ & c' & dd & d' & Hc & Hp & Hdd & _ & Hd & Hm).
  rewrite Hc, Hdd in H. cbn [mbind option_bind] in H. rewrite Hd in H.
  cbn [mbind option_bind] in H. injection H as <- <- <- <- <-.
  split; [reflexivity|]. split; [reflexivity|].
  split; [assumption|]. split; [assumption|]. split; [eauto|assumption].
Qed.

(** ** Reading back what [memcpy] wrote *)

Lemma memread_memcpy_same (dst : list Z) (off : Z) (src : list Z) (n : Z)
    (r : list Z) :
  memcpy dst off src n = Some r ->
  memread r off n = Some (take (Z.to_nat n) src).
Proof.
  intros H. pose proof (memcpy_length _ _ _ _ _ H) as L.
  destruct (memcpy_inv _ _ _ _ _ H) as ((H0 & Hn & Hs & Hd) & _).
  rewrite memread_Some by lia. f_equal.
  apply list_eq. intros i.
  destruct (decide (i < Z.to_nat n)%nat) as [Hi|Hi].
  - rewrite !lookup_take_lt by assumption. rewrite lookup_drop.
    rewrite (memcpy_lookup _ _ _ _ _ _ H).
    destruct (Z.leb_spec off (Z.of_nat (Z.to_nat off + i))); [|lia].
    destruct (Z.ltb_spec (Z.of_nat (Z.to_nat off + i)) (off + n)); [|lia].
    cbn [andb]. f_equal. lia.
  - rewrite !lookup_take_ge by lia. reflexivity.
Qed.

Lemma memread_memcpy_other (dst : list Z) (off : Z) (src : list Z) (n : Z)
    (r : list Z) (off2 m : Z) :
  memcpy dst off src n = Some r ->
  off2 + m <= off \/ off + n <= off2 ->
  memread r off2 m = memread dst off2 m.
Proof.
  intros H Hdis. pose proof (memcpy_length _ _ _ _ _ H) as L.
  destruct (memcpy_inv _ _ _ _ _ H) as ((H0 & Hn & Hs & Hd) & _).
  unfold memread. rewrite L.
  destruct ((0 <=? off2) && (0 <=? m)
            && (off2 + m <=? Z.of_nat (length dst))) eqn:E; [|reflexivity].
  f_equal. apply list_eq. intros i.
  destruct (decide (i < Z.to_nat m)%nat) as [Hi|Hi].
  - rewrite !lookup_take_lt by assumption. rewrite !lookup_drop.
    rewrite (memcpy_lookup _ _ _ _ _ _ H).
    apply andb_prop in E as [E E3]. apply andb_prop in E as [E1 E2].
    apply Z.leb_le in E1, E2, E3.
    destruct (Z.leb_spec off (Z.of_nat (Z.to_nat off2 + i)));
      destruct (Z.ltb_spec (Z.of_nat (Z.to_nat off2 + i)) (off + n));
      cbn [andb]; try reflexivity; lia.
  - rewrite !lookup_take_ge by lia. reflexivity.
Qed.

(** The guard [if (len > 0)] before a [memcpy] changes nothing. *)
Lemma memcpy_guarded (dst : list Z) (off : Z) (src : list Z) (n : Z) :
  0 <= off -> 0 <= n -> n <= Z.of_nat (length src) ->
  off + n <= Z.of_nat (length dst) ->
  (if 0 <? n then memcpy dst off src n else Some dst)
  = memcpy dst off src n.
Proof.
  intros H0 Hn Hs Hd. destruct (Z.ltb_spec 0 n); [reflexivity|].
  assert (n = 0) as -> by lia.
  rewrite memcpy_Some by lia. rewrite Z.add_0_r.
  change (Z.to_nat 0) with 0%nat. rewrite (take_0 src). cbn [app].
  now rewrite take_drop.
Qed.

(** ** The search does not depend on what the data path writes *)

Lemma pf_ppm_find_iodata_ext (api slot subslot : Z)
    (descs descs' : list pf_iodata_object_t) (n i : nat) :
  (forall j, iodata_matches api slot subslot <$> descs' !! j
             = iodata_matches api slot subslot <$> descs !! j) ->
  pf_ppm_find_iodata api slot subslot descs' i n
  = pf_ppm_find_iodata api slot subslot descs i n.
Proof.
  intros Hext. revert i. induction n as [|n IH]; intros i; [reflexivity|].
  cbn [pf_ppm_find_iodata]. specialize (Hext i).
  destruct (descs' !! i) as [d'|], (descs !! i) as [d|];
    cbn in Hext; try discriminate; [|reflexivity].
  injection Hext as Hext. cbn [mbind option_bind]. rewrite Hext.
  destruct (iodata_matches api slot subslot d); [|apply IH].
  reflexivity.
Qed.

Lemma pf_ppm_find_iocr_ext (api slot subslot : Z) (a a' : pf_ar_data_t)
    (n i : nat) :
  (forall j, is_provider_iocr <$> iocrs (ar_rec a') !! j
             = is_provider_iocr <$> iocrs (ar_rec a) !! j) ->
  (forall j,
      match iocr_desc a' !! j, iocr_desc a !! j with
      | Some dd', Some dd =>
          nbr_data_desc dd' = nbr_data_desc dd
          /\ forall k, iodata_matches api slot subslot <$> data_desc dd' !! k
                       = iodata_matches api slot subslot <$> data_desc dd !! k
      | None, None => True
      | _, _ => False
      end) ->
  pf_ppm_find_iocr api slot subslot a' i n
  = pf_ppm_find_iocr api slot subslot a i n.
Proof.
  intros Hc Hd. revert i. induction n as [|n IH]; intros i; [reflexivity|].
  cbn [pf_ppm_find_iocr]. specialize (Hc i). specialize (Hd i).
  destruct (iocrs (ar_rec a') !! i) as [c'|], (iocrs (ar_rec a) !! i) as [c|];
    cbn in Hc; try discriminate; [|reflexivity].
  injection Hc as Hc. cbn [mbind option_bind]. rewrite Hc.
  destruct (is_provider_iocr c); [|apply IH].
  destruct (iocr_desc a' !! i) as [dd'|], (iocr_desc a !! i) as [dd|];
    try contradiction; [|reflexivity].
  destruct Hd as [Hn Hk]. cbn [mbind option_bind].
  rewrite Hn, (pf_ppm_find_iodata_ext _ _ _ _ _ _ _ Hk).
  destruct (pf_ppm_find_iodata api slot subslot (data_desc dd) 0
              (Z.to_nat (nbr_data_desc dd))) as [[k|]|];
    cbn [mbind option_bind]; [reflexivity|apply IH|reflexivity].
Qed.

(** The AR after a write of the data path into the staging buffer of the
    IOCR [crep]: the lookup finds the same descriptor, with the new
    buffer and flag. *)
Lemma pf_ppm_lookup_after_write (api slot subslot : Z) (a : pf_ar_data_t)
    (crep ix : nat) (c : pf_iocr_t) (d : pf_iodata_object_t) (b : list Z)
    (f : pf_iodata_object_t -> pf_iodata_object_t) :
  (forall x, iodata_matches api slot subslot (f x)
             = iodata_matches api slot subslot x) ->
  pf_ppm_lookup (Some a) api slot subslot = Some (Some (a, crep, ix, c, d)) ->
  let a' := set_iodata crep ix f
              (set_ar (set_iocr_ppm crep (set_buffer_data b (ppm c))
                         (ar_rec a)) a) in
  pf_ppm_lookup (Some a') api slot subslot
  = Some (Some (a', crep, ix, set_ppm (set_buffer_data b (ppm c)) c, f d)).
Proof.
  intros Hf H a'.
  destruct (pf_ppm_lookup_Some _ _ _ _ _ _ _ _ _ H)
    as (_ & Hg & Hc & Hp & (dd & Hdd & Hd) & Hm).
  unfold pf_ppm_lookup.
  assert (Hg' : pf_ppm_get_ar_iocr_desc (Some a') api slot subslot
                = Some (Some (crep, ix))).
  { rewrite <- Hg. unfold pf_ppm_get_ar_iocr_desc.
    change (nbr_iocrs a') with (nbr_iocrs a).
    apply pf_ppm_find_iocr_ext.
    - intros j. unfold a', set_iodata, set_ar, set_iocr_ppm.
      cbn [ar_rec iocrs set_iocrs].
      destruct (decide (j = crep)) as [->|Hne].
      + rewrite list_lookup_alter_eq, Hc. reflexivity.
      + now rewrite list_lookup_alter_ne by congruence.
    - intros j. unfold a', set_iodata, set_ar. cbn [iocr_desc].
      destruct (decide (j = crep)) as [->|Hne].
      + rewrite list_lookup_alter_eq, Hdd. cbn.
        split; [reflexivity|]. intros k.
        destruct (decide (k = ix)) as [->|Hne].
        * rewrite list_lookup_alter_eq, Hd. cbn. now rewrite Hf.
        * now rewrite list_lookup_alter_ne by congruence.
      + rewrite list_lookup_alter_ne by congruence.
        destruct (iocr_desc a !! j); auto. }
  rewrite Hg'. cbn [mbind option_bind].
  assert (Hc' : iocrs (ar_rec a') !! crep
                = Some (set_ppm (set_buffer_data b (ppm c)) c)).
  { unfold a', set_iodata, set_ar, set_iocr_ppm.
    cbn [ar_rec iocrs set_iocrs].
    now rewrite list_lookup_alter_eq, Hc. }
  assert (Hdd' : iocr_desc a' !! crep
                 = Some (mk_iocr_desc (nbr_data_desc dd)
                           (alter f ix (data_desc dd)))).
  { unfold a', set_iodata, set_ar. cbn [iocr_desc].
    now rewrite list_lookup_alter_eq, Hdd. }
  rewrite Hc', Hdd'. cbn [mbind option_bind data_desc].
  rewrite list_lookup_alter_eq, Hd. reflexivity.
Qed.

(** ** Writing and reading the data of a sub-slot *)

(** What [pf_ppm_set_data_and_iops] does for a sub-slot whose descriptor
    the lookup finds in a running instance, with the lengths of the
    descriptor. *)
Lemma pf_ppm_set_data_and_iops_run (net : pnet_t) (p_ar : option pf_ar_data_t)
    (api slot subslot : Z) (a : pf_ar_data_t) (crep ix : nat) (c : pf_iocr_t)
    (d : pf_iodata_object_t) (p_data p_iops : list Z) (lock : Z) :
  pf_ppm_lookup p_ar api slot subslot = Some (Some (a, crep, ix, c, d)) ->
  state (ppm c) = PF_PPM_STATE_RUN ->
  ppm_buf_lock net = Some lock ->
  iodata_in_buffer d (length (buffer_data (ppm c))) ->
  data_length d <= Z.of_nat (length p_data) ->
  iops_length d <= Z.of_nat (length p_iops) ->
  exists b1 b2,
    memcpy (buffer_data (ppm c)) (data_offset d) p_data (data_length d)
    = Some b1
    /\ memcpy b1 (iops_offset d) p_iops (iops_length d) = Some b2
    /\ pf_ppm_set_data_and_iops net p_ar api slot subslot p_data
         (data_length d) p_iops (iops_length d)
       = Some (Some (set_iodata crep ix (set_data_avail true)
                       (set_ar (set_iocr_ppm crep
                                  (set_buffer_data b2 (ppm c)) (ar_rec a)) a)),
               0,
               [Ev_os_mutex_lock (Some lock); Ev_os_mutex_unlock (Some lock)]).
Proof.
  intros H Hst Hlock Hin Hd Hi.
  destruct Hin as (Hdo & Hdl & Hdb & Hio & Hil & Hib & _).
  destruct (memcpy_ex (buffer_data (ppm c)) (data_offset d) p_data
              (data_length d)) as [b1 H1]; [lia..|].
  pose proof (memcpy_length _ _ _ _ _ H1) as L1.
  destruct (memcpy_ex b1 (iops_offset d) p_iops (iops_length d))
    as [b2 H2]; [lia..|].
  exists b1, b2. split; [exact H1|]. split; [exact H2|].
  unfold pf_ppm_set_data_and_iops. rewrite H. cbn [mbind option_bind].
  rewrite Hst, !Z.eqb_refl. cbn [andb]. rewrite Hlock.
  cbn [mbind option_bind].
  rewrite memcpy_guarded by lia. rewrite H1. cbn [mbind option_bind].
  rewrite memcpy_guarded by lia. rewrite H2. reflexivity.
Qed.

(** Round trip of the data and the IOPS of a sub-slot.  For a sub-slot
    whose descriptor the lookup finds in a running instance, with
    regions inside the staging buffer that do not overlap:
    [pf_ppm_set_data_and_iops] with the lengths of the descriptor returns
    0 under the mutex, and a [pf_ppm_get_data_and_iops] that follows,
    into buffers that are large enough, returns 0, the lengths of the
    descriptor and the bytes that were set; the bytes of the caller's
    buffers behind them stay. *)
Theorem set_then_get_data_round_trip (net : pnet_t) (a : pf_ar_data_t)
    (api slot subslot : Z) (crep ix : nat) (c : pf_iocr_t)
    (d : pf_iodata_object_t) (lock : Z) (p_data p_iops : list Z)
    (q_data q_iops : list Z) (q_data_len q_iops_len : Z) :
  pf_ppm_lookup (Some a) api slot subslot = Some (Some (a, crep, ix, c, d)) ->
  state (ppm c) = PF_PPM_STATE_RUN ->
  ppm_buf_lock net = Some lock ->
  iodata_in_buffer d (length (buffer_data (ppm c))) ->
  regions_apart (data_offset d) (data_length d) (iops_offset d)
    (iops_length d) ->
  data_length d <= Z.of_nat (length p_data) ->
  iops_length d <= Z.of_nat (length p_iops) ->
  data_length d <= q_data_len -> data_length d <= Z.of_nat (length q_data) ->
  iops_length d <= q_iops_len -> iops_length d <= Z.of_nat (length q_iops) ->
  exists a' r,
    pf_ppm_set_data_and_iops net (Some a) api slot subslot p_data
      (data_length d) p_iops (iops_length d)
    = Some (Some a', 0,
            [Ev_os_mutex_lock (Some lock); Ev_os_mutex_unlock (Some lock)])
    /\ pf_ppm_get_data_and_iops net (Some a') api slot subslot q_data
         q_data_len q_iops q_iops_len = Some r
    /\ get_ret r = 0
    /\ get_data_len r = data_length d
    /\ get_iops_len r = iops_length d
    /\ get_data r = take (Z.to_nat (data_length d)) p_data
                    ++ drop (Z.to_nat (data_length d)) q_data
    /\ get_iops r = take (Z.to_nat (iops_length d)) p_iops
                    ++ drop (Z.to_nat (iops_length d)) q_iops.
Proof.
  intros H Hst Hlock Hin Hapart Hd Hi Hqd Hqd' Hqi Hqi'.
  destruct (pf_ppm_set_data_and_iops_run net (Some a) api slot subslot a crep
              ix c d p_data p_iops lock H Hst Hlock Hin Hd Hi)
    as (b1 & b2 & H1 & H2 & Hset).
  destruct Hin as (Hdo & Hdl & Hdb & Hio & Hil & Hib & _).
  pose proof (memcpy_length _ _ _ _ _ H1) as L1.
  pose proof (memcpy_length _ _ _ _ _ H2) as L2.
  eexists. eexists. split; [exact Hset|].
  unfold pf_ppm_get_data_and_iops.
  rewrite (pf_ppm_lookup_after_write api slot subslot a crep ix c d b2
             (set_data_avail true) ltac:(reflexivity) H).
  cbn [mbind option_bind ppm set_ppm state set_buffer_data buffer_data
       data_length iops_length data_offset iops_offset set_data_avail].
  rewrite Hst.
  destruct (Z.leb_spec (data_length d) q_data_len); [|lia].
  destruct (Z.leb_spec (iops_length d) q_iops_len); [|lia].
  cbn [andb]. rewrite Hlock. cbn [mbind option_bind].
  assert (R1 : memread b2 (data_offset d) (data_length d)
               = Some (take (Z.to_nat (data_length d)) p_data)).
  { rewrite (memread_memcpy_other b1 (iops_offset d) p_iops (iops_length d)
               b2 _ _ H2) by (unfold regions_apart in Hapart; lia).
    apply (memread_memcpy_same _ _ _ _ _ H1). }
  rewrite R1. cbn [mbind option_bind].
  rewrite (memcpy_Some q_data 0)
    by (rewrite ?length_take; lia).
  cbn [mbind option_bind].
  rewrite (memread_memcpy_same _ _ _ _ _ H2). cbn [mbind option_bind].
  rewrite (memcpy_Some q_iops 0)
    by (rewrite ?length_take; lia).
  cbn [mbind option_bind].
  split; [reflexivity|]. cbn [get_ret get_data_len get_iops_len get_data
                              get_iops].
  split; [reflexivity|]. split; [reflexivity|].
  split; [apply uint8_small; lia|].
  change (Z.to_nat 0) with 0%nat. rewrite !take_0, !Z.add_0_l.
  cbn [app]. rewrite !take_take, !Nat.min_id. split; reflexivity.
Qed.

Lemma set_then_get_data_round_trip_witness :
  (pf_ppm_lookup (Some scenario_ar_data) 0 1 1
   = Some (Some (scenario_ar_data, 0%nat, 0%nat, scenario_active_iocr,
                 scenario_iodata))
   /\ state (ppm scenario_active_iocr) = PF_PPM_STATE_RUN
   /\ ppm_buf_lock scenario_active.1 = Some 1
   /\ iodata_in_buffer scenario_iodata
        (length (buffer_data (ppm scenario_active_iocr)))
   /\ regions_apart (data_offset scenario_iodata)
        (data_length scenario_iodata) (iops_offset scenario_iodata)
        (iops_length scenario_iodata))
  /\ exists a' r,
      pf_ppm_set_data_and_iops scenario_active.1 (Some scenario_ar_data)
        0 1 1 [1; 2; 3; 4; 5; 6; 7; 8] (data_length scenario_iodata)
        [0x80] (iops_length scenario_iodata)
      = Some (Some a', 0,
              [Ev_os_mutex_lock (Some 1); Ev_os_mutex_unlock (Some 1)])
      /\ pf_ppm_get_data_and_iops scenario_active.1 (Some a') 0 1 1
           (replicate 10 0) 10 [0; 0] 2 = Some r
      /\ get_ret r = 0
      /\ get_data_len r = data_length scenario_iodata
      /\ get_iops_len r = iops_length scenario_iodata
      /\ get_data r
         = take (Z.to_nat (data_length scenario_iodata))
             [1; 2; 3; 4; 5; 6; 7; 8]
           ++ drop (Z.to_nat (data_length scenario_iodata)) (replicate 10 0)
      /\ get_iops r
         = take (Z.to_nat (iops_length scenario_iodata)) [0x80]
           ++ drop (Z.to_nat (iops_length scenario_iodata)) [0; 0].
Proof.
  assert (H1 : pf_ppm_lookup (Some scenario_ar_data) 0 1 1
               = Some (Some (scenario_ar_data, 0%nat, 0%nat,
                             scenario_active_iocr, scenario_iodata)))
    by reflexivity.
  assert (H2 : state (ppm scenario_active_iocr) = PF_PPM_STATE_RUN)
    by reflexivity.
  assert (H3 : ppm_buf_lock scenario_active.1 = Some 1) by reflexivity.
  assert (H4 : iodata_in_buffer scenario_iodata
                 (length (buffer_data (ppm scenario_active_iocr))))
    by (repeat split; vm_compute; (reflexivity || discriminate)).
  assert (H5 : regions_apart (data_offset scenario_iodata)
                 (data_length scenario_iodata) (iops_offset scenario_iodata)
                 (iops_length scenario_iodata))
    by (left; vm_compute; discriminate).
  split; [exact (conj H1 (conj H2 (conj H3 (conj H4 H5))))|].
  apply (set_then_get_data_round_trip scenario_active.1 scenario_ar_data
           0 1 1 0 0 scenario_active_iocr scenario_iodata 1
           [1; 2; 3; 4; 5; 6; 7; 8] [0x80] (replicate 10 0) [0; 0] 10 2
           H1 H2 H3 H4 H5);
    vm_compute; discriminate.
Defined.

(** A successful [pf_ppm_set_data_and_iops] writes into the two regions
    of its descriptor and nowhere else: the staging buffer keeps its
    size and every byte outside of the data and the IOPS region, the
    other members of the instance and the other IOCRs of the AR stay,
    and so do the error codes of the AR. *)
Theorem set_data_touches_only_its_regions (net : pnet_t) (a : pf_ar_data_t)
    (api slot subslot : Z) (crep ix : nat) (c : pf_iocr_t)
    (d : pf_iodata_object_t) (lock : Z) (p_data p_iops : list Z) :
  pf_ppm_lookup (Some a) api slot subslot = Some (Some (a, crep, ix, c, d)) ->
  state (ppm c) = PF_PPM_STATE_RUN ->
  ppm_buf_lock net = Some lock ->
  iodata_in_buffer d (length (buffer_data (ppm c))) ->
  data_length d <= Z.of_nat (length p_data) ->
  iops_length d <= Z.of_nat (length p_iops) ->
  exists a' b,
    pf_ppm_set_data_and_iops net (Some a) api slot subslot p_data
      (data_length d) p_iops (iops_length d)
    = Some (Some a', 0,
            [Ev_os_mutex_lock (Some lock); Ev_os_mutex_unlock (Some lock)])
    /\ iocrs (ar_rec a') !! crep = Some (set_ppm (set_buffer_data b (ppm c)) c)
    /\ length b = length (buffer_data (ppm c))
    /\ (forall i,
          outside_region i (data_offset d) (data_length d) ->
          outside_region i (iops_offset d) (iops_length d) ->
          b !! i = buffer_data (ppm c) !! i)
    /\ (forall j, j <> crep ->
          iocrs (ar_rec a') !! j = iocrs (ar_rec a) !! j)
    /\ err_cls (ar_rec a') = err_cls (ar_rec a)
    /\ err_code (ar_rec a') = err_code (ar_rec a).
Proof.
  intros H Hst Hlock Hin Hd Hi.
  destruct (pf_ppm_set_data_and_iops_run net (Some a) api slot subslot a crep
              ix c d p_data p_iops lock H Hst Hlock Hin Hd Hi)
    as (b1 & b2 & H1 & H2 & Hset).
  destruct (pf_ppm_lookup_Some _ _ _ _ _ _ _ _ _ H)
    as (_ & _ & Hc & _).
  pose proof (memcpy_length _ _ _ _ _ H1) as L1.
  pose proof (memcpy_length _ _ _ _ _ H2) as L2.
  eexists. exists b2. split; [exact Hset|].
  unfold set_iodata, set_ar, set_iocr_ppm. cbn [ar_rec iocrs set_iocrs].
  split; [now rewrite list_lookup_alter_eq, Hc|].
  split; [congruence|].
  split.
  { intros i [O1|O1] [O2|O2];
      rewrite (memcpy_lookup _ _ _ _ _ i H2), (memcpy_lookup _ _ _ _ _ i H1).
    all: destruct (Z.leb_spec (iops_offset d) (Z.of_nat i));
      destruct (Z.ltb_spec (Z.of_nat i) (iops_offset d + iops_length d));
      destruct (Z.leb_spec (data_offset d) (Z.of_nat i));
      destruct (Z.ltb_spec (Z.of_nat i) (data_offset d + data_length d));
      cbn [andb]; try reflexivity; lia. }
  split.
  { intros j Hj. now rewrite list_lookup_alter_ne by congruence. }
  split; reflexivity.
Qed.

Lemma set_data_touches_only_its_regions_witness :
  (pf_ppm_lookup (Some scenario_ar_data) 0 1 1
   = Some (Some (scenario_ar_data, 0%nat, 0%nat, scenario_active_iocr,
                 scenario_iodata))
   /\ state (ppm scenario_active_iocr) = PF_PPM_STATE_RUN
   /\ ppm_buf_lock scenario_active.1 = Some 1
   /\ iodata_in_buffer scenario_iodata
        (length (buffer_data (ppm scenario_active_iocr))))
  /\ exists a' b,
      pf_ppm_set_data_and_iops scenario_active.1 (Some scenario_ar_data)
        0 1 1 [1; 2; 3; 4; 5; 6; 7; 8] (data_length scenario_iodata)
        [0x80] (iops_length scenario_iodata)
      = Some (Some a', 0,
              [Ev_os_mutex_lock (Some 1); Ev_os_mutex_unlock (Some 1)])
      /\ iocrs (ar_rec a') !! 0%nat
         = Some (set_ppm (set_buffer_data b (ppm scenario_active_iocr))
                   scenario_active_iocr)
      /\ length b = length (buffer_data (ppm scenario_active_iocr))
      /\ (forall i,
            outside_region i (data_offset scenario_iodata)
              (data_length scenario_iodata) ->
            outside_region i (iops_offset scenario_iodata)
              (iops_length scenario_iodata) ->
            b !! i = buffer_data (ppm scenario_active_iocr) !! i)
      /\ (forall j, j <> 0%nat ->
            iocrs (ar_rec a') !! j = iocrs (ar_rec scenario_ar_data) !! j)
      /\ err_cls (ar_rec a') = err_cls (ar_rec scenario_ar_data)
      /\ err_code (ar_rec a') = err_code (ar_rec scenario_ar_data).
Proof.
  assert (H1 : pf_ppm_lookup (Some scenario_ar_data) 0 1 1
               = Some (Some (scenario_ar_data, 0%nat, 0%nat,
                             scenario_active_iocr, scenario_iodata)))
    by reflexivity.
  assert (H2 : state (ppm scenario_active_iocr) = PF_PPM_STATE_RUN)
    by reflexivity.
  assert (H3 : ppm_buf_lock scenario_active.1 = Some 1) by reflexivity.
  assert (H4 : iodata_in_buffer scenario_iodata
                 (length (buffer_data (ppm scenario_active_iocr))))
    by (repeat split; vm_compute; (reflexivity || discriminate)).
  split; [exact (conj H1 (conj H2 (conj H3 H4)))|].
  apply (set_data_touches_only_its_regions scenario_active.1
           scenario_ar_data 0 1 1 0 0 scenario_active_iocr scenario_iodata 1
           [1; 2; 3; 4; 5; 6; 7; 8] [0x80] H1 H2 H3 H4);
    vm_compute; discriminate.
Defined.

(** The outcomes of [pf_ppm_set_data_and_iops]: it returns 0 or -1.  It
    returns 0 only for a sub-slot that the lookup finds in a running
    instance, with exactly the lengths of the descriptor and with the
    mutex in place.  When it returns -1 it has made no call and written
    into no buffer: the AR is as before, or differs in nothing but the
    error codes PPM / INVALID_STATE. *)
Theorem set_data_is_all_or_nothing (net : pnet_t)
    (p_ar : option pf_ar_data_t) (api slot subslot : Z)
    (p_data : list Z) (data_len : Z) (p_iops : list Z) (iops_len : Z)
    (p_ar' : option pf_ar_data_t) (ret : Z) (ev : list os_event) :
  pf_ppm_set_data_and_iops net p_ar api slot subslot p_data data_len p_iops
    iops_len = Some (p_ar', ret, ev) ->
  (ret = 0
   /\ exists a crep ix c d,
       pf_ppm_lookup p_ar api slot subslot = Some (Some (a, crep, ix, c, d))
       /\ state (ppm c) = PF_PPM_STATE_RUN
       /\ data_len = data_length d /\ iops_len = iops_length d
       /\ is_Some (ppm_buf_lock net))
  \/ (ret = -1 /\ ev = []
      /\ (p_ar' = p_ar
          \/ exists a, p_ar = Some a /\ p_ar' = Some (set_ppm_error a))).
Proof.
  unfold pf_ppm_set_data_and_iops. intros H.
  destruct (pf_ppm_lookup p_ar api slot subslot)
    as [[[[[[a crep] ix] c] d]|]|] eqn:Hl;
    cbn [mbind option_bind] in H; [| |discriminate].
  - destruct (pf_ppm_lookup_Some _ _ _ _ _ _ _ _ _ Hl) as (Hp & _).
    destruct (state (ppm c)) eqn:Hst.
    + injection H as <- <- <-. right. split; [reflexivity|].
      split; [reflexivity|]. right. eauto.
    + destruct (Z.eqb_spec data_len (data_length d)) as [E1|E1];
        destruct (Z.eqb_spec iops_len (iops_length d)) as [E2|E2];
        cbn [andb] in H.
      2-4: injection H as <- <- <-; right; split; [reflexivity|];
        split; [reflexivity|]; left; congruence.
      destruct (ppm_buf_lock net) as [lock|] eqn:Hlock; [|discriminate].
      cbn [mbind option_bind] in H.
      destruct (if 0 <? data_len then _ else _) as [b1|];
        [|discriminate]. cbn [mbind option_bind] in H.
      destruct (if 0 <? iops_len then _ else _) as [b2|];
        [|discriminate]. cbn [mbind option_bind] in H.
      injection H as <- <- <-. left. split; [reflexivity|].
      exists a, crep, ix, c, d. repeat split; try assumption. now eexists.
  - injection H as <- <- <-. right. split; [reflexivity|].
    split; [reflexivity|]. now left.
Qed.

Lemma set_data_is_all_or_nothing_witness :
  pf_ppm_set_data_and_iops scenario_active.1 (Some scenario_ar_data) 0 1 1
    [1; 2; 3] 3 [0x80] 1 = Some (Some scenario_ar_data, -1, [])
  /\ ((-1 = 0
       /\ exists a crep ix c d,
           pf_ppm_lookup (Some scenario_ar_data) 0 1 1
           = Some (Some (a, crep, ix, c, d))
           /\ state (ppm c) = PF_PPM_STATE_RUN
           /\ 3 = data_length d /\ 1 = iops_length d
           /\ is_Some (ppm_buf_lock scenario_active.1))
      \/ (-1 = -1 /\ @nil os_event = []
          /\ (Some scenario_ar_data = Some scenario_ar_data
              \/ exists a, Some scenario_ar_data = Some a
                           /\ Some scenario_ar_data
                              = Some (set_ppm_error a)))).
Proof.
  assert (H : pf_ppm_set_data_and_iops scenario_active.1
                (Some scenario_ar_data) 0 1 1 [1; 2; 3] 3 [0x80] 1
              = Some (Some scenario_ar_data, -1, [])) by reflexivity.
  split; [exact H|].
  exact (set_data_is_all_or_nothing scenario_active.1
           (Some scenario_ar_data) 0 1 1 [1; 2; 3] 3 [0x80] 1
           (Some scenario_ar_data) (-1) [] H).
Defined.

(** ** The search for the descriptor *)

Lemma pf_ppm_find_iodata_None (api slot subslot : Z)
    (descs : list pf_iodata_object_t) (n i : nat) :
  pf_ppm_find_iodata api slot subslot descs i n = Some None ->
  forall j d, (i <= j < i + n)%nat -> descs !! j = Some d ->
              iodata_matches api slot subslot d = false.
Proof.
  revert i. induction n as [|n IH]; intros i H j d Hj Hd; [lia|].
  cbn [pf_ppm_find_iodata] in H.
  destruct (descs !! i) as [d0|] eqn:Hd0; [|discriminate].
  cbn [mbind option_bind] in H.
  destruct (iodata_matches api slot subslot d0) eqn:Hm; [discriminate|].
  destruct (decide (j = i)) as [->|Hne]; [congruence|].
  apply (IH _ H j d); [lia|assumption].
Qed.

Lemma pf_ppm_find_iocr_first (api slot subslot : Z) (a : pf_ar_data_t)
    (n i : nat) (r : option (nat * nat)) :
  pf_ppm_find_iocr api slot subslot a i n = Some r ->
  forall j, (i <= j < match r with Some (crep, _) => crep | None => i + n end)%nat ->
            no_match_in_iocr api slot subslot a j.
Proof.
  revert i. induction n as [|n IH]; intros i H j Hj.
  { cbn in H. injection H as <-. lia. }
  cbn [pf_ppm_find_iocr] in H.
  destruct (iocrs (ar_rec a) !! i) as [c|] eqn:Hc; [|discriminate].
  cbn [mbind option_bind] in H.
  destruct (is_provider_iocr c) eqn:Hp.
  - destruct (iocr_desc a !! i) as [dd|] eqn:Hdd; [|discriminate].
    cbn [mbind option_bind] in H.
    destruct (pf_ppm_find_iodata api slot subslot (data_desc dd) 0
                (Z.to_nat (nbr_data_desc dd))) as [[k|]|] eqn:Hf;
      cbn [mbind option_bind] in H; [| |discriminate].
    + injection H as <-. lia.
    + destruct (decide (j = i)) as [->|Hne].
      * intros c' dd' ix d Hc' _ Hdd' Hix Hd.
        assert (dd' = dd) as -> by congruence.
        apply (pf_ppm_find_iodata_None _ _ _ _ _ _ Hf ix d); [lia|assumption].
      * apply (IH _ H). destruct r as [[crep ix]|]; lia.
  - destruct (decide (j = i)) as [->|Hne].
    + intros c' dd' ix d Hc' Hp'. congruence.
    + apply (IH _ H). destruct r as [[crep ix]|]; lia.
Qed.

(** [pf_ppm_get_ar_iocr_desc] returns the first match.  When it finds a
    descriptor, this lies in an IOCR with a provider below [nbr_iocrs],
    at an index below [nbr_data_desc], is in use and carries the API,
    the slot and the sub-slot looked for; no descriptor before it in the
    same IOCR and none in an IOCR before it does.  When it returns -1,
    no descriptor of any IOCR with a provider does. *)
Theorem lookup_returns_the_first_match (a : pf_ar_data_t)
    (api slot subslot : Z) (r : option (nat * nat)) :
  pf_ppm_get_ar_iocr_desc (Some a) api slot subslot = Some r ->
  match r with
  | Some (crep, ix) =>
      (crep < Z.to_nat (nbr_iocrs a))%nat
      /\ (exists c dd d,
            iocrs (ar_rec a) !! crep = Some c
            /\ is_provider_iocr c = true
            /\ iocr_desc a !! crep = Some dd
            /\ (ix < Z.to_nat (nbr_data_desc dd))%nat
            /\ data_desc dd !! ix = Some d
            /\ iodata_in_use d = true /\ api_id d = api
            /\ slot_nbr d = slot /\ subslot_nbr d = subslot
            /\ forall k d', (k < ix)%nat -> data_desc dd !! k = Some d' ->
                            iodata_matches api slot subslot d' = false)
      /\ forall j, (j < crep)%nat -> no_match_in_iocr api slot subslot a j
  | None =>
      forall j, (j < Z.to_nat (nbr_iocrs a))%nat ->
                no_match_in_iocr api slot subslot a j
  end.
Proof.
  unfold pf_ppm_get_ar_iocr_desc. intros H.
  pose proof (pf_ppm_find_iocr_first _ _ _ _ _ _ _ H) as Hfirst.
  destruct r as [[crep ix]|].
  - destruct (pf_ppm_find_iocr_Some _ _ _ _ _ _ _ _ H)
      as (Hr & c & dd & d & Hc & Hp & Hdd & Hix & Hd & Hm).
    split; [lia|]. split.
    + exists c, dd, d. do 5 (split; [assumption|]).
      unfold iodata_matches in Hm.
      apply andb_prop in Hm as [Hm H4]. apply andb_prop in Hm as [Hm H3].
      apply andb_prop in Hm as [H1 H2].
      apply Z.eqb_eq in H2, H3, H4.
      do 4 (split; [assumption|]).
      (* no earlier descriptor of the same IOCR matches *)
      revert H. clear Hfirst. revert Hc Hp Hdd.
      generalize (Z.to_nat (nbr_iocrs a)). intros n.
      generalize 0%nat at 1. intros i. revert i.
      induction n as [|n IH]; intros i Hc Hp Hdd H; [discriminate|].
      cbn [pf_ppm_find_iocr] in H.
      destruct (iocrs (ar_rec a) !! i) as [c0|] eqn:Hc0; [|discriminate].
      cbn [mbind option_bind] in H.
      destruct (is_provider_iocr c0) eqn:Hp0; [|now apply (IH (S i))].
      destruct (iocr_desc a !! i) as [dd0|] eqn:Hdd0; [|discriminate].
      cbn [mbind option_bind] in H.
      destruct (pf_ppm_find_iodata api slot subslot (data_desc dd0) 0
                  (Z.to_nat (nbr_data_desc dd0))) as [[k|]|] eqn:Hf;
        cbn [mbind option_bind] in H; [| |discriminate].
      * injection H as -> ->.
        assert (dd0 = dd) as -> by congruence.
        destruct (pf_ppm_find_iodata_Some _ _ _ _ _ _ _ Hf) as (_ & _ & Hb).
        intros k d' Hk Hd'. apply (Hb k d'); [lia|assumption].
      * now apply (IH (S i)).
    + intros j Hj. apply Hfirst. lia.
  - intros j Hj. apply Hfirst. lia.
Qed.

Lemma lookup_returns_the_first_match_witness :
  pf_ppm_get_ar_iocr_desc (Some scenario_ar_data) 0 1 1
  = Some (Some (0%nat, 0%nat))
  /\ (0 < Z.to_nat (nbr_iocrs scenario_ar_data))%nat
  /\ (exists c dd d,
        iocrs (ar_rec scenario_ar_data) !! 0%nat = Some c
        /\ is_provider_iocr c = true
        /\ iocr_desc scenario_ar_data !! 0%nat = Some dd
        /\ (0 < Z.to_nat (nbr_data_desc dd))%nat
        /\ data_desc dd !! 0%nat = Some d
        /\ iodata_in_use d = true /\ api_id d = 0
        /\ slot_nbr d = 1 /\ subslot_nbr d = 1
        /\ forall k d', (k < 0)%nat -> data_desc dd !! k = Some d' ->
                        iodata_matches 0 1 1 d' = false)
  /\ forall j, (j < 0)%nat -> no_match_in_iocr 0 1 1 scenario_ar_data j.
Proof.
  assert (H : pf_ppm_get_ar_iocr_desc (Some scenario_ar_data) 0 1 1
              = Some (Some (0%nat, 0%nat))) by reflexivity.
  split; [exact H|].
  exact (lookup_returns_the_first_match scenario_ar_data 0 1 1
           (Some (0%nat, 0%nat)) H).
Defined.

(** ** The IOCS of a sub-slot *)

Lemma set_iodata_id (crep ix : nat) (a : pf_ar_data_t) :
  set_iodata crep ix (fun x => x) a = a.
Proof.
  destruct a as [r n ds]. unfold set_iodata. cbn [ar_rec nbr_iocrs iocr_desc].
  f_equal. apply list_eq. intros j.
  destruct (decide (j = crep)) as [->|Hne].
  - rewrite list_lookup_alter_eq.
    destruct (ds !! crep) as [[m l]|]; [|reflexivity].
    cbn. do 2 f_equal.
    apply list_eq. intros k.
    destruct (decide (k = ix)) as [->|Hne].
    + rewrite list_lookup_alter_eq. now destruct (l !! ix).
    + now rewrite list_lookup_alter_ne by congruence.
  - now rewrite list_lookup_alter_ne by congruence.
Qed.

(** Round trip of the IOCS of a sub-slot whose descriptor the lookup
    finds in a running instance: [pf_ppm_set_iocs] with the length of
    the descriptor returns 0 under the mutex, and a [pf_ppm_get_iocs]
    that follows returns 0, that length and the bytes that were set. *)
Theorem set_then_get_iocs_round_trip (net : pnet_t) (a : pf_ar_data_t)
    (api slot subslot : Z) (crep ix : nat) (c : pf_iocr_t)
    (d : pf_iodata_object_t) (lock : Z) (p_iocs q_iocs : list Z)
    (q_iocs_len : Z) :
  pf_ppm_lookup (Some a) api slot subslot = Some (Some (a, crep, ix, c, d)) ->
  state (ppm c) = PF_PPM_STATE_RUN ->
  ppm_buf_lock net = Some lock ->
  iodata_in_buffer d (length (buffer_data (ppm c))) ->
  iocs_length d <= Z.of_nat (length p_iocs) ->
  iocs_length d <= q_iocs_len -> iocs_length d <= Z.of_nat (length q_iocs) ->
  exists a' r,
    pf_ppm_set_iocs net (Some a) api slot subslot p_iocs (iocs_length d)
    = Some (Some a', 0,
            [Ev_os_mutex_lock (Some lock); Ev_os_mutex_unlock (Some lock)])
    /\ pf_ppm_get_iocs net (Some a') api slot subslot q_iocs q_iocs_len
       = Some r
    /\ get_ret r = 0
    /\ get_iops_len r = iocs_length d
    /\ get_iops r = take (Z.to_nat (iocs_length d)) p_iocs
                    ++ drop (Z.to_nat (iocs_length d)) q_iocs.
Proof.
  intros H Hst Hlock Hin Hp Hq Hq'.
  destruct Hin as (_ & _ & _ & _ & _ & _ & Hco & Hcl & Hcb).
  destruct (memcpy_ex (buffer_data (ppm c)) (iocs_offset d) p_iocs
              (iocs_length d)) as [b H1]; [lia..|].
  pose proof (memcpy_length _ _ _ _ _ H1) as L1.
  assert (Hset :
    pf_ppm_set_iocs net (Some a) api slot subslot p_iocs (iocs_length d)
    = Some (Some (set_iodata crep ix (fun x => x)
                    (set_ar (set_iocr_ppm crep (set_buffer_data b (ppm c))
                               (ar_rec a)) a)),
            0, [Ev_os_mutex_lock (Some lock); Ev_os_mutex_unlock (Some lock)])).
  { unfold pf_ppm_set_iocs. rewrite H. cbn [mbind option_bind].
    rewrite Hst, Z.eqb_refl, Hlock. cbn [mbind option_bind].
    rewrite H1. cbn [mbind option_bind]. now rewrite set_iodata_id. }
  eexists. eexists. split; [exact Hset|].
  unfold pf_ppm_get_iocs.
  rewrite (pf_ppm_lookup_after_write api slot subslot a crep ix c d b
             (fun x => x) ltac:(reflexivity) H).
  cbn [mbind option_bind ppm set_ppm state set_buffer_data buffer_data].
  rewrite Hst.
  destruct (Z.leb_spec (iocs_length d) q_iocs_len); [|lia].
  rewrite Hlock. cbn [mbind option_bind].
  rewrite (memread_memcpy_same _ _ _ _ _ H1). cbn [mbind option_bind].
  rewrite (memcpy_Some q_iocs 0) by (rewrite ?length_take; lia).
  cbn [mbind option_bind].
  split; [reflexivity|]. cbn [get_ret get_iops_len get_iops].
  split; [reflexivity|]. split; [apply uint8_small; lia|].
  change (Z.to_nat 0) with 0%nat. rewrite take_0, Z.add_0_l.
  cbn [app]. now rewrite take_take, Nat.min_id.
Qed.

Lemma set_then_get_iocs_round_trip_witness :
  (pf_ppm_lookup (Some scenario_ar_data) 0 1 1
   = Some (Some (scenario_ar_data, 0%nat, 0%nat, scenario_active_iocr,
                 scenario_iodata))
   /\ state (ppm scenario_active_iocr) = PF_PPM_STATE_RUN
   /\ ppm_buf_lock scenario_active.1 = Some 1
   /\ iodata_in_buffer scenario_iodata
        (length (buffer_data (ppm scenario_active_iocr))))
  /\ exists a' r,
      pf_ppm_set_iocs scenario_active.1 (Some scenario_ar_data) 0 1 1
        [0x80] (iocs_length scenario_iodata)
      = Some (Some a', 0,
              [Ev_os_mutex_lock (Some 1); Ev_os_mutex_unlock (Some 1)])
      /\ pf_ppm_get_iocs scenario_active.1 (Some a') 0 1 1 [0; 0] 2 = Some r
      /\ get_ret r = 0
      /\ get_iops_len r = iocs_length scenario_iodata
      /\ get_iops r
         = take (Z.to_nat (iocs_length scenario_iodata)) [0x80]
           ++ drop (Z.to_nat (iocs_length scenario_iodata)) [0; 0].
Proof.
  assert (H1 : pf_ppm_lookup (Some scenario_ar_data) 0 1 1
               = Some (Some (scenario_ar_data, 0%nat, 0%nat,
                             scenario_active_iocr, scenario_iodata)))
    by reflexivity.
  assert (H2 : state (ppm scenario_active_iocr) = PF_PPM_STATE_RUN)
    by reflexivity.
  assert (H3 : ppm_buf_lock scenario_active.1 = Some 1) by reflexivity.
  assert (H4 : iodata_in_buffer scenario_iodata
                 (length (buffer_data (ppm scenario_active_iocr))))
    by (repeat split; vm_compute; (reflexivity || discriminate)).
  split; [exact (conj H1 (conj H2 (conj H3 H4)))|].
  apply (set_then_get_iocs_round_trip scenario_active.1 scenario_ar_data
           0 1 1 0 0 scenario_active_iocr scenario_iodata 1
           [0x80] [0; 0] 2 H1 H2 H3 H4);
    vm_compute; discriminate.
Defined.

(** The outcomes of [pf_ppm_set_iocs] for a sub-slot that the lookup
    finds in a running instance.  With a length other than that of the
    descriptor the function takes no mutex, makes no call and hands the
    AR back as it is; it returns 0 when the descriptor has no IOCS at
    all ([iocs_length] 0), and -1 otherwise.  With the length of the
    descriptor, the mutex in place and the region inside the staging
    buffer, it copies the IOCS under the mutex and returns 0.  So it
    returns 0 exactly when the length is that of the descriptor or the
    descriptor has no IOCS, and -1 in every other case. *)
Theorem set_iocs_outcomes (net : pnet_t) (a : pf_ar_data_t)
    (api slot subslot : Z) (crep ix : nat) (c : pf_iocr_t)
    (d : pf_iodata_object_t) (p_iocs : list Z) (iocs_len : Z) :
  pf_ppm_lookup (Some a) api slot subslot = Some (Some (a, crep, ix, c, d)) ->
  state (ppm c) = PF_PPM_STATE_RUN ->
  (iocs_len <> iocs_length d ->
   pf_ppm_set_iocs net (Some a) api slot subslot p_iocs iocs_len
   = Some (Some a, (if iocs_length d =? 0 then 0 else -1), []))
  /\ (iocs_len = iocs_length d ->
      forall lock,
        ppm_buf_lock net = Some lock ->
        iodata_in_buffer d (length (buffer_data (ppm c))) ->
        iocs_length d <= Z.of_nat (length p_iocs) ->
        exists b,
          memcpy (buffer_data (ppm c)) (iocs_offset d) p_iocs iocs_len
          = Some b
          /\ pf_ppm_set_iocs net (Some a) api slot subslot p_iocs iocs_len
             = Some (Some (set_ar (set_iocr_ppm crep
                                     (set_buffer_data b (ppm c))
                                     (ar_rec a)) a),
                     0,
                     [Ev_os_mutex_lock (Some lock);
                      Ev_os_mutex_unlock (Some lock)]))
  /\ (forall p_ar' ret ev,
        pf_ppm_set_iocs net (Some a) api slot subslot p_iocs iocs_len
        = Some (p_ar', ret, ev) ->
        (ret = 0 \/ ret = -1)
        /\ (ret = 0 <-> iocs_len = iocs_length d \/ iocs_length d = 0)).
Proof.
  intros H Hst. unfold pf_ppm_set_iocs. rewrite H.
  cbn [mbind option_bind]. rewrite Hst.
  split; [|split].
  - intros Hne. apply Z.eqb_neq in Hne. rewrite Hne.
    now destruct (iocs_length d =? 0).
  - intros -> lock Hlock Hin Hp. rewrite Z.eqb_refl, Hlock.
    cbn [mbind option_bind].
    destruct Hin as (_ & _ & _ & _ & _ & _ & Hco & Hcl & Hcb).
    destruct (memcpy_ex (buffer_data (ppm c)) (iocs_offset d) p_iocs
                (iocs_length d)) as [b H1]; [lia..|].
    exists b. split; [exact H1|]. rewrite H1. reflexivity.
  - intros p_ar' ret ev.
    destruct (Z.eqb_spec iocs_len (iocs_length d)) as [E1|E1].
    + destruct (ppm_buf_lock net); [|discriminate].
      cbn [mbind option_bind].
      destruct (memcpy _ _ _ _); [|discriminate].
      cbn [mbind option_bind]. intros [= <- <- <-].
      split; [now left|]. split; auto.
    + destruct (Z.eqb_spec (iocs_length d) 0) as [E2|E2].
      * intros [= <- <- <-]. split; [now left|]. split; auto.
      * intros [= <- <- <-]. split; [now right|].
        split; [discriminate|]. intros [?|?]; contradiction.
Qed.

Lemma set_iocs_outcomes_witness :
  (pf_ppm_lookup (Some no_iocs_ar_data) 0 1 1
   = Some (Some (no_iocs_ar_data, 0%nat, 0%nat, scenario_active_iocr,
                 no_iocs_iodata))
   /\ state (ppm scenario_active_iocr) = PF_PPM_STATE_RUN
   /\ 1 <> iocs_length no_iocs_iodata)
  /\ pf_ppm_set_iocs scenario_active.1 (Some no_iocs_ar_data) 0 1 1 [0x80] 1
     = Some (Some no_iocs_ar_data,
             (if iocs_length no_iocs_iodata =? 0 then 0 else -1), [])
  /\ (if iocs_length no_iocs_iodata =? 0 then 0 else -1) = 0.
Proof.
  assert (H1 : pf_ppm_lookup (Some no_iocs_ar_data) 0 1 1
               = Some (Some (no_iocs_ar_data, 0%nat, 0%nat,
                             scenario_active_iocr, no_iocs_iodata)))
    by reflexivity.
  assert (H2 : state (ppm scenario_active_iocr) = PF_PPM_STATE_RUN)
    by reflexivity.
  assert (H3 : 1 <> iocs_length no_iocs_iodata) by discriminate.
  split; [exact (conj H1 (conj H2 H3))|].
  split; [|reflexivity].
  exact (proj1 (set_iocs_outcomes scenario_active.1 no_iocs_ar_data 0 1 1
                  0 0 scenario_active_iocr no_iocs_iodata [0x80] 1 H1 H2)
           H3).
Defined.

(** ** Reading without success *)

(** When [pf_ppm_get_data_and_iops] or [pf_ppm_get_iocs] does not return
    0, it returns -1, has made no call, and the buffers and the lengths
    of the caller are as they were; the getters never write into the
    staging buffer, whatever they return. *)
Theorem failed_get_keeps_the_callers_buffers (net : pnet_t)
    (p_ar : option pf_ar_data_t) (api slot subslot : Z)
    (p_data : list Z) (p_data_len : Z) (p_iops : list Z) (p_iops_len : Z)
    (r : pf_ppm_get_result) :
  pf_ppm_get_data_and_iops net p_ar api slot subslot p_data p_data_len
    p_iops p_iops_len = Some r
  \/ (pf_ppm_get_iocs net p_ar api slot subslot p_iops p_iops_len = Some r
      /\ p_data = [] /\ p_data_len = 0) ->
  (get_ar r = p_ar
   \/ exists a, p_ar = Some a /\ get_ar r = Some (set_ppm_error a))
  /\ (get_ret r <> 0 ->
      get_ret r = -1 /\ get_trace r = []
      /\ get_data r = p_data /\ get_data_len r = p_data_len
      /\ get_iops r = p_iops /\ get_iops_len r = p_iops_len).
Proof.
  intros [H|(H & -> & ->)].
  - unfold pf_ppm_get_data_and_iops in H.
    destruct (pf_ppm_lookup p_ar api slot subslot)
      as [[[[[[a crep] ix] c] d]|]|] eqn:Hl;
      cbn [mbind option_bind] in H; [| |discriminate].
    + destruct (pf_ppm_lookup_Some _ _ _ _ _ _ _ _ _ Hl) as (Hp & _).
      destruct (state (ppm c)).
      * injection H as <-. cbn. split; [right; eauto|]. intros _. auto 10.
      * destruct ((data_length d <=? p_data_len)
                  && (iops_length d <=? p_iops_len)).
        -- destruct (ppm_buf_lock net); [|discriminate].
           cbn [mbind option_bind] in H.
           repeat match type of H with
                  | mbind _ ?m = Some _ =>
                      destruct m; [|discriminate];
                      cbn [mbind option_bind] in H
                  end.
           injection H as <-. cbn. split; [left; congruence|].
           intros Hr. now contradiction Hr.
        -- injection H as <-. cbn. split; [left; congruence|].
           intros _. auto 10.
    + injection H as <-. cbn. split; [now left|]. intros _. auto 10.
  - unfold pf_ppm_get_iocs in H.
    destruct (pf_ppm_lookup p_ar api slot subslot)
      as [[[[[[a crep] ix] c] d]|]|] eqn:Hl;
      cbn [mbind option_bind] in H; [| |discriminate].
    + destruct (pf_ppm_lookup_Some _ _ _ _ _ _ _ _ _ Hl) as (Hp & _).
      destruct (state (ppm c)).
      * injection H as <-. cbn. split; [right; eauto|]. intros _. auto 10.
      * destruct (iocs_length d <=? p_iops_len).
        -- destruct (ppm_buf_lock net); [|discriminate].
           cbn [mbind option_bind] in H.
           repeat match type of H with
                  | mbind _ ?m = Some _ =>
                      destruct m; [|discriminate];
                      cbn [mbind option_bind] in H
                  end.
           injection H as <-. cbn. split; [left; congruence|].
           intros Hr. now contradiction Hr.
        -- injection H as <-. cbn. split; [left; congruence|].
           intros _. auto 10.
    + injection H as <-. cbn. split; [now left|]. intros _. auto 10.
Qed.

Lemma failed_get_keeps_the_callers_buffers_witness :
  (pf_ppm_get_data_and_iops scenario_active.1 (Some scenario_ar_data) 0 1 1
     [0; 0] 2 [0] 1
   = Some (mk_get_result (Some scenario_ar_data) [0; 0] 2 [0] 1 (-1) []))
  /\ (Some scenario_ar_data = Some scenario_ar_data
      \/ exists a, Some scenario_ar_data = Some a
                   /\ Some scenario_ar_data = Some (set_ppm_error a))
  /\ (-1 <> 0 ->
      -1 = -1 /\ @nil os_event = []
      /\ [0; 0] = [0; 0] /\ 2 = 2 /\ [0] = [0] /\ 1 = 1).
Proof.
  assert (H : pf_ppm_get_data_and_iops scenario_active.1
                (Some scenario_ar_data) 0 1 1 [0; 0] 2 [0] 1
              = Some (mk_get_result (Some scenario_ar_data) [0; 0] 2 [0] 1
                        (-1) [])) by reflexivity.
  split; [exact H|].
  exact (failed_get_keeps_the_callers_buffers scenario_active.1
           (Some scenario_ar_data) 0 1 1 [0; 0] 2 [0] 1
           (mk_get_result (Some scenario_ar_data) [0; 0] 2 [0] 1 (-1) [])
           (or_introl H)).
Defined.

(** ** From the application to the wire *)

Lemma segment_behind_header (hdr b R : list Z) (m off n : nat) :
  (off + n <= m)%nat -> (off + n <= length b)%nat ->
  take n (drop (length hdr + off) (hdr ++ take m b ++ R))
  = take n (drop off b).
Proof.
  intros Hm Hb. apply list_eq. intros i.
  destruct (decide (i < n)%nat) as [Hi|Hi].
  - rewrite !lookup_take_lt by assumption. rewrite !lookup_drop.
    rewrite lookup_app_r by lia.
    replace (length hdr + off + i - length hdr)%nat with (off + i)%nat by lia.
    rewrite lookup_app_l by (rewrite length_take; lia).
    apply lookup_take_lt. lia.
  - rewrite !lookup_take_ge by lia. reflexivity.
Qed.

(** The data and the IOPS that [pf_ppm_set_data_and_iops] accepts for a
    sub-slot of an activated IOCR are in the frame of the next timer
    tick, at the offsets of the descriptor behind the 20 bytes of the
    header, provided the two regions lie inside the [in_length] bytes
    that are sent and do not overlap. *)
Theorem set_data_reaches_the_frame (env : os_env) (net : pnet_t)
    (a : pf_ar_data_t) (api slot subslot : Z) (crep ix : nat)
    (c : pf_iocr_t) (d : pf_iodata_object_t) (lock : Z)
    (p_data p_iops : list Z) (rtos : bool) (tick : Z)
    (prm : pf_iocr_param_t) (sa' da' : list Z) (buf0 : os_buf_t)
    (p0 : pf_ppm_t) :
  pf_ppm_lookup (Some a) api slot subslot = Some (Some (a, crep, ix, c, d)) ->
  activated_ppm rtos tick prm sa' da' buf0 p0 (ppm c) ->
  length sa' = 6%nat -> length da' = 6%nat ->
  ppm_buf_lock net = Some lock ->
  iodata_in_buffer d (length (buffer_data (ppm c))) ->
  regions_apart (data_offset d) (data_length d) (iops_offset d)
    (iops_length d) ->
  data_offset d + data_length d <= in_length c ->
  iops_offset d + iops_length d <= in_length c ->
  in_length c <= c_sdu_length prm ->
  in_length c <= Z.of_nat (length (buffer_data (ppm c))) ->
  uint16 (param_send_clock_factor prm * param_reduction_ratio prm) <> 0 ->
  data_length d <= Z.of_nat (length p_data) ->
  iops_length d <= Z.of_nat (length p_iops) ->
  exists a' net' ar' ev frame,
    pf_ppm_set_data_and_iops net (Some a) api slot subslot p_data
      (data_length d) p_iops (iops_length d)
    = Some (Some a', 0,
            [Ev_os_mutex_lock (Some lock); Ev_os_mutex_unlock (Some lock)])
    /\ pf_ppm_send env net (ar_rec a') crep = Some (net', ar', ev)
    /\ sent_frames ev = [frame]
    /\ take (Z.to_nat (data_length d))
         (drop (Z.to_nat (20 + data_offset d)) frame)
       = take (Z.to_nat (data_length d)) p_data
    /\ take (Z.to_nat (iops_length d))
         (drop (Z.to_nat (20 + iops_offset d)) frame)
       = take (Z.to_nat (iops_length d)) p_iops.
Proof.
  intros H Hact Hsa Hda Hlock Hin Hapart Hdin Hiin Hsdu Hlen Hratio Hd Hi.
  assert (Hst : state (ppm c) = PF_PPM_STATE_RUN) by apply Hact.
  destruct (pf_ppm_set_data_and_iops_run net (Some a) api slot subslot a crep
              ix c d p_data p_iops lock H Hst Hlock Hin Hd Hi)
    as (b1 & b2 & H1 & H2 & Hset).
  destruct (pf_ppm_lookup_Some _ _ _ _ _ _ _ _ _ H) as (_ & _ & Hc & _).
  destruct Hin as (Hdo & Hdl & Hdb & Hio & Hil & Hib & _).
  pose proof (memcpy_length _ _ _ _ _ H1) as L1.
  pose proof (memcpy_length _ _ _ _ _ H2) as L2.
  set (c' := set_ppm (set_buffer_data b2 (ppm c)) c).
  set (a' := set_iodata crep ix (set_data_avail true)
               (set_ar (set_iocr_ppm crep (set_buffer_data b2 (ppm c))
                          (ar_rec a)) a)) in *.
  assert (Hc' : iocrs (ar_rec a') !! crep = Some c').
  { unfold a', set_iodata, set_ar, set_iocr_ppm.
    cbn [ar_rec iocrs set_iocrs]. now rewrite list_lookup_alter_eq, Hc. }
  assert (Hact' : activated_ppm rtos tick prm sa' da' buf0 (ppm c') (ppm c')).
  { destruct Hact as (A1 & A2 & A3 & A4 & A5 & A6 & A7 & A8 & A9 & A10 & A11
                      & A12 & A13 & A14 & A15 & A16 & A17 & A18 & A19 & A20).
    unfold activated_ppm.
    repeat split; try assumption; try reflexivity. }
  destruct (pf_ppm_send_first_frame env net (ar_rec a') crep c' rtos tick prm
              sa' da' buf0 (ppm c') Hc' Hact' Hsa Hda)
    as (net' & ar' & ev & cyc & Hsend & _ & Hframe).
  { cbn. lia. }
  { cbn. lia. }
  { exact Hratio. }
  exists a', net', ar', ev. eexists.
  split; [exact Hset|]. split; [exact Hsend|]. split; [exact Hframe|].
  change (in_length c') with (in_length c).
  change (buffer_data (ppm c')) with b2.
  set (hdr := ppm_frame_header (ppm c') (frame_id prm) (iocr_tag_header prm)).
  assert (Lhdr : length hdr = 20%nat).
  { apply ppm_frame_header_length.
    - change (da (ppm c')) with (da (ppm c)).
      destruct Hact as (_ & _ & _ & _ & E & _). congruence.
    - change (sa (ppm c')) with (sa (ppm c)).
      destruct Hact as (_ & _ & _ & E & _). congruence. }
  assert (R1 : memread b2 (data_offset d) (data_length d)
               = Some (take (Z.to_nat (data_length d)) p_data)).
  { rewrite (memread_memcpy_other b1 (iops_offset d) p_iops (iops_length d)
               b2 _ _ H2) by (unfold regions_apart in Hapart; lia).
    apply (memread_memcpy_same _ _ _ _ _ H1). }
  pose proof (memread_memcpy_same _ _ _ _ _ H2) as R2.
  rewrite memread_Some in R1 by lia. rewrite memread_Some in R2 by lia.
  injection R1 as R1. injection R2 as R2.
  split.
  - replace (Z.to_nat (20 + data_offset d))
      with (length hdr + Z.to_nat (data_offset d))%nat by lia.
    rewrite segment_behind_header by lia. exact R1.
  - replace (Z.to_nat (20 + iops_offset d))
      with (length hdr + Z.to_nat (iops_offset d))%nat by lia.
    rewrite segment_behind_header by lia. exact R2.
Qed.

Lemma set_data_reaches_the_frame_witness :
  (pf_ppm_lookup (Some scenario_ar_data) 0 1 1
   = Some (Some (scenario_ar_data, 0%nat, 0%nat, scenario_active_iocr,
                 scenario_iodata))
   /\ activated_ppm false 1000 scenario_param
        [0x11; 0x22; 0x33; 0x44; 0x55; 0x66]
        [0xAA; 0xBB; 0xCC; 0xDD; 0xEE; 0x01]
        (mk_os_buf (replicate 1522 0xEE) 1522) scenario_ppm
        (ppm scenario_active_iocr)
   /\ ppm_buf_lock scenario_active.1 = Some 1
   /\ iodata_in_buffer scenario_iodata
        (length (buffer_data (ppm scenario_active_iocr)))
   /\ regions_apart (data_offset scenario_iodata)
        (data_length scenario_iodata) (iops_offset scenario_iodata)
        (iops_length scenario_iodata))
  /\ exists a' net' ar' ev frame,
      pf_ppm_set_data_and_iops scenario_active.1 (Some scenario_ar_data)
        0 1 1 [1; 2; 3; 4; 5; 6; 7; 8] (data_length scenario_iodata)
        [0x80] (iops_length scenario_iodata)
      = Some (Some a', 0,
              [Ev_os_mutex_lock (Some 1); Ev_os_mutex_unlock (Some 1)])
      /\ pf_ppm_send (scenario_env false 1000) scenario_active.1
           (ar_rec a') 0 = Some (net', ar', ev)
      /\ sent_frames ev = [frame]
      /\ take (Z.to_nat (data_length scenario_iodata))
           (drop (Z.to_nat (20 + data_offset scenario_iodata)) frame)
         = take (Z.to_nat (data_length scenario_iodata))
             [1; 2; 3; 4; 5; 6; 7; 8]
      /\ take (Z.to_nat (iops_length scenario_iodata))
           (drop (Z.to_nat (20 + iops_offset scenario_iodata)) frame)
         = take (Z.to_nat (iops_length scenario_iodata)) [0x80].
Proof.
  assert (H1 : pf_ppm_lookup (Some scenario_ar_data) 0 1 1
               = Some (Some (scenario_ar_data, 0%nat, 0%nat,
                             scenario_active_iocr, scenario_iodata)))
    by reflexivity.
  assert (H2 : activated_ppm false 1000 scenario_param
                 [0x11; 0x22; 0x33; 0x44; 0x55; 0x66]
                 [0xAA; 0xBB; 0xCC; 0xDD; 0xEE; 0x01]
                 (mk_os_buf (replicate 1522 0xEE) 1522) scenario_ppm
                 (ppm scenario_active_iocr)).
  { repeat split; try reflexivity; intros [=]. }
  assert (H3 : ppm_buf_lock scenario_active.1 = Some 1) by reflexivity.
  assert (H4 : iodata_in_buffer scenario_iodata
                 (length (buffer_data (ppm scenario_active_iocr))))
    by (repeat split; vm_compute; (reflexivity || discriminate)).
  assert (H5 : regions_apart (data_offset scenario_iodata)
                 (data_length scenario_iodata) (iops_offset scenario_iodata)
                 (iops_length scenario_iodata))
    by (left; vm_compute; discriminate).
  split; [exact (conj H1 (conj H2 (conj H3 (conj H4 H5))))|].
  apply (set_data_reaches_the_frame (scenario_env false 1000)
           scenario_active.1 scenario_ar_data 0 1 1 0 0 scenario_active_iocr
           scenario_iodata 1 [1; 2; 3; 4; 5; 6; 7; 8] [0x80] false 1000
           scenario_param [0x11; 0x22; 0x33; 0x44; 0x55; 0x66]
           [0xAA; 0xBB; 0xCC; 0xDD; 0xEE; 0x01]
           (mk_os_buf (replicate 1522 0xEE) 1522) scenario_ppm
           H1 H2 eq_refl eq_refl H3 H4 H5);
    vm_compute; discriminate.
Defined.

(** * Further properties of the LLDP engine *)

(** ** The block writer on a buffer with room *)

Lemma uint8_land_ff (x : Z) : uint8 (Z.land x 0xff) = uint8 x.
Proof.
  change 0xff with (Z.ones 8). rewrite Z.land_ones by lia.
  unfold uint8. apply Z.mod_mod. lia.
Qed.

Lemma writer_at_app (A B R : list Z) :
  (length B <= length R)%nat ->
  (A ++ B ++ drop (length B) R, Z.of_nat (length A) + Z.of_nat (length B))
  = writer_at (A ++ B) (drop (length B) R).
Proof.
  intros _. unfold writer_at. rewrite length_app, <- app_assoc.
  f_equal. lia.
Qed.

Lemma pf_put_byte_at (A R : list Z) (v : Z) :
  (length A < 1522)%nat -> (1 <= length R)%nat ->
  pf_put_byte v PF_FRAME_BUFFER_SIZE (writer_at A R)
  = Some (writer_at (A ++ [uint8 v]) (drop 1 R)).
Proof.
  intros HA HR. unfold pf_put_byte, writer_at, PF_FRAME_BUFFER_SIZE.
  destruct (Z.leb_spec 1522 (Z.of_nat (length A))); [lia|].
  destruct R as [|x R]; [cbn in HR; lia|].
  rewrite store_byte_Some by (rewrite length_app; cbn [length]; lia).
  cbn [mbind option_bind]. rewrite Nat2Z.id.
  rewrite insert_app_r_alt by lia. rewrite Nat.sub_diag.
  cbn [insert list_insert drop].
  rewrite <- app_assoc. cbn [app]. rewrite length_app. cbn [length].
  do 2 f_equal. unfold uint16. rewrite Z.mod_small; lia.
Qed.

Lemma pf_put_uint16_at (A R : list Z) (v : Z) :
  (length A + 2 <= 1522)%nat -> (2 <= length R)%nat ->
  pf_put_uint16 true v PF_FRAME_BUFFER_SIZE (writer_at A R)
  = Some (writer_at (A ++ htons_bytes v) (drop 2 R)).
Proof.
  intros HA HR. unfold pf_put_uint16.
  rewrite pf_put_byte_at by lia. cbn [mbind option_bind].
  rewrite pf_put_byte_at
    by (rewrite ?length_app, ?length_drop; cbn [length]; lia).
  rewrite drop_drop, <- app_assoc, !uint8_land_ff. reflexivity.
Qed.

Lemma pf_put_uint32_at (A R : list Z) (v : Z) :
  (length A + 4 <= 1522)%nat -> (4 <= length R)%nat ->
  pf_put_uint32 true v PF_FRAME_BUFFER_SIZE (writer_at A R)
  = Some (writer_at (A ++ htonl_bytes v) (drop 4 R)).
Proof.
  intros HA HR. unfold pf_put_uint32.
  rewrite pf_put_byte_at by lia. cbn [mbind option_bind].
  rewrite pf_put_byte_at
    by (rewrite ?length_app, ?length_drop; cbn [length]; lia).
  cbn [mbind option_bind].
  rewrite pf_put_byte_at
    by (rewrite ?length_app, ?length_drop; cbn [length]; lia).
  cbn [mbind option_bind].
  rewrite pf_put_byte_at
    by (rewrite ?length_app, ?length_drop; cbn [length]; lia).
  rewrite !drop_drop, <- !app_assoc, !uint8_land_ff. reflexivity.
Qed.

(** [memcpy (&p_buf[pos], src, n)] followed by [pos += n]. *)
Lemma memcpy_at (A R src : list Z) (n : nat) :
  (n <= length src)%nat -> (n <= length R)%nat ->
  (length A + n <= 1522)%nat ->
  (b ← memcpy (A ++ R) (Z.of_nat (length A)) src (Z.of_nat n);
   Some (b, uint16 (Z.of_nat (length A) + Z.of_nat n)))
  = Some (writer_at (A ++ take n src) (drop n R)).
Proof.
  intros Hs HR H16.
  rewrite memcpy_Some by (rewrite ?length_app; lia).
  cbn [mbind option_bind]. unfold writer_at.
  rewrite !Nat2Z.id, take_app_length.
  replace (Z.to_nat (Z.of_nat (length A) + Z.of_nat n))
    with (length A + n)%nat by lia.
  rewrite drop_app_add', <- app_assoc by reflexivity.
  rewrite length_app, length_take.
  do 2 f_equal. unfold uint16. rewrite Z.mod_small; lia.
Qed.

Lemma pf_put_mem_at (A R src : list Z) (n : nat) :
  (n <= length src)%nat -> (n <= length R)%nat ->
  (length A + n <= 1522)%nat ->
  pf_put_mem src (Z.of_nat n) PF_FRAME_BUFFER_SIZE (writer_at A R)
  = Some (writer_at (A ++ take n src) (drop n R)).
Proof.
  intros Hs HR HA. unfold pf_put_mem, writer_at at 1, PF_FRAME_BUFFER_SIZE.
  destruct (Z.ltb_spec 1522 (Z.of_nat (length A) + Z.of_nat n)); [lia|].
  apply memcpy_at; lia.
Qed.

Lemma pf_lldp_tlv_header_at (A R : list Z) (typ len : Z) :
  0 <= typ < 128 -> 0 <= len < 256 ->
  (length A + 2 <= 1522)%nat -> (2 <= length R)%nat ->
  pf_lldp_tlv_header (writer_at A R) typ len
  = Some (writer_at (A ++ htons_bytes (Z.shiftl typ 9 + len)) (drop 2 R)).
Proof.
  intros Ht Hl HA HR. unfold pf_lldp_tlv_header.
  rewrite (uint8_small typ), (uint8_small len) by lia.
  change 0x1ff with (Z.ones 9). rewrite Z.land_ones by lia.
  rewrite (Z.mod_small len) by lia.
  rewrite uint16_small.
  - apply pf_put_uint16_at; assumption.
  - rewrite Z.shiftl_mul_pow2 by lia. lia.
Qed.

(** A TLV: the header and then the value, written by [k]. *)
Lemma tlv_at (A R v : list Z) (typ : Z)
    (k : list Z * Z -> option (list Z * Z)) :
  0 <= typ < 128 -> (length v < 256)%nat ->
  (length A + 2 + length v <= 1522)%nat -> (2 + length v <= length R)%nat ->
  (forall B, B = A ++ htons_bytes (Z.shiftl typ 9 + Z.of_nat (length v)) ->
     k (writer_at B (drop 2 R))
     = Some (writer_at (B ++ v) (drop (length v) (drop 2 R)))) ->
  (w ← pf_lldp_tlv_header (writer_at A R) typ (Z.of_nat (length v)); k w)
  = Some (writer_at (A ++ tlv_bytes typ v) (drop (2 + length v) R)).
Proof.
  intros Ht Hv HA HR Hk.
  rewrite pf_lldp_tlv_header_at by lia. cbn [mbind option_bind].
  rewrite (Hk _ eq_refl). unfold tlv_bytes.
  rewrite drop_drop, <- app_assoc. reflexivity.
Qed.

(** ** The TLVs of the transmitter *)

Lemma cstring_take (arr s : list Z) :
  is_cstring_of arr s -> take (length s) arr = s.
Proof.
  intros [_ [junk ->]]. apply take_app_length.
Qed.

Lemma tlv_bytes_length (typ : Z) (v : list Z) :
  length (tlv_bytes typ v) = (2 + length v)%nat.
Proof. unfold tlv_bytes. rewrite length_app. reflexivity. Qed.

Lemma lldp_add_chassis_id_tlv_at (p_cfg : pnet_cfg_t) (A R ch : list Z) :
  is_cstring_of (chassis_id p_cfg) ch -> (length ch < 255)%nat ->
  length (eth_addr p_cfg) = 6%nat ->
  (length A + 9 + length ch <= 1522)%nat -> (9 + length ch <= length R)%nat ->
  let T := match ch with
           | [] => tlv_bytes LLDP_TYPE_CHASSIS_ID
                     (LLDP_SUBTYPE_CHASSIS_ID_MAC :: eth_addr p_cfg)
           | _ => tlv_bytes LLDP_TYPE_CHASSIS_ID
                    (LLDP_SUBTYPE_CHASSIS_ID_NAME :: ch)
           end in
  lldp_add_chassis_id_tlv p_cfg (writer_at A R)
  = Some (writer_at (A ++ T) (drop (length T) R)).
Proof.
  intros Hch Lch Lmac HA HR T. unfold lldp_add_chassis_id_tlv.
  rewrite (cstring_strlen _ _ Hch). cbn [mbind option_bind].
  rewrite uint16_small by lia.
  destruct ch as [|x ch'] eqn:Ech.
  - change (Z.of_nat (length (@nil Z)) =? 0) with true. cbv iota.
    unfold T. rewrite tlv_bytes_length.
    change (1 + sizeof_pnet_ethaddr_t)
      with (Z.of_nat (length (LLDP_SUBTYPE_CHASSIS_ID_MAC
                              :: replicate 6 0))).
    replace (length (LLDP_SUBTYPE_CHASSIS_ID_MAC :: replicate 6 0))
      with (length (LLDP_SUBTYPE_CHASSIS_ID_MAC :: eth_addr p_cfg))
      by (cbn [length]; rewrite Lmac, length_replicate; reflexivity).
    apply tlv_at; cbn [length] in *; rewrite ?Lmac;
      try (unfold LLDP_TYPE_CHASSIS_ID; lia); try lia.
    intros B HB.
    assert (LB : length B = (length A + 2)%nat)
      by (rewrite HB, length_app; reflexivity).
    rewrite pf_put_byte_at by (rewrite ?length_drop; lia).
    cbn [mbind option_bind]. unfold writer_at at 1.
    change sizeof_pnet_ethaddr_t with (Z.of_nat 6).
    rewrite memcpy_at
      by (rewrite ?length_app, ?length_drop; cbn [length]; lia).
    rewrite <- Lmac, firstn_all, Lmac.
    rewrite !drop_drop, <- app_assoc.
    change (uint8 LLDP_SUBTYPE_CHASSIS_ID_MAC)
      with LLDP_SUBTYPE_CHASSIS_ID_MAC.
    reflexivity.
  - rewrite <- Ech in *.
    destruct (Z.eqb_spec (Z.of_nat (length ch)) 0) as [E|_];
      [rewrite Ech in E; cbn in E; lia|].
    assert (HT : T = tlv_bytes LLDP_TYPE_CHASSIS_ID
                       (LLDP_SUBTYPE_CHASSIS_ID_NAME :: ch))
      by (unfold T; rewrite Ech; reflexivity).
    rewrite HT, tlv_bytes_length.
    replace (1 + Z.of_nat (length ch))
      with (Z.of_nat (length (LLDP_SUBTYPE_CHASSIS_ID_NAME :: ch)))
      by (cbn [length]; lia).
    apply tlv_at; cbn [length];
      try (unfold LLDP_TYPE_CHASSIS_ID; lia); try lia.
    intros B HB.
    assert (LB : length B = (length A + 2)%nat)
      by (rewrite HB, length_app; reflexivity).
    rewrite pf_put_byte_at by (rewrite ?length_drop; lia).
    cbn [mbind option_bind].
    pose proof (cstring_length _ _ Hch) as Lc.
    rewrite pf_put_mem_at
      by (rewrite ?length_app, ?length_drop; cbn [length]; lia).
    rewrite (cstring_take _ _ Hch).
    rewrite !drop_drop, <- app_assoc.
    change (uint8 LLDP_SUBTYPE_CHASSIS_ID_NAME)
      with LLDP_SUBTYPE_CHASSIS_ID_NAME.
    reflexivity.
Qed.

Lemma lldp_add_port_id_tlv_at (p_cfg : pnet_cfg_t) (A R pt : list Z) :
  is_cstring_of (port_id p_cfg) pt -> (length pt < 255)%nat ->
  (length A + 3 + length pt <= 1522)%nat -> (3 + length pt <= length R)%nat ->
  let T := tlv_bytes LLDP_TYPE_PORT_ID (LLDP_SUBTYPE_PORT_ID_LOCAL :: pt) in
  lldp_add_port_id_tlv p_cfg (writer_at A R)
  = Some (writer_at (A ++ T) (drop (length T) R)).
Proof.
  intros Hpt Lpt HA HR T. unfold lldp_add_port_id_tlv.
  rewrite (cstring_strlen _ _ Hpt). cbn [mbind option_bind].
  rewrite uint16_small by lia.
  unfold T. rewrite tlv_bytes_length.
  replace (1 + Z.of_nat (length pt))
    with (Z.of_nat (length (LLDP_SUBTYPE_PORT_ID_LOCAL :: pt)))
    by (cbn [length]; lia).
  apply tlv_at; cbn [length];
    try (unfold LLDP_TYPE_PORT_ID; lia); try lia.
  intros B HB.
  assert (LB : length B = (length A + 2)%nat)
    by (rewrite HB, length_app; reflexivity).
  rewrite pf_put_byte_at by (rewrite ?length_drop; lia).
  cbn [mbind option_bind].
  pose proof (cstring_length _ _ Hpt) as Lc.
  rewrite pf_put_mem_at
    by (rewrite ?length_app, ?length_drop; cbn [length]; lia).
  rewrite (cstring_take _ _ Hpt).
  rewrite !drop_drop, <- app_assoc.
  change (uint8 LLDP_SUBTYPE_PORT_ID_LOCAL) with LLDP_SUBTYPE_PORT_ID_LOCAL.
  reflexivity.
Qed.

Lemma lldp_add_ttl_tlv_at (p_cfg : pnet_cfg_t) (A R : list Z) :
  (length A + 4 <= 1522)%nat -> (4 <= length R)%nat ->
  let T := tlv_bytes LLDP_TYPE_TTL (htons_bytes (ttl p_cfg)) in
  lldp_add_ttl_tlv p_cfg (writer_at A R)
  = Some (writer_at (A ++ T) (drop (length T) R)).
Proof.
  intros HA HR T. unfold lldp_add_ttl_tlv, T. rewrite tlv_bytes_length.
  change 2 with (Z.of_nat (length (htons_bytes (ttl p_cfg)))) at 1.
  apply tlv_at; cbn [length htons_bytes];
    try (unfold LLDP_TYPE_TTL; lia); try lia.
  intros B HB.
  assert (LB : length B = (length A + 2)%nat)
    by (rewrite HB, length_app; reflexivity).
  apply pf_put_uint16_at; rewrite ?length_drop; lia.
Qed.

Lemma org_header_at (A R rest : list Z) (o1 o2 o3 : Z)
    (k : list Z * Z -> option (list Z * Z)) :
  (3 + length rest < 256)%nat ->
  (length A + 5 + length rest <= 1522)%nat ->
  (5 + length rest <= length R)%nat ->
  0 <= o1 < 256 -> 0 <= o2 < 256 -> 0 <= o3 < 256 ->
  (forall B, length B = (length A + 5)%nat ->
     k (writer_at B (drop 5 R))
     = Some (writer_at (B ++ rest) (drop (length rest) (drop 5 R)))) ->
  (w ← (w ← pf_lldp_tlv_header (writer_at A R) LLDP_TYPE_ORG_SPEC
              (uint8 (Z.of_nat (length rest)) + 3);
        w ← pf_put_byte o1 PF_FRAME_BUFFER_SIZE w;
        w ← pf_put_byte o2 PF_FRAME_BUFFER_SIZE w;
        pf_put_byte o3 PF_FRAME_BUFFER_SIZE w);
   k w)
  = Some (writer_at (A ++ tlv_bytes LLDP_TYPE_ORG_SPEC ([o1; o2; o3] ++ rest))
            (drop (length (tlv_bytes LLDP_TYPE_ORG_SPEC ([o1; o2; o3] ++ rest)))
               R)).
Proof.
  intros Hl HA HR H1 H2 H3 Hk.
  rewrite (uint8_small (Z.of_nat (length rest))) by lia.
  rewrite pf_lldp_tlv_header_at by (unfold LLDP_TYPE_ORG_SPEC; lia).
  cbn [mbind option_bind].
  rewrite pf_put_byte_at
    by (rewrite ?length_app, ?length_drop; cbn [length htons_bytes]; lia).
  cbn [mbind option_bind].
  rewrite pf_put_byte_at
    by (rewrite ?length_app, ?length_drop; cbn [length htons_bytes]; lia).
  cbn [mbind option_bind].
  rewrite pf_put_byte_at
    by (rewrite ?length_app, ?length_drop; cbn [length htons_bytes]; lia).
  cbn [mbind option_bind]. rewrite !drop_drop.
  change (1 + (1 + (1 + 2)))%nat with 5%nat.
  rewrite Hk by (rewrite !length_app; cbn [length htons_bytes]; lia).
  rewrite tlv_bytes_length, drop_drop, length_app.
  unfold tlv_bytes. rewrite length_app. cbn [length app].
  rewrite (uint8_small o1), (uint8_small o2), (uint8_small o3) by lia.
  rewrite <- !app_assoc. cbn [app].
  replace (Z.of_nat (length rest) + 3) with (Z.of_nat (S (S (S (length rest)))))
    by lia.
  reflexivity.
Qed.

Lemma lldp_add_port_status_at (o : pnet_lldp_cfg_t) (A R : list Z) :
  (length A + 10 <= 1522)%nat -> (10 <= length R)%nat ->
  let T := tlv_bytes LLDP_TYPE_ORG_SPEC
             ([0x00; 0x0e; 0xcf; 2] ++ htons_bytes (rtclass_2_status o)
              ++ htons_bytes (rtclass_3_status o)) in
  lldp_add_port_status o (writer_at A R)
  = Some (writer_at (A ++ T) (drop (length T) R)).
Proof.
  intros HA HR T. unfold lldp_add_port_status, pf_lldp_pnio_header.
  change (uint8 5)
    with (uint8 (Z.of_nat (length ([2] ++ htons_bytes (rtclass_2_status o)
                                   ++ htons_bytes (rtclass_3_status o))))).
  apply (org_header_at A R
           ([2] ++ htons_bytes (rtclass_2_status o)
            ++ htons_bytes (rtclass_3_status o)) 0x00 0x0e 0xcf);
    cbn [length app htons_bytes]; try lia.
  intros B LB.
  rewrite pf_put_byte_at by (rewrite ?length_drop; lia).
  cbn [mbind option_bind].
  rewrite pf_put_uint16_at
    by (rewrite ?length_app, ?length_drop; cbn [length]; lia).
  cbn [mbind option_bind].
  rewrite pf_put_uint16_at
    by (rewrite ?length_app, ?length_drop; cbn [length htons_bytes]; lia).
  rewrite !drop_drop, <- !app_assoc. reflexivity.
Qed.

Lemma lldp_add_chassis_mac_at (p_cfg : pnet_cfg_t) (A R : list Z) :
  length (eth_addr p_cfg) = 6%nat ->
  (length A + 12 <= 1522)%nat -> (12 <= length R)%nat ->
  let T := tlv_bytes LLDP_TYPE_ORG_SPEC
             ([0x00; 0x0e; 0xcf; 5] ++ eth_addr p_cfg) in
  lldp_add_chassis_mac p_cfg (writer_at A R)
  = Some (writer_at (A ++ T) (drop (length T) R)).
Proof.
  intros Lmac HA HR T. unfold lldp_add_chassis_mac, pf_lldp_pnio_header.
  change (uint8 (1 + sizeof_pnet_ethaddr_t)) with (uint8 (Z.of_nat 7)).
  replace 7%nat with (length ([5] ++ eth_addr p_cfg))
    by (cbn [length app]; now rewrite Lmac).
  apply (org_header_at A R ([5] ++ eth_addr p_cfg) 0x00 0x0e 0xcf);
    cbn [length app]; rewrite ?Lmac; try lia.
  intros B LB.
  rewrite pf_put_byte_at by (rewrite ?length_drop; lia).
  cbn [mbind option_bind]. unfold writer_at at 1.
  change sizeof_pnet_ethaddr_t with (Z.of_nat 6).
  rewrite memcpy_at
    by (rewrite ?length_app, ?length_drop; cbn [length]; lia).
  rewrite <- Lmac, firstn_all, Lmac.
  rewrite !drop_drop, <- app_assoc. reflexivity.
Qed.

Lemma lldp_add_ieee_mac_phy_at (o : pnet_lldp_cfg_t) (A R : list Z) :
  (length A + 11 <= 1522)%nat -> (11 <= length R)%nat ->
  let T := tlv_bytes LLDP_TYPE_ORG_SPEC
             ([0x00; 0x12; 0x0f; 1; uint8 (cap_aneg o)]
              ++ htons_bytes (cap_phy o) ++ htons_bytes (mau_type o)) in
  lldp_add_ieee_mac_phy o (writer_at A R)
  = Some (writer_at (A ++ T) (drop (length T) R)).
Proof.
  intros HA HR T. unfold lldp_add_ieee_mac_phy, pf_lldp_ieee_header.
  change (uint8 6)
    with (uint8 (Z.of_nat (length ([1; uint8 (cap_aneg o)]
                                   ++ htons_bytes (cap_phy o)
                                   ++ htons_bytes (mau_type o))))).
  apply (org_header_at A R
           ([1; uint8 (cap_aneg o)] ++ htons_bytes (cap_phy o)
            ++ htons_bytes (mau_type o)) 0x00 0x12 0x0f);
    cbn [length app htons_bytes]; try lia.
  intros B LB.
  rewrite pf_put_byte_at by (rewrite ?length_drop; lia).
  cbn [mbind option_bind].
  rewrite pf_put_byte_at
    by (rewrite ?length_app, ?length_drop; cbn [length]; lia).
  cbn [mbind option_bind].
  rewrite pf_put_uint16_at
    by (rewrite ?length_app, ?length_drop; cbn [length]; lia).
  cbn [mbind option_bind].
  rewrite pf_put_uint16_at
    by (rewrite ?length_app, ?length_drop; cbn [length htons_bytes]; lia).
  rewrite !drop_drop, <- !app_assoc. reflexivity.
Qed.

Lemma lldp_add_management_at (ipaddr : Z) (A R : list Z) :
  (length A + 14 <= 1522)%nat -> (14 <= length R)%nat ->
  let T := tlv_bytes LLDP_TYPE_MANAGEMENT
             ([5; 1] ++ htonl_bytes ipaddr ++ [1; 0; 0; 0; 0; 0]) in
  lldp_add_management ipaddr (writer_at A R)
  = Some (writer_at (A ++ T) (drop (length T) R)).
Proof.
  intros HA HR T. unfold lldp_add_management, T.
  rewrite tlv_bytes_length.
  change 12
    with (Z.of_nat (length ([5; 1] ++ htonl_bytes ipaddr
                            ++ [1; 0; 0; 0; 0; 0]))) at 1.
  apply tlv_at; cbn [length app htonl_bytes];
    try (unfold LLDP_TYPE_MANAGEMENT; lia); try lia.
  intros B HB.
  assert (LB : length B = (length A + 2)%nat)
    by (rewrite HB, length_app; reflexivity).
  rewrite pf_put_byte_at by (rewrite ?length_drop; lia).
  cbn [mbind option_bind].
  rewrite pf_put_byte_at
    by (rewrite ?length_app, ?length_drop; cbn [length]; lia).
  cbn [mbind option_bind].
  rewrite pf_put_uint32_at
    by (rewrite ?length_app, ?length_drop; cbn [length]; lia).
  cbn [mbind option_bind].
  rewrite pf_put_byte_at
    by (rewrite ?length_app, ?length_drop; cbn [length htonl_bytes]; lia).
  cbn [mbind option_bind].
  rewrite pf_put_uint32_at
    by (rewrite ?length_app, ?length_drop; cbn [length htonl_bytes]; lia).
  cbn [mbind option_bind].
  rewrite pf_put_byte_at
    by (rewrite ?length_app, ?length_drop; cbn [length htonl_bytes]; lia).
  rewrite !drop_drop, <- !app_assoc. reflexivity.
Qed.

(** ** The frame of [pf_lldp_send] *)

Lemma spec_chassis_tlv_length (mac ch : list Z) :
  length mac = 6%nat ->
  (3 <= length (match ch with
                | [] => tlv_bytes LLDP_TYPE_CHASSIS_ID
                          (LLDP_SUBTYPE_CHASSIS_ID_MAC :: mac)
                | _ => tlv_bytes LLDP_TYPE_CHASSIS_ID
                         (LLDP_SUBTYPE_CHASSIS_ID_NAME :: ch)
                end) <= 9 + length ch)%nat.
Proof.
  intros Lm. destruct ch; rewrite tlv_bytes_length; cbn [length]; lia.
Qed.

(** The payload after [pf_lldp_send] has filled it: the frame of
    [spec_lldp_frame], then the rest of the buffer untouched; [pos] is
    the length of the frame. *)
Lemma pf_lldp_send_fill_layout (p_cfg : pnet_cfg_t) (o : pnet_lldp_cfg_t)
    (ipaddr : Z) (p_buf ch pt : list Z) :
  is_cstring_of (chassis_id p_cfg) ch -> (length ch < 255)%nat ->
  is_cstring_of (port_id p_cfg) pt -> (length pt < 255)%nat ->
  length (eth_addr p_cfg) = 6%nat ->
  (1522 <= length p_buf)%nat ->
  let F := spec_lldp_frame (eth_addr p_cfg) ch pt (ttl p_cfg) o ipaddr in
  pf_lldp_send_fill p_cfg o ipaddr p_buf
  = Some (F ++ drop (length F) p_buf, Z.of_nat (length F)).
Proof.
  intros Hch Lch Hpt Lpt Lmac Lbuf F.
  unfold pf_lldp_send_fill.
  change (p_buf, 0) with (writer_at [] p_buf).
  change (Z.of_nat (length lldp_dst_addr)) with (Z.of_nat 6).
  rewrite pf_put_mem_at by (cbn [length lldp_dst_addr]; lia).
  cbn [mbind option_bind app]. change (take 6 lldp_dst_addr) with lldp_dst_addr.
  unfold writer_at at 1.
  change sizeof_pnet_ethaddr_t with (Z.of_nat 6).
  rewrite memcpy_Some
    by (rewrite ?length_app, ?length_drop; cbn [length lldp_dst_addr]; lia).
  cbn [mbind option_bind].
  set (A0 := lldp_dst_addr ++ eth_addr p_cfg).
  assert (L0 : length A0 = 12%nat)
    by (unfold A0; rewrite length_app, Lmac; reflexivity).
  match goal with
  | |- context [pf_put_uint16 true OS_ETHTYPE_LLDP PF_FRAME_BUFFER_SIZE ?w] =>
      replace w with (writer_at A0 (drop 12 p_buf))
  end.
  2:{ unfold writer_at. rewrite L0. unfold A0. f_equal.
      rewrite !Nat2Z.id. change (length lldp_dst_addr) with 6%nat.
      rewrite (take_app_length' lldp_dst_addr) by reflexivity.
      rewrite <- Lmac at 2. rewrite firstn_all, <- app_assoc. do 2 f_equal.
      replace (Z.to_nat (Z.of_nat 6 + Z.of_nat 6)) with (6 + 6)%nat by lia.
      rewrite (drop_app_add' lldp_dst_addr) by reflexivity.
      now rewrite drop_drop. }
  rewrite pf_put_uint16_at by (rewrite ?length_drop; lia).
  cbn [mbind option_bind]. rewrite drop_drop.
  set (A1 := A0 ++ htons_bytes OS_ETHTYPE_LLDP).
  assert (L1 : length A1 = 14%nat)
    by (unfold A1; rewrite length_app, L0; reflexivity).
  (* Chassis ID *)
  rewrite (lldp_add_chassis_id_tlv_at p_cfg A1 _ ch Hch Lch Lmac)
    by (rewrite ?length_drop; lia).
  cbn [mbind option_bind]. rewrite drop_drop.
  set (T1 := match ch with
             | [] => tlv_bytes LLDP_TYPE_CHASSIS_ID
                       (LLDP_SUBTYPE_CHASSIS_ID_MAC :: eth_addr p_cfg)
             | _ => tlv_bytes LLDP_TYPE_CHASSIS_ID
                      (LLDP_SUBTYPE_CHASSIS_ID_NAME :: ch)
             end).
  pose proof (spec_chassis_tlv_length (eth_addr p_cfg) ch Lmac) as LT1.
  fold T1 in LT1.
  (* Port ID *)
  rewrite (lldp_add_port_id_tlv_at p_cfg (A1 ++ T1) _ pt Hpt Lpt)
    by (rewrite ?length_app, ?length_drop; lia).
  cbn [mbind option_bind]. rewrite drop_drop.
  set (T2 := tlv_bytes LLDP_TYPE_PORT_ID (LLDP_SUBTYPE_PORT_ID_LOCAL :: pt)).
  assert (LT2 : length T2 = (3 + length pt)%nat)
    by (unfold T2; rewrite tlv_bytes_length; reflexivity).
  (* TTL *)
  rewrite (lldp_add_ttl_tlv_at p_cfg ((A1 ++ T1) ++ T2))
    by (rewrite ?length_app, ?length_drop; lia).
  cbn [mbind option_bind]. rewrite drop_drop.
  set (T3 := tlv_bytes LLDP_TYPE_TTL (htons_bytes (ttl p_cfg))).
  assert (LT3 : length T3 = 4%nat) by reflexivity.
  (* port status *)
  rewrite (lldp_add_port_status_at o (((A1 ++ T1) ++ T2) ++ T3))
    by (rewrite ?length_app, ?length_drop; lia).
  cbn [mbind option_bind]. rewrite drop_drop.
  set (T4 := tlv_bytes LLDP_TYPE_ORG_SPEC
               ([0x00; 0x0e; 0xcf; 2] ++ htons_bytes (rtclass_2_status o)
                ++ htons_bytes (rtclass_3_status o))).
  assert (LT4 : length T4 = 10%nat) by reflexivity.
  (* chassis MAC *)
  rewrite (lldp_add_chassis_mac_at p_cfg ((((A1 ++ T1) ++ T2) ++ T3) ++ T4)
             _ Lmac)
    by (rewrite ?length_app, ?length_drop; lia).
  cbn [mbind option_bind]. rewrite drop_drop.
  set (T5 := tlv_bytes LLDP_TYPE_ORG_SPEC
               ([0x00; 0x0e; 0xcf; 5] ++ eth_addr p_cfg)).
  assert (LT5 : length T5 = 12%nat)
    by (unfold T5; rewrite tlv_bytes_length, length_app, Lmac; reflexivity).
  (* MAC/PHY *)
  rewrite (lldp_add_ieee_mac_phy_at o
             (((((A1 ++ T1) ++ T2) ++ T3) ++ T4) ++ T5))
    by (rewrite ?length_app, ?length_drop; lia).
  cbn [mbind option_bind]. rewrite drop_drop.
  set (T6 := tlv_bytes LLDP_TYPE_ORG_SPEC
               ([0x00; 0x12; 0x0f; 1; uint8 (cap_aneg o)]
                ++ htons_bytes (cap_phy o) ++ htons_bytes (mau_type o))).
  assert (LT6 : length T6 = 11%nat) by reflexivity.
  (* management *)
  rewrite (lldp_add_management_at ipaddr
             ((((((A1 ++ T1) ++ T2) ++ T3) ++ T4) ++ T5) ++ T6))
    by (rewrite ?length_app, ?length_drop; lia).
  cbn [mbind option_bind]. rewrite drop_drop.
  set (T7 := tlv_bytes LLDP_TYPE_MANAGEMENT
               ([5; 1] ++ htonl_bytes ipaddr ++ [1; 0; 0; 0; 0; 0])).
  assert (LT7 : length T7 = 14%nat) by reflexivity.
  (* end *)
  rewrite pf_lldp_tlv_header_at
    by (rewrite ?length_app, ?length_drop; unfold LLDP_TYPE_END; lia).
  rewrite drop_drop.
  assert (HF : F = (((((((A1 ++ T1) ++ T2) ++ T3) ++ T4) ++ T5) ++ T6) ++ T7)
                   ++ htons_bytes (Z.shiftl LLDP_TYPE_END 9 + 0)).
  { unfold F, spec_lldp_frame, spec_lldp_tlvs, A1, A0.
    fold T1 T2 T3 T4 T5 T6 T7. rewrite <- !app_assoc. reflexivity. }
  rewrite <- HF. unfold writer_at. do 3 f_equal.
  assert (LE : length (htons_bytes (Z.shiftl LLDP_TYPE_END 9 + 0)) = 2%nat)
    by reflexivity.
  clearbody T1 T2 T3 T4 T5 T6 T7 A1.
  rewrite HF, !length_app. f_equal. lia.
Qed.

(** [pf_lldp_send] for a device whose station name and port name are C
    strings of less than 255 characters, with a buffer of the size asked
    for: the buffer is allocated, the frame handed to [os_eth_lldp_send]
    is exactly the LLDP multicast address, the MAC address of the
    device, the EtherType 0x88CC and the TLVs Chassis ID, Port ID, TTL,
    port status, chassis MAC, MAC/PHY, management address and end
    marker, and the buffer is freed.  One counter of the interface is
    counted up: [ifOutErrors] when the driver returns 0 or less,
    [ifOutOctects] otherwise. *)
Theorem lldp_send_builds_the_frame (env : os_env) (lenv : lldp_env)
    (net : pnet_t) (p_cfg : pnet_cfg_t) (o : pnet_lldp_cfg_t)
    (buf : os_buf_t) (ch pt : list Z) :
  not_send_LLDP_Frames net = false ->
  os_buf_alloc env PF_FRAME_BUFFER_SIZE = Some buf ->
  (1522 <= length (payload buf))%nat ->
  is_cstring_of (chassis_id p_cfg) ch -> (length ch < 255)%nat ->
  is_cstring_of (port_id p_cfg) pt -> (length pt < 255)%nat ->
  length (eth_addr p_cfg) = 6%nat ->
  let F := spec_lldp_frame (eth_addr p_cfg) ch pt (ttl p_cfg) o
             (pf_cmina_get_ipaddr lenv) in
  let sent := mk_os_buf (F ++ drop (length F) (payload buf))
                (Z.of_nat (length F)) in
  pf_lldp_send env lenv net p_cfg o
  = Some (if os_eth_lldp_send lenv sent <=? 0
          then set_interface_statistics (uint32 (ifOutErrors net + 1))
                 (ifOutOctects net) net
          else set_interface_statistics (ifOutErrors net)
                 (uint32 (ifOutOctects net + 1)) net,
          [Ev_os (Ev_os_buf_alloc PF_FRAME_BUFFER_SIZE);
           Ev_os_eth_lldp_send F;
           Ev_os (Ev_os_buf_free (Some sent))]).
Proof.
  intros Hsend Halloc Lbuf Hch Lch Hpt Lpt Lmac F sent.
  unfold pf_lldp_send. rewrite Hsend, Halloc.
  rewrite (pf_lldp_send_fill_layout p_cfg o (pf_cmina_get_ipaddr lenv)
             (payload buf) ch pt Hch Lch Hpt Lpt Lmac Lbuf).
  cbn [mbind option_bind]. fold F. fold sent.
  rewrite Nat2Z.id, take_app_length. reflexivity.
Qed.

Lemma lldp_send_builds_the_frame_witness :
  (not_send_LLDP_Frames scenario_net = false
   /\ os_buf_alloc (scenario_env true 0) PF_FRAME_BUFFER_SIZE
      = Some (mk_os_buf (replicate 1522 0xEE) 1522)
   /\ is_cstring_of (chassis_id scenario_cfg) ascii_dut
   /\ is_cstring_of (port_id scenario_cfg) ascii_port_003)
  /\ pf_lldp_send (scenario_env true 0) scenario_lldp_env scenario_net
       scenario_cfg scenario_lldp_cfg
     = Some (if os_eth_lldp_send scenario_lldp_env
                  (mk_os_buf
                     (spec_lldp_frame (eth_addr scenario_cfg) ascii_dut
                        ascii_port_003 (ttl scenario_cfg) scenario_lldp_cfg
                        (pf_cmina_get_ipaddr scenario_lldp_env)
                      ++ drop (length
                                 (spec_lldp_frame (eth_addr scenario_cfg)
                                    ascii_dut ascii_port_003
                                    (ttl scenario_cfg) scenario_lldp_cfg
                                    (pf_cmina_get_ipaddr scenario_lldp_env)))
                           (replicate 1522 0xEE))
                     (Z.of_nat
                        (length
                           (spec_lldp_frame (eth_addr scenario_cfg) ascii_dut
                              ascii_port_003 (ttl scenario_cfg)
                              scenario_lldp_cfg
                              (pf_cmina_get_ipaddr scenario_lldp_env)))))
                <=? 0
             then set_interface_statistics
                    (uint32 (ifOutErrors scenario_net + 1))
                    (ifOutOctects scenario_net) scenario_net
             else set_interface_statistics (ifOutErrors scenario_net)
                    (uint32 (ifOutOctects scenario_net + 1)) scenario_net,
             [Ev_os (Ev_os_buf_alloc PF_FRAME_BUFFER_SIZE);
              Ev_os_eth_lldp_send
                (spec_lldp_frame (eth_addr scenario_cfg) ascii_dut
                   ascii_port_003 (ttl scenario_cfg) scenario_lldp_cfg
                   (pf_cmina_get_ipaddr scenario_lldp_env));
              Ev_os (Ev_os_buf_free
                       (Some
                          (mk_os_buf
                             (spec_lldp_frame (eth_addr scenario_cfg)
                                ascii_dut ascii_port_003 (ttl scenario_cfg)
                                scenario_lldp_cfg
                                (pf_cmina_get_ipaddr scenario_lldp_env)
                              ++ drop (length
                                         (spec_lldp_frame
                                            (eth_addr scenario_cfg) ascii_dut
                                            ascii_port_003 (ttl scenario_cfg)
                                            scenario_lldp_cfg
                                            (pf_cmina_get_ipaddr
                                               scenario_lldp_env)))
                                   (replicate 1522 0xEE))
                             (Z.of_nat
                                (length
                                   (spec_lldp_frame (eth_addr scenario_cfg)
                                      ascii_dut ascii_port_003
                                      (ttl scenario_cfg) scenario_lldp_cfg
                                      (pf_cmina_get_ipaddr
                                         scenario_lldp_env)))))))]).
Proof.
  assert (H1 : not_send_LLDP_Frames scenario_net = false) by reflexivity.
  assert (H2 : os_buf_alloc (scenario_env true 0) PF_FRAME_BUFFER_SIZE
               = Some (mk_os_buf (replicate 1522 0xEE) 1522)) by reflexivity.
  assert (H3 : is_cstring_of (chassis_id scenario_cfg) ascii_dut).
  { split; [repeat constructor; discriminate|]. now eexists. }
  assert (H4 : is_cstring_of (port_id scenario_cfg) ascii_port_003).
  { split; [repeat constructor; discriminate|]. now eexists. }
  split; [exact (conj H1 (conj H2 (conj H3 H4)))|].
  apply (lldp_send_builds_the_frame (scenario_env true 0) scenario_lldp_env
           scenario_net scenario_cfg scenario_lldp_cfg
           (mk_os_buf (replicate 1522 0xEE) 1522) ascii_dut ascii_port_003
           H1 H2);
    [ cbn [payload]; rewrite length_replicate; lia | exact H3
    | cbn [length ascii_dut]; lia
    | exact H4 | cbn [length ascii_port_003]; lia | reflexivity ].
Defined.

(** ** The cases of the receiver *)

(** The remote-mismatch alarm leaves the peer record alone. *)
Lemma pf_lldp_send_remote_mismatch_alarm_peer (env : os_env)
    (net net' : pnet_t) (ev : list os_event) :
  pf_lldp_send_remote_mismatch_alarm env net = Some (net', ev) ->
  lldp_peer_cfg net' = lldp_peer_cfg net.
Proof.
  unfold pf_lldp_send_remote_mismatch_alarm.
  destruct (remote_mismatch_alarm_loop env net 0 (cmrpc_ar net))
    as [[ev0 sent]|]; [|discriminate].
  cbn [mbind option_bind]. destruct sent; cbn [negb].
  - intros [= <- _]. reflexivity.
  - destruct (strlen _); [|discriminate]. cbn [mbind option_bind].
    destruct (strncpy _ _ _); [|discriminate]. cbn [mbind option_bind].
    destruct (store_byte _ _ _); [|discriminate]. cbn [mbind option_bind].
    intros [= <- _]. reflexivity.
Qed.

(** [case LLDP_TYPE_PORT_ID] touches nothing of the peer record but the
    Port ID and its length. *)
Lemma pf_lldp_recv_port_id_peer (env : os_env) (frame : list Z)
    (st st' : lldp_recv_state) :
  pf_lldp_recv_port_id env frame st = Some st' ->
  exists id,
    lldp_peer_cfg (r_net st')
    = set_peer_port id (r_frame_len st - 1) (lldp_peer_cfg (r_net st)).
Proof.
  unfold pf_lldp_recv_port_id. intros H.
  repeat match type of H with
         | mbind _ ?m = Some _ =>
             let E := fresh "E" in
             destruct m eqn:E; [|discriminate H];
             cbn [mbind option_bind] in H
         end.
  destruct (negb _).
  - repeat match type of H with
           | mbind _ ?m = Some _ =>
               let E := fresh "E" in
               destruct m eqn:E; [|discriminate H];
               cbn [mbind option_bind] in H
           end.
    match goal with
    | E : pf_lldp_send_remote_mismatch_alarm _ _ = Some ?p |- _ =>
        destruct p as [net1 ev1];
        apply pf_lldp_send_remote_mismatch_alarm_peer in E
    end.
    injection H as <-. cbn [r_net set_recv]. eexists.
    match goal with E : lldp_peer_cfg _ = _ |- _ => rewrite E end.
    reflexivity.
  - injection H as <-. eexists. reflexivity.
Qed.

(** [case LLDP_TYPE_TTL]: the second byte of the value becomes the TTL;
    the timer of the peer is created, or stopped and started again with
    the new period. *)
Lemma pf_lldp_recv_ttl_run (env : os_env) (frame A C : list Z) (a b : Z)
    (st : lldp_recv_state) :
  frame = A ++ a :: b :: C ->
  r_pData st = Z.of_nat (length A) ->
  exists t ev,
    pf_lldp_recv_ttl env frame st
    = Some (set_recv
              (set_lldp_peer_cfg
                 (set_peer_ttl b t (lldp_peer_cfg (r_net st))) (r_net st))
              (r_Alias st) (r_frame_value st) ev st).
Proof.
  intros Hf HpD. unfold pf_lldp_recv_ttl.
  rewrite (load_byte_mid frame (A ++ [a]) C b (r_pData st + 1));
    [| rewrite Hf, <- app_assoc; reflexivity
     | rewrite length_app; cbn [length]; lia].
  cbn [mbind option_bind].
  cbn [peerTimer set_peer_ttl].
  destruct (peerTimer (lldp_peer_cfg (r_net st))) as [tm|].
  - do 2 eexists. reflexivity.
  - unfold pf_lldp_create_peer_timer. do 2 eexists. reflexivity.
Qed.

(** [case LLDP_TYPE_ORG_SPEC] for the PROFINET port status. *)
Lemma pf_lldp_recv_port_status_run (frame A C ps : list Z)
    (st : lldp_recv_state) :
  let c := lldp_peer_cfg (r_net st) in
  frame = A ++ [0x00; 0x0e; 0xcf; 2] ++ ps ++ C ->
  r_pData st = Z.of_nat (length A) ->
  length ps = length (PeerPortStatus c) ->
  pf_lldp_recv_org_spec frame st
  = Some (set_recv
            (set_lldp_peer_cfg
               (set_peer_org (PeerDelay c) ps (PeerMACAddr c)
                  (PeerMACPhyConfig c) c) (r_net st))
            (r_Alias st) (r_frame_value st) [] st).
Proof.
  intros c Hf HpD Lps. unfold pf_lldp_recv_org_spec. fold c.
  rewrite (memread_mid frame A [0x00; 0x0e; 0xcf] (2 :: ps ++ C)
             (r_pData st) 3);
    [| exact Hf | exact HpD | reflexivity].
  cbn [mbind option_bind].
  change (bool_decide ([0; 14; 207] = LLDP_PROFIBUS_CODE)) with true.
  cbv iota.
  rewrite (load_byte_mid frame (A ++ [0x00; 0x0e; 0xcf]) (ps ++ C) 2
             (r_pData st + 3));
    [| rewrite Hf, <- app_assoc; reflexivity
     | rewrite length_app; cbn [length]; lia].
  cbn [mbind option_bind].
  change (2 =? LLDP_PROFIBUS_SUBTYPE_DELAY_VALUES) with false.
  change (2 =? LLDP_PROFIBUS_SUBTYPE_PORT_STATUS) with true.
  cbv iota.
  rewrite (memread_mid frame (A ++ [0x00; 0x0e; 0xcf; 2]) ps C
             (r_pData st + 4) (Z.of_nat (length (PeerPortStatus c))));
    [| rewrite Hf, <- app_assoc; reflexivity
     | rewrite length_app; cbn [length]; lia
     | now rewrite Lps].
  reflexivity.
Qed.

(** [case LLDP_TYPE_ORG_SPEC] for the PROFINET chassis MAC. *)
Lemma pf_lldp_recv_chassis_mac_run (frame A C mac : list Z)
    (st : lldp_recv_state) :
  let c := lldp_peer_cfg (r_net st) in
  frame = A ++ [0x00; 0x0e; 0xcf; 5] ++ mac ++ C ->
  r_pData st = Z.of_nat (length A) ->
  length mac = length (PeerMACAddr c) ->
  pf_lldp_recv_org_spec frame st
  = Some (set_recv
            (set_lldp_peer_cfg
               (set_peer_org (PeerDelay c) (PeerPortStatus c) mac
                  (PeerMACPhyConfig c) c) (r_net st))
            (r_Alias st) (r_frame_value st) [] st).
Proof.
  intros c Hf HpD Lmac. unfold pf_lldp_recv_org_spec. fold c.
  rewrite (memread_mid frame A [0x00; 0x0e; 0xcf] (5 :: mac ++ C)
             (r_pData st) 3);
    [| exact Hf | exact HpD | reflexivity].
  cbn [mbind option_bind].
  change (bool_decide ([0; 14; 207] = LLDP_PROFIBUS_CODE)) with true.
  cbv iota.
  rewrite (load_byte_mid frame (A ++ [0x00; 0x0e; 0xcf]) (mac ++ C) 5
             (r_pData st + 3));
    [| rewrite Hf, <- app_assoc; reflexivity
     | rewrite length_app; cbn [length]; lia].
  cbn [mbind option_bind].
  change (5 =? LLDP_PROFIBUS_SUBTYPE_DELAY_VALUES) with false.
  change (5 =? LLDP_PROFIBUS_SUBTYPE_PORT_STATUS) with false.
  change (5 =? LLDP_PROFIBUS_SUBTYPE_CHASSIS_MAC) with true.
  cbv iota.
  rewrite (memread_mid frame (A ++ [0x00; 0x0e; 0xcf; 5]) mac C
             (r_pData st + 4) (Z.of_nat (length (PeerMACAddr c))));
    [| rewrite Hf, <- app_assoc; reflexivity
     | rewrite length_app; cbn [length]; lia
     | now rewrite Lmac].
  reflexivity.
Qed.

(** [case LLDP_TYPE_ORG_SPEC] for the IEEE 802.3 MAC/PHY
    configuration. *)
Lemma pf_lldp_recv_mac_phy_run (frame A C : list Z) (a c1 c0 m1 m0 : Z)
    (st : lldp_recv_state) :
  let c := lldp_peer_cfg (r_net st) in
  frame = A ++ [0x00; 0x12; 0x0f] ++ [1; a; c1; c0; m1; m0] ++ C ->
  r_pData st = Z.of_nat (length A) ->
  pf_lldp_recv_org_spec frame st
  = Some (set_recv
            (set_lldp_peer_cfg
               (set_peer_org (PeerDelay c) (PeerPortStatus c) (PeerMACAddr c)
                  (mk_peer_macphy 1 a [c1; c0] (ntohs_bytes m1 m0)) c)
               (r_net st))
            (r_Alias st) (r_frame_value st) [] st).
Proof.
  intros c Hf HpD. unfold pf_lldp_recv_org_spec. fold c.
  rewrite (memread_mid frame A [0x00; 0x12; 0x0f]
             ([1; a; c1; c0; m1; m0] ++ C) (r_pData st) 3);
    [| exact Hf | exact HpD | reflexivity].
  cbn [mbind option_bind].
  change (bool_decide ([0; 18; 15] = LLDP_PROFIBUS_CODE)) with false.
  change (bool_decide ([0; 18; 15] = LLDP_IEEE_8023_CODE)) with true.
  cbv iota.
  rewrite (load_byte_mid frame (A ++ [0x00; 0x12; 0x0f])
             ([a; c1; c0; m1; m0] ++ C) 1 (r_pData st + 3));
    [| rewrite Hf, <- app_assoc; reflexivity
     | rewrite length_app; cbn [length]; lia].
  cbn [mbind option_bind].
  change (1 =? LLDP_IEEE_SUBTYPE_MACPHY_CONFIG) with true. cbv iota.
  rewrite (memread_mid frame (A ++ [0x00; 0x12; 0x0f])
             [1; a; c1; c0; m1; m0] C (r_pData st + 3) 6);
    [| rewrite Hf, <- !app_assoc; reflexivity
     | rewrite length_app; cbn [length]; lia
     | reflexivity].
  reflexivity.
Qed.

(** ** Walking the TLVs *)

(** An iteration whose [switch] succeeds, on a frame that holds the
    value [v] of the current TLV at [pData] and a further TLV behind it:
    the next header is read and [pData] stands behind it. *)
Lemma pf_lldp_recv_iter_next (env : os_env) (frame : list Z)
    (st st1 : lldp_recv_state) (A v v' C : list Z) (typ' : Z) :
  (if r_frame_type st =? LLDP_TYPE_CHASSIS_ID
   then pf_lldp_recv_chassis_id frame st
   else if r_frame_type st =? LLDP_TYPE_PORT_ID
   then pf_lldp_recv_port_id env frame st
   else if r_frame_type st =? LLDP_TYPE_TTL
   then pf_lldp_recv_ttl env frame st
   else if r_frame_type st =? LLDP_TYPE_ORG_SPEC
   then pf_lldp_recv_org_spec frame st
   else Some st) = Some st1 ->
  frame = A ++ v ++ tlv_bytes typ' v' ++ C ->
  r_pData st = Z.of_nat (length A) ->
  r_frame_len st = Z.of_nat (length v) ->
  0 <= typ' < 128 -> (length v' < 512)%nat ->
  pf_lldp_recv_iter env frame st
  = Some (mk_recv_state (r_net st1) (r_Alias st1) typ'
            (Z.of_nat (length v'))
            (replicate (length (r_frame_value st1)) 0)
            (Z.of_nat (length (A ++ v ++ htons_bytes 0))) (r_trace st1)).
Proof.
  intros Hcase Hf HpD Hlen Ht Hv'.
  unfold pf_lldp_recv_iter. rewrite Hcase. cbn [mbind option_bind].
  destruct (pf_lldp_recv_case_keeps_position env frame st st1 Hcase)
    as [EpD Elen].
  rewrite EpD, Elen, HpD, Hlen.
  rewrite (lldp_read_tlv_header_tlv frame (A ++ v) C v' typ');
    [| rewrite Hf, <- !app_assoc; reflexivity
     | rewrite length_app; lia | exact Ht | exact Hv'].
  cbn [mbind option_bind]. rewrite memset_all. cbn [mbind option_bind].
  do 2 f_equal. rewrite !length_app. cbn [length htons_bytes]. lia.
Qed.

Lemma pf_lldp_recv_loop_step (env : os_env) (frame : list Z) (k : nat)
    (st st' r : lldp_recv_state) :
  r_frame_type st <> LLDP_TYPE_END ->
  pf_lldp_recv_iter env frame st = Some st' ->
  pf_lldp_recv_loop env frame k st' = Some r ->
  pf_lldp_recv_loop env frame (S k) st = Some r.
Proof.
  intros Ht Hi Hl. cbn [pf_lldp_recv_loop].
  destruct (Z.eqb_spec (r_frame_type st) LLDP_TYPE_END); [contradiction|].
  rewrite Hi. exact Hl.
Qed.

(** ** A frame of the device through the receiver *)

Lemma htons_bytes_uint16 (v : Z) :
  0 <= v < 2 ^ 16 ->
  match htons_bytes v with
  | [m1; m0] => ntohs_bytes m1 m0 = v
  | _ => False
  end.
Proof. intros Hv. cbn [htons_bytes]. now apply ntohs_htons. Qed.

(** [pf_lldp_recv] on the frame that [spec_lldp_frame] describes, for a
    station with a name: all TLVs are walked, and the peer record holds
    the identifiers, the low byte of the TTL, the port status, the MAC
    address and the MAC/PHY configuration of the frame. *)
Lemma pf_lldp_recv_device_frame (env : os_env) (sizeof_value : nat)
    (net : pnet_t) (mac ch pt : list Z) (ttl_s : Z) (o : pnet_lldp_cfg_t)
    (ipaddr : Z) :
  let c := lldp_peer_cfg net in
  let alias := spec_alias pt ch in
  ch <> [] ->
  Forall (fun x => x <> 0) ch -> Forall (fun x => x <> 0) pt ->
  (length ch < 255)%nat -> (length pt < 255)%nat ->
  (length ch < length (PeerChassisID c))%nat ->
  (length pt < length (PeerPortID c))%nat ->
  (length pt < sizeof_value)%nat ->
  (length alias < 250)%nat ->
  (length alias < length (temp_alias_name net))%nat ->
  (length alias < length (perm_alias_name net))%nat ->
  In 0 (temp_alias_name net) -> In 0 (perm_alias_name net) ->
  length mac = 6%nat ->
  length (PeerPortStatus c) = 4%nat -> length (PeerMACAddr c) = 6%nat ->
  0 <= mau_type o < 2 ^ 16 ->
  exists net' ev,
    pf_lldp_recv env sizeof_value net
      (spec_lldp_frame mac ch pt ttl_s o ipaddr) 14 = Some (net', ev)
    /\ cstr (PeerChassisID (lldp_peer_cfg net')) = ch
    /\ PeerChassisIDLen (lldp_peer_cfg net') = Z.of_nat (length ch)
    /\ cstr (PeerPortID (lldp_peer_cfg net')) = pt
    /\ PeerPortIDLen (lldp_peer_cfg net') = Z.of_nat (length pt)
    /\ TTL (lldp_peer_cfg net') = uint8 ttl_s
    /\ PeerPortStatus (lldp_peer_cfg net')
       = htons_bytes (rtclass_2_status o) ++ htons_bytes (rtclass_3_status o)
    /\ PeerMACAddr (lldp_peer_cfg net') = mac
    /\ PeerMACPhyConfig (lldp_peer_cfg net')
       = mk_peer_macphy 1 (uint8 (cap_aneg o)) (htons_bytes (cap_phy o))
           (mau_type o)
    /\ cstr (temp_alias_name net') = alias.
Proof.
  intros c alias Hne Hch Hpt Lch Lpt Fch Fpt Fval Fal Ftemp Fperm Ntemp Nperm
    Lmac Lps Lpm Hmau.
  set (F := spec_lldp_frame mac ch pt ttl_s o ipaddr).
  set (pre := lldp_dst_addr ++ mac ++ htons_bytes OS_ETHTYPE_LLDP).
  assert (Lpre : length pre = 14%nat)
    by (unfold pre; rewrite !length_app, Lmac; reflexivity).
  set (ps := htons_bytes (rtclass_2_status o)
             ++ htons_bytes (rtclass_3_status o)).
  assert (Lps' : length ps = 4%nat) by reflexivity.
  set (v1 := LLDP_SUBTYPE_CHASSIS_ID_NAME :: ch).
  set (v2 := LLDP_SUBTYPE_PORT_ID_LOCAL :: pt).
  set (v3 := htons_bytes ttl_s).
  set (v4 := [0x00; 0x0e; 0xcf; 2] ++ ps).
  set (v5 := [0x00; 0x0e; 0xcf; 5] ++ mac).
  set (v6 := [0x00; 0x12; 0x0f; 1; uint8 (cap_aneg o)]
             ++ htons_bytes (cap_phy o) ++ htons_bytes (mau_type o)).
  set (v7 := [5; 1] ++ htonl_bytes ipaddr ++ [1; 0; 0; 0; 0; 0]).
  assert (L1 : length v1 = S (length ch)) by reflexivity.
  assert (L2 : length v2 = S (length pt)) by reflexivity.
  assert (L3 : length v3 = 2%nat) by reflexivity.
  assert (L4 : length v4 = 8%nat) by reflexivity.
  assert (L5 : length v5 = 10%nat)
    by (unfold v5; rewrite length_app, Lmac; reflexivity).
  assert (L6 : length v6 = 9%nat) by reflexivity.
  assert (L7 : length v7 = 12%nat) by reflexivity.
  set (h1 := htons_bytes (Z.shiftl LLDP_TYPE_CHASSIS_ID 9
                          + Z.of_nat (length v1))).
  set (h2 := htons_bytes (Z.shiftl LLDP_TYPE_PORT_ID 9
                          + Z.of_nat (length v2))).
  set (h3 := htons_bytes (Z.shiftl LLDP_TYPE_TTL 9 + Z.of_nat (length v3))).
  set (h4 := htons_bytes (Z.shiftl LLDP_TYPE_ORG_SPEC 9
                          + Z.of_nat (length v4))).
  set (h5 := htons_bytes (Z.shiftl LLDP_TYPE_ORG_SPEC 9
                          + Z.of_nat (length v5))).
  set (h6 := htons_bytes (Z.shiftl LLDP_TYPE_ORG_SPEC 9
                          + Z.of_nat (length v6))).
  set (h7 := htons_bytes (Z.shiftl LLDP_TYPE_MANAGEMENT 9
                          + Z.of_nat (length v7))).
  assert (Lh : length h1 = 2%nat /\ length h2 = 2%nat /\ length h3 = 2%nat
               /\ length h4 = 2%nat /\ length h5 = 2%nat /\ length h6 = 2%nat
               /\ length h7 = 2%nat) by (repeat split; reflexivity).
  destruct Lh as (Lh1 & Lh2 & Lh3 & Lh4 & Lh5 & Lh6 & Lh7).
  assert (HF : F = pre ++ h1 ++ v1 ++ h2 ++ v2 ++ h3 ++ v3 ++ h4 ++ v4
                   ++ h5 ++ v5 ++ h6 ++ v6 ++ h7 ++ v7
                   ++ tlv_bytes LLDP_TYPE_END []).
  { unfold F, spec_lldp_frame, spec_lldp_tlvs, pre.
    destruct ch as [|x ch0]; [contradiction|].
    unfold tlv_bytes. fold ps.
    change ([0; 14; 207; 2] ++ ps) with v4.
    rewrite <- !app_assoc. reflexivity. }
  assert (E1 : h1 ++ v1 = tlv_bytes LLDP_TYPE_CHASSIS_ID v1) by reflexivity.
  assert (E2 : h2 ++ v2 = tlv_bytes LLDP_TYPE_PORT_ID v2) by reflexivity.
  assert (E3 : h3 ++ v3 = tlv_bytes LLDP_TYPE_TTL v3) by reflexivity.
  assert (E4 : h4 ++ v4 = tlv_bytes LLDP_TYPE_ORG_SPEC v4) by reflexivity.
  assert (E5 : h5 ++ v5 = tlv_bytes LLDP_TYPE_ORG_SPEC v5) by reflexivity.
  assert (E6 : h6 ++ v6 = tlv_bytes LLDP_TYPE_ORG_SPEC v6) by reflexivity.
  assert (E7 : h7 ++ v7 = tlv_bytes LLDP_TYPE_MANAGEMENT v7) by reflexivity.
  clearbody F pre h1 h2 h3 h4 h5 h6 h7.
  assert (Lz : length (htons_bytes 0) = 2%nat) by reflexivity.
  set (E := tlv_bytes LLDP_TYPE_END []) in *.
  (* entering the loop *)
  set (st0 := mk_recv_state net (replicate 250 0) LLDP_TYPE_CHASSIS_ID
                (Z.of_nat (length v1)) (replicate sizeof_value 0) (14 + 2) []).
  assert (Henter : pf_lldp_recv_enter sizeof_value net F 14 = Some st0).
  { unfold pf_lldp_recv_enter.
    rewrite (lldp_read_tlv_header_tlv F pre
               (h2 ++ v2 ++ h3 ++ v3 ++ h4 ++ v4 ++ h5 ++ v5 ++ h6 ++ v6
                ++ h7 ++ v7 ++ E) v1 LLDP_TYPE_CHASSIS_ID 14);
      [ reflexivity
      | rewrite <- E1, HF, <- ?app_assoc; reflexivity
      | lia | unfold LLDP_TYPE_CHASSIS_ID; lia | lia ]. }
  (* Chassis ID *)
  destruct (pf_lldp_recv_chassis_id_run F (pre ++ h1)
              (h2 ++ v2 ++ h3 ++ v3 ++ h4 ++ v4 ++ h5 ++ v5 ++ h6 ++ v6
               ++ h7 ++ v7 ++ E) ch LLDP_SUBTYPE_CHASSIS_ID_NAME st0)
    as (cid & Hcase0 & Ccid & Lcid);
    [ rewrite HF, <- ?app_assoc; reflexivity
    | rewrite length_app; cbn [r_pData st0]; lia
    | cbn [r_frame_len st0]; lia | exact Hch | exact Fch |].
  set (c1 := set_peer_chassis cid (Z.of_nat (length ch)) c) in *.
  set (net1 := set_lldp_peer_cfg c1 net) in *.
  match type of Hcase0 with _ = Some ?x => set (st0' := x) in * end.
  pose proof (pf_lldp_recv_iter_next env F st0 st0' (pre ++ h1) v1 v2
                (h3 ++ v3 ++ h4 ++ v4 ++ h5 ++ v5 ++ h6 ++ v6 ++ h7 ++ v7
                 ++ E) LLDP_TYPE_PORT_ID) as Hiter0.
  match type of Hiter0 with _ -> _ -> _ -> _ -> _ -> _ -> _ = Some ?x =>
    set (st1 := x) in * end.
  assert (Hi0 : pf_lldp_recv_iter env F st0 = Some st1).
  { apply Hiter0;
      [ exact Hcase0
      | rewrite <- E2, HF, <- ?app_assoc; reflexivity
      | rewrite length_app; cbn [r_pData st0]; lia
      | reflexivity | unfold LLDP_TYPE_PORT_ID; lia | lia ]. }
  clear Hiter0.
  (* Port ID *)
  destruct (pf_lldp_recv_port_id_run env F (pre ++ h1 ++ v1 ++ h2)
              (h3 ++ v3 ++ h4 ++ v4 ++ h5 ++ v5 ++ h6 ++ v6 ++ h7 ++ v7
               ++ E) pt ch LLDP_SUBTYPE_PORT_ID_LOCAL st1)
    as (st1' & Hcase1 & Cal & Ctemp & Cport & Echassis & EpD & Elen & Etyp
          & Lval).
  { rewrite HF, <- ?app_assoc. reflexivity. }
  { cbn [r_pData st1]. rewrite !length_app. lia. }
  { cbn [r_frame_len st1]. lia. }
  { exact Hpt. }
  { cbn. now rewrite !length_replicate. }
  { exact Fpt. }
  { exact Ccid. }
  { reflexivity. }
  { apply (cstring_zeros 249). }
  { cbn [r_Alias st1 st0' set_recv st0]. rewrite length_replicate. exact Fal. }
  { exact Ntemp. }
  { exact Nperm. }
  { exact Ftemp. }
  { exact Fperm. }
  destruct (pf_lldp_recv_port_id_peer env F st1 st1' Hcase1) as (pid & Hc2).
  cbn [r_net r_frame_len st1 st0' set_recv lldp_peer_cfg net1
       set_lldp_peer_cfg] in Hc2.
  pose proof (pf_lldp_recv_iter_next env F st1 st1' (pre ++ h1 ++ v1 ++ h2)
                v2 v3
                (h4 ++ v4 ++ h5 ++ v5 ++ h6 ++ v6 ++ h7 ++ v7 ++ E)
                LLDP_TYPE_TTL) as Hiter1.
  match type of Hiter1 with _ -> _ -> _ -> _ -> _ -> _ -> _ = Some ?x =>
    set (st2 := x) in * end.
  assert (Hi1 : pf_lldp_recv_iter env F st1 = Some st2).
  { apply Hiter1;
      [ change (r_frame_type st1 =? LLDP_TYPE_CHASSIS_ID) with false;
        change (r_frame_type st1 =? LLDP_TYPE_PORT_ID) with true;
        exact Hcase1
      | rewrite <- E3, HF, <- ?app_assoc; reflexivity
      | cbn [r_pData st1]; rewrite !length_app; lia
      | reflexivity | unfold LLDP_TYPE_TTL; lia | lia ]. }
  clear Hiter1.
  (* TTL *)
  destruct (pf_lldp_recv_ttl_run env F (pre ++ h1 ++ v1 ++ h2 ++ v2 ++ h3)
              (h4 ++ v4 ++ h5 ++ v5 ++ h6 ++ v6 ++ h7 ++ v7 ++ E)
              (uint8 (Z.shiftr ttl_s 8)) (uint8 ttl_s) st2)
    as (tm & ev2 & Hcase2).
  { rewrite HF, <- ?app_assoc. reflexivity. }
  { cbn [r_pData st2]. rewrite !length_app. lia. }
  match type of Hcase2 with _ = Some ?x => set (st2' := x) in * end.
  pose proof (pf_lldp_recv_iter_next env F st2 st2'
                (pre ++ h1 ++ v1 ++ h2 ++ v2 ++ h3) v3 v4
                (h5 ++ v5 ++ h6 ++ v6 ++ h7 ++ v7 ++ E)
                LLDP_TYPE_ORG_SPEC) as Hiter2.
  match type of Hiter2 with _ -> _ -> _ -> _ -> _ -> _ -> _ = Some ?x =>
    set (st3 := x) in * end.
  assert (Hi2 : pf_lldp_recv_iter env F st2 = Some st3).
  { apply Hiter2;
      [ change (r_frame_type st2 =? LLDP_TYPE_CHASSIS_ID) with false;
        change (r_frame_type st2 =? LLDP_TYPE_PORT_ID) with false;
        change (r_frame_type st2 =? LLDP_TYPE_TTL) with true;
        exact Hcase2
      | rewrite <- E4, HF, <- ?app_assoc; reflexivity
      | cbn [r_pData st2]; rewrite !length_app; lia
      | reflexivity | unfold LLDP_TYPE_ORG_SPEC; lia | lia ]. }
  clear Hiter2.
  (* port status *)
  pose proof (pf_lldp_recv_port_status_run F
                (pre ++ h1 ++ v1 ++ h2 ++ v2 ++ h3 ++ v3 ++ h4)
                (h5 ++ v5 ++ h6 ++ v6 ++ h7 ++ v7 ++ E) ps st3) as Hcase3.
  cbv zeta in Hcase3.
  match type of Hcase3 with _ -> _ -> _ -> _ = Some ?x =>
    set (st3' := x) in * end.
  assert (Hc3 : pf_lldp_recv_org_spec F st3 = Some st3').
  { apply Hcase3.
    - rewrite HF, <- ?app_assoc. reflexivity.
    - cbn [r_pData st3]. rewrite !length_app. lia.
    - cbn [r_net st3 st2' st2 set_recv lldp_peer_cfg set_lldp_peer_cfg
           PeerPortStatus set_peer_ttl].
      rewrite Hc2. exact (eq_trans Lps' (eq_sym Lps)). }
  clear Hcase3.
  pose proof (pf_lldp_recv_iter_next env F st3 st3'
                (pre ++ h1 ++ v1 ++ h2 ++ v2 ++ h3 ++ v3 ++ h4) v4 v5
                (h6 ++ v6 ++ h7 ++ v7 ++ E) LLDP_TYPE_ORG_SPEC) as Hiter3.
  match type of Hiter3 with _ -> _ -> _ -> _ -> _ -> _ -> _ = Some ?x =>
    set (st4 := x) in * end.
  assert (Hi3 : pf_lldp_recv_iter env F st3 = Some st4).
  { apply Hiter3;
      [ change (r_frame_type st3 =? LLDP_TYPE_CHASSIS_ID) with false;
        change (r_frame_type st3 =? LLDP_TYPE_PORT_ID) with false;
        change (r_frame_type st3 =? LLDP_TYPE_TTL) with false;
        change (r_frame_type st3 =? LLDP_TYPE_ORG_SPEC) with true;
        exact Hc3
      | rewrite <- E5, HF, <- ?app_assoc; reflexivity
      | cbn [r_pData st3]; rewrite !length_app; lia
      | reflexivity | unfold LLDP_TYPE_ORG_SPEC; lia | lia ]. }
  clear Hiter3.
  (* chassis MAC *)
  pose proof (pf_lldp_recv_chassis_mac_run F
                (pre ++ h1 ++ v1 ++ h2 ++ v2 ++ h3 ++ v3 ++ h4 ++ v4 ++ h5)
                (h6 ++ v6 ++ h7 ++ v7 ++ E) mac st4) as Hcase4.
  cbv zeta in Hcase4.
  match type of Hcase4 with _ -> _ -> _ -> _ = Some ?x =>
    set (st4' := x) in * end.
  assert (Hc4 : pf_lldp_recv_org_spec F st4 = Some st4').
  { apply Hcase4.
    - rewrite HF, <- ?app_assoc. reflexivity.
    - cbn [r_pData st4]. rewrite !length_app. lia.
    - cbn [r_net st4 st3' st3 st2' st2 set_recv lldp_peer_cfg
           set_lldp_peer_cfg PeerMACAddr set_peer_ttl set_peer_org].
      rewrite Hc2. exact (eq_trans Lmac (eq_sym Lpm)). }
  clear Hcase4.
  pose proof (pf_lldp_recv_iter_next env F st4 st4'
                (pre ++ h1 ++ v1 ++ h2 ++ v2 ++ h3 ++ v3 ++ h4 ++ v4 ++ h5)
                v5 v6 (h7 ++ v7 ++ E) LLDP_TYPE_ORG_SPEC) as Hiter4.
  match type of Hiter4 with _ -> _ -> _ -> _ -> _ -> _ -> _ = Some ?x =>
    set (st5 := x) in * end.
  assert (Hi4 : pf_lldp_recv_iter env F st4 = Some st5).
  { apply Hiter4;
      [ change (r_frame_type st4 =? LLDP_TYPE_CHASSIS_ID) with false;
        change (r_frame_type st4 =? LLDP_TYPE_PORT_ID) with false;
        change (r_frame_type st4 =? LLDP_TYPE_TTL) with false;
        change (r_frame_type st4 =? LLDP_TYPE_ORG_SPEC) with true;
        exact Hc4
      | rewrite <- E6, HF, <- ?app_assoc; reflexivity
      | cbn [r_pData st4]; rewrite !length_app; lia
      | reflexivity | unfold LLDP_TYPE_ORG_SPEC; lia | lia ]. }
  clear Hiter4.
  (* MAC/PHY *)
  pose proof (pf_lldp_recv_mac_phy_run F
                (pre ++ h1 ++ v1 ++ h2 ++ v2 ++ h3 ++ v3 ++ h4 ++ v4 ++ h5
                 ++ v5 ++ h6)
                (h7 ++ v7 ++ E) (uint8 (cap_aneg o))
                (uint8 (Z.shiftr (cap_phy o) 8)) (uint8 (cap_phy o))
                (uint8 (Z.shiftr (mau_type o) 8)) (uint8 (mau_type o)) st5)
    as Hcase5.
  cbv zeta in Hcase5.
  match type of Hcase5 with _ -> _ -> _ = Some ?x =>
    set (st5' := x) in * end.
  assert (Hc5 : pf_lldp_recv_org_spec F st5 = Some st5').
  { apply Hcase5.
    - rewrite HF, <- ?app_assoc. reflexivity.
    - cbn [r_pData st5]. rewrite !length_app. lia. }
  clear Hcase5.
  pose proof (pf_lldp_recv_iter_next env F st5 st5'
                (pre ++ h1 ++ v1 ++ h2 ++ v2 ++ h3 ++ v3 ++ h4 ++ v4 ++ h5
                 ++ v5 ++ h6)
                v6 v7 E LLDP_TYPE_MANAGEMENT) as Hiter5.
  match type of Hiter5 with _ -> _ -> _ -> _ -> _ -> _ -> _ = Some ?x =>
    set (st6 := x) in * end.
  assert (Hi5 : pf_lldp_recv_iter env F st5 = Some st6).
  { apply Hiter5;
      [ change (r_frame_type st5 =? LLDP_TYPE_CHASSIS_ID) with false;
        change (r_frame_type st5 =? LLDP_TYPE_PORT_ID) with false;
        change (r_frame_type st5 =? LLDP_TYPE_TTL) with false;
        change (r_frame_type st5 =? LLDP_TYPE_ORG_SPEC) with true;
        exact Hc5
      | rewrite <- E7, HF, <- ?app_assoc; reflexivity
      | cbn [r_pData st5]; rewrite !length_app; lia
      | reflexivity | unfold LLDP_TYPE_MANAGEMENT; lia | lia ]. }
  clear Hiter5.
  (* management address: no case of the switch *)
  pose proof (pf_lldp_recv_iter_next env F st6 st6
                (pre ++ h1 ++ v1 ++ h2 ++ v2 ++ h3 ++ v3 ++ h4 ++ v4 ++ h5
                 ++ v5 ++ h6 ++ v6 ++ h7)
                v7 [] [] LLDP_TYPE_END) as Hiter6.
  match type of Hiter6 with _ -> _ -> _ -> _ -> _ -> _ -> _ = Some ?x =>
    set (st7 := x) in * end.
  assert (Hi6 : pf_lldp_recv_iter env F st6 = Some st7).
  { apply Hiter6;
      [ reflexivity
      | rewrite HF, <- ?app_assoc; unfold E; rewrite app_nil_r; reflexivity
      | cbn [r_pData st6]; rewrite !length_app; lia
      | reflexivity | unfold LLDP_TYPE_END; lia | cbn [length]; lia ]. }
  clear Hiter6.
  (* the loop *)
  assert (Hloop : pf_lldp_recv_loop env F 7 st0 = Some st7).
  { apply (pf_lldp_recv_loop_step env F 6 st0 st1); [discriminate|exact Hi0|].
    apply (pf_lldp_recv_loop_step env F 5 st1 st2); [discriminate|exact Hi1|].
    apply (pf_lldp_recv_loop_step env F 4 st2 st3); [discriminate|exact Hi2|].
    apply (pf_lldp_recv_loop_step env F 3 st3 st4); [discriminate|exact Hi3|].
    apply (pf_lldp_recv_loop_step env F 2 st4 st5); [discriminate|exact Hi4|].
    apply (pf_lldp_recv_loop_step env F 1 st5 st6); [discriminate|exact Hi5|].
    apply (pf_lldp_recv_loop_step env F 0 st6 st7); [discriminate|exact Hi6|].
    reflexivity. }
  exists (r_net st7), (r_trace st7).
  split; [exact (pf_lldp_recv_fuel_is_enough env sizeof_value net F 14 7 st0
                   st7 Henter Hloop)|].
  cbn [r_net st7 st6 st5' st5 st4' st4 st3' st3 st2' st2 set_recv
       lldp_peer_cfg
       set_lldp_peer_cfg PeerChassisID PeerChassisIDLen PeerPortID
       PeerPortIDLen TTL PeerPortStatus PeerMACAddr PeerMACPhyConfig
       set_peer_org set_peer_ttl temp_alias_name].
  rewrite Hc2.
  cbn [PeerChassisID PeerChassisIDLen PeerPortID PeerPortIDLen
       set_peer_port c1 set_peer_chassis].
  split; [exact (cstring_cstr _ _ Ccid)|].
  split; [reflexivity|].
  split.
  { rewrite Hc2 in Cport. exact (cstring_cstr _ _ Cport). }
  split; [cbn [r_frame_len st1]; lia|].
  split; [reflexivity|]. split; [reflexivity|]. split; [reflexivity|].
  split; [now rewrite ntohs_htons|].
  exact (cstring_cstr _ _ Ctemp).
Qed.

(** Round trip of an LLDP frame from one device to another.  The frame
    that [pf_lldp_send] hands to the driver, for a station with a name,
    is decoded by [pf_lldp_recv] (from the byte 14 on, behind the
    Ethernet header) into the peer record of the receiver: the station
    name as Chassis ID, the port name as Port ID, the port status, the
    MAC address and the MAC/PHY configuration come back as they were
    sent, the alias is built from the port and the station name, and the
    TTL comes back as its low byte only. *)
Theorem lldp_frame_round_trip (env : os_env) (lenv : lldp_env)
    (net : pnet_t) (p_cfg : pnet_cfg_t) (o : pnet_lldp_cfg_t)
    (buf : os_buf_t) (ch pt : list Z)
    (env' : os_env) (sizeof_value : nat) (peer : pnet_t) :
  let c := lldp_peer_cfg peer in
  let alias := spec_alias pt ch in
  not_send_LLDP_Frames net = false ->
  os_buf_alloc env PF_FRAME_BUFFER_SIZE = Some buf ->
  (1522 <= length (payload buf))%nat ->
  is_cstring_of (chassis_id p_cfg) ch -> (length ch < 255)%nat ->
  is_cstring_of (port_id p_cfg) pt -> (length pt < 255)%nat ->
  length (eth_addr p_cfg) = 6%nat ->
  0 <= mau_type o < 2 ^ 16 ->
  ch <> [] ->
  (length ch < length (PeerChassisID c))%nat ->
  (length pt < length (PeerPortID c))%nat ->
  (length pt < sizeof_value)%nat ->
  (length alias < 250)%nat ->
  (length alias < length (temp_alias_name peer))%nat ->
  (length alias < length (perm_alias_name peer))%nat ->
  In 0 (temp_alias_name peer) -> In 0 (perm_alias_name peer) ->
  length (PeerPortStatus c) = 4%nat -> length (PeerMACAddr c) = 6%nat ->
  exists frame net' sent peer' ev,
    pf_lldp_send env lenv net p_cfg o
    = Some (net',
            [Ev_os (Ev_os_buf_alloc PF_FRAME_BUFFER_SIZE);
             Ev_os_eth_lldp_send frame;
             Ev_os (Ev_os_buf_free (Some sent))])
    /\ pf_lldp_recv env' sizeof_value peer frame 14 = Some (peer', ev)
    /\ cstr (PeerChassisID (lldp_peer_cfg peer')) = ch
    /\ PeerChassisIDLen (lldp_peer_cfg peer') = Z.of_nat (length ch)
    /\ cstr (PeerPortID (lldp_peer_cfg peer')) = pt
    /\ PeerPortIDLen (lldp_peer_cfg peer') = Z.of_nat (length pt)
    /\ TTL (lldp_peer_cfg peer') = uint8 (ttl p_cfg)
    /\ PeerPortStatus (lldp_peer_cfg peer')
       = htons_bytes (rtclass_2_status o) ++ htons_bytes (rtclass_3_status o)
    /\ PeerMACAddr (lldp_peer_cfg peer') = eth_addr p_cfg
    /\ PeerMACPhyConfig (lldp_peer_cfg peer')
       = mk_peer_macphy 1 (uint8 (cap_aneg o)) (htons_bytes (cap_phy o))
           (mau_type o)
    /\ cstr (temp_alias_name peer') = alias.
Proof.
  intros c alias Hsend Halloc Lbuf Hch Lch Hpt Lpt Lmac Hmau Hne Fch Fpt Fval
    Fal Ftemp Fperm Ntemp Nperm Lps Lpm.
  set (F := spec_lldp_frame (eth_addr p_cfg) ch pt (ttl p_cfg) o
              (pf_cmina_get_ipaddr lenv)).
  destruct (pf_lldp_recv_device_frame env' sizeof_value peer (eth_addr p_cfg)
              ch pt (ttl p_cfg) o (pf_cmina_get_ipaddr lenv))
    as (peer' & ev & Hrecv & Hfacts); try assumption.
  { apply Hch. }
  { apply Hpt. }
  exists F. do 2 eexists. exists peer', ev.
  split; [|split; [exact Hrecv|exact Hfacts]].
  unfold pf_lldp_send. rewrite Hsend, Halloc.
  rewrite (pf_lldp_send_fill_layout p_cfg o (pf_cmina_get_ipaddr lenv)
             (payload buf) ch pt Hch Lch Hpt Lpt Lmac Lbuf).
  cbn [mbind option_bind]. fold F.
  rewrite Nat2Z.id, take_app_length. reflexivity.
Qed.

Lemma lldp_frame_round_trip_witness :
  (not_send_LLDP_Frames scenario_net = false
   /\ os_buf_alloc (scenario_env true 0) PF_FRAME_BUFFER_SIZE
      = Some (mk_os_buf (replicate 1522 0xEE) 1522)
   /\ is_cstring_of (chassis_id scenario_cfg) ascii_dut
   /\ is_cstring_of (port_id scenario_cfg) ascii_port_003
   /\ length (eth_addr scenario_cfg) = 6%nat
   /\ 0 <= mau_type scenario_lldp_cfg < 2 ^ 16
   /\ ascii_dut <> []
   /\ In 0 (temp_alias_name scenario_net)
   /\ In 0 (perm_alias_name scenario_net)
   /\ length (PeerPortStatus (lldp_peer_cfg scenario_net)) = 4%nat
   /\ length (PeerMACAddr (lldp_peer_cfg scenario_net)) = 6%nat)
  /\ exists frame net' sent peer' ev,
      pf_lldp_send (scenario_env true 0) scenario_lldp_env scenario_net
        scenario_cfg scenario_lldp_cfg
      = Some (net',
              [Ev_os (Ev_os_buf_alloc PF_FRAME_BUFFER_SIZE);
               Ev_os_eth_lldp_send frame;
               Ev_os (Ev_os_buf_free (Some sent))])
      /\ pf_lldp_recv (scenario_env true 0) 256 scenario_net frame 14
         = Some (peer', ev)
      /\ cstr (PeerChassisID (lldp_peer_cfg peer')) = ascii_dut
      /\ PeerChassisIDLen (lldp_peer_cfg peer')
         = Z.of_nat (length ascii_dut)
      /\ cstr (PeerPortID (lldp_peer_cfg peer')) = ascii_port_003
      /\ PeerPortIDLen (lldp_peer_cfg peer')
         = Z.of_nat (length ascii_port_003)
      /\ TTL (lldp_peer_cfg peer') = uint8 (ttl scenario_cfg)
      /\ PeerPortStatus (lldp_peer_cfg peer')
         = htons_bytes (rtclass_2_status scenario_lldp_cfg)
           ++ htons_bytes (rtclass_3_status scenario_lldp_cfg)
      /\ PeerMACAddr (lldp_peer_cfg peer') = eth_addr scenario_cfg
      /\ PeerMACPhyConfig (lldp_peer_cfg peer')
         = mk_peer_macphy 1 (uint8 (cap_aneg scenario_lldp_cfg))
             (htons_bytes (cap_phy scenario_lldp_cfg))
             (mau_type scenario_lldp_cfg)
      /\ cstr (temp_alias_name peer') = spec_alias ascii_port_003 ascii_dut.
Proof.
  assert (H1 : not_send_LLDP_Frames scenario_net = false) by reflexivity.
  assert (H2 : os_buf_alloc (scenario_env true 0) PF_FRAME_BUFFER_SIZE
               = Some (mk_os_buf (replicate 1522 0xEE) 1522)) by reflexivity.
  assert (H3 : is_cstring_of (chassis_id scenario_cfg) ascii_dut).
  { split; [repeat constructor; discriminate|]. now eexists. }
  assert (H4 : is_cstring_of (port_id scenario_cfg) ascii_port_003).
  { split; [repeat constructor; discriminate|]. now eexists. }
  assert (H5 : length (eth_addr scenario_cfg) = 6%nat) by reflexivity.
  assert (H6 : 0 <= mau_type scenario_lldp_cfg < 2 ^ 16)
    by (split; [vm_compute; discriminate | reflexivity]).
  assert (H7 : ascii_dut <> []) by discriminate.
  assert (H8 : In 0 (temp_alias_name scenario_net)) by (now left).
  assert (H9 : In 0 (perm_alias_name scenario_net)) by (now left).
  assert (H10 : length (PeerPortStatus (lldp_peer_cfg scenario_net)) = 4%nat)
    by reflexivity.
  assert (H11 : length (PeerMACAddr (lldp_peer_cfg scenario_net)) = 6%nat)
    by reflexivity.
  split.
  { exact (conj H1 (conj H2 (conj H3 (conj H4 (conj H5 (conj H6 (conj H7
             (conj H8 (conj H9 (conj H10 H11)))))))))). }
  apply (lldp_frame_round_trip (scenario_env true 0) scenario_lldp_env
           scenario_net scenario_cfg scenario_lldp_cfg
           (mk_os_buf (replicate 1522 0xEE) 1522) ascii_dut ascii_port_003
           (scenario_env true 0) 256 scenario_net H1 H2);
    try assumption;
    try (cbn [payload]; rewrite length_replicate; lia);
    try (cbn; lia).
Defined.

(** ** TLVs without a case *)

(** A TLV of a type that the [switch] of [pf_lldp_recv] has no case for
    (anything but Chassis ID, Port ID, TTL and organisation specific) is
    stepped over by its length: the stack instance, the alias and the
    calls made so far stay as they are, and the next header is read. *)
Theorem unknown_tlv_is_skipped (env : os_env) (frame : list Z)
    (st : lldp_recv_state) (A v v' C : list Z) (typ' : Z) :
  r_frame_type st <> LLDP_TYPE_CHASSIS_ID ->
  r_frame_type st <> LLDP_TYPE_PORT_ID ->
  r_frame_type st <> LLDP_TYPE_TTL ->
  r_frame_type st <> LLDP_TYPE_ORG_SPEC ->
  frame = A ++ v ++ tlv_bytes typ' v' ++ C ->
  r_pData st = Z.of_nat (length A) ->
  r_frame_len st = Z.of_nat (length v) ->
  0 <= typ' < 128 -> (length v' < 512)%nat ->
  exists st',
    pf_lldp_recv_iter env frame st = Some st'
    /\ r_net st' = r_net st /\ r_Alias st' = r_Alias st
    /\ r_trace st' = r_trace st
    /\ r_frame_type st' = typ'
    /\ r_frame_len st' = Z.of_nat (length v')
    /\ r_pData st' = r_pData st + r_frame_len st + 2.
Proof.
  intros H1 H2 H3 H4 Hf HpD Hlen Ht Hv'.
  eexists. split.
  - apply (pf_lldp_recv_iter_next env frame st st A v v' C typ');
      try assumption.
    destruct (Z.eqb_spec (r_frame_type st) LLDP_TYPE_CHASSIS_ID);
      [contradiction|].
    destruct (Z.eqb_spec (r_frame_type st) LLDP_TYPE_PORT_ID);
      [contradiction|].
    destruct (Z.eqb_spec (r_frame_type st) LLDP_TYPE_TTL); [contradiction|].
    destruct (Z.eqb_spec (r_frame_type st) LLDP_TYPE_ORG_SPEC);
      [contradiction|].
    reflexivity.
  - cbn [r_net r_Alias r_trace r_frame_type r_frame_len r_pData].
    repeat split; try reflexivity.
    rewrite HpD, Hlen, !length_app. cbn [length htons_bytes]. lia.
Qed.

Lemma unknown_tlv_is_skipped_witness :
  (LLDP_TYPE_MANAGEMENT <> LLDP_TYPE_CHASSIS_ID
   /\ LLDP_TYPE_MANAGEMENT <> LLDP_TYPE_PORT_ID
   /\ LLDP_TYPE_MANAGEMENT <> LLDP_TYPE_TTL
   /\ LLDP_TYPE_MANAGEMENT <> LLDP_TYPE_ORG_SPEC)
  /\ exists st',
      pf_lldp_recv_iter (scenario_env true 0)
        ([0x10; 0x02] ++ [5; 1] ++ tlv_bytes LLDP_TYPE_END [] ++ [])
        (mk_recv_state scenario_net (replicate 250 0) LLDP_TYPE_MANAGEMENT 2
           (replicate 256 0) 2 []) = Some st'
      /\ r_net st' = scenario_net /\ r_Alias st' = replicate 250 0
      /\ r_trace st' = []
      /\ r_frame_type st' = LLDP_TYPE_END
      /\ r_frame_len st' = Z.of_nat (length (@nil Z))
      /\ r_pData st' = 2 + 2 + 2.
Proof.
  split; [repeat split; discriminate|].
  apply (unknown_tlv_is_skipped (scenario_env true 0)
           ([0x10; 0x02] ++ [5; 1] ++ tlv_bytes LLDP_TYPE_END [] ++ [])
           (mk_recv_state scenario_net (replicate 250 0) LLDP_TYPE_MANAGEMENT
              2 (replicate 256 0) 2 [])
           [0x10; 0x02] [5; 1] [] [] LLDP_TYPE_END);
    try discriminate; try reflexivity.
  - split; [discriminate | reflexivity].
  - cbn [length]. lia.
Defined.

(** ** The header of a TLV *)

(** Round trip of a TLV header: what [pf_lldp_tlv_header] writes for a
    type below 128 and a length below 256 takes two bytes, and
    [lldp_read_tlv_header] reads the type and the length back from
    them. *)
Theorem tlv_header_round_trip (A R : list Z) (typ len : Z) :
  0 <= typ < 128 -> 0 <= len < 256 ->
  (length A + 2 <= 1522)%nat -> (2 <= length R)%nat ->
  exists b,
    pf_lldp_tlv_header (A ++ R, Z.of_nat (length A)) typ len
    = Some (b, Z.of_nat (length A) + 2)
    /\ length b = length (A ++ R)
    /\ take (length A) b = A
    /\ drop (length A + 2) b = drop 2 R
    /\ lldp_read_tlv_header b (Z.of_nat (length A)) = Some (typ, len).
Proof.
  intros Ht Hl HA HR.
  pose proof (pf_lldp_tlv_header_at A R typ len Ht Hl HA HR) as H.
  unfold writer_at in H. rewrite H.
  set (h := htons_bytes (Z.shiftl typ 9 + len)).
  assert (Lh : length h = 2%nat) by reflexivity.
  eexists. split.
  { do 2 f_equal. rewrite length_app, Lh. lia. }
  split.
  { rewrite !length_app, Lh, length_drop. lia. }
  split.
  { rewrite <- app_assoc. apply take_app_length. }
  split.
  { replace (length A + 2)%nat with (length (A ++ h))
      by (rewrite length_app, Lh; reflexivity).
    apply drop_app_length. }
  rewrite (lldp_read_tlv_header_mid _ A (drop 2 R)
             (uint8 (Z.shiftr (Z.shiftl typ 9 + len) 8))
             (uint8 (Z.shiftl typ 9 + len)));
    [| rewrite <- app_assoc; reflexivity | reflexivity].
  destruct (tlv_header_decode typ len) as [H1 H2]; [lia | lia |].
  cbv zeta in H1, H2. now rewrite H1, H2.
Qed.

Lemma tlv_header_round_trip_witness :
  (0 <= 127 < 128 /\ 0 <= 255 < 256)
  /\ exists b,
      pf_lldp_tlv_header ([1; 2; 3] ++ replicate 8 0,
                          Z.of_nat (length [1; 2; 3])) 127 255
      = Some (b, Z.of_nat (length [1; 2; 3]) + 2)
      /\ length b = length ([1; 2; 3] ++ replicate 8 0)
      /\ take (length [1; 2; 3]) b = [1; 2; 3]
      /\ drop (length [1; 2; 3] + 2) b = drop 2 (replicate 8 0)
      /\ lldp_read_tlv_header b (Z.of_nat (length [1; 2; 3]))
         = Some (127, 255).
Proof.
  split; [repeat split; (discriminate || reflexivity)|].
  apply (tlv_header_round_trip [1; 2; 3] (replicate 8 0) 127 255);
    try (split; (discriminate || reflexivity)); cbn; lia.
Defined.

(** ** The alias without an AR *)

(** [pf_lldp_send_remote_mismatch_alarm] commits the temporary alias
    name to the permanent one exactly when no AR is in use, and then it
    makes no call; with an AR in use the permanent alias name stays and
    calls are made. *)
Theorem alias_is_committed_only_without_ar (env : os_env) (net : pnet_t)
    (sp st : list Z) :
  is_cstring_of (perm_alias_name net) sp ->
  is_cstring_of (temp_alias_name net) st ->
  (length st < length (perm_alias_name net))%nat ->
  exists perm' ev,
    pf_lldp_send_remote_mismatch_alarm env net
    = Some (set_perm_alias_name perm' net, ev)
    /\ length perm' = length (perm_alias_name net)
    /\ if existsb in_use (cmrpc_ar net)
       then perm' = perm_alias_name net /\ ev <> []
       else cstr perm' = st /\ ev = [].
Proof.
  intros Hp Ht Hfit.
  destruct (pf_lldp_send_remote_mismatch_alarm_run env net sp st Hp Ht
              ltac:(intros _; exact Hfit)) as (perm' & Hrun & Hperm).
  exists perm'. eexists. split; [exact Hrun|].
  assert (Hev : forall (ars : list pf_ar_t) (k : nat)
                       (f : nat -> list os_event),
             (forall i, f i <> []) ->
             let ev := concat (imap (fun i a => if in_use a then f (k + i)%nat
                                                else []) ars) in
             if existsb in_use ars then ev <> [] else ev = []).
  { induction ars as [|a ars IH]; intros k f Hf; [reflexivity|].
    cbn [imap concat existsb].
    destruct (in_use a) eqn:Ha; cbn [orb].
    - intros E. apply app_eq_nil in E as [E _]. exact (Hf _ E).
    - cbn [app].
      specialize (IH (S k) f Hf). cbv zeta in IH.
      replace (imap ((fun i a0 => if in_use a0 then f (k + i)%nat else [])
                     ∘ S) ars)
        with (imap (fun i a0 => if in_use a0 then f (S k + i)%nat else [])
                ars).
      + exact IH.
      + apply imap_ext. intros i x _. cbn. now rewrite Nat.add_succ_r. }
  specialize (Hev (cmrpc_ar net) 0%nat
                (spec_remote_mismatch_calls env
                   (negb (bool_decide (sp = st))))).
  cbv zeta in Hev. cbn [Nat.add] in Hev.
  destruct (existsb in_use (cmrpc_ar net)).
  - split; [now rewrite Hperm|]. split; [exact Hperm|].
    apply Hev. intros i. unfold spec_remote_mismatch_calls.
    destruct (negb _); [destruct (negb _)|]; discriminate.
  - destruct Hperm as [Cp Lp]. split; [exact Lp|].
    split; [exact (cstring_cstr _ _ Cp)|].
    apply Hev. intros i. unfold spec_remote_mismatch_calls.
    destruct (negb _); [destruct (negb _)|]; discriminate.
Qed.

Lemma alias_is_committed_only_without_ar_witness :
  (is_cstring_of (perm_alias_name scenario_net) []
   /\ is_cstring_of (temp_alias_name scenario_net) []
   /\ (length (@nil Z) < length (perm_alias_name scenario_net))%nat)
  /\ exists perm' ev,
      pf_lldp_send_remote_mismatch_alarm (scenario_env true 0) scenario_net
      = Some (set_perm_alias_name perm' scenario_net, ev)
      /\ length perm' = length (perm_alias_name scenario_net)
      /\ if existsb in_use (cmrpc_ar scenario_net)
         then perm' = perm_alias_name scenario_net /\ ev <> []
         else cstr perm' = [] /\ ev = [].
Proof.
  assert (H1 : is_cstring_of (perm_alias_name scenario_net) [])
    by apply (cstring_zeros 255).
  assert (H2 : is_cstring_of (temp_alias_name scenario_net) [])
    by apply (cstring_zeros 255).
  assert (H3 : (length (@nil Z) < length (perm_alias_name scenario_net))%nat)
    by (cbn; lia).
  split; [exact (conj H1 (conj H2 H3))|].
  exact (alias_is_committed_only_without_ar (scenario_env true 0)
           scenario_net [] [] H1 H2 H3).
Defined.

(** ** A frame that brings nothing new *)

(** [case LLDP_TYPE_PORT_ID] when the temporary alias name already holds
    the alias of the frame: the Port ID is stored and no call is
    made. *)
Lemma pf_lldp_recv_port_id_same_alias (env : os_env)
    (frame A C pt ch : list Z) (sub : Z) (st : lldp_recv_state) :
  let net := r_net st in
  let c := lldp_peer_cfg net in
  let alias := spec_alias pt ch in
  frame = A ++ sub :: pt ++ C ->
  r_pData st = Z.of_nat (length A) ->
  r_frame_len st = 1 + Z.of_nat (length pt) ->
  Forall (fun x => x <> 0) pt ->
  (length pt < length (r_frame_value st))%nat ->
  (length pt < length (PeerPortID c))%nat ->
  is_cstring_of (PeerChassisID c) ch ->
  PeerChassisIDLen c = Z.of_nat (length ch) ->
  is_cstring_of (r_Alias st) [] ->
  (length alias < length (r_Alias st))%nat ->
  is_cstring_of (temp_alias_name net) alias ->
  exists id al value,
    pf_lldp_recv_port_id env frame st
    = Some (set_recv
              (set_lldp_peer_cfg
                 (set_peer_port id (Z.of_nat (length pt)) c) net)
              al value [] st)
    /\ length value = length (r_frame_value st)
    /\ is_cstring_of id pt.
Proof.
  intros net c alias Hf HpD Hlen Hpt Hval Hport Hch HchL HA HAfit Htemp.
  unfold pf_lldp_recv_port_id. fold net c.
  replace (r_frame_len st - 1) with (Z.of_nat (length pt)) by lia.
  rewrite (memread_mid frame (A ++ [sub]) pt C (r_pData st + 1)
             (Z.of_nat (length pt)));
    [| rewrite Hf, <- app_assoc; reflexivity
     | rewrite length_app; cbn [length]; lia
     | reflexivity].
  cbn [mbind option_bind].
  destruct (cstring_memcpy_store (r_frame_value st) pt Hpt Hval)
    as (value & Hv & Cv & Lv).
  bind_step Hv.
  rewrite (cstring_strchr value pt 46 ltac:(discriminate) Cv).
  cbn [mbind option_bind].
  destruct (cstring_memcpy_store (PeerPortID c) pt Hpt Hport)
    as (id & Hid & Cid & Lid).
  bind_step Hid.
  cbn [PeerPortID PeerPortIDLen PeerChassisID PeerChassisIDLen set_peer_port].
  rewrite (cstring_strchr id pt 46 ltac:(discriminate) Cid).
  cbn [mbind option_bind].
  rewrite HchL.
  destruct (alias_computation (r_Alias st) id (PeerChassisID c) pt ch
              HA Cid Hch HAfit) as (al & Hal & Cal & Lal).
  rewrite Hal. cbn [mbind option_bind].
  set (net1 := set_lldp_peer_cfg
                 (set_peer_port id (Z.of_nat (length pt)) c) net).
  change (temp_alias_name net1) with (temp_alias_name net).
  destruct (cstring_strcmp al (temp_alias_name net) alias alias Cal Htemp)
    as (r & Hr & Hiff).
  rewrite Hr. cbn [mbind option_bind].
  destruct (Z.eqb_spec r 0) as [Er | Er]; cbn [negb].
  - exists id, al, value. split; [reflexivity|]. split; [exact Lv|exact Cid].
  - exfalso. apply Er. now apply Hiff.
Qed.

(** A frame whose Port ID and Chassis ID give the alias that the
    temporary alias name already holds (the same frame received once
    more, for one) raises no alarm.  The frame may carry any TLVs of
    other types around its Chassis ID TLV and its Port ID TLV, the TTL
    TLV among them: [pf_lldp_recv] returns, none of its calls is a
    diagnosis call or a port change notification (the calls of the TTL
    TLV to the timer remain), and both alias names are as they were. *)
Theorem repeated_frame_raises_no_alarm (env : os_env) (sizeof_value : nat)
    (net : pnet_t) (frame : list Z) (frame_pos : Z) (k1 k2 k3 : nat)
    (s0 sa sb sc sd se : lldp_recv_state) (ch pt : list Z)
    (sub_c sub_p : Z) :
  let alias := spec_alias pt ch in
  pf_lldp_recv_enter sizeof_value net frame frame_pos = Some s0 ->
  lldp_recv_steps env frame [LLDP_TYPE_PORT_ID] k1 s0 = Some sa ->
  r_frame_type sa = LLDP_TYPE_CHASSIS_ID ->
  lldp_tlv_value frame sa = Some (sub_c :: ch) ->
  pf_lldp_recv_iter env frame sa = Some sb ->
  lldp_recv_steps env frame [LLDP_TYPE_CHASSIS_ID; LLDP_TYPE_PORT_ID] k2 sb
  = Some sc ->
  r_frame_type sc = LLDP_TYPE_PORT_ID ->
  lldp_tlv_value frame sc = Some (sub_p :: pt) ->
  pf_lldp_recv_iter env frame sc = Some sd ->
  lldp_recv_steps env frame [LLDP_TYPE_PORT_ID] k3 sd = Some se ->
  r_frame_type se = LLDP_TYPE_END ->
  Forall (fun x => x <> 0) ch -> Forall (fun x => x <> 0) pt ->
  (length pt < length (PeerPortID (lldp_peer_cfg net)))%nat ->
  (length pt < sizeof_value)%nat ->
  (length alias < 250)%nat ->
  is_cstring_of (temp_alias_name net) alias ->
  exists net' ev,
    pf_lldp_recv env sizeof_value net frame frame_pos = Some (net', ev)
    /\ existsb is_alarm_call ev = false
    /\ temp_alias_name net' = temp_alias_name net
    /\ perm_alias_name net' = perm_alias_name net
    /\ cstr (PeerPortID (lldp_peer_cfg net')) = pt.
Proof.
  intros alias H0 H1 Ta Va Ha H2 Tc Vc Hd H3 Te Hch Hpt Fpt Fval Fal Htemp.
  destruct (pf_lldp_recv_enter_state _ _ _ _ _ H0) as (N0 & A0 & V0 & T0).
  pose proof (lldp_recv_steps_other env frame [LLDP_TYPE_PORT_ID] k1
                ltac:(now left) s0 sa H1) as K1.
  destruct (pf_lldp_recv_iter_chassis env frame sa sb sub_c ch Ta Va Hch Ha)
    as (Cch & Lch & Ka).
  pose proof (lldp_recv_steps_other env frame
                [LLDP_TYPE_CHASSIS_ID; LLDP_TYPE_PORT_ID] k2
                ltac:(right; now left) sb sc H2) as K2.
  change (existsb _ [LLDP_TYPE_PORT_ID]) with false in K1.
  change (existsb _ [LLDP_TYPE_CHASSIS_ID; LLDP_TYPE_PORT_ID]) with true
    in K2.
  pose proof (lldp_kept_trans false _ _ _
                (lldp_kept_trans false _ _ _ K1 Ka)
                (lldp_kept_weaken false _ _ K2))
    as (KA & KT & KP & KI & KV & (e1 & KE & KN) & _).
  destruct K2 as (_ & _ & _ & _ & _ & _ & KC).
  destruct (KC eq_refl) as [KC1 KC2].
  rewrite N0 in KT, KP, KI. rewrite A0 in KA. rewrite V0 in KV.
  rewrite length_replicate in KV. rewrite T0 in KE. cbn [app] in KE.
  destruct (memread_split _ _ _ _ _ Vc) as (A & C & Hf & HpD & Hlen).
  destruct (pf_lldp_recv_port_id_same_alias env frame A C pt ch sub_p sc)
    as (pid & al & value & Hcase & _ & Cpid).
  { exact Hf. }
  { exact HpD. }
  { exact Hlen. }
  { exact Hpt. }
  { rewrite KV. exact Fval. }
  { rewrite KI. exact Fpt. }
  { rewrite KC1. exact Cch. }
  { rewrite KC2. exact Lch. }
  { rewrite KA. apply (cstring_zeros 249). }
  { rewrite KA, length_replicate. exact Fal. }
  { rewrite KT. exact Htemp. }
  destruct (pf_lldp_recv_iter_port_id env frame sc _ sd Tc Hcase Hd)
    as (Nd & _ & Td).
  cbn [r_net r_trace set_recv] in Nd, Td.
  pose proof (lldp_recv_steps_other env frame [LLDP_TYPE_PORT_ID] k3
                ltac:(now left) sd se H3)
    as (_ & K3T & K3P & K3I & _ & (e3 & K3E & K3N) & _).
  exists (r_net se), (r_trace se).
  split.
  { exact (pf_lldp_recv_walk env sizeof_value net frame frame_pos k1 k2 k3
             _ _ _ s0 sa sb sc sd se H0 H1 Ta Ha H2 Tc Hd H3 Te). }
  split.
  { rewrite K3E, Td, KE, app_nil_r, existsb_app, KN, K3N. reflexivity. }
  split; [rewrite K3T, Nd; exact KT|].
  split; [rewrite K3P, Nd; exact KP|].
  rewrite K3I, Nd. exact (cstring_cstr _ _ Cpid).
Qed.

Lemma repeated_frame_raises_no_alarm_witness :
  let env := scenario_env true 0 in
  let st := lldp_state_after env 256 aliased_net walk_frame 0 in
  let alias := spec_alias ascii_port_003 ascii_dut in
  (pf_lldp_recv_enter 256 aliased_net walk_frame 0 = Some (st 0%nat)
   /\ lldp_recv_steps env walk_frame [LLDP_TYPE_PORT_ID] 1 (st 0%nat)
      = Some (st 1%nat)
   /\ r_frame_type (st 1%nat) = LLDP_TYPE_CHASSIS_ID
   /\ lldp_tlv_value walk_frame (st 1%nat) = Some (7 :: ascii_dut)
   /\ pf_lldp_recv_iter env walk_frame (st 1%nat) = Some (st 2%nat)
   /\ lldp_recv_steps env walk_frame
        [LLDP_TYPE_CHASSIS_ID; LLDP_TYPE_PORT_ID] 1 (st 2%nat)
      = Some (st 3%nat)
   /\ r_frame_type (st 3%nat) = LLDP_TYPE_PORT_ID
   /\ lldp_tlv_value walk_frame (st 3%nat) = Some (7 :: ascii_port_003)
   /\ pf_lldp_recv_iter env walk_frame (st 3%nat) = Some (st 4%nat)
   /\ lldp_recv_steps env walk_frame [LLDP_TYPE_PORT_ID] 1 (st 4%nat)
      = Some (st 5%nat)
   /\ r_frame_type (st 5%nat) = LLDP_TYPE_END
   /\ Forall (fun x => x <> 0) ascii_dut
   /\ Forall (fun x => x <> 0) ascii_port_003
   /\ (length ascii_port_003
       < length (PeerPortID (lldp_peer_cfg aliased_net)))%nat
   /\ (length ascii_port_003 < 256)%nat
   /\ (length alias < 250)%nat
   /\ is_cstring_of (temp_alias_name aliased_net) alias)
  /\ exists net' ev,
      pf_lldp_recv env 256 aliased_net walk_frame 0 = Some (net', ev)
      /\ existsb is_alarm_call ev = false
      /\ temp_alias_name net' = temp_alias_name aliased_net
      /\ perm_alias_name net' = perm_alias_name aliased_net
      /\ cstr (PeerPortID (lldp_peer_cfg net')) = ascii_port_003.
Proof.
  intros env st alias.
  assert (H0 : pf_lldp_recv_enter 256 aliased_net walk_frame 0
               = Some (st 0%nat)) by (vm_compute; reflexivity).
  assert (H1 : lldp_recv_steps env walk_frame [LLDP_TYPE_PORT_ID] 1
                 (st 0%nat) = Some (st 1%nat)) by (vm_compute; reflexivity).
  assert (Ta : r_frame_type (st 1%nat) = LLDP_TYPE_CHASSIS_ID)
    by (vm_compute; reflexivity).
  assert (Va : lldp_tlv_value walk_frame (st 1%nat) = Some (7 :: ascii_dut))
    by (vm_compute; reflexivity).
  assert (Ha : pf_lldp_recv_iter env walk_frame (st 1%nat) = Some (st 2%nat))
    by (vm_compute; reflexivity).
  assert (H2 : lldp_recv_steps env walk_frame
                 [LLDP_TYPE_CHASSIS_ID; LLDP_TYPE_PORT_ID] 1 (st 2%nat)
               = Some (st 3%nat)) by (vm_compute; reflexivity).
  assert (Tc : r_frame_type (st 3%nat) = LLDP_TYPE_PORT_ID)
    by (vm_compute; reflexivity).
  assert (Vc : lldp_tlv_value walk_frame (st 3%nat)
               = Some (7 :: ascii_port_003)) by (vm_compute; reflexivity).
  assert (Hd : pf_lldp_recv_iter env walk_frame (st 3%nat) = Some (st 4%nat))
    by (vm_compute; reflexivity).
  assert (H3 : lldp_recv_steps env walk_frame [LLDP_TYPE_PORT_ID] 1
                 (st 4%nat) = Some (st 5%nat)) by (vm_compute; reflexivity).
  assert (Te : r_frame_type (st 5%nat) = LLDP_TYPE_END)
    by (vm_compute; reflexivity).
  assert (N1 : Forall (fun x => x <> 0) ascii_dut)
    by (repeat constructor; discriminate).
  assert (N2 : Forall (fun x => x <> 0) ascii_port_003)
    by (repeat constructor; discriminate).
  assert (L1 : (length ascii_port_003
                < length (PeerPortID (lldp_peer_cfg aliased_net)))%nat)
    by (vm_compute; lia).
  assert (L2 : (length ascii_port_003 < 256)%nat) by (vm_compute; lia).
  assert (L3 : (length alias < 250)%nat) by (vm_compute; lia).
  assert (C1 : is_cstring_of (temp_alias_name aliased_net) alias).
  { split; [repeat constructor; discriminate|].
    exists (replicate 243 0). reflexivity. }
  split.
  { exact (conj H0 (conj H1 (conj Ta (conj Va (conj Ha (conj H2 (conj Tc
             (conj Vc (conj Hd (conj H3 (conj Te (conj N1 (conj N2 (conj L1
             (conj L2 (conj L3 C1)))))))))))))))). }
  exact (repeated_frame_raises_no_alarm env 256 aliased_net walk_frame 0
           1 1 1 (st 0%nat) (st 1%nat) (st 2%nat) (st 3%nat) (st 4%nat)
           (st 5%nat) ascii_dut ascii_port_003 7 7 H0 H1 Ta Va Ha H2 Tc Vc
           Hd H3 Te N1 N2 L1 L2 L3 C1).
Defined.

(** On the frame of the walk the calls that remain are those of the TTL
    TLV: the timer of the peer is created and started. *)
Lemma repeated_walk_frame_calls :
  ('(_, ev) ← pf_lldp_recv (scenario_env true 0) 256 aliased_net
                walk_frame 0;
   Some (length ev, existsb is_alarm_call ev)) = Some (2%nat, false).
Proof. vm_compute. reflexivity. Qed.

(** ** The data status on the wire *)

(** The frame of a timer tick for an instance whose data status has
    been set to [ds] since the activation. *)
Lemma pf_ppm_send_frame_with_status (env : os_env) (net : pnet_t)
    (p_ar : pf_ar_t) (crep : nat) (c : pf_iocr_t) (ds : Z) (rtos : bool)
    (tick : Z) (prm : pf_iocr_param_t) (sa' da' : list Z) (buf0 : os_buf_t)
    (p0 : pf_ppm_t) :
  iocrs p_ar !! crep = Some (set_ppm (set_data_status ds (ppm c)) c) ->
  activated_ppm rtos tick prm sa' da' buf0 p0 (ppm c) ->
  length sa' = 6%nat -> length da' = 6%nat ->
  0 <= in_length c <= c_sdu_length prm ->
  in_length c <= Z.of_nat (length (buffer_data (ppm c))) ->
  uint16 (param_send_clock_factor prm * param_reduction_ratio prm) <> 0 ->
  exists net' ar' ev cyc,
    pf_ppm_send env net p_ar crep = Some (net', ar', ev)
    /\ sent_frames ev
       = [ppm_frame_header (ppm c) (frame_id prm) (iocr_tag_header prm)
          ++ take (Z.to_nat (in_length c)) (buffer_data (ppm c))
          ++ replicate (Z.to_nat (c_sdu_length prm - in_length c)) 0
          ++ htons_bytes cyc ++ [ds; 0]].
Proof.
  intros Hc Hact Hsa Hda Hin Hin' Hratio.
  destruct Hact as (Hst & Hrun & Hft & Esa & Eda & Epos & Ecco & Edso & Etso
                    & Elen & Eds & Ets & Escf & Err & Eci & Ecci & Ebd & Etrx
                    & Htm & Ebuf).
  set (c1 := set_ppm (set_data_status ds (ppm c)) c) in *.
  set (p := ppm c1).
  set (hdr := ppm_frame_header (ppm c) (frame_id prm) (iocr_tag_header prm))
    in *.
  assert (Lhdr : length hdr = 20%nat)
    by (apply ppm_frame_header_length; congruence).
  set (R := drop (Z.to_nat (24 + c_sdu_length prm)) (payload buf0)) in *.
  assert (Hcyc : exists cyc,
             pf_ppm_finish_buffer_cycle (os_get_current_time_us env) p
             = Some cyc).
  { unfold pf_ppm_finish_buffer_cycle.
    change (send_clock_factor p) with (send_clock_factor (ppm c)).
    change (reduction_ratio p) with (reduction_ratio (ppm c)).
    rewrite Escf, Err.
    destruct (Z.eqb_spec
                (uint16 (param_send_clock_factor prm
                         * param_reduction_ratio prm)) 0) as [E|E];
      [contradiction|]. eexists. reflexivity. }
  destruct Hcyc as [cyc Hcyc].
  set (q := set_ci_timer UINT32_MAX p).
  pose proof (pf_ppm_finish_buffer_first env net q hdr R
                (24 + c_sdu_length prm) (c_sdu_length prm) (in_length c) cyc
                Ebuf Lhdr Epos Ecco Edso Etso Hin Hin' Hcyc) as Hfin.
  edestruct (pf_ppm_send_after_finish env net p_ar crep c1) as
    (net' & ar' & ev3 & Hsend & Hev3);
    [exact Hc | exact Hrun | exact Hfin | reflexivity |].
  exists net', ar'. eexists. exists cyc.
  split; [exact Hsend|].
  cbn [payload len]. unfold sent_frames in *.
  cbn [app omap list_omap]. rewrite Hev3.
  change (data_status q) with ds.
  change (transfer_status q) with (transfer_status (ppm c)).
  change (buffer_data q) with (buffer_data (ppm c)).
  rewrite Ets. f_equal.
  set (D := take (Z.to_nat (in_length c)) (buffer_data (ppm c))).
  assert (LD : length D = Z.to_nat (in_length c))
    by (unfold D; rewrite length_take; lia).
  set (Zs := replicate (Z.to_nat (c_sdu_length prm - in_length c)) 0).
  assert (LZ : length Zs = Z.to_nat (c_sdu_length prm - in_length c))
    by apply length_replicate.
  replace (hdr ++ D ++ Zs ++ htons_bytes cyc ++ ds :: 0 :: R)
    with ((hdr ++ D ++ Zs ++ htons_bytes cyc ++ [ds; 0]) ++ R)
    by (rewrite <- !app_assoc; reflexivity).
  rewrite take_app_length'; [reflexivity|].
  rewrite !length_app, Lhdr, LD, LZ.
  cbn [length htons_bytes]. lia.
Qed.

(** A data status set with [pf_ppm_set_data_status_state],
    [pf_ppm_set_data_status_redundancy] or
    [pf_ppm_set_data_status_provider] on an activated IOCR is on the
    wire with the next timer tick: the frame of that tick has
    [24 + c_sdu_length] bytes, and its byte [22 + c_sdu_length] is the
    data status of the activation, 0x25, with the bit of the setter
    (0, 1, respectively 4) at the value of the flag. *)
Theorem data_status_reaches_the_frame (env : os_env) (net : pnet_t)
    (p_ar : pf_ar_t) (crep : nat) (c : pf_iocr_t) (rtos : bool) (tick : Z)
    (prm : pf_iocr_param_t) (sa' da' : list Z) (buf0 : os_buf_t)
    (p0 : pf_ppm_t) (flag : bool)
    (setter : pf_ar_t -> nat -> bool -> option (pf_ar_t * Z)) (bit : Z) :
  iocrs p_ar !! crep = Some c ->
  activated_ppm rtos tick prm sa' da' buf0 p0 (ppm c) ->
  length sa' = 6%nat -> length da' = 6%nat ->
  0 <= in_length c <= c_sdu_length prm ->
  in_length c <= Z.of_nat (length (buffer_data (ppm c))) ->
  uint16 (param_send_clock_factor prm * param_reduction_ratio prm) <> 0 ->
  In (setter, bit)
    [(pf_ppm_set_data_status_state, PNET_DATA_STATUS_BIT_STATE);
     (pf_ppm_set_data_status_redundancy, PNET_DATA_STATUS_BIT_REDUNDANCY);
     (pf_ppm_set_data_status_provider,
      PNET_DATA_STATUS_BIT_PROVIDER_STATE)] ->
  exists ar1 net' ar' ev frame ds,
    setter p_ar crep flag = Some (ar1, 0)
    /\ pf_ppm_send env net ar1 crep = Some (net', ar', ev)
    /\ sent_frames ev = [frame]
    /\ length frame = Z.to_nat (24 + c_sdu_length prm)
    /\ frame !! Z.to_nat (22 + c_sdu_length prm) = Some ds
    /\ Z.testbit ds bit = flag
    /\ differs_at_most_in_bit bit 0x25 ds.
Proof.
  intros Hc Hact Hsa Hda Hin Hin' Hratio Hset.
  assert (Eds : data_status (ppm c) = 0x25) by (apply Hact).
  assert (Esa : sa (ppm c) = sa') by (apply Hact).
  assert (Eda : da (ppm c) = da') by (apply Hact).
  assert (Hbit : 0 <= bit < 8).
  { cbn [In] in Hset.
    destruct Hset as [[= _ <-] | [[= _ <-] | [[= _ <-] | []]]];
      split; first [discriminate | reflexivity]. }
  set (ds := if flag then uint8 (Z.lor 0x25 (BIT bit))
             else uint8 (Z.land 0x25 (Z.lnot (BIT bit)))).
  destruct (data_status_flag_bit 0x25 bit flag
              ltac:(split; [discriminate|reflexivity]) Hbit) as [Hdiff Htest].
  fold ds in Hdiff, Htest.
  set (ar1 := set_iocr_ppm crep (set_data_status ds (ppm c)) p_ar).
  assert (Hrun : setter p_ar crep flag = Some (ar1, 0)).
  { cbn [In] in Hset.
    destruct Hset as [[= <- <-] | [[= <- <-] | [[= <- <-] | []]]];
      unfold pf_ppm_set_data_status_state, pf_ppm_set_data_status_redundancy,
        pf_ppm_set_data_status_provider;
      rewrite Hc; cbn [mbind option_bind]; rewrite Eds; reflexivity. }
  assert (Hc1 : iocrs ar1 !! crep
                = Some (set_ppm (set_data_status ds (ppm c)) c)).
  { unfold ar1, set_iocr_ppm, set_iocrs. cbn [iocrs].
    rewrite list_lookup_alter_eq, Hc. reflexivity. }
  destruct (pf_ppm_send_frame_with_status env net ar1 crep c ds rtos tick prm
              sa' da' buf0 p0 Hc1 Hact Hsa Hda Hin Hin' Hratio)
    as (net' & ar' & ev & cyc & Hsend & Hframes).
  set (hdr := ppm_frame_header (ppm c) (frame_id prm) (iocr_tag_header prm))
    in *.
  assert (Lhdr : length hdr = 20%nat)
    by (apply ppm_frame_header_length; congruence).
  set (D := take (Z.to_nat (in_length c)) (buffer_data (ppm c))) in *.
  assert (LD : length D = Z.to_nat (in_length c))
    by (unfold D; rewrite length_take; lia).
  set (Zs := replicate (Z.to_nat (c_sdu_length prm - in_length c)) 0) in *.
  assert (LZ : length Zs = Z.to_nat (c_sdu_length prm - in_length c))
    by apply length_replicate.
  assert (LC : length (htons_bytes cyc) = 2%nat) by reflexivity.
  set (C := htons_bytes cyc) in *. clearbody hdr D Zs C.
  exists ar1, net', ar', ev. eexists. exists ds.
  split; [exact Hrun|]. split; [exact Hsend|]. split; [exact Hframes|].
  split; [rewrite !length_app, Lhdr, LD, LZ, LC; cbn [length]; lia|].
  split; [|split; [exact Htest|exact Hdiff]].
  replace (hdr ++ D ++ Zs ++ C ++ [ds; 0])
    with ((hdr ++ D ++ Zs ++ C) ++ [ds; 0])
    by (rewrite <- !app_assoc; reflexivity).
  rewrite lookup_app_r; rewrite !length_app, Lhdr, LD, LZ, LC; [|lia].
  replace (Z.to_nat (22 + c_sdu_length prm)
           - (20 + (Z.to_nat (in_length c)
                    + (Z.to_nat (c_sdu_length prm - in_length c) + 2))))%nat
    with 0%nat by lia.
  reflexivity.
Qed.

Lemma data_status_reaches_the_frame_witness :
  (iocrs scenario_active.2 !! 0%nat = Some scenario_active_iocr
   /\ activated_ppm false 1000 scenario_param
        [0x11; 0x22; 0x33; 0x44; 0x55; 0x66]
        [0xAA; 0xBB; 0xCC; 0xDD; 0xEE; 0x01]
        (mk_os_buf (replicate 1522 0xEE) 1522) scenario_ppm
        (ppm scenario_active_iocr)
   /\ 0 <= in_length scenario_active_iocr <= c_sdu_length scenario_param
   /\ in_length scenario_active_iocr
      <= Z.of_nat (length (buffer_data (ppm scenario_active_iocr)))
   /\ uint16 (param_send_clock_factor scenario_param
              * param_reduction_ratio scenario_param) <> 0)
  /\ exists ar1 net' ar' ev frame ds,
      pf_ppm_set_data_status_provider scenario_active.2 0 true
      = Some (ar1, 0)
      /\ pf_ppm_send (scenario_env false 1000) scenario_active.1 ar1 0
         = Some (net', ar', ev)
      /\ sent_frames ev = [frame]
      /\ length frame = Z.to_nat (24 + c_sdu_length scenario_param)
      /\ frame !! Z.to_nat (22 + c_sdu_length scenario_param) = Some ds
      /\ Z.testbit ds PNET_DATA_STATUS_BIT_PROVIDER_STATE = true
      /\ differs_at_most_in_bit PNET_DATA_STATUS_BIT_PROVIDER_STATE 0x25 ds.
Proof.
  assert (H1 : iocrs scenario_active.2 !! 0%nat = Some scenario_active_iocr)
    by reflexivity.
  assert (H2 : activated_ppm false 1000 scenario_param
                 [0x11; 0x22; 0x33; 0x44; 0x55; 0x66]
                 [0xAA; 0xBB; 0xCC; 0xDD; 0xEE; 0x01]
                 (mk_os_buf (replicate 1522 0xEE) 1522) scenario_ppm
                 (ppm scenario_active_iocr)).
  { repeat split; try reflexivity; intros [=]. }
  assert (H3 : 0 <= in_length scenario_active_iocr
               <= c_sdu_length scenario_param)
    by (split; vm_compute; discriminate).
  assert (H4 : in_length scenario_active_iocr
               <= Z.of_nat (length (buffer_data (ppm scenario_active_iocr))))
    by (vm_compute; discriminate).
  assert (H5 : uint16 (param_send_clock_factor scenario_param
                       * param_reduction_ratio scenario_param) <> 0)
    by (vm_compute; discriminate).
  split; [exact (conj H1 (conj H2 (conj H3 (conj H4 H5))))|].
  apply (data_status_reaches_the_frame (scenario_env false 1000)
           scenario_active.1 scenario_active.2 0 scenario_active_iocr
           false 1000 scenario_param
           [0x11; 0x22; 0x33; 0x44; 0x55; 0x66]
           [0xAA; 0xBB; 0xCC; 0xDD; 0xEE; 0x01]
           (mk_os_buf (replicate 1522 0xEE) 1522) scenario_ppm true
           pf_ppm_set_data_status_provider
           PNET_DATA_STATUS_BIT_PROVIDER_STATE
           H1 H2 eq_refl eq_refl H3 H4 H5).
  right. right. left. reflexivity.
Defined.
